(** * LinkedIn ETL: the pandas and the DuckDB pipelines

    A shallow embedding of [src/engines/method_1/etl_linkedin_pandas.py]
    (class [EtlLinkedinPandas], module [Pandas]) and of
    [src/data/etl_linkedin_duckdb.py] (class [EtlLinkedin], module [Duck]):
    the discovery of the raw files and the extraction of their sheets, the
    schema catalog and the renaming of the columns, the load into the
    connection, the Extraction Range of a period, the imputation of negative
    totals in [content_metrics], the transformation as a whole and the
    monthly and category aggregation. Reading spreadsheets and writing CSV
    files are left out; what parses a date out of a text ([pd.to_datetime],
    [STRPTIME]) is a parameter of the functions that call it.

    Conventions of the embedding.
    - A Python exception or an SQL error is a value [Raise e] of [result].
    - A Python [dict] is an association list in insertion order ([dict]).
    - A pandas [DataFrame] and a DuckDB table are both a [frame]: the
      columns by name, in column order, each a list of cells.
    - Integers and floats are exact rationals kept in lowest terms ([Qred]);
      NaN, NaT, None and SQL NULL are the one cell [VNull].
    - What an SQL statement leaves to the engine is a parameter of the
      DuckDB functions (sections [Engine], [Loader] and [Transform]).
    - Table names are taken as the engine takes a plain identifier: told
      apart by their text.

    Part I holds the definitions, Part II the specification's claims, Part
    III the functions the claims leave out, Part IV the pipelines from the
    discovery to the aggregation and the two pipelines side by side. *)

From Stdlib Require Import ZArith QArith Qreduction Qround List String Ascii Bool Arith Lia.
From Stdlib Require Import DecimalString DecimalNat Permutation.
Import ListNotations.
Close Scope Q_scope.
Open Scope string_scope.
Open Scope list_scope.

(* ================================================================== *)
(** * Part I. Definitions                                              *)
(* ================================================================== *)

(** ** Exceptions and results *)

Inductive exn : Type :=
| KeyError          (* dict[k] with k absent, df[[..]] with a column absent *)
| IndexError        (* list[i] out of range *)
| ValueError        (* int("x"), df.columns = l with the wrong length *)
| TypeError         (* df.columns = None, arithmetic on a non-number *)
| AttributeError    (* None.keys() *)
| ZeroDivisionError (* x / 0 on Python scalars *)
| BinderException   (* DuckDB: set operation over different column counts *)
| CatalogException. (* DuckDB: table does not exist *)

Inductive result (A : Type) : Type :=
| Ok (a : A)
| Raise (e : exn).

Arguments Ok {A} a.
Arguments Raise {A} e.

Definition bind {A B : Type} (r : result A) (k : A -> result B) : result B :=
  match r with
  | Ok a => k a
  | Raise e => Raise e
  end.

Notation "x <- r ;; k" := (bind r (fun x => k))
  (at level 61, r at next level, right associativity).

Definition is_ok {A : Type} (r : result A) : bool :=
  match r with Ok _ => true | Raise _ => false end.

(** [for x in l: acc = f(acc, x)], stopping at the first exception. *)
Fixpoint foldM {A S : Type} (f : S -> A -> result S) (l : list A) (s : S)
  : result S :=
  match l with
  | [] => Ok s
  | x :: l' => s' <- f s x ;; foldM f l' s'
  end.

(** [[f(x) for x in l]], stopping at the first exception. *)
Fixpoint mapM {A B : Type} (f : A -> result B) (l : list A) : result (list B) :=
  match l with
  | [] => Ok []
  | x :: l' => y <- f x ;; ys <- mapM f l' ;; Ok (y :: ys)
  end.

(** ** Python dicts: association lists in insertion order *)

Abbreviation dict V := (list (string * V)%type) (only parsing).

Fixpoint dict_get {V : Type} (k : string) (d : dict V) : option V :=
  match d with
  | [] => None
  | (k', v) :: d' => if String.eqb k k' then Some v else dict_get k d'
  end.

Definition dict_mem {V : Type} (k : string) (d : dict V) : bool :=
  match dict_get k d with Some _ => true | None => false end.

(** [d[k] = v]: replaces the value in place, or appends a new entry. *)
Fixpoint dict_set {V : Type} (k : string) (v : V) (d : dict V) : dict V :=
  match d with
  | [] => [(k, v)]
  | (k', v') :: d' =>
      if String.eqb k k' then (k', v) :: d' else (k', v') :: dict_set k v d'
  end.

Definition dict_keys {V : Type} (d : dict V) : list string := map fst d.

(** [d[k]], which raises [KeyError] on an absent key. *)
Definition dict_item {V : Type} (k : string) (d : dict V) : result V :=
  match dict_get k d with
  | Some v => Ok v
  | None => Raise KeyError
  end.

(** ** Calendar dates *)

Record date : Type := mkdate { year : Z; month : Z; day : Z }.

(** Python's [calendar.isleap], [calendar.mdays] and the second component of
    [calendar.monthrange] (standard library, used by the pandas pipeline). *)
Definition isleap (y : Z) : bool :=
  ((y mod 4 =? 0) && (negb (y mod 100 =? 0) || (y mod 400 =? 0)))%Z.

Definition mdays : list Z :=
  [0; 31; 28; 31; 30; 31; 30; 31; 31; 30; 31; 30; 31]%Z.

Definition monthrange_ndays (y m : Z) : Z :=
  (nth (Z.to_nat m) mdays 0 + (if (m =? 2) && isleap y then 1 else 0))%Z.

(** Day number of a proleptic Gregorian date (days since 1970-01-01), the way
    DuckDB stores a DATE; [d - 2] on a DATE is subtraction on this number. *)
Definition days_from_civil (d : date) : Z :=
  (let y := if month d <=? 2 then year d - 1 else year d in
   let era := y / 400 in
   let yoe := y - era * 400 in
   let mp := if month d <=? 2 then month d + 9 else month d - 3 in
   let doy := (153 * mp + 2) / 5 + day d - 1 in
   let doe := yoe * 365 + yoe / 4 - yoe / 100 + doy in
   era * 146097 + doe - 719468)%Z.

(** The specification's reading of the Extraction Range, independent of the
    tables of the code: day 15 for the first sequence, and for the second the
    last calendar day, that is the day before the first of the next month. *)
Definition next_month_first (y m : Z) : date :=
  (if m =? 12 then mkdate (y + 1) 1 1 else mkdate y (m + 1) 1)%Z.

Definition last_day_of_month (y m : Z) : Z :=
  (days_from_civil (next_month_first y m) - days_from_civil (mkdate y m 1))%Z.

(** The day count split into the part of the (March-based) year and the day
    of that year; [days_from_civil] is [shifted_days] of both. *)
Definition shifted_days (y doy : Z) : Z :=
  (let era := y / 400 in
   let yoe := y - era * 400 in
   era * 146097 + (yoe * 365 + yoe / 4 - yoe / 100 + doy) - 719468)%Z.

(** Python's [s.split(sep)] for a one-character separator. *)
Fixpoint str_split (sep : ascii) (s : string) : list string :=
  match s with
  | EmptyString => [EmptyString]
  | String c s' =>
      if Ascii.eqb c sep then EmptyString :: str_split sep s'
      else match str_split sep s' with
           | [] => [String c EmptyString]
           | f :: fs => String c f :: fs
           end
  end.

(** Python's [int(s)] on a decimal string. *)
Definition py_int (s : string) : result Z :=
  match NilZero.int_of_string s with
  | Some i => Ok (Z.of_int i)
  | None => Raise ValueError
  end.

(** ** Extraction periods

    [get_raw_files] names a period [f"{year}-{month}-{i+1}"] (pandas) or
    [f"{year}_{month}_{i+1}"] (DuckDB) and every later use splits it again
    on the separator; the embedding keeps the three parts apart (directory
    names are assumed to hold no separator). *)
Record period : Type := mkperiod {
  ep_year : string;   (* the year directory's name *)
  ep_month : string;  (* the month directory's name: a month token *)
  ep_seq : string     (* str(i + 1) for the i-th file of the month *)
}.

(** Python's [str(n)] on a natural number. *)
Definition str_nat (n : nat) : string := NilZero.string_of_uint (Nat.to_uint n).

(** Python's [sub in s]. *)
Fixpoint contains (sub s : string) : bool :=
  String.prefix sub s
  || match s with
     | EmptyString => false
     | String _ s' => contains sub s'
     end.

(** Python's [enumerate(l)]. *)
Definition enumerate {A : Type} (l : list A) : list (nat * A) :=
  combine (seq 0 (List.length l)) l.

(** ** Cells, series and frames *)

Inductive cell : Type :=
| VNull                (* NaN, NaT, None, NULL *)
| VNum (q : Q)         (* an integer or a float, as an exact rational *)
| VDate (d : date)
| VStr (s : string).

Abbreviation series := (list cell) (only parsing).

(** A frame: its columns by name, in column order. *)
Abbreviation frame := (list (string * list cell)%type) (only parsing).

Definition nrows (f : frame) : nat :=
  match f with
  | [] => 0
  | (_, s) :: _ => List.length s
  end.

Definition ncols (f : frame) : nat := List.length f.

Definition columns (f : frame) : list string := dict_keys f.

(** The [i]-th row of a frame, as pandas hands it to a row function and as a
    SQL engine sees a tuple: the cell of every column, by column name. *)
Abbreviation row := (list (string * cell)%type) (only parsing).

Definition frame_row (f : frame) (i : nat) : row :=
  map (fun c => (fst c, nth i (snd c) VNull)) f.

Definition iterrows (f : frame) : list row :=
  map (frame_row f) (seq 0 (nrows f)).

(** The rows of a frame without the column names. *)
Definition frame_rows (f : frame) : list (list cell) :=
  map (fun r => map snd r) (iterrows f).

(** Every column of a frame has one cell per row. *)
Definition rectangular (f : frame) : bool :=
  forallb (fun c => Nat.eqb (List.length (snd c)) (nrows f)) f.

(** A workbook read from disk: its sheets in order, each already a frame
    ([pd.read_excel] with the sheet's [skiprows] applied). *)
Definition workbook : Type := list frame.

(** The raw directory: categories, years, months, files, each level in the
    order [os.listdir] returns it. *)
Definition month_dir : Type := string * list (string * workbook).
Definition year_dir : Type := string * list month_dir.
Definition category_dir : Type := string * list year_dir.
Definition raw_tree : Type := list category_dir.

Record sheet : Type := mksheet {
  sheet_name : string;
  sheet_pos : nat;
  skiprows : nat
}.

(** An entry of [get_raw_files]; [rf_category] is [None] where the source
    returns 0, and [rf_book] stands for the file at [file_path]. *)
Record raw_file : Type := mkraw {
  rf_category : option string;
  rf_book : workbook;
  rf_dir : list string;
  rf_period : period
}.

(** [detect_file_category], the same text in both files. *)
Definition detect_file_category (file : string) : option string :=
  if contains "competitor" file then Some "competitor"
  else if contains "content" file then Some "content"
  else if contains "followers" file then Some "followers"
  else if contains "visitors" file then Some "visitors"
  else None.

(** [get_raw_files], the same loops in both files (they differ in the
    separator of the period's text and in the form of ["dir"]). *)
Definition get_raw_files (raw : raw_tree) : list raw_file :=
  flat_map (fun cat : category_dir =>
    flat_map (fun yr : year_dir =>
      flat_map (fun mo : month_dir =>
        map (fun e : nat * (string * workbook) =>
               mkraw (detect_file_category (fst (snd e))) (snd (snd e))
                     [fst cat; fst yr; fst mo]
                     (mkperiod (fst yr) (fst mo) (str_nat (fst e + 1))))
            (enumerate (snd mo)))
        (snd yr))
      (snd cat))
    raw.

(** [pd.read_excel(path, sheet_name=pos)]. *)
Definition read_excel (book : workbook) (pos : nat) : result frame :=
  match nth_error book pos with
  | Some f => Ok f
  | None => Raise ValueError
  end.

(** [pd.concat(frames)] (rows stacked, outer join of the columns): the
    columns are those of all frames in order of first appearance, and a frame
    without a column contributes nulls for its rows. An empty list raises
    [ValueError]. *)
Fixpoint dedup_from (seen l : list string) : list string :=
  match l with
  | [] => []
  | x :: l' =>
      if existsb (String.eqb x) seen then dedup_from seen l'
      else x :: dedup_from (x :: seen) l'
  end.

Definition column_or_nulls (c : string) (f : frame) : series :=
  match dict_get c f with
  | Some s => s
  | None => repeat VNull (nrows f)
  end.

Definition pd_concat (fs : list frame) : result frame :=
  match fs with
  | [] => Raise ValueError
  | _ :: _ =>
      Ok (map (fun c => (c, flat_map (column_or_nulls c) fs))
              (dedup_from [] (flat_map columns fs)))
  end.

(** DuckDB's [SELECT * FROM a UNION ALL SELECT * FROM b]: positional, the
    names of the left operand, the rows of [a] then those of [b] (insertion
    order is preserved); different column counts are a binder error. *)
Definition union_all (a b : frame) : result frame :=
  if Nat.eqb (ncols a) (ncols b)
  then Ok (map (fun c => (fst (fst c), snd (fst c) ++ snd (snd c)))
               (combine a b))
  else Raise BinderException.

(** The tables of a DuckDB connection, by name. *)
Abbreviation db := (list (string * list (string * list cell))%type) (only parsing).

Definition sql_table (name : string) (con : db) : result frame :=
  match dict_get name con with
  | Some f => Ok f
  | None => Raise CatalogException
  end.

(** [l[i]], which raises [IndexError] out of range. *)
Definition list_item {A : Type} (l : list A) (i : nat) : result A :=
  match nth_error l i with
  | Some x => Ok x
  | None => Raise IndexError
  end.

(** ** Numbers in cells *)

(** The mean of the numbers of a window, null when it holds fewer than
    [min_periods] of them (or none): pandas' rolling mean and SQL's AVG. *)
Definition observations (win : series) : list Q :=
  flat_map (fun c => match c with VNum q => [q] | _ => [] end) win.

Definition Qsum (l : list Q) : Q := fold_right Qplus 0%Q l.

Definition mean_cells (min_periods : nat) (win : series) : cell :=
  let obs := observations win in
  if (List.length obs <? min_periods)%nat || Nat.eqb (List.length obs) 0
  then VNull
  else VNum (Qred (Qsum obs / inject_Z (Z.of_nat (List.length obs)))).

Definition date_eqb (a b : date) : bool :=
  ((year a =? year b) && (month a =? month b) && (day a =? day b))%Z.

Module Pandas.

(** [read_excel_file]: the sheets of each category. *)
Definition category_keys : dict (list sheet) :=
  [ ("competitor",
      [ mksheet "competitor" 0 1 ]);
    ("content",
      [ mksheet "content_metrics" 0 1;
        mksheet "content_posts" 1 1 ]);
    ("followers",
      [ mksheet "followers_new" 0 0;
        mksheet "followers_location" 1 0;
        mksheet "followers_function" 2 0;
        mksheet "followers_experience" 3 0;
        mksheet "followers_industry" 4 0;
        mksheet "followers_company_size" 5 0 ]);
    ("visitors",
      [ mksheet "visitors_metrics" 0 0;
        mksheet "visitors_location" 1 0;
        mksheet "visitors_function" 2 0;
        mksheet "visitors_experience" 3 0;
        mksheet "visitors_industry" 4 0;
        mksheet "visitors_company_size" 5 0 ]) ].

(** The table dict of the pipeline: a named frame with its period. *)
Record table : Type := mktable {
  dataframe_name : string;
  dir : list string;
  extraction_period : period;
  df : frame
}.

Definition set_df (t : table) (f : frame) : table :=
  mktable (dataframe_name t) (dir t) (extraction_period t) f.

Definition read_excel_file (file : raw_file) : result (list table) :=
  sheets_to_read <-
    match rf_category file with
    | Some c => dict_item c category_keys
    | None => Raise KeyError
    end ;;
  mapM (fun sh =>
          f <- read_excel (rf_book file) (sheet_pos sh) ;;
          Ok (mktable (sheet_name sh) (rf_dir file) (rf_period file) f))
       sheets_to_read.

Definition extract_data (raw : raw_tree) : result (list table) :=
  tables <- mapM read_excel_file (get_raw_files raw) ;;
  Ok (List.concat tables).

(** [translate_cols]: the column names of each table kind. *)
Definition translated_columns : dict (list string) :=
  [ ("content_metrics",
      [ "Date";
        "Impressions (organic)";
        "Impressions (sponsored)";
        "Impressions (total)";
        "Unique impressions (organic)";
        "Clicks (organic)";
        "Clicks (sponsored)";
        "Clicks (total)";
        "Reactions (organic)";
        "Reactions (sponsored)";
        "Reactions (total)";
        "Comments (organic)";
        "Comments (sponsored)";
        "Comments (total)";
        "Shares (organic)";
        "Shares (sponsored)";
        "Shares (total)";
        "Engagement rate (organic)";
        "Engagement rate (sponsored)";
        "Engagement rate (total)" ]);
    ("content_posts",
      [ "Post Title";
        "Post Link";
        "Post Type";
        "Campaign Name";
        "Published by";
        "Date";
        "Campaign Start Date";
        "Campaign End Date";
        "Audience";
        "Impressions";
        "Views (excluding off-site video views)";
        "Off-site Views";
        "Clicks";
        "Click-Through Rate (CTR)";
        "Likes";
        "Comments";
        "Shares";
        "Followers";
        "Engagement Rate";
        "Content Type" ]);
    ("followers_new",
      [ "Date";
        "Followers Sponsored";
        "Followers Organic";
        "Total Followers" ]);
    ("followers_location",
      [ "Location";
        "Total Followers" ]);
    ("followers_function",
      [ "Function";
        "Total Followers" ]);
    ("followers_experience",
      [ "Experience Level";
        "Total Followers" ]);
    ("followers_industry",
      [ "Industry";
        "Total Followers" ]);
    ("followers_company_size",
      [ "Company Size";
        "Total Followers" ]);
    ("visitors_metrics",
      [ "Date";
        "Page Views Overview (Desktop)";
        "Page Views Overview (Mobile Devices)";
        "Page Views Overview (Total)";
        "Unique Visitors Overview (Desktop)";
        "Unique Visitors Overview (Mobile Devices)";
        "Unique Visitors Overview (Total)";
        "Page Views Day by Day (Desktop)";
        "Page Views Day by Day (Mobile Devices)";
        "Page Views Day by Day (Total)";
        "Unique Visitors Day by Day (Desktop)";
        "Unique Visitors Day by Day (Mobile Devices)";
        "Unique Visitors Day by Day (Total)";
        "Page Views Jobs (Desktop)";
        "Page Views Jobs (Mobile Devices)";
        "Page Views Jobs (Total)";
        "Unique Visitors Jobs (Desktop)";
        "Unique Visitors Jobs (Mobile Devices)";
        "Unique Visitors Jobs (Total)";
        "Total Page Views (Desktop)";
        "Total Page Views (Mobile Devices)";
        "Total Page Views (Total)";
        "Total Unique Visitors (Desktop)";
        "Total Unique Visitors (Mobile Devices)";
        "Total Unique Visitors (Total)" ]);
    ("visitors_location",
      [ "Location";
        "Total Views" ]);
    ("visitors_function",
      [ "Function";
        "Total Views" ]);
    ("visitors_experience",
      [ "Experience Level";
        "Total Views" ]);
    ("visitors_industry",
      [ "Industry";
        "Total Views" ]);
    ("visitors_company_size",
      [ "Company Size";
        "Total Views" ]);
    ("competitor",
      [ "Page";
        "Total Followers";
        "New Followers";
        "Total Post Engagements";
        "Total Posts" ]) ].

(** [df.columns = names]: positional renaming; pandas raises [TypeError] on
    [None] and [ValueError] on a list of another length. *)
Definition set_columns (names : option (list string)) (f : frame)
  : result frame :=
  match names with
  | None => Raise TypeError
  | Some ns =>
      if Nat.eqb (List.length ns) (ncols f) then Ok (combine ns (map snd f))
      else Raise ValueError
  end.

Definition translate_cols (t : table) : result table :=
  f <- set_columns (dict_get (dataframe_name t) translated_columns) (df t) ;;
  Ok (set_df t f).

(** [add_final_date]: the month table. *)
Definition month_order_pt : dict Z :=
  [ ("Jan", 1); ("Fev", 2); ("Mar", 3); ("Abr", 4); ("Maio", 5); ("Jun", 6);
    ("Jul", 7); ("Ago", 8); ("Set", 9); ("Out", 10); ("Nov", 11);
    ("Dez", 12) ]%Z.

(** [add_final_date]: the value written to the "Extraction Range" column.
    The source formats [f"{year}-{month}-{day}"] and [convert_column_types]
    parses it back with [pd.to_datetime]; the embedding builds the date, so
    it reads the year as a number for every sequence, where the source does
    so for the sequence "2" only: the two agree on the years that are
    numerals, the only ones the theorems on the date speak of. *)
Definition final_date (p : period) : result date :=
  m <- dict_item (ep_month p) month_order_pt ;;
  y <- py_int (ep_year p) ;;
  let d := if String.eqb (ep_seq p) "2" then monthrange_ndays y m else 15%Z in
  Ok (mkdate y m d).

(** [add_final_date]: the date, on every row of a new column. *)
Definition add_final_date (t : table) : result table :=
  d <- final_date (extraction_period t) ;;
  Ok (set_df t (dict_set "Extraction Range"
                         (repeat (VDate d) (nrows (df t))) (df t))).

(** *** Imputation of the content metrics *)

(** [s >= 0] and [x < 0] on numbers; NaN compares false, and a date or a
    text against a number raises [TypeError]. *)
Definition py_ge0 (c : cell) : result bool :=
  match c with
  | VNum q => Ok (Qle_bool 0 q)
  | VNull => Ok false
  | _ => Raise TypeError
  end.

Definition py_lt0 (c : cell) : result bool :=
  match c with
  | VNum q => Ok (negb (Qle_bool 0 q))
  | VNull => Ok false
  | _ => Raise TypeError
  end.

(** [x + y] and [x / y] on the scalars of a row. A row of this frame is of
    object dtype (the frame holds dates next to numbers), so its items are
    Python numbers and a zero divisor raises [ZeroDivisionError], also under
    NaN. *)
Definition py_add (a b : cell) : result cell :=
  match a, b with
  | VNum p, VNum q => Ok (VNum (Qred (p + q)))
  | VNum _, VNull | VNull, VNum _ | VNull, VNull => Ok VNull
  | VStr x, VStr y => Ok (VStr (x ++ y))
  | _, _ => Raise TypeError
  end.

Definition py_truediv (a b : cell) : result cell :=
  match a, b with
  | VNum p, VNum q =>
      if Qeq_bool q 0 then Raise ZeroDivisionError
      else Ok (VNum (Qred (p / q)))
  | VNull, VNum q =>
      if Qeq_bool q 0 then Raise ZeroDivisionError else Ok VNull
  | VNum _, VNull | VNull, VNull => Ok VNull
  | _, _ => Raise TypeError
  end.

(** [df[names]]: the named columns, in the order asked. *)
Definition select (names : list string) (f : frame) : result frame :=
  mapM (fun n => s <- dict_item n f ;; Ok (n, s)) names.

(** [df[dst] = fn(df[src])]. *)
Definition derive (fn : series -> result series) (src dst : string)
  (f : frame) : result frame :=
  s <- dict_item src f ;;
  s' <- fn s ;;
  Ok (dict_set dst s' f).

(** [s[s >= 0]] assigned back to a column: the rows left out are NaN. *)
Definition where_ge0 (s : series) : result series :=
  mapM (fun c => b <- py_ge0 c ;; Ok (if b then c else VNull)) s.

Definition fillna (v : cell) (s : series) : series :=
  map (fun c => match c with VNull => v | _ => c end) s.

(** [s.rolling(window=w).mean()]: the window of row [i] is the last [w] rows
    up to [i], and [min_periods] defaults to [w]. *)
Definition window_at (w : nat) (s : series) (i : nat) : series :=
  skipn (S i - w) (firstn (S i) s).

Definition rolling_mean (w : nat) (s : series) : series :=
  map (fun i => mean_cells w (window_at w s i)) (seq 0 (List.length s)).

(** [df.apply(fn, axis=1)]. *)
Definition apply_rows (fn : row -> result cell) (f : frame) : result series :=
  mapM fn (iterrows f).

Definition window : nat := 3.

Definition families : list string :=
  ["Reactions"; "Comments"; "Shares"; "Clicks"].

(** The row function that repairs the total of one family. *)
Definition repair_row (fam : string) (r : row) : result cell :=
  total <- dict_item (fam ++ " (total)") r ;;
  neg <- py_lt0 total ;;
  if neg then dict_item (fam ++ " (moving average)") r else Ok total.

(** The row function of the engagement rate. *)
Definition engagement_row (r : row) : result cell :=
  reactions <- dict_item "Reactions (total)" r ;;
  comments <- dict_item "Comments (total)" r ;;
  clicks <- dict_item "Clicks (total)" r ;;
  shares <- dict_item "Shares (total)" r ;;
  impressions <- dict_item "Impressions (total)" r ;;
  rc <- py_add reactions comments ;;
  rck <- py_add rc clicks ;;
  rcks <- py_add rck shares ;;
  py_truediv rcks impressions.

Definition kept_columns : list string :=
  [ "Date"; "Impressions (total)"; "Clicks (total)"; "Reactions (total)";
    "Comments (total)"; "Shares (total)"; "Engagement rate (total)";
    "Extraction Range" ].

Definition final_columns : list string :=
  [ "Date"; "Impressions (total)"; "Clicks (total)"; "Reactions (total)";
    "Comments (total)"; "Shares (total)"; "Engagement Rate (total)";
    "Extraction Range" ].

(** [clean_content_metrics_data] on the frame: each of its four passes runs
    over the families in the order of the source. *)
Definition clean_frame (f : frame) : result frame :=
  f <- select kept_columns f ;;
  f <- foldM (fun f fam =>
                derive where_ge0 (fam ++ " (total)") (fam ++ " (positive)") f)
             families f ;;
  f <- foldM (fun f fam =>
                derive (fun s => Ok (fillna (VNum 0) s))
                       (fam ++ " (positive)") (fam ++ " (positive)") f)
             families f ;;
  f <- foldM (fun f fam =>
                derive (fun s => Ok (rolling_mean window s))
                       (fam ++ " (positive)") (fam ++ " (moving average)") f)
             families f ;;
  f <- foldM (fun f fam =>
                s <- apply_rows (repair_row fam) f ;;
                Ok (dict_set (fam ++ " (total)") s f))
             families f ;;
  rate <- apply_rows engagement_row f ;;
  select final_columns (dict_set "Engagement Rate (total)" rate f).

Definition clean_content_metrics_data (t : table) : result table :=
  f <- clean_frame (df t) ;;
  Ok (set_df t f).

(** *** Aggregation *)

(** A group as the first loop builds it, and with the "concatenated_df" key
    the second loop adds. *)
Record group : Type := mkgroup {
  category : string;
  export_dir : list string;
  dfs : list frame
}.

Record cgroup : Type := mkcgroup {
  cg_category : string;
  cg_export_dir : list string;
  cg_dfs : list frame;
  concatenated_df : frame
}.

Definition tag_month (t : table) : string :=
  (ep_year (extraction_period t) ++ "_" ++ ep_month (extraction_period t))
  ++ "_" ++ dataframe_name t.

(** [d[k]["dfs"].append(f)]. *)
Definition append_df (k : string) (f : frame) (d : dict group) : dict group :=
  match dict_get k d with
  | Some g => dict_set k (mkgroup (category g) (export_dir g) (dfs g ++ [f])) d
  | None => d
  end.

Definition group_month (grouped : dict group) (t : table) : dict group :=
  let k := tag_month t in
  let grouped :=
    if dict_mem k grouped then grouped
    else dict_set k (mkgroup (dataframe_name t) ("clean" :: dir t) []) grouped
  in
  append_df k (df t) grouped.

Definition concat_group (kg : string * group) : result (string * cgroup) :=
  c <- pd_concat (dfs (snd kg)) ;;
  Ok (fst kg, mkcgroup (category (snd kg)) (export_dir (snd kg))
                       (dfs (snd kg)) c).

(** [concatenate_monthly_dataframes]; ["clean"] stands for the clean
    directory the export path starts with. *)
Definition concatenate_monthly_dataframes (data : list table)
  : result (dict cgroup) :=
  mapM concat_group (fold_left group_month data []).

Definition group_category (grouped : dict group) (kg : string * cgroup)
  : dict group :=
  let g := snd kg in
  let grouped :=
    if dict_mem (cg_category g) grouped then grouped
    else dict_set (cg_category g)
           (mkgroup (cg_category g) ["clean"; "concatenated_dataframes"] [])
           grouped
  in
  append_df (cg_category g) (concatenated_df g) grouped.

(** [concatenate_category_dataframes]. *)
Definition concatenate_category_dataframes (data : dict cgroup)
  : result (dict cgroup) :=
  mapM concat_group (fold_left group_category data []).

(** *** The period as text

    [get_raw_files] stores the period as [f"{year}-{month}-{i+1}"] and the
    later steps split that text again. *)
Definition period_text (p : period) : string :=
  ep_year p ++ "-" ++ ep_month p ++ "-" ++ ep_seq p.

(** [year, month, period = extraction_period.split("-")] of
    [add_final_date]: any other number of parts raises [ValueError]. *)
Definition unpack_period (extraction_period : string) : result period :=
  match str_split "-" extraction_period with
  | [y; m; q] => Ok (mkperiod y m q)
  | _ => Raise ValueError
  end.

(** [year_month = "_".join(extraction_period.split("-")[:2])] and
    [tag_month = f"{year_month}_{dataframe_name}"] of
    [concatenate_monthly_dataframes]. *)
Definition tag_month_text (extraction_period name : string) : string :=
  String.concat "_" (firstn 2 (str_split "-" extraction_period))
  ++ "_" ++ name.

(** [load_to_clean]: the file name of a per-extraction table. *)
Definition export_filename (name extraction_period : string) : string :=
  name ++ "_" ++ last (str_split "-" extraction_period) EmptyString ++ ".csv".

(** *** Column types and the transformation as a whole *)

(** [convert_column_types]: the date columns of each table kind. *)
Definition date_columns : dict (list string) :=
  [ ("content_metrics", ["Date"]);
    ("content_posts", ["Date"; "Campaign Start Date"; "Campaign End Date"]);
    ("followers_new", ["Date"]);
    ("visitors_metrics", ["Date"]) ].

Section Parser.

(** [pd.to_datetime] on a column is left to pandas. *)
Variable to_datetime : series -> result series.

(** [date_columns.get(name, [])] with "Extraction Range" appended. *)
Definition columns_to_convert (name : string) : list string :=
  match dict_get name date_columns with
  | Some cs => cs
  | None => []
  end ++ ["Extraction Range"].

Definition convert_column_types (t : table) : result table :=
  f <- foldM (fun f column => derive to_datetime column column f)
             (columns_to_convert (dataframe_name t)) (df t) ;;
  Ok (set_df t f).

(** The body of the loop of [transform_data]. *)
Definition transform_table (t : table) : result table :=
  t <- translate_cols t ;;
  t <- add_final_date t ;;
  t <- convert_column_types t ;;
  if String.eqb (dataframe_name t) "content_metrics"
  then clean_content_metrics_data t
  else Ok t.

Definition transform_data (data : list table) : result (list table) :=
  mapM transform_table data.

End Parser.

End Pandas.

Module Duck.

Inductive sqltype : Type := DATE | INT | DOUBLE | FLOAT | VARCHAR.

(** The semantic type of the specification behind each SQL type. *)
Inductive semtype : Type := SemDate | SemInteger | SemFloat | SemText.

Definition semantic (t : sqltype) : semtype :=
  match t with
  | DATE => SemDate
  | INT => SemInteger
  | DOUBLE | FLOAT => SemFloat
  | VARCHAR => SemText
  end.

(** [read_excel_file]: the sheets of each category. *)
Definition category_keys : dict (list sheet) :=
  [ ("competitor",
      [ mksheet "competitor" 0 1 ]);
    ("content",
      [ mksheet "content_metrics" 0 1;
        mksheet "content_posts" 1 1 ]);
    ("followers",
      [ mksheet "followers_new" 0 0;
        mksheet "followers_location" 1 0;
        mksheet "followers_function" 2 0;
        mksheet "followers_experience" 3 0;
        mksheet "followers_industry" 4 0;
        mksheet "followers_company_size" 5 0 ]);
    ("visitors",
      [ mksheet "visitors_metrics" 0 0;
        mksheet "visitors_location" 1 0;
        mksheet "visitors_function" 2 0;
        mksheet "visitors_experience" 3 0;
        mksheet "visitors_industry" 4 0;
        mksheet "visitors_company_size" 5 0 ]) ].

(** [load_data_from_pandas]: the columns and SQL types of each table kind. *)
Definition table_attributes : dict (dict sqltype) :=
  [ ("content_metrics",
      [ ("Date", DATE);
        ("Impressions (organic)", INT);
        ("Impressions (sponsored)", INT);
        ("Impressions (total)", INT);
        ("Unique impressions (organic)", INT);
        ("Clicks (organic)", INT);
        ("Clicks (sponsored)", INT);
        ("Clicks (total)", INT);
        ("Reactions (organic)", INT);
        ("Reactions (sponsored)", INT);
        ("Reactions (total)", INT);
        ("Comments (organic)", INT);
        ("Comments (sponsored)", INT);
        ("Comments (total)", INT);
        ("Shares (organic)", INT);
        ("Shares (sponsored)", INT);
        ("Shares (total)", INT);
        ("Engagement rate (organic)", DOUBLE);
        ("Engagement rate (sponsored)", DOUBLE);
        ("Engagement rate (total)", DOUBLE) ]);
    ("content_posts",
      [ ("Post Title", VARCHAR);
        ("Post Link", VARCHAR);
        ("Post Type", VARCHAR);
        ("Campaign Name", VARCHAR);
        ("Published by", VARCHAR);
        ("Date", DATE);
        ("Campaign Start Date", DATE);
        ("Campaign End Date", DATE);
        ("Audience", VARCHAR);
        ("Impressions", INT);
        ("Views (excluding off-site video views)", INT);
        ("Off-site Views", INT);
        ("Clicks", INT);
        ("Click-Through Rate (CTR)", FLOAT);
        ("Likes", INT);
        ("Comments", INT);
        ("Shares", INT);
        ("Followers", INT);
        ("Engagement Rate", FLOAT);
        ("Content Type", VARCHAR) ]);
    ("followers_new",
      [ ("Date", DATE);
        ("Followers Sponsored", INT);
        ("Followers Organic", INT);
        ("Total Followers", INT) ]);
    ("followers_location",
      [ ("Location", VARCHAR);
        ("Total Followers", INT) ]);
    ("followers_function",
      [ ("Function", VARCHAR);
        ("Total Followers", INT) ]);
    ("followers_experience",
      [ ("Experience Level", VARCHAR);
        ("Total Followers", INT) ]);
    ("followers_industry",
      [ ("Industry", VARCHAR);
        ("Total Followers", INT) ]);
    ("followers_company_size",
      [ ("Company Size", VARCHAR);
        ("Total Followers", INT) ]);
    ("visitors_metrics",
      [ ("Date", DATE);
        ("Page Views Overview (Desktop)", INT);
        ("Page Views Overview (Mobile Devices)", INT);
        ("Page Views Overview (Total)", INT);
        ("Unique Visitors Overview (Desktop)", INT);
        ("Unique Visitors Overview (Mobile Devices)", INT);
        ("Unique Visitors Overview (Total)", INT);
        ("Page Views Day by Day (Desktop)", INT);
        ("Page Views Day by Day (Mobile Devices)", INT);
        ("Page Views Day by Day (Total)", INT);
        ("Unique Visitors Day by Day (Desktop)", INT);
        ("Unique Visitors Day by Day (Mobile Devices)", INT);
        ("Unique Visitors Day by Day (Total)", INT);
        ("Page Views Jobs (Desktop)", INT);
        ("Page Views Jobs (Mobile Devices)", INT);
        ("Page Views Jobs (Total)", INT);
        ("Unique Visitors Jobs (Desktop)", INT);
        ("Unique Visitors Jobs (Mobile Devices)", INT);
        ("Unique Visitors Jobs (Total)", INT);
        ("Total Page Views (Desktop)", INT);
        ("Total Page Views (Mobile Devices)", INT);
        ("Total Page Views (Total)", INT);
        ("Total Unique Visitors (Desktop)", INT);
        ("Total Unique Visitors (Mobile Devices)", INT);
        ("Total Unique Visitors (Total)", INT) ]);
    ("visitors_location",
      [ ("Location", VARCHAR);
        ("Total Views", INT) ]);
    ("visitors_function",
      [ ("Function", VARCHAR);
        ("Total Views", INT) ]);
    ("visitors_experience",
      [ ("Experience Level", VARCHAR);
        ("Total Views", INT) ]);
    ("visitors_industry",
      [ ("Industry", VARCHAR);
        ("Total Views", INT) ]);
    ("visitors_company_size",
      [ ("Company Size", VARCHAR);
        ("Total Views", INT) ]);
    ("competitor",
      [ ("Page", VARCHAR);
        ("Total Followers", INT);
        ("New Followers", INT);
        ("Total Post Engagements", FLOAT);
        ("Total Posts", INT) ]) ].

(** [load_data_from_pandas]: the lookup of the schema entry, whose [.keys()]
    raises [AttributeError] when [table_attributes.get] returned [None]. *)
Definition schema_entry (kind : string) : result (dict sqltype) :=
  match dict_get kind table_attributes with
  | Some entry => Ok entry
  | None => Raise AttributeError
  end.

Definition period_key (p : period) : string :=
  ep_year p ++ "_" ++ ep_month p ++ "_" ++ ep_seq p.

(** [add_final_date]: the literal table, each ISO date text read as a date. *)
Definition map_months_period : dict date :=
  [ ("2023_Jan_1", mkdate 2023 1 15);  ("2023_Jan_2", mkdate 2023 1 31);
    ("2023_Fev_1", mkdate 2023 2 15);  ("2023_Fev_2", mkdate 2023 2 28);
    ("2023_Mar_1", mkdate 2023 3 15);  ("2023_Mar_2", mkdate 2023 3 31);
    ("2023_Abr_1", mkdate 2023 4 15);  ("2023_Abr_2", mkdate 2023 4 30);
    ("2023_Mai_1", mkdate 2023 5 15);  ("2023_Mai_2", mkdate 2023 5 31);
    ("2023_Jun_1", mkdate 2023 6 15);  ("2023_Jun_2", mkdate 2023 6 30);
    ("2023_Jul_1", mkdate 2023 7 15);  ("2023_Jul_2", mkdate 2023 7 31);
    ("2023_Ago_1", mkdate 2023 8 15);  ("2023_Ago_2", mkdate 2023 8 31);
    ("2023_Set_1", mkdate 2023 9 15);  ("2023_Set_2", mkdate 2023 9 30);
    ("2023_Out_1", mkdate 2023 10 15); ("2023_Out_2", mkdate 2023 10 31);
    ("2023_Nov_1", mkdate 2023 11 15); ("2023_Nov_2", mkdate 2023 11 30);
    ("2023_Dez_1", mkdate 2023 12 15); ("2023_Dez_2", mkdate 2023 12 31);
    ("2024_Jan_1", mkdate 2024 1 15);  ("2024_Jan_2", mkdate 2024 1 31);
    ("2024_Fev_1", mkdate 2024 2 15);  ("2024_Fev_2", mkdate 2024 2 29);
    ("2024_Mar_1", mkdate 2024 3 15);  ("2024_Mar_2", mkdate 2024 3 31);
    ("2024_Abr_1", mkdate 2024 4 15);  ("2024_Abr_2", mkdate 2024 4 30);
    ("2024_Mai_1", mkdate 2024 5 15);  ("2024_Mai_2", mkdate 2024 5 31);
    ("2024_Jun_1", mkdate 2024 6 15);  ("2024_Jun_2", mkdate 2024 6 30);
    ("2024_Jul_1", mkdate 2024 7 15);  ("2024_Jul_2", mkdate 2024 7 31);
    ("2024_Ago_1", mkdate 2024 8 15);  ("2024_Ago_2", mkdate 2024 8 31);
    ("2024_Set_1", mkdate 2024 9 15);  ("2024_Set_2", mkdate 2024 9 30);
    ("2024_Out_1", mkdate 2024 10 15); ("2024_Out_2", mkdate 2024 10 31);
    ("2024_Nov_1", mkdate 2024 11 15); ("2024_Nov_2", mkdate 2024 11 30);
    ("2024_Dez_1", mkdate 2024 12 15); ("2024_Dez_2", mkdate 2024 12 31) ]%Z.

(** [add_final_date]: the value written to the "Extraction Range" column. *)
Definition final_date (p : period) : result date :=
  dict_item (period_key p) map_months_period.

(** *** Tables of the connection *)

(** The table dict [load_data_from_pandas] returns; the rows are in the
    connection, under [db_table_name]. *)
Record table : Type := mktable {
  dataframe_name : string;
  extraction_period : period;
  db_table_name : string;
  export_dir : string
}.

(** *** Imputation of the content metrics *)

Section Engine.

(** What the SQL text leaves to the engine: the rounding of a DOUBLE stored
    into an INT column, and the row an [UPDATE ... FROM] uses for a target
    row that joins to several ([choose i candidates], on row indices). *)
Variable cast_int : Q -> Z.
Variable choose : nat -> list nat -> nat.

Definition pick (i : nat) (candidates : list nat) : option nat :=
  match candidates with
  | [] => None
  | [j] => Some j
  | _ => Some (choose i candidates)
  end.

(** [CASE WHEN x >= 0 THEN x ELSE 0 END]. *)
Definition positive_of (c : cell) : cell :=
  match c with
  | VNum q => if Qle_bool 0 q then c else VNum 0
  | _ => VNum 0
  end.

(** [t2."Date" BETWEEN t1."Date" - 2 AND t1."Date"]. *)
Definition in_window (t1 t2 : cell) : bool :=
  match t1, t2 with
  | VDate a, VDate b =>
      ((days_from_civil a - 2 <=? days_from_civil b)
       && (days_from_civil b <=? days_from_civil a))%Z
  | _, _ => false
  end.

(** [(SELECT AVG(positive) FROM temp t2 WHERE t2."Date" BETWEEN ...)] for
    the row [j] of [t1]. *)
Definition window_avg (dates positive : series) (j : nat) : cell :=
  mean_cells 1
    (map snd (filter (fun dp => in_window (nth j dates VNull) (fst dp))
                     (combine dates positive))).

(** The first [UPDATE]: its [FROM temp t1] carries no join condition, so
    every target row joins to every row of [t1]. *)
Definition moving_average (dates positive : series) : series :=
  let n := List.length dates in
  map (fun i => match pick i (seq 0 n) with
                | Some j => window_avg dates positive j
                | None => VNull
                end)
      (seq 0 n).

(** [CASE WHEN total >= 0 THEN total ELSE moving_average END]. *)
Definition final_of (total ma : cell) : cell :=
  match total with
  | VNum q => if Qle_bool 0 q then total else ma
  | _ => ma
  end.

Definition sql_date_eq (a b : cell) : bool :=
  match a, b with
  | VDate x, VDate y => date_eqb x y
  | _, _ => false
  end.

(** A DOUBLE stored into an INT column. *)
Definition store_int (c : cell) : cell :=
  match c with
  | VNum q => VNum (inject_Z (cast_int q))
  | _ => c
  end.

(** The last [UPDATE]: a row takes the final value of the row of the
    auxiliary table with the same date, and stays as it is without one. *)
Definition write_back (dates totals finals : series) : series :=
  let n := List.length dates in
  map (fun i =>
         match pick i (filter (fun j => sql_date_eq (nth i dates VNull)
                                                   (nth j dates VNull))
                              (seq 0 n)) with
         | Some j => store_int (nth j finals VNull)
         | None => nth i totals VNull
         end)
      (seq 0 n).

(** A column an SQL statement names. *)
Definition sql_column (c : string) (f : frame) : result series :=
  match dict_get c f with
  | Some s => Ok s
  | None => Raise BinderException
  end.

Definition families : list string :=
  ["Reactions"; "Comments"; "Shares"; "Clicks"].

(** The repaired total column of one family. *)
Definition repaired (dates : series) (fam : string) (f : frame)
  : result series :=
  totals <- sql_column (fam ++ " (total)") f ;;
  let positive := map positive_of totals in
  let ma := moving_average dates positive in
  let finals := map (fun tm => final_of (fst tm) (snd tm)) (combine totals ma) in
  Ok (write_back dates totals finals).

(** [process_content_metrics] on the rows of the table: the four columns
    are computed from the table as it was, then stored. *)
Definition process_frame (f : frame) : result frame :=
  dates <- sql_column "Date" f ;;
  news <- mapM (fun fam => s <- repaired dates fam f ;;
                           Ok ((fam ++ " (total)")%string, s)) families ;;
  Ok (fold_left (fun f ns => dict_set (fst ns) (snd ns) f) news f).

(** [process_content_metrics]: the auxiliary table [<table>_temp] is created
    and dropped again, which fails when that name is taken. *)
Definition process_content_metrics (table : string) (con : db) : result db :=
  f <- sql_table table con ;;
  if dict_mem (table ++ "_temp") con then Raise CatalogException
  else
    f' <- process_frame f ;;
    Ok (dict_set table f' con).

End Engine.

(** [add_final_date] on the table in the connection. *)
Definition add_final_date (t : table) (con : db) : result db :=
  d <- final_date (extraction_period t) ;;
  f <- sql_table (db_table_name t) con ;;
  Ok (dict_set (db_table_name t)
               (dict_set "Extraction Range" (repeat (VDate d) (nrows f)) f)
               con).

(** *** Aggregation *)

(** A group of table names; a category group has no "category" key in the
    source, the field then repeats the key. *)
Record group : Type := mkgroup {
  category : string;
  g_export_dir : string;
  tables : list string
}.

Definition year_month (p : period) : string := ep_year p ++ "_" ++ ep_month p.

Definition category_year_month (t : table) : string :=
  dataframe_name t ++ "_" ++ year_month (extraction_period t).

(** [d[k]["tables"].append(name)]. *)
Definition append_table (k name : string) (d : dict group) : dict group :=
  match dict_get k d with
  | Some g => dict_set k (mkgroup (category g) (g_export_dir g)
                                  (tables g ++ [name])) d
  | None => d
  end.

Definition group_month (monthly_data : dict group) (t : table) : dict group :=
  let k := category_year_month t in
  let monthly_data :=
    if dict_mem k monthly_data then monthly_data
    else dict_set k (mkgroup (dataframe_name t) (export_dir t) []) monthly_data
  in
  append_table k (db_table_name t) monthly_data.

(** The body of the second loop: the union of the group's first two tables,
    created (or replaced) under the group's key. *)
Definition union_month (con : db) (kg : string * group) : result db :=
  table_1 <- list_item (tables (snd kg)) 0 ;;
  table_2 <- list_item (tables (snd kg)) 1 ;;
  a <- sql_table table_1 con ;;
  b <- sql_table table_2 con ;;
  u <- union_all a b ;;
  Ok (dict_set (fst kg) u con).

(** [concatenate_monthly_tables]: the groups and the connection after it. *)
Definition concatenate_monthly_tables (ts : list table) (con : db)
  : result (dict group * db) :=
  let monthly_data := fold_left group_month ts [] in
  con' <- foldM union_month monthly_data con ;;
  Ok (monthly_data, con').

(** [re.sub(r"(clean)[\\/].*", r"\1/concatenated_dataframes", dir)] is left
    abstract in [cat_dir]: export directories play no part in the rows. *)
Definition group_category (cat_dir : string -> string)
  (grouped : dict group) (kg : string * group) : dict group :=
  let c := category (snd kg) in
  let grouped :=
    if dict_mem c grouped then grouped
    else dict_set c (mkgroup c (cat_dir (g_export_dir (snd kg))) []) grouped
  in
  append_table c (fst kg) grouped.

(** [SELECT * FROM t1 UNION ALL SELECT * FROM t2 UNION ALL ...], from the
    left. The source builds the text with a trailing separator and strips
    it; with no table at all the statement is empty and does not parse. *)
Fixpoint union_all_from (con : db) (acc : frame) (names : list string)
  : result frame :=
  match names with
  | [] => Ok acc
  | n :: names' =>
      b <- sql_table n con ;;
      u <- union_all acc b ;;
      union_all_from con u names'
  end.

Definition union_category (con : db) (kg : string * group) : result db :=
  match tables (snd kg) with
  | [] => Raise ValueError
  | n :: names =>
      a <- sql_table n con ;;
      u <- union_all_from con a names ;;
      Ok (dict_set (fst kg) u con)
  end.

(** [concatenate_category_tables]. *)
Definition concatenate_category_tables (cat_dir : string -> string)
  (monthly_data : dict group) (con : db) : result (dict group * db) :=
  let grouped := fold_left (group_category cat_dir) monthly_data [] in
  con' <- foldM union_category grouped con ;;
  Ok (grouped, con').

(** *** Loading the extracted frames *)

(** The dict [extract_data] returns for a sheet: here ["dir"] is the path of
    the month directory. *)
Record dataframe : Type := mkdataframe {
  pd_name : string;       (* "dataframe_name" *)
  pd_dir : string;        (* "dir" *)
  pd_period : period;     (* "extraction_period" *)
  pd_df : frame           (* "df" *)
}.

(** Python's [s.replace(old, new)] for a non-empty [old]: the occurrences
    of [old] from the left, without overlap; [skip] counts the characters
    of an occurrence still to pass over. *)
Fixpoint replace_from (old new : string) (skip : nat) (s : string) : string :=
  match s with
  | EmptyString => EmptyString
  | String c s' =>
      match skip with
      | S k => replace_from old new k s'
      | O =>
          if String.prefix old s
          then new ++ replace_from old new (String.length old - 1) s'
          else String c (replace_from old new 0 s')
      end
  end.

Definition str_replace (old new s : string) : string :=
  replace_from old new 0 s.

Section Loader.

(** What the INSERT leaves to the engine: [STRPTIME(CAST(x AS VARCHAR),
    '%m/%d/%Y')] stored as a DATE, for a cell that is neither NULL nor the
    empty text, and the cast of a cell to the type of its column. *)
Variable strptime : cell -> result cell.
Variable cast_to : sqltype -> cell -> result cell.

(** The expression the INSERT selects for a column of type [dtype]. *)
Definition insert_cell (dtype : sqltype) (c : cell) : result cell :=
  match dtype with
  | DATE =>
      match c with
      | VNull => Ok VNull
      | VStr EmptyString => Ok VNull
      | _ => strptime c
      end
  | _ => cast_to dtype c
  end.

(** [load_data_from_pandas]: the table dict it returns and the connection
    with the new table. *)
Definition load_data_from_pandas (d : dataframe) (con : db)
  : result (table * db) :=
  let db_table_name := (pd_name d ++ "_" ++ period_key (pd_period d))%string in
  table_attribute <- schema_entry (pd_name d) ;;
  f <- Pandas.set_columns (Some (dict_keys table_attribute)) (pd_df d) ;;
  if dict_mem db_table_name con then Raise CatalogException
  else
    rows <- mapM (fun cd => s <- sql_column (fst cd) f ;;
                            s' <- mapM (insert_cell (snd cd)) s ;;
                            Ok (fst cd, s'))
                 table_attribute ;;
    Ok (mktable (pd_name d) (pd_period d) db_table_name
                (str_replace "raw" "clean" (pd_dir d)),
        dict_set db_table_name rows con).

(** [convert_pandas_to_duck]: the table dicts in order, and the connection
    after the last load. *)
Definition convert_pandas_to_duck (data : list dataframe) (con : db)
  : result (list table * db) :=
  foldM (fun acc d =>
           r <- load_data_from_pandas d (snd acc) ;;
           Ok (fst acc ++ [fst r], snd r))
        data ([], con).

End Loader.

Section Transform.

Variable cast_int : Q -> Z.
Variable choose : nat -> list nat -> nat.

(** The body of the loop of [transform_data]: the imputation of a
    [content_metrics] table comes before its Extraction Range. *)
Definition transform_table (con : db) (t : table) : result db :=
  con <- (if String.eqb (dataframe_name t) "content_metrics"
          then process_content_metrics cast_int choose (db_table_name t) con
          else Ok con) ;;
  add_final_date t con.

Definition transform_data (tables : list table) (con : db) : result db :=
  foldM transform_table tables con.

End Transform.

(** *** The statements as text *)

(** [year_month = "_".join(table["extraction_period"].split("_")[:2])] of
    [concatenate_monthly_tables]. *)
Definition year_month_text (extraction_period : string) : string :=
  String.concat "_" (firstn 2 (str_split "_" extraction_period)).

(** Python's [s.rstrip(chars)]: the longest end of [s] made of characters
    of [chars] is cut off. *)
Fixpoint rstrip (chars s : string) : string :=
  match s with
  | EmptyString => EmptyString
  | String c s' =>
      match rstrip chars s' with
      | EmptyString =>
          if existsb (Ascii.eqb c) (list_ascii_of_string chars)
          then EmptyString
          else String c EmptyString
      | r => String c r
      end
  end.

(** The double quote. *)
Definition dquote : string := String (ascii_of_nat 34) EmptyString.

(** [concatenate_category_tables]: the query text built in the inner loop
    and stripped. *)
Definition union_all_query (names : list string) : string :=
  rstrip " UNION ALL "
    (fold_left (fun q t => (q ++ "SELECT * FROM " ++ dquote ++ t ++ dquote
                              ++ " UNION ALL ")%string)
               names EmptyString).

(** *** Extraction *)

Section Extraction.

(** [os.path.join(raw_directory, category, year, month)]: the ["dir"] of the
    files of a month directory, from the three names on its path. *)
Variable month_path : list string -> string.

(** [read_excel_file], the same text as in the pandas file but for the
    ["dir"] it copies. *)
Definition read_excel_file (file : raw_file) : result (list dataframe) :=
  sheets_to_read <-
    match rf_category file with
    | Some c => dict_item c category_keys
    | None => Raise KeyError
    end ;;
  mapM (fun sh =>
          f <- read_excel (rf_book file) (sheet_pos sh) ;;
          Ok (mkdataframe (sheet_name sh) (month_path (rf_dir file))
                          (rf_period file) f))
       sheets_to_read.

Definition extract_data (raw : raw_tree) : result (list dataframe) :=
  tables <- mapM read_excel_file (get_raw_files raw) ;;
  Ok (List.concat tables).

End Extraction.

End Duck.

(** ** Auxiliary definitions of the proofs *)

(** The years and the month tokens the literal table of the DuckDB
    pipeline covers. *)
Definition duck_supported_years : list (string * Z) :=
  [ ("2023", 2023); ("2024", 2024) ]%Z.

Definition duck_month_tokens : dict Z :=
  [ ("Jan", 1); ("Fev", 2); ("Mar", 3); ("Abr", 4); ("Mai", 5); ("Jun", 6);
    ("Jul", 7); ("Ago", 8); ("Set", 9); ("Out", 10); ("Nov", 11);
    ("Dez", 12) ]%Z.

(** A schema entry with the semantic types of the specification. *)
Definition semantic_entry (entry : dict Duck.sqltype)
  : list (string * Duck.semtype) :=
  map (fun c => (fst c, Duck.semantic (snd c))) entry.

(** Every key of the DuckDB table is a year, a month token and a sequence
    joined by underscores. *)
Definition duck_key_ok (k : string) : bool :=
  match str_split "_" k with
  | [_; tok; _] => dict_mem tok duck_month_tokens
  | _ => false
  end.

Fixpoint nodupb (l : list string) : bool :=
  match l with
  | [] => true
  | x :: l' => negb (existsb (String.eqb x) l') && nodupb l'
  end.

(** The sheet names [read_excel_file] gives the tables of each category. *)
Definition kinds_of_categories : list string :=
  flat_map (fun cs => map sheet_name (snd cs)) Duck.category_keys.

(** The shape the four grouping loops share: the group of the item's key is
    created on first sight, then the item is added to it. *)
Definition gstep {A G : Type} (key : A -> string) (mk : A -> G)
  (add : A -> G -> G) (acc : dict G) (x : A) : dict G :=
  let k := key x in
  let acc' := if dict_mem k acc then acc else dict_set k (mk x) acc in
  match dict_get k acc' with
  | Some g => dict_set k (add x g) acc'
  | None => acc'
  end.

(** What the loop does to the group of one key. *)
Definition kstep {A G : Type} (key : A -> string) (mk : A -> G)
  (add : A -> G -> G) (k : string) (og : option G) (x : A) : option G :=
  if String.eqb k (key x)
  then Some (add x (match og with Some g => g | None => mk x end))
  else og.

(** The rows of a list of columns of [n] cells each. *)
Definition rows_of_series (ss : list series) (n : nat) : list series :=
  map (fun i => map (fun s => nth i s VNull) ss) (seq 0 n).

(** Columns appended pairwise. *)
Definition zip_app (ss ts : list series) : list series :=
  map (fun p => fst p ++ snd p) (combine ss ts).

(** ** Example tables *)

Definition ints (l : list Z) : series := map (fun z => VNum (inject_Z z)) l.

Definition texts (l : list string) : series := map VStr l.

(** A [followers_location] frame after the Extraction Range is added. *)
Definition location_frame (locations : list string) (followers : list Z)
  (d : date) : frame :=
  [ ("Location", texts locations);
    ("Total Followers", ints followers);
    ("Extraction Range", repeat (VDate d) (List.length locations)) ].

Definition jan_first_half : frame :=
  location_frame ["Recife"; "Natal"; "Olinda"; "Caruaru"; "Manaus"]
                 [120; 64; 30; 12; 7]%Z (mkdate 2024 1 15).

Definition jan_second_half : frame :=
  location_frame
    ["Recife"; "Natal"; "Olinda"; "Caruaru"; "Manaus"; "Belem"; "Macapa"]
    [131; 70; 30; 15; 9; 4; 2]%Z (mkdate 2024 1 31).

Definition feb_first_half : frame :=
  location_frame ["Recife"; "Natal"] [140; 71]%Z (mkdate 2024 2 15).

Definition feb_second_half : frame :=
  location_frame ["Recife"; "Natal"; "Belem"] [150; 75; 6]%Z
                 (mkdate 2024 2 29).

Definition pandas_table (month seq : string) (f : frame)
  : Pandas.table :=
  Pandas.mktable "followers_location" ["followers"; "2024"; month]
                 (mkperiod "2024" month seq) f.

Definition duck_table (month seq : string) : Duck.table :=
  Duck.mktable "followers_location" (mkperiod "2024" month seq)
    ("followers_location_2024_" ++ month ++ "_" ++ seq)
    ("data/linkedin/clean/followers/2024/" ++ month).

(** One month, as the connection of the DuckDB pipeline holds it after the
    transformation. *)
Definition january_con : db :=
  [ ("followers_location_2024_Jan_1", jan_first_half);
    ("followers_location_2024_Jan_2", jan_second_half) ].

(** Two months listed by name, February first, as a directory listing in
    alphabetical order gives them. *)
Definition two_months_data : list Pandas.table :=
  [ pandas_table "Fev" "1" feb_first_half;
    pandas_table "Fev" "2" feb_second_half;
    pandas_table "Jan" "1" jan_first_half;
    pandas_table "Jan" "2" jan_second_half ].

Definition two_months_tables : list Duck.table :=
  [ duck_table "Fev" "1"; duck_table "Fev" "2";
    duck_table "Jan" "1"; duck_table "Jan" "2" ].

Definition two_months_con : db :=
  [ ("followers_location_2024_Fev_1", feb_first_half);
    ("followers_location_2024_Fev_2", feb_second_half);
    ("followers_location_2024_Jan_1", jan_first_half);
    ("followers_location_2024_Jan_2", jan_second_half) ].

(** The dates of a column never go back. *)
Fixpoint chronological (s : series) : bool :=
  match s with
  | VDate a :: ((VDate b :: _) as s') =>
      (days_from_civil a <=? days_from_civil b)%Z && chronological s'
  | _ :: s' => chronological s'
  | [] => true
  end.

(** Both aggregation steps of the pandas pipeline, and of the DuckDB one. *)
Definition pandas_aggregate (data : list Pandas.table)
  : result (list (string * Pandas.cgroup)) :=
  monthly <- Pandas.concatenate_monthly_dataframes data ;;
  Pandas.concatenate_category_dataframes monthly.

Definition duck_aggregate (ts : list Duck.table)
  (con : db)
  : result (list (string * Duck.group)
            * db) :=
  monthly <- Duck.concatenate_monthly_tables ts con ;;
  Duck.concatenate_category_tables (fun d => d) (fst monthly) (snd monthly).

(** The monthly dict and the connection after the monthly step, on the two
    months. *)
Definition two_months_monthly : list (string * Pandas.cgroup) :=
  match Pandas.concatenate_monthly_dataframes two_months_data with
  | Ok r => r
  | Raise _ => []
  end.

Definition two_months_monthly_duck
  : list (string * Duck.group) * db :=
  match Duck.concatenate_monthly_tables two_months_tables two_months_con with
  | Ok r => r
  | Raise _ => ([], [])
  end.

Definition location_columns : list string :=
  ["Location"; "Total Followers"; "Extraction Range"].

(** A second-half table that lost its "Total Followers" column, and a month
    with a single extraction. *)
Definition jan_second_half_narrow : frame :=
  [ ("Location", texts ["Recife"; "Natal"]);
    ("Extraction Range", repeat (VDate (mkdate 2024 1 31)) 2) ].

Definition mismatched_data : list Pandas.table :=
  [ pandas_table "Jan" "1" jan_first_half;
    pandas_table "Jan" "2" jan_second_half_narrow ].

Definition mismatched_con : db :=
  [ ("followers_location_2024_Jan_1", jan_first_half);
    ("followers_location_2024_Jan_2", jan_second_half_narrow) ].

Definition single_data : list Pandas.table :=
  [ pandas_table "Jan" "1" jan_first_half ].

Definition single_tables : list Duck.table := [ duck_table "Jan" "1" ].

(** ** The imputation of the pandas pipeline, column by column

    What [Pandas.clean_frame] computes on a typed table, written on the
    series: the proofs show that the row-by-row code equals it. *)

Definition numeric (c : cell) : bool :=
  match c with
  | VNum _ | VNull => true
  | _ => false
  end.

Definition is_neg (c : cell) : bool :=
  match c with
  | VNum q => negb (Qle_bool 0 q)
  | _ => false
  end.

Definition is_zero (c : cell) : bool :=
  match c with
  | VNum q => Qeq_bool q 0
  | _ => false
  end.

Definition nonneg_or_null (c : cell) : cell :=
  match c with
  | VNum q => if Qle_bool 0 q then c else VNull
  | _ => VNull
  end.

(** The "(positive)" column of a family: negatives and nulls as 0. *)
Definition positive_series (s : series) : series :=
  Pandas.fillna (VNum 0) (map nonneg_or_null s).

(** The "(moving average)" column of a family. *)
Definition moving_average_series (s : series) : series :=
  Pandas.rolling_mean Pandas.window (positive_series s).

(** The repaired "(total)" column of a family, on [n] rows: the moving
    average where the total is negative, the total elsewhere. *)
Definition repair_with (s ma : series) (n : nat) : series :=
  map (fun i => if is_neg (nth i s VNull) then nth i ma VNull
                else nth i s VNull)
      (seq 0 n).

Definition repaired_series (s : series) (n : nat) : series :=
  repair_with s (moving_average_series s) n.

Definition num_add (a b : cell) : cell :=
  match a, b with
  | VNum p, VNum q => VNum (Qred (p + q))
  | _, _ => VNull
  end.

Definition num_div (a b : cell) : cell :=
  match a, b with
  | VNum p, VNum q => VNum (Qred (p / q))
  | _, _ => VNull
  end.

(** The engagement rate of a row: reactions, comments, clicks and shares
    over impressions. *)
Definition rate_cell (r c k s imp : cell) : cell :=
  num_div (num_add (num_add (num_add r c) k) s) imp.

Definition rate_series (r c k s imp : series) (n : nat) : series :=
  map (fun i => rate_cell (nth i r VNull) (nth i c VNull) (nth i k VNull)
                          (nth i s VNull) (nth i imp VNull))
      (seq 0 n).

(** ** Typed content tables *)

(** The columns of a typed [content_metrics] table of the pandas pipeline:
    those of the catalog and the Extraction Range. *)
Definition typed_content_columns : list string :=
  match dict_get "content_metrics" Pandas.translated_columns with
  | Some cs => cs ++ ["Extraction Range"]
  | None => []
  end.

Definition total_columns : list string :=
  [ "Reactions (total)"; "Comments (total)"; "Shares (total)";
    "Clicks (total)" ].

Definition has_columns (cs : list string) (f : frame)
  : bool :=
  forallb (fun c => dict_mem c f) cs.

(** The named columns hold numbers or nulls. *)
Definition numeric_columns (cs : list string) (f : frame)
  : bool :=
  forallb (fun c => forallb numeric (column_or_nulls c f)) cs.

Definition typed_content (f : frame) : bool :=
  (if list_eq_dec string_dec (columns f) typed_content_columns
   then true else false)
  && rectangular f
  && numeric_columns ("Impressions (total)" :: total_columns) f.

Definition no_zero_impressions (f : frame) : bool :=
  negb (existsb is_zero (column_or_nulls "Impressions (total)" f)).

(** A content table from its columns of interest, zeros elsewhere. *)
Definition content_table (date_col impressions clicks reactions comments
  shares rate : series) (range : date) : frame :=
  let n := List.length date_col in
  let given :=
    [ ("Date", date_col); ("Impressions (total)", impressions);
      ("Clicks (total)", clicks); ("Reactions (total)", reactions);
      ("Comments (total)", comments); ("Shares (total)", shares);
      ("Engagement rate (total)", rate);
      ("Extraction Range", repeat (VDate range) n) ] in
  map (fun c => (c, match dict_get c given with
                    | Some s => s
                    | None => repeat (VNum 0) n
                    end))
      typed_content_columns.

Definition march_days (l : list Z) : series :=
  map (fun d => VDate (mkdate 2024 3 d)) l.

(** The example of the specification: reactions 10, -5, 8, -3, 12 on five
    consecutive days, 100 impressions a day. *)
Definition spec_example : frame :=
  content_table (march_days [1; 2; 3; 4; 5]%Z)
                (ints [100; 100; 100; 100; 100]%Z)
                (ints [4; 0; 2; 1; 3]%Z)
                (ints [10; -5; 8; -3; 12]%Z)
                (ints [1; 1; 0; 2; 0]%Z)
                (ints [0; 0; 1; 0; 0]%Z)
                (repeat (VNum (1 # 2)) 5)
                (mkdate 2024 3 15).

(** The same table with no impressions on the third day. *)
Definition zero_impressions_example : frame :=
  content_table (march_days [1; 2; 3; 4; 5]%Z)
                (ints [100; 100; 0; 100; 100]%Z)
                (ints [4; 0; 2; 1; 3]%Z)
                (ints [10; -5; 8; -3; 12]%Z)
                (ints [1; 1; 0; 2; 0]%Z)
                (ints [0; 0; 1; 0; 0]%Z)
                (repeat (VNum (1 # 2)) 5)
                (mkdate 2024 3 15).

(** The claimed repair of a total, in the specification's words: a negative
    total becomes the mean over the trailing window of the three most recent
    rows, the current one included, negatives counting as 0; the first two
    rows average over the rows that exist; other totals stay. *)
Definition spec_repaired (s : series) (i : nat) : cell :=
  if is_neg (nth i s VNull)
  then mean_cells 1 (Pandas.window_at 3 (positive_series s) i)
  else nth i s VNull.

(** An engine that rounds a DOUBLE half up when it is stored as an INT. *)
Definition round_half_up (q : Q) : Z := Qfloor (q + (1 # 2)).

(** An engine that would join every row to itself in the update without a
    join condition: what the update would do if it gave the condition. *)
Definition own_row (i : nat) (candidates : list nat) : nat := i.

(** An engine that joins every row to the first row of the table, the
    choice of DuckDB. *)
Definition first_row (i : nat) (candidates : list nat) : nat :=
  hd 0%nat candidates.

(** The month tokens both pipelines recognize: all but May, which the pandas
    pipeline spells "Maio" and the DuckDB pipeline "Mai". *)
Definition common_month_tokens : list string :=
  [ "Jan"; "Fev"; "Mar"; "Abr"; "Jun"; "Jul"; "Ago"; "Set"; "Out"; "Nov";
    "Dez" ].

Definition is_number (c : cell) : bool :=
  match c with
  | VNum _ => true
  | _ => false
  end.

(** What the monthly step of the DuckDB pipeline needs to go through: no
    per-extraction table is named like a monthly key, every key has two
    tables or more, and every table is in the connection, as wide as the
    other tables of its key. *)
Definition same_month (t t' : Duck.table) : bool :=
  String.eqb (Duck.category_year_month t) (Duck.category_year_month t').

Definition width_in (con : db)
  (t : Duck.table) : option nat :=
  option_map (@List.length _) (dict_get (Duck.db_table_name t) con).

Definition duck_month_ready (ts : list Duck.table)
  (con : db) : bool :=
  forallb (fun t =>
    forallb (fun t' => negb (String.eqb (Duck.db_table_name t)
                                        (Duck.category_year_month t'))) ts
    && (2 <=? List.length (filter (same_month t) ts))%nat
    && match width_in con t with
       | Some w =>
           forallb (fun t' => negb (same_month t t')
                              || match width_in con t' with
                                 | Some w' => Nat.eqb w w'
                                 | None => false
                                 end) ts
       | None => false
       end) ts.

(** ** Discovery and extraction, as read off the listing *)

(** [sub] occurs in [s]. *)
Definition substring_of (sub s : string) : Prop :=
  exists a b : string, s = (a ++ sub ++ b)%string.

(** The words [detect_file_category] looks for, in the order of its tests. *)
Definition category_words : list string :=
  ["competitor"; "content"; "followers"; "visitors"].

(** The sheets [read_excel_file] reads from a file, when its category has
    an entry. *)
Definition file_sheets (file : raw_file) : option (list sheet) :=
  match rf_category file with
  | Some c => dict_get c Pandas.category_keys
  | None => None
  end.

(** A file with a category whose workbook holds every sheet position the
    category reads. *)
Definition readable (file : raw_file) : bool :=
  match file_sheets file with
  | Some sheets => (List.length sheets <=? List.length (rf_book file))%nat
  | None => false
  end.

(** One table per sheet of the category: the sheet's name over the frame at
    the sheet's place in the workbook. *)
Definition tables_of (file : raw_file) : list Pandas.table :=
  match file_sheets file with
  | Some sheets =>
      map (fun sf => Pandas.mktable (sheet_name (fst sf)) (rf_dir file)
                                    (rf_period file) (snd sf))
          (combine sheets (rf_book file))
  | None => []
  end.

(** ** A date parser for the examples

    [pd.to_datetime] as far as the examples need it: a column of dates and
    nulls is returned as it is, any other column is refused. *)
Definition is_date_or_null (c : cell) : bool :=
  match c with
  | VDate _ | VNull => true
  | _ => false
  end.

Definition keep_dates (s : series) : result series :=
  if forallb is_date_or_null s then Ok s else Raise ValueError.

(** ** Raw example frames

    A [followers_location] sheet as it is read, under the names of the
    spreadsheet, and the two extractions of a January as each pipeline
    extracts them. *)
Definition raw_location_frame (locations : list string) (followers : list Z)
  : frame :=
  [ ("Localidade", texts locations);
    ("Total de seguidores", ints followers) ].

Definition raw_pandas_table (month seq : string) (f : frame) : Pandas.table :=
  Pandas.mktable "followers_location" ["followers"; "2024"; month]
                 (mkperiod "2024" month seq) f.

Definition raw_duck_frame (month seq : string) (f : frame) : Duck.dataframe :=
  Duck.mkdataframe "followers_location"
    ("data/linkedin/raw/followers/2024/" ++ month)
    (mkperiod "2024" month seq) f.

Definition january_raw_first : frame :=
  raw_location_frame ["Recife"; "Natal"] [120; 64]%Z.

Definition january_raw_second : frame :=
  raw_location_frame ["Recife"; "Natal"; "Olinda"] [131; 70; 30]%Z.

(** An engine that stores every cell as it is given. *)
Definition strptime_as_given (c : cell) : result cell := Ok c.

Definition cast_as_given (dtype : Duck.sqltype) (c : cell) : result cell :=
  Ok c.

(** ** What the DuckDB transformation needs to go through

    Every table is in the connection and its period is in the table of
    dates; a [content_metrics] table has the date and the four totals, and
    the name of its auxiliary table is free. *)
Definition duck_transform_ready (ts : list Duck.table) (con : db) : bool :=
  forallb (fun t =>
    is_ok (Duck.final_date (Duck.extraction_period t))
    && match dict_get (Duck.db_table_name t) con with
       | Some f =>
           negb (String.eqb (Duck.dataframe_name t) "content_metrics")
           || (has_columns ("Date" :: total_columns) f
               && negb (dict_mem (Duck.db_table_name t ++ "_temp") con))
       | None => false
       end) ts.

(** The table of a transformed extraction: the imputed frame for
    [content_metrics], the frame as it was for the other kinds, and in both
    cases the date of the period in the Extraction Range of every row. *)
Definition duck_transformed (cast_int : Q -> Z) (choose : nat -> list nat -> nat)
  (t : Duck.table) (d : date) (f f' : frame) : Prop :=
  exists g,
    (if String.eqb (Duck.dataframe_name t) "content_metrics"
     then Duck.process_frame cast_int choose f = Ok g
     else g = f)
    /\ f' = dict_set "Extraction Range" (repeat (VDate d) (nrows g)) g.

(** ** A connection after the load

    The example table of the specification and a [followers_location]
    table, as [convert_pandas_to_duck] leaves them: without the Extraction
    Range. *)
Definition without_range (f : frame) : frame :=
  filter (fun c => negb (String.eqb (fst c) "Extraction Range")) f.

Definition loaded_tables : list Duck.table :=
  [ Duck.mktable "content_metrics" (mkperiod "2024" "Mar" "1")
      "content_metrics_2024_Mar_1" "data/linkedin/clean/content/2024/Mar";
    duck_table "Jan" "1" ].

Definition loaded_con : db :=
  [ ("content_metrics_2024_Mar_1", without_range spec_example);
    ("followers_location_2024_Jan_1", without_range jan_first_half) ].

(** ** Tables with one row a day *)

(** The dates of the column are consecutive days from day number [base]
    on, one row each. *)
Definition daily_from (base : Z) (dates : series) : Prop :=
  forall k, (k < List.length dates)%nat ->
    exists d, nth k dates VNull = VDate d
              /\ days_from_civil d = (base + Z.of_nat k)%Z.

(** The date of row [i] is on no other row. *)
Definition own_date (dates : series) (i : nat) : Prop :=
  Duck.sql_date_eq (nth i dates VNull) (nth i dates VNull) = true
  /\ forall j, (j < List.length dates)%nat ->
       Duck.sql_date_eq (nth i dates VNull) (nth j dates VNull) = true ->
       j = i.

(** ** A month with three extractions *)

Definition jan_third : frame :=
  location_frame ["Recife"; "Natal"] [133; 72]%Z (mkdate 2024 1 15).

Definition three_extractions_data : list Pandas.table :=
  [ pandas_table "Jan" "1" jan_first_half;
    pandas_table "Jan" "2" jan_second_half;
    pandas_table "Jan" "3" jan_third ].

Definition three_extractions_tables : list Duck.table :=
  [ duck_table "Jan" "1"; duck_table "Jan" "2"; duck_table "Jan" "3" ].

Definition three_extractions_con : db :=
  [ ("followers_location_2024_Jan_1", jan_first_half);
    ("followers_location_2024_Jan_2", jan_second_half);
    ("followers_location_2024_Jan_3", jan_third) ].

(** ** What the category step of the DuckDB pipeline needs to go through

    No kind is named like a monthly table, and every monthly table is in
    the connection, as wide as the other monthly tables of its kind. *)
Definition same_kind (kg kg' : string * Duck.group) : bool :=
  String.eqb (Duck.category (snd kg)) (Duck.category (snd kg')).

Definition duck_category_ready (monthly_data : list (string * Duck.group))
  (con : db) : bool :=
  forallb (fun kg =>
    forallb (fun kg' => negb (String.eqb (Duck.category (snd kg)) (fst kg')))
            monthly_data
    && match dict_get (fst kg) con with
       | Some f =>
           forallb (fun kg' =>
                      negb (same_kind kg kg')
                      || match dict_get (fst kg') con with
                         | Some f' => Nat.eqb (ncols f) (ncols f')
                         | None => false
                         end)
                   monthly_data
       | None => false
       end) monthly_data.

(** Every key of the DuckDB table of dates ends in the sequence 1 or 2. *)
Definition duck_key_seq_ok (k : string) : bool :=
  match str_split "_" k with
  | [_; _; q] => String.eqb q "1" || String.eqb q "2"
  | _ => false
  end.

(** ** The month directories of the raw tree *)

(** A month directory: the names on its path and its files, as listed. *)
Record month_listing : Type := mkmonth {
  ml_category : string;
  ml_year : string;
  ml_month : string;
  ml_files : list (string * workbook)
}.

(** The month directories, in the order the three outer loops of
    [get_raw_files] reach them. *)
Definition month_dirs (raw : raw_tree) : list month_listing :=
  flat_map (fun cat : category_dir =>
    flat_map (fun yr : year_dir =>
      map (fun mo : month_dir => mkmonth (fst cat) (fst yr) (fst mo) (snd mo))
          (snd yr))
      (snd cat))
    raw.

Definition ml_dir (d : month_listing) : list string :=
  [ml_category d; ml_year d; ml_month d].

(** The entries of one month directory: its files in listing order, the
    file at place [i] numbered [i + 1]. *)
Definition files_of (d : month_listing) : list raw_file :=
  map (fun e : nat * (string * workbook) =>
         mkraw (detect_file_category (fst (snd e))) (snd (snd e)) (ml_dir d)
               (mkperiod (ml_year d) (ml_month d) (str_nat (fst e + 1))))
      (enumerate (ml_files d)).

(** [a] comes before [b] in the list. *)
Definition precedes {A : Type} (a b : A) (l : list A) : Prop :=
  exists l1 l2 l3, l = l1 ++ a :: l2 ++ b :: l3.

(** ** The group of a kind, a year and a month *)

(** Neither the year nor the month of the period holds an underscore, the
    separator of the aggregation keys. *)
Definition plain_period (p : period) : bool :=
  negb (contains "_" (ep_year p)) && negb (contains "_" (ep_month p)).

(** The table is of kind [n], year [y] and month [m]. *)
Definition pandas_in_month (n y m : string) (t : Pandas.table) : bool :=
  String.eqb n (Pandas.dataframe_name t)
  && String.eqb y (ep_year (Pandas.extraction_period t))
  && String.eqb m (ep_month (Pandas.extraction_period t)).

Definition duck_in_month (n y m : string) (t : Duck.table) : bool :=
  String.eqb n (Duck.dataframe_name t)
  && String.eqb y (ep_year (Duck.extraction_period t))
  && String.eqb m (ep_month (Duck.extraction_period t)).

(** The same table in both pipelines: the same kind and period, and the
    connection holds the frame under the table's name. *)
Definition same_table (con : db) (t : Pandas.table) (d : Duck.table) : Prop :=
  Pandas.dataframe_name t = Duck.dataframe_name d
  /\ Pandas.extraction_period t = Duck.extraction_period d
  /\ sql_table (Duck.db_table_name d) con = Ok (Pandas.df t).

(** The same monthly group in both pipelines: the same kind, and the
    connection holds the monthly frame under the group's key. *)
Definition same_monthly (con : db) (kg : string * Pandas.cgroup)
  (kd : string * Duck.group) : Prop :=
  Pandas.cg_category (snd kg) = Duck.category (snd kd)
  /\ sql_table (fst kd) con = Ok (Pandas.concatenated_df (snd kg)).

(** ** A raw tree for the examples

    One category directory with the two extractions of January 2024, of 5
    and 7 rows, each a workbook with the one sheet of a competitor file. *)
Definition competitor_sheet (pages : list string) : frame :=
  [ ("Pagina", texts pages);
    ("Total de seguidores",
      ints (map (fun i => Z.of_nat (100 * i)) (seq 1 (List.length pages))));
    ("Novos seguidores",
      ints (map (fun i => Z.of_nat i) (seq 1 (List.length pages))));
    ("Total de engajamentos",
      ints (map (fun i => Z.of_nat (3 * i)) (seq 1 (List.length pages))));
    ("Total de publicacoes",
      ints (map (fun i => Z.of_nat (2 * i)) (seq 1 (List.length pages)))) ].

Definition january_tree : raw_tree :=
  [ ("competitor",
      [ ("2024",
          [ ("Jan",
              [ ("competitor_a.xlsx",
                  [ competitor_sheet ["A"; "B"; "C"; "D"; "E"] ]);
                ("competitor_b.xlsx",
                  [ competitor_sheet ["A"; "B"; "C"; "D"; "E"; "F"; "G"] ])
              ]) ]) ]) ].

(** [os.path.join] under the raw directory of [main]. *)
Definition raw_month_path (dir : list string) : string :=
  String.concat "/" ("data/linkedin/raw" :: dir).

(** The table of a competitor sheet after the pandas transformation. *)
Definition competitor_frame (pages : list string) (d : date) : frame :=
  [ ("Page", texts pages);
    ("Total Followers",
      ints (map (fun i => Z.of_nat (100 * i)) (seq 1 (List.length pages))));
    ("New Followers",
      ints (map (fun i => Z.of_nat i) (seq 1 (List.length pages))));
    ("Total Post Engagements",
      ints (map (fun i => Z.of_nat (3 * i)) (seq 1 (List.length pages))));
    ("Total Posts",
      ints (map (fun i => Z.of_nat (2 * i)) (seq 1 (List.length pages))));
    ("Extraction Range", repeat (VDate d) (List.length pages)) ].

Definition competitor_first : Pandas.table :=
  Pandas.mktable "competitor" ["competitor"; "2024"; "Jan"]
    (mkperiod "2024" "Jan" "1")
    (competitor_frame ["A"; "B"; "C"; "D"; "E"] (mkdate 2024 1 15)).

Definition competitor_second : Pandas.table :=
  Pandas.mktable "competitor" ["competitor"; "2024"; "Jan"]
    (mkperiod "2024" "Jan" "2")
    (competitor_frame ["A"; "B"; "C"; "D"; "E"; "F"; "G"] (mkdate 2024 1 31)).

Definition competitor_table (seq : string) : Duck.table :=
  Duck.mktable "competitor" (mkperiod "2024" "Jan" seq)
    ("competitor_2024_Jan_" ++ seq)
    "data/linkedin/clean/competitor/2024/Jan".

(** ** The January tables with the second extraction listed first *)

Definition january_data_reversed : list Pandas.table :=
  [ pandas_table "Jan" "2" jan_second_half;
    pandas_table "Jan" "1" jan_first_half ].

Definition january_tables_reversed : list Duck.table :=
  [ duck_table "Jan" "2"; duck_table "Jan" "1" ].

(** The connection of the DuckDB pipeline after the transformation of the
    two competitor tables. *)
Definition competitor_con : db :=
  [ ("competitor_2024_Jan_1", Pandas.df competitor_first);
    ("competitor_2024_Jan_2", Pandas.df competitor_second) ].

(** ** A raw tree with two categories in one month directory

    The directory [a] holds a content file before a competitor file, the
    directory [b] a competitor file before a content file: the competitor
    file of [a] is numbered 2 and listed before the competitor file of [b],
    numbered 1. The content sheets have their columns and no rows. *)
Definition empty_sheet (kind : string) : frame :=
  match dict_get kind Pandas.translated_columns with
  | Some names => map (fun c => (c, [])) names
  | None => []
  end.

Definition mixed_tree : raw_tree :=
  [ ("a",
      [ ("2024",
          [ ("Jan",
              [ ("content_x.xlsx",
                  [ empty_sheet "content_metrics";
                    empty_sheet "content_posts" ]);
                ("competitor_b.xlsx",
                  [ competitor_sheet ["A"; "B"; "C"; "D"; "E"; "F"; "G"] ])
              ]) ]) ]);
    ("b",
      [ ("2024",
          [ ("Jan",
              [ ("competitor_a.xlsx",
                  [ competitor_sheet ["A"; "B"; "C"; "D"; "E"] ]);
                ("content_y.xlsx",
                  [ empty_sheet "content_metrics";
                    empty_sheet "content_posts" ])
              ]) ]) ]) ].

(* ================================================================== *)
(** * Part II. Lemmas and theorems                                     *)
(* ================================================================== *)

(** ** Calendar arithmetic *)

Lemma dfc_early y m d : (m <= 2)%Z ->
  days_from_civil (mkdate y m d)
  = shifted_days (y - 1) ((153 * (m + 9) + 2) / 5 + d - 1).
Proof.
  intros H. unfold days_from_civil, shifted_days. cbn [year month day].
  destruct (Z.leb_spec m 2); [reflexivity | lia].
Qed.

Lemma dfc_late y m d : (2 < m)%Z ->
  days_from_civil (mkdate y m d)
  = shifted_days y ((153 * (m - 3) + 2) / 5 + d - 1).
Proof.
  intros H. unfold days_from_civil, shifted_days. cbn [year month day].
  destruct (Z.leb_spec m 2); [lia | reflexivity].
Qed.

Lemma shifted_days_doy y a b : (shifted_days y a - shifted_days y b = a - b)%Z.
Proof. unfold shifted_days. cbv zeta. lia. Qed.

Lemma shifted_days_split y a : (shifted_days y a = shifted_days y 0 + a)%Z.
Proof. unfold shifted_days. cbv zeta. lia. Qed.

(** A March-based year has 365 days, and one more when the civil year that
    holds its end is a leap year by [calendar.isleap]. *)
Lemma shifted_days_year y :
  (shifted_days y 0 - shifted_days (y - 1) 0
   = 365 + if isleap y then 1 else 0)%Z.
Proof.
  unfold shifted_days, isleap. cbv zeta.
  repeat match goal with
         | |- context [(?a =? ?b)%Z] => destruct (Z.eqb_spec a b)
         end; cbn [andb orb negb].
  all: Z.div_mod_to_equations; lia.
Qed.

(** The table of [calendar.monthrange] agrees with the day count: a month
    ends the day before the next one starts, in every year. *)
Lemma monthrange_is_last_day (y m : Z) :
  (1 <= m <= 12)%Z -> monthrange_ndays y m = last_day_of_month y m.
Proof.
  intros Hm.
  assert (Hc : (m = 1 \/ m = 2 \/ m = 3 \/ m = 4 \/ m = 5 \/ m = 6 \/ m = 7 \/
                m = 8 \/ m = 9 \/ m = 10 \/ m = 11 \/ m = 12)%Z) by lia.
  clear Hm. unfold monthrange_ndays, last_day_of_month, next_month_first.
  repeat (destruct Hc as [-> | Hc]); try subst m;
    match goal with
    | |- context [nth ?n mdays ?d] =>
        let v := eval vm_compute in (nth n mdays d) in
        change (nth n mdays d) with v
    end;
    match goal with
    | |- context [(?a =? 12)%Z] =>
        let v := eval vm_compute in (a =? 12)%Z in change (a =? 12)%Z with v
    end;
    match goal with
    | |- context [(?a =? 2)%Z] =>
        let v := eval vm_compute in (a =? 2)%Z in change (a =? 2)%Z with v
    end; cbn [andb];
    repeat first [ rewrite dfc_early by lia | rewrite dfc_late by lia ].
  all: try (rewrite shifted_days_doy; reflexivity).
  - (* February: the March-based year changes *)
    rewrite (shifted_days_split y), (shifted_days_split (y - 1)).
    pose proof (shifted_days_year y) as Hy.
    change ((153 * (2 + 1 - 3) + 2) / 5 + 1 - 1)%Z with 0%Z.
    change ((153 * (2 + 9) + 2) / 5 + 1 - 1)%Z with 337%Z.
    lia.
  - (* December: the next month is January of the next year *)
    replace (y + 1 - 1)%Z with y by lia.
    rewrite shifted_days_doy. reflexivity.
Qed.

(** ** Strings and dicts *)

Lemma str_split_nonempty sep s : str_split sep s <> [].
Proof.
  destruct s as [| c s]; cbn; [discriminate |].
  destruct (Ascii.eqb c sep); [discriminate |].
  destruct (str_split sep s); discriminate.
Qed.

Lemma str_split_app sep a r :
  str_split sep (a ++ String sep r) = str_split sep a ++ str_split sep r.
Proof.
  induction a as [| c a IH]; cbn.
  - rewrite Ascii.eqb_refl. reflexivity.
  - destruct (Ascii.eqb c sep); [now rewrite IH |].
    rewrite IH. pose proof (str_split_nonempty sep a) as Hne.
    destruct (str_split sep a); [contradiction | reflexivity].
Qed.

Lemma str_split_singleton sep a t : str_split sep a = [t] -> a = t.
Proof.
  revert t. induction a as [| c a IH]; cbn; intros t H.
  - now injection H.
  - destruct (Ascii.eqb c sep).
    + injection H as _ H. now apply str_split_nonempty in H.
    + destruct (str_split sep a) as [| f fs] eqn:E.
      * now apply str_split_nonempty in E.
      * injection H as <- ->. f_equal. now apply IH.
Qed.

Lemma dict_get_In {V} k (d : dict V) v : dict_get k d = Some v -> In (k, v) d.
Proof.
  induction d as [| [k' v'] d IH]; cbn; [discriminate |].
  destruct (String.eqb_spec k k') as [-> | _].
  - intros [= ->]. now left.
  - intros H. right. now apply IH.
Qed.

Lemma dict_get_not_key {V} k (d : dict V) :
  ~ In k (dict_keys d) -> dict_get k d = None.
Proof.
  induction d as [| [k' v'] d IH]; cbn; [reflexivity |].
  intros H. destruct (String.eqb_spec k k') as [-> | _].
  - exfalso. apply H. now left.
  - apply IH. intros Hin. apply H. now right.
Qed.

Lemma dict_get_key {V} k (d : dict V) v :
  dict_get k d = Some v -> In k (dict_keys d).
Proof.
  intros H. apply dict_get_In in H. now apply (in_map fst) in H.
Qed.

(** ** The period resolver *)

Lemma duck_keys_ok : forallb duck_key_ok (dict_keys Duck.map_months_period) = true.
Proof. vm_compute. reflexivity. Qed.

Lemma middle_of_three {X} (A B C : list X) x t z :
  A <> [] -> B <> [] -> C <> [] -> A ++ B ++ C = [x; t; z] -> B = [t].
Proof.
  intros HA HB HC E.
  destruct A as [| a A]; [contradiction |].
  destruct B as [| b B]; [contradiction |].
  destruct C as [| c C]; [contradiction |].
  pose proof (f_equal (@List.length X) E) as L.
  cbn in L. rewrite !length_app in L. cbn in L. rewrite length_app in L.
  cbn in L.
  destruct A; [| cbn in L; lia]. destruct B; [| cbn in L; lia].
  cbn in E. now injection E as _ ->.
Qed.

Lemma duck_final_date_token p d :
  Duck.final_date p = Ok d -> In (ep_month p) (dict_keys duck_month_tokens).
Proof.
  unfold Duck.final_date, dict_item.
  destruct (dict_get (Duck.period_key p) Duck.map_months_period) eqn:E;
    [intros _ | discriminate].
  apply dict_get_key in E.
  pose proof duck_keys_ok as Hall. rewrite forallb_forall in Hall.
  specialize (Hall _ E). unfold duck_key_ok, Duck.period_key in Hall.
  cbn [append] in Hall. rewrite !str_split_app in Hall.
  destruct (_ ++ _ ++ _) as [| x [| t [| z [| w l]]]] eqn:E3 in Hall;
    try discriminate.
  apply middle_of_three in E3; try apply str_split_nonempty.
  apply str_split_singleton in E3. subst t.
  unfold dict_mem in Hall.
  destruct (dict_get (ep_month p) duck_month_tokens) eqn:Eg; [| discriminate].
  now apply dict_get_key in Eg.
Qed.

(** C3. For a recognized month token the Extraction Range is day 15 for
    sequence 1 and the last calendar day of the month for sequence 2, leap
    years included: in the pandas pipeline for every year the directory name
    spells, in the DuckDB pipeline for the years 2023 and 2024 of its table.
    (2024, Fev, 2) resolves to 2024-02-29 and (2023, Fev, 2) to 2023-02-28 in
    both. An unrecognized month token makes the resolution fail: both
    pipelines raise [KeyError], their form of the specification's
    InvalidPeriod. *)
Theorem resolve_extraction_range_correct :
  (forall ys y tok m,
      py_int ys = Ok y -> dict_get tok Pandas.month_order_pt = Some m ->
      Pandas.final_date (mkperiod ys tok "1") = Ok (mkdate y m 15)
      /\ Pandas.final_date (mkperiod ys tok "2")
         = Ok (mkdate y m (last_day_of_month y m)))
  /\ (forall p, ~ In (ep_month p) (dict_keys Pandas.month_order_pt) ->
                Pandas.final_date p = Raise KeyError)
  /\ (forall ys y tok m,
         In (ys, y) duck_supported_years -> In (tok, m) duck_month_tokens ->
         Duck.final_date (mkperiod ys tok "1") = Ok (mkdate y m 15)
         /\ Duck.final_date (mkperiod ys tok "2")
            = Ok (mkdate y m (last_day_of_month y m)))
  /\ (forall p, ~ In (ep_month p) (dict_keys duck_month_tokens) ->
                Duck.final_date p = Raise KeyError)
  /\ Pandas.final_date (mkperiod "2024" "Fev" "2") = Ok (mkdate 2024 2 29)
  /\ Pandas.final_date (mkperiod "2023" "Fev" "2") = Ok (mkdate 2023 2 28)
  /\ Duck.final_date (mkperiod "2024" "Fev" "2") = Ok (mkdate 2024 2 29)
  /\ Duck.final_date (mkperiod "2023" "Fev" "2") = Ok (mkdate 2023 2 28).
Proof.
  repeat split; try reflexivity.
  - unfold Pandas.final_date, dict_item. cbn [ep_month ep_year ep_seq].
    rewrite H0. cbn [bind]. rewrite H. reflexivity.
  - unfold Pandas.final_date, dict_item. cbn [ep_month ep_year ep_seq].
    rewrite H0. cbn [bind]. rewrite H. cbn [bind].
    change ("2" =? "2")%string with true. cbv iota.
    rewrite monthrange_is_last_day; [reflexivity |].
    apply dict_get_In in H0. cbn in H0.
    repeat (destruct H0 as [[= _ <-] | H0]; [lia |]). contradiction.
  - intros p H. unfold Pandas.final_date, dict_item.
    now rewrite (dict_get_not_key _ _ H).
  - cbn in H, H0.
    repeat (destruct H as [[= <- <-] | H]; [| try contradiction]);
      repeat (destruct H0 as [[= <- <-] | H0]; [reflexivity |]);
      contradiction.
  - cbn in H, H0.
    repeat (destruct H as [[= <- <-] | H]; [| try contradiction]);
      repeat (destruct H0 as [[= <- <-] | H0]; [vm_compute; reflexivity |]);
      contradiction.
  - intros p H. destruct (Duck.final_date p) as [d | e] eqn:E.
    + now apply duck_final_date_token in E.
    + unfold Duck.final_date, dict_item in E.
      destruct (dict_get _ _); [discriminate | now injection E as <-].
Qed.

(** The theorem at the leap-year February of the pandas pipeline. *)
Lemma resolve_extraction_range_witness :
  Pandas.final_date (mkperiod "2024" "Fev" "1") = Ok (mkdate 2024 2 15)
  /\ Pandas.final_date (mkperiod "2024" "Fev" "2")
     = Ok (mkdate 2024 2 (last_day_of_month 2024 2)).
Proof.
  destruct resolve_extraction_range_correct as [H _].
  apply (H "2024" 2024%Z "Fev" 2%Z); reflexivity.
Defined.

(** ** The schema catalog *)

Lemma existsb_eqb_In x (l : list string) :
  existsb (String.eqb x) l = true <-> In x l.
Proof.
  rewrite existsb_exists. split.
  - intros [y [Hy E]]. apply String.eqb_eq in E. now subst.
  - intros H. exists x. split; [assumption | apply String.eqb_refl].
Qed.

Lemma incl_by_check (l1 l2 : list string) :
  forallb (fun x => existsb (String.eqb x) l2) l1 = true -> incl l1 l2.
Proof.
  rewrite forallb_forall. intros H x Hx. now apply existsb_eqb_In, H.
Qed.

Lemma nodupb_NoDup l : nodupb l = true -> NoDup l.
Proof.
  induction l as [| x l IH]; cbn; [constructor |].
  intros H. apply andb_prop in H as [Hx Hl]. constructor; [| now apply IH].
  intros Hin. apply existsb_eqb_In in Hin. now rewrite Hin in Hx.
Qed.

Lemma catalogs_same_kinds :
  dict_keys Pandas.translated_columns = dict_keys Duck.table_attributes.
Proof. reflexivity. Qed.

Lemma catalogs_same_columns :
  map (fun e => (fst e, dict_keys (snd e))) Duck.table_attributes
  = Pandas.translated_columns.
Proof. reflexivity. Qed.

(** C5, as the code has it. The catalog registers exactly 15 table kinds, one
    for every sheet of the four categories (competitor 1, content 2,
    followers 6, visitors 6). The lookup of a registered kind returns its
    ordered entry of (column name, type) pairs, whose names are the pandas
    pipeline's column list for the kind; the lookup of any other kind fails
    ([AttributeError] in the DuckDB pipeline, [TypeError] when the pandas
    pipeline renames the columns). *)
Theorem schema_catalog_lookup :
  List.length Duck.table_attributes = 15%nat
  /\ NoDup (dict_keys Duck.table_attributes)
  /\ map (fun cs => (fst cs, List.length (snd cs))) Duck.category_keys
     = [("competitor", 1%nat); ("content", 2%nat); ("followers", 6%nat);
        ("visitors", 6%nat)]
  /\ (forall kind, In kind (dict_keys Duck.table_attributes)
                   <-> In kind kinds_of_categories)
  /\ (forall kind, In kind (dict_keys Duck.table_attributes) ->
        exists entry,
          Duck.schema_entry kind = Ok entry
          /\ In (kind, entry) Duck.table_attributes
          /\ entry <> []
          /\ NoDup (dict_keys entry)
          /\ dict_get kind Pandas.translated_columns = Some (dict_keys entry))
  /\ (forall kind, ~ In kind (dict_keys Duck.table_attributes) ->
        Duck.schema_entry kind = Raise AttributeError
        /\ forall t, Pandas.dataframe_name t = kind ->
                     Pandas.translate_cols t = Raise TypeError).
Proof.
  split; [reflexivity |].
  split; [apply nodupb_NoDup; vm_compute; reflexivity |].
  split; [reflexivity |].
  split; [| split].
  - intros kind. split; apply incl_by_check; vm_compute; reflexivity.
  - intros kind Hin. unfold Duck.schema_entry.
    destruct (dict_get kind Duck.table_attributes) as [entry |] eqn:E.
    + exists entry. split; [reflexivity |]. split; [now apply dict_get_In |].
      apply dict_get_In in E. cbn in E.
      repeat (destruct E as [[= <- <-] | E];
              [split; [discriminate |];
               split; [apply nodupb_NoDup; reflexivity | reflexivity] |]).
      contradiction.
    + exfalso. revert E. cbn in Hin.
      repeat (destruct Hin as [<- | Hin]; [discriminate |]). contradiction.
  - intros kind Hn. split.
    + unfold Duck.schema_entry. now rewrite (dict_get_not_key _ _ Hn).
    + intros t <-. unfold Pandas.translate_cols.
      rewrite <- catalogs_same_kinds in Hn.
      now rewrite (dict_get_not_key _ _ Hn).
Qed.

(** The lookup theorem at the kind [content_metrics], and the semantic
    types of a small entry. *)
Lemma schema_catalog_lookup_witness :
  (exists entry,
      Duck.schema_entry "content_metrics" = Ok entry
      /\ In ("content_metrics", entry) Duck.table_attributes
      /\ entry <> []
      /\ NoDup (dict_keys entry)
      /\ dict_get "content_metrics" Pandas.translated_columns
         = Some (dict_keys entry))
  /\ option_map semantic_entry (dict_get "competitor" Duck.table_attributes)
     = Some [ ("Page", Duck.SemText); ("Total Followers", Duck.SemInteger);
              ("New Followers", Duck.SemInteger);
              ("Total Post Engagements", Duck.SemFloat);
              ("Total Posts", Duck.SemInteger) ].
Proof.
  destruct schema_catalog_lookup as (_ & _ & _ & _ & H & _).
  split; [| reflexivity].
  apply (H "content_metrics"). cbn. tauto.
Defined.

(** C5 as stated fails: the catalog of either pipeline holds 15 kinds, the
    sum of the per-category counts, and not 16. *)
Lemma schema_catalog_not_16_kinds :
  ~ (List.length Duck.table_attributes = 16%nat)
  /\ ~ (List.length Pandas.translated_columns = 16%nat)
  /\ ~ (List.length kinds_of_categories = 16%nat).
Proof. repeat split; discriminate. Qed.

(** ** Dicts and the grouping loops *)

Lemma dict_get_set_same {V} k (v : V) d : dict_get k (dict_set k v d) = Some v.
Proof.
  induction d as [| [k' v'] d IH]; cbn.
  - now rewrite String.eqb_refl.
  - destruct (String.eqb_spec k k') as [-> | Hne]; cbn.
    + now rewrite String.eqb_refl.
    + destruct (String.eqb_spec k k'); [contradiction | assumption].
Qed.

Lemma dict_get_set_other {V} k k' (v : V) d :
  k <> k' -> dict_get k (dict_set k' v d) = dict_get k d.
Proof.
  intros Hne. induction d as [| [k2 v2] d IH]; cbn.
  - destruct (String.eqb_spec k k'); [contradiction | reflexivity].
  - destruct (String.eqb_spec k' k2) as [-> | Hne2]; cbn.
    + destruct (String.eqb_spec k k2); [contradiction | reflexivity].
    + destruct (String.eqb_spec k k2); [reflexivity | assumption].
Qed.

Lemma dict_set_Forall {V} (P : string * V -> Prop) k v (d : dict V) :
  Forall P d -> (forall k', P (k', v)) -> Forall P (dict_set k v d).
Proof.
  intros Hd Hv. induction Hd as [| [k' v'] d Hx Hd IH]; cbn.
  - constructor; [apply Hv | constructor].
  - destruct (String.eqb k k'); constructor; auto.
Qed.

Lemma dict_set_keys {V} k (v : V) d :
  In k (dict_keys d) -> dict_keys (dict_set k v d) = dict_keys d.
Proof.
  induction d as [| [k' v'] d IH]; cbn; [contradiction |].
  destruct (String.eqb_spec k k') as [-> | Hne]; [reflexivity |].
  intros [-> | H]; [contradiction |]. cbn. f_equal. now apply IH.
Qed.

Lemma dict_set_keys_eq {V} k (v : V) (d' d : dict V) :
  dict_keys d' = dict_keys d -> In k (dict_keys d) ->
  dict_keys (dict_set k v d') = dict_keys d.
Proof. intros E H. rewrite dict_set_keys; [assumption | now rewrite E]. Qed.

Section Grouping.

Context {A G : Type} (key : A -> string) (mk : A -> G) (add : A -> G -> G).

Lemma gstep_get k acc x :
  dict_get k (gstep key mk add acc x)
  = kstep key mk add k (dict_get k acc) x.
Proof.
  unfold gstep, kstep, dict_mem.
  destruct (String.eqb_spec k (key x)) as [-> | Hne].
  - destruct (dict_get (key x) acc) as [g |] eqn:E.
    + rewrite E. apply dict_get_set_same.
    + rewrite dict_get_set_same. apply dict_get_set_same.
  - destruct (dict_get (key x) acc) as [g |] eqn:E.
    + rewrite E. now apply dict_get_set_other.
    + rewrite dict_get_set_same. rewrite !dict_get_set_other by assumption.
      reflexivity.
Qed.

Lemma gfold_get k l acc :
  dict_get k (fold_left (gstep key mk add) l acc)
  = fold_left (kstep key mk add k) l (dict_get k acc).
Proof.
  revert acc. induction l as [| x l IH]; intros acc; cbn; [reflexivity |].
  rewrite IH. now rewrite gstep_get.
Qed.

Lemma gstep_Forall (P : string * G -> Prop) acc x :
  Forall P acc ->
  (forall k, P (k, mk x)) ->
  (forall k g, (forall k', P (k', g)) -> P (k, add x g)) ->
  (forall k k' g, P (k, g) -> P (k', g)) ->
  Forall P (gstep key mk add acc x).
Proof.
  intros Hacc Hmk Hadd Hk. unfold gstep, dict_mem.
  destruct (dict_get (key x) acc) as [g |] eqn:E.
  - rewrite E. apply dict_set_Forall; [assumption |].
    intros k'. apply Hadd. intros k2.
    apply dict_get_In in E. rewrite Forall_forall in Hacc.
    apply (Hk (key x)). now apply Hacc.
  - rewrite dict_get_set_same. apply dict_set_Forall.
    + apply dict_set_Forall; [assumption | apply Hmk].
    + intros k'. apply Hadd. apply Hmk.
Qed.

(** The groups hold, in order, the payload of the items of their key. *)
Context {P : Type} (payload : G -> list P) (item : A -> P).
Hypothesis payload_mk : forall x, payload (mk x) = [].
Hypothesis payload_add : forall x g, payload (add x g) = payload g ++ [item x].

Lemma kfold_payload k l og :
  match fold_left (kstep key mk add k) l og with
  | Some g' =>
      payload g'
      = match og with Some g => payload g | None => [] end
        ++ map item (filter (fun x => String.eqb k (key x)) l)
  | None => og = None /\ filter (fun x => String.eqb k (key x)) l = []
  end.
Proof.
  revert og. induction l as [| x l IH]; intros og; cbn.
  - destruct og; [now rewrite app_nil_r | split; reflexivity].
  - specialize (IH (kstep key mk add k og x)). unfold kstep in *.
    destruct (String.eqb k (key x)); cbn.
    + destruct (fold_left _ l _) as [g' |]; [| now destruct IH].
      rewrite IH, payload_add.
      destruct og; [now rewrite <- app_assoc | now rewrite payload_mk].
    + exact IH.
Qed.

Lemma kfold_absent k l og :
  filter (fun x => String.eqb k (key x)) l = [] ->
  fold_left (kstep key mk add k) l og = og.
Proof.
  revert og. induction l as [| x l IH]; intros og; cbn; [reflexivity |].
  unfold kstep at 2. destruct (String.eqb k (key x)); [discriminate |].
  apply IH.
Qed.

Lemma gfold_payload k l :
  match dict_get k (fold_left (gstep key mk add) l []) with
  | Some g' => payload g' = map item (filter (fun x => String.eqb k (key x)) l)
               /\ filter (fun x => String.eqb k (key x)) l <> []
  | None => filter (fun x => String.eqb k (key x)) l = []
  end.
Proof.
  rewrite gfold_get. cbn [dict_get].
  pose proof (kfold_payload k l None) as H.
  pose proof (kfold_absent k l None) as Habs.
  destruct (fold_left _ l None) as [g' |]; [| now destruct H].
  split; [exact H |]. intros E. now specialize (Habs E).
Qed.

End Grouping.

(** ** Rows of stacked frames *)

Lemma frame_rows_series f : frame_rows f = rows_of_series (map snd f) (nrows f).
Proof.
  unfold frame_rows, iterrows, rows_of_series, frame_row.
  rewrite map_map. apply map_ext. intros i. now rewrite !map_map.
Qed.

Lemma rectangular_lengths f :
  rectangular f = true ->
  Forall (fun s => List.length s = nrows f) (map snd f).
Proof.
  unfold rectangular. rewrite forallb_forall, Forall_forall.
  intros H s Hs. apply in_map_iff in Hs as [c [<- Hc]].
  now apply Nat.eqb_eq, H.
Qed.

Lemma lengths_rectangular f n :
  Forall (fun s => List.length s = n) (map snd f) -> rectangular f = true.
Proof.
  unfold rectangular. rewrite forallb_forall, Forall_forall. intros H c Hc.
  apply Nat.eqb_eq. rewrite (H (snd c)) by now apply in_map.
  destruct f as [| [c0 s0] f]; [contradiction |]. cbn.
  symmetry. apply H. now left.
Qed.

Lemma seq_map_shift {B} (g : nat -> B) a n :
  map g (seq a n) = map (fun j => g (a + j)) (seq 0 n).
Proof.
  revert g a. induction n as [| n IH]; intros g a; cbn; [reflexivity |].
  rewrite Nat.add_0_r. f_equal. rewrite <- !seq_shift, !map_map.
  rewrite (IH (fun j => g (S j)) a). apply map_ext. intros j. f_equal. lia.
Qed.

Lemma map_combine_left {X Y Z} (h : X * Y -> Z) (f : X -> Z) xs ys :
  List.length xs = List.length ys ->
  (forall x y, In x xs -> h (x, y) = f x) ->
  map h (combine xs ys) = map f xs.
Proof.
  revert ys. induction xs as [| x xs IH]; intros [| y ys] L H; cbn in *;
    try discriminate; [reflexivity |].
  f_equal; [apply H; now left |]. apply IH; [lia |]. intros. apply H. now right.
Qed.

Lemma map_combine_right {X Y Z} (h : X * Y -> Z) (f : Y -> Z) xs ys :
  List.length xs = List.length ys ->
  (forall x y, In x xs -> h (x, y) = f y) ->
  map h (combine xs ys) = map f ys.
Proof.
  revert ys. induction xs as [| x xs IH]; intros [| y ys] L H; cbn in *;
    try discriminate; [reflexivity |].
  f_equal; [apply H; now left |]. apply IH; [lia |]. intros. apply H. now right.
Qed.

(** Appending columns pairwise appends the rows. *)
Lemma rows_of_series_app ss ts na nb :
  List.length ss = List.length ts ->
  Forall (fun s => List.length s = na) ss ->
  rows_of_series (zip_app ss ts) (na + nb)
  = rows_of_series ss na ++ rows_of_series ts nb.
Proof.
  intros L Hss. rewrite Forall_forall in Hss.
  unfold rows_of_series, zip_app. rewrite seq_app, map_app. f_equal.
  - apply map_ext_in. intros i Hi. apply in_seq in Hi. rewrite map_map.
    apply map_combine_left; [assumption |]. intros s t Hs. cbn.
    apply app_nth1. rewrite (Hss s Hs). lia.
  - rewrite seq_map_shift. apply map_ext. intros j. rewrite map_map.
    apply map_combine_right; [assumption |]. intros s t Hs. cbn.
    rewrite app_nth2; rewrite (Hss s Hs); [f_equal; lia | lia].
Qed.

Lemma zip_app_lengths ss ts na nb :
  List.length ss = List.length ts ->
  Forall (fun s => List.length s = na) ss ->
  Forall (fun s => List.length s = nb) ts ->
  Forall (fun s => List.length s = (na + nb)%nat) (zip_app ss ts).
Proof.
  intros L Hs Ht. rewrite Forall_forall in *. intros u Hu.
  apply in_map_iff in Hu as [[s t] [<- Hin]]. cbn. rewrite length_app.
  pose proof (in_combine_l _ _ _ _ Hin). pose proof (in_combine_r _ _ _ _ Hin).
  rewrite (Hs s), (Ht t); auto.
Qed.

(** *** DuckDB's UNION ALL *)

Lemma union_all_series a b u :
  union_all a b = Ok u ->
  ncols a = ncols b
  /\ map snd u = zip_app (map snd a) (map snd b)
  /\ columns u = columns a.
Proof.
  unfold union_all. destruct (Nat.eqb_spec (ncols a) (ncols b)) as [E | _];
    [| discriminate].
  intros [= <-]. split; [assumption |]. unfold ncols in E.
  unfold zip_app, columns, dict_keys. rewrite !map_map. split.
  - revert b E. induction a as [| [n s] a IH]; intros [| [m t] b] E;
      cbn in *; try discriminate; [reflexivity |].
    f_equal. apply IH. lia.
  - revert b E. induction a as [| [n s] a IH]; intros [| [m t] b] E;
      cbn in *; try discriminate; [reflexivity |].
    f_equal. apply IH. lia.
Qed.

Lemma nrows_of_lengths f n :
  f <> [] -> Forall (fun s => List.length s = n) (map snd f) -> nrows f = n.
Proof.
  destruct f as [| [c s] f]; [contradiction |]. intros _ H. now inversion H.
Qed.

(** The union of two tables with as many columns holds the rows of the
    first, then the rows of the second. *)
Lemma union_all_rows a b :
  ncols a = ncols b -> rectangular a = true -> rectangular b = true ->
  exists u, union_all a b = Ok u
            /\ frame_rows u = frame_rows a ++ frame_rows b
            /\ nrows u = (nrows a + nrows b)%nat
            /\ columns u = columns a
            /\ rectangular u = true.
Proof.
  intros E Ha Hb. destruct (union_all a b) as [u | e] eqn:U.
  2:{ unfold union_all in U. rewrite E, Nat.eqb_refl in U. discriminate. }
  exists u. split; [reflexivity |].
  apply union_all_series in U as (_ & Hs & Hc).
  apply rectangular_lengths in Ha, Hb.
  assert (L : List.length (map snd a) = List.length (map snd b))
    by (now rewrite !length_map).
  pose proof (zip_app_lengths _ _ _ _ L Ha Hb) as Hu. rewrite <- Hs in Hu.
  assert (Hn : nrows u = (nrows a + nrows b)%nat).
  { destruct u as [| cu u].
    - destruct a as [| ca a]; [| discriminate Hc].
      destruct b as [| cb b]; [reflexivity | discriminate E].
    - apply nrows_of_lengths; [discriminate | assumption]. }
  repeat split; try assumption.
  - rewrite !frame_rows_series, Hn, Hs. now apply rows_of_series_app.
  - now apply lengths_rectangular in Hu.
Qed.

(** *** pandas' concat *)

Lemma dedup_from_seen seen r :
  (forall x, In x r -> In x seen) -> dedup_from seen r = [].
Proof.
  induction r as [| x r IH]; intros H; cbn; [reflexivity |].
  assert (Hx : existsb (String.eqb x) seen = true)
    by (apply existsb_eqb_In, H; now left).
  rewrite Hx. apply IH. intros y Hy. apply H. now right.
Qed.

Lemma dedup_from_fresh seen l r :
  NoDup l -> (forall x, In x l -> ~ In x seen) ->
  dedup_from seen (l ++ r) = l ++ dedup_from (rev l ++ seen) r.
Proof.
  revert seen. induction l as [| x l IH]; intros seen Hnd Hfresh; cbn;
    [reflexivity |].
  inversion Hnd as [| ? ? Hx Hl]; subst.
  destruct (existsb (String.eqb x) seen) eqn:E.
  - apply existsb_eqb_In in E. exfalso. apply (Hfresh x); [now left | exact E].
  - f_equal. rewrite IH; [now rewrite <- app_assoc | assumption |].
    intros y Hy [<- | Hs]; [contradiction |].
    apply (Hfresh y); [now right | assumption].
Qed.

Lemma columns_of_stack cs f fs :
  NoDup cs -> Forall (fun f => columns f = cs) (f :: fs) ->
  dedup_from [] (flat_map columns (f :: fs)) = cs.
Proof.
  intros Hnd Hall. inversion Hall as [| ? ? Hf Hfs]; subst. cbn [flat_map].
  rewrite dedup_from_fresh; [| assumption | intros x _ []].
  rewrite dedup_from_seen; [apply app_nil_r |].
  intros x Hx. apply in_flat_map in Hx as [g [Hg Hxg]].
  rewrite Forall_forall in Hfs. rewrite (Hfs g Hg) in Hxg.
  apply in_or_app. left. now apply in_rev in Hxg.
Qed.

Lemma dict_get_of_key {V} k (d : dict V) :
  In k (dict_keys d) -> exists v, dict_get k d = Some v.
Proof.
  induction d as [| [k' v'] d IH]; cbn; [contradiction |].
  intros H. destruct (String.eqb_spec k k') as [-> | Hne]; [now exists v' |].
  destruct H as [-> | H]; [contradiction | now apply IH].
Qed.

Lemma frame_as_columns f :
  NoDup (columns f) ->
  map (fun c => column_or_nulls c f) (columns f) = map snd f.
Proof.
  induction f as [| [c s] f IH]; intros Hnd; [reflexivity |].
  inversion Hnd as [| ? ? Hc Hf]; subst. cbn [columns dict_keys map fst snd].
  f_equal.
  - unfold column_or_nulls. cbn. now rewrite String.eqb_refl.
  - rewrite <- IH by assumption. apply map_ext_in. intros c' Hc'.
    unfold column_or_nulls. cbn [dict_get].
    destruct (String.eqb_spec c' c) as [-> | _]; [contradiction |].
    destruct (dict_get_of_key c' f Hc') as [s' ->]. reflexivity.
Qed.

Lemma zip_app_maps {X} (a b : X -> series) cs :
  zip_app (map a cs) (map b cs) = map (fun c => a c ++ b c) cs.
Proof.
  unfold zip_app. induction cs as [| c cs IH]; cbn; [reflexivity |].
  now rewrite IH.
Qed.

(** The stacked columns of frames of one shape hold their rows in order. *)
Lemma stack_rows cs fs :
  NoDup cs ->
  Forall (fun f => columns f = cs /\ rectangular f = true) fs ->
  let stacked := map (fun c => flat_map (column_or_nulls c) fs) cs in
  Forall (fun s => List.length s = list_sum (map nrows fs)) stacked
  /\ rows_of_series stacked (list_sum (map nrows fs))
     = flat_map frame_rows fs.
Proof.
  intros Hnd Hall. induction Hall as [| f fs [Hc Hr] Hall IH]; cbn zeta.
  - cbn. split; [| reflexivity].
    apply Forall_forall. intros s Hs. apply in_map_iff in Hs as [c [<- _]].
    reflexivity.
  - destruct IH as [IHlen IHrows]. cbn [flat_map map].
    change (list_sum (nrows f :: map nrows fs))
      with (nrows f + list_sum (map nrows fs))%nat.
    rewrite <- (zip_app_maps (fun c => column_or_nulls c f)
                             (fun c => flat_map (column_or_nulls c) fs)).
    assert (Ef : map (fun c => column_or_nulls c f) cs = map snd f)
      by (rewrite <- Hc; apply frame_as_columns; now rewrite Hc).
    rewrite Ef.
    pose proof (rectangular_lengths f Hr) as Hf.
    assert (L : List.length (map snd f)
                = List.length (map (fun c => flat_map (column_or_nulls c) fs) cs)).
    { rewrite <- Ef. now rewrite !length_map. }
    split.
    + now apply zip_app_lengths.
    + rewrite rows_of_series_app by assumption.
      rewrite frame_rows_series. f_equal. exact IHrows.
Qed.

(** [pd.concat] of frames of one shape: the rows of each, in list order. *)
Lemma pd_concat_rows cs fs :
  NoDup cs -> fs <> [] ->
  Forall (fun f => columns f = cs /\ rectangular f = true) fs ->
  exists F, pd_concat fs = Ok F
            /\ frame_rows F = flat_map frame_rows fs
            /\ nrows F = list_sum (map nrows fs)
            /\ columns F = cs
            /\ rectangular F = true.
Proof.
  intros Hnd Hne Hall. destruct fs as [| f fs]; [contradiction |].
  unfold pd_concat. eexists. split; [reflexivity |].
  rewrite columns_of_stack with (cs := cs);
    [| assumption | eapply Forall_impl; [| exact Hall]; now intros g [H _]].
  destruct (stack_rows cs (f :: fs) Hnd Hall) as [Hlen Hrows].
  cbn zeta in Hlen, Hrows.
  set (F := map (fun c => (c, flat_map (column_or_nulls c) (f :: fs))) cs).
  assert (Hs : map snd F
               = map (fun c => flat_map (column_or_nulls c) (f :: fs)) cs)
    by (unfold F; now rewrite map_map).
  assert (Hcols : columns F = cs).
  { unfold F, columns, dict_keys. rewrite map_map. cbn. apply map_id. }
  assert (Hn : nrows F = list_sum (map nrows (f :: fs))).
  { destruct cs as [| c cs].
    - cbn [F map nrows]. inversion Hall as [| ? ? [Hc _] Hfs]; subst.
      clear - Hc Hfs. cbn [map list_sum].
      assert (Hz : forall g, columns g = [] -> nrows g = 0%nat)
        by (intros [| [? ?] ?]; [reflexivity | discriminate]).
      rewrite (Hz f Hc). induction Hfs as [| g gs [Hg _] _ IH];
        [reflexivity |]. cbn in *. now rewrite (Hz g Hg).
    - apply nrows_of_lengths; [discriminate | now rewrite Hs]. }
  repeat split; try assumption.
  - now rewrite frame_rows_series, Hs, Hn.
  - apply lengths_rectangular with (n := list_sum (map nrows (f :: fs))).
    now rewrite Hs.
Qed.

(** ** Monthly and category aggregation *)

Lemma pd_concat_total f fs : exists c, pd_concat (f :: fs) = Ok c.
Proof. eexists. reflexivity. Qed.

Lemma dict_set_set {V} k (v v0 : V) d :
  dict_set k v (dict_set k v0 d) = dict_set k v d.
Proof.
  induction d as [| [k' v'] d IH]; cbn.
  - now rewrite String.eqb_refl.
  - destruct (String.eqb k k') eqn:E; cbn; rewrite E; [reflexivity |].
    now rewrite IH.
Qed.

(** Every group the loop leaves behind has received an item. *)
Lemma fold_gstep_Forall {A G} (key : A -> string) (mk : A -> G)
  (add : A -> G -> G) (P : string * G -> Prop) l acc :
  Forall P acc ->
  (forall x k g, P (k, add x g)) ->
  Forall P (fold_left (gstep key mk add) l acc).
Proof.
  intros Hacc Hadd. revert acc Hacc.
  induction l as [| x l IH]; intros acc Hacc; cbn; [assumption |].
  apply IH. unfold gstep, dict_mem.
  destruct (dict_get (key x) acc) as [g |] eqn:E.
  - rewrite E. apply dict_set_Forall; [assumption | intros; apply Hadd].
  - rewrite dict_get_set_same, dict_set_set.
    apply dict_set_Forall; [assumption | intros; apply Hadd].
Qed.

Lemma pandas_groups_total (d : dict Pandas.group) :
  Forall (fun kg => Pandas.dfs (snd kg) <> []) d ->
  exists r, mapM Pandas.concat_group d = Ok r.
Proof.
  induction 1 as [| [k g] d Hg Hd [r IH]]; cbn; [now eexists |].
  unfold Pandas.concat_group at 1. cbn [fst snd] in *.
  destruct (Pandas.dfs g) as [| f fs]; [contradiction |].
  cbn [pd_concat bind]. rewrite IH. cbn. now eexists.
Qed.

Lemma pandas_groups_get (d : dict Pandas.group) r k g :
  mapM Pandas.concat_group d = Ok r -> dict_get k d = Some g ->
  exists c, pd_concat (Pandas.dfs g) = Ok c
            /\ dict_get k r
               = Some (Pandas.mkcgroup (Pandas.category g)
                         (Pandas.export_dir g) (Pandas.dfs g) c).
Proof.
  revert r. induction d as [| [k' g'] d IH]; intros r; cbn; [discriminate |].
  unfold Pandas.concat_group at 1. cbn [fst snd].
  destruct (pd_concat (Pandas.dfs g')) as [c' |] eqn:Ec; [| discriminate].
  cbn [bind]. destruct (mapM Pandas.concat_group d) as [r' |] eqn:Er;
    [| discriminate].
  cbn. intros [= <-]. cbn [dict_get].
  destruct (String.eqb k k'); [intros [= <-]; now exists c' |].
  now apply IH.
Qed.

(** The monthly groups of the pandas pipeline: each holds the frames of the
    tables of its key, in the order of [data]. *)
Lemma pandas_month_groups data k :
  match dict_get k (fold_left Pandas.group_month data []) with
  | Some g =>
      Pandas.dfs g
      = map Pandas.df
            (filter (fun t => String.eqb k (Pandas.tag_month t)) data)
      /\ filter (fun t => String.eqb k (Pandas.tag_month t)) data <> []
  | None => filter (fun t => String.eqb k (Pandas.tag_month t)) data = []
  end.
Proof.
  exact (gfold_payload Pandas.tag_month
           (fun t => Pandas.mkgroup (Pandas.dataframe_name t)
                                    ("clean" :: Pandas.dir t) [])
           (fun t g => Pandas.mkgroup (Pandas.category g) (Pandas.export_dir g)
                                      (Pandas.dfs g ++ [Pandas.df t]))
           Pandas.dfs Pandas.df (fun _ => eq_refl) (fun _ _ => eq_refl)
           k data).
Qed.

Lemma pandas_month_total data :
  exists r, Pandas.concatenate_monthly_dataframes data = Ok r.
Proof.
  apply pandas_groups_total.
  apply (fold_gstep_Forall Pandas.tag_month
           (fun t => Pandas.mkgroup (Pandas.dataframe_name t)
                                    ("clean" :: Pandas.dir t) [])
           (fun t g => Pandas.mkgroup (Pandas.category g) (Pandas.export_dir g)
                                      (Pandas.dfs g ++ [Pandas.df t]))
           (fun kg => Pandas.dfs (snd kg) <> [])).
  - constructor.
  - intros x k g. cbn. now destruct (Pandas.dfs g).
Qed.

(** The monthly table of a key, in the pandas pipeline. *)
Lemma pandas_month_table data k t ts :
  filter (fun t => String.eqb k (Pandas.tag_month t)) data = t :: ts ->
  exists r g,
    Pandas.concatenate_monthly_dataframes data = Ok r
    /\ dict_get k r = Some g
    /\ pd_concat (map Pandas.df (t :: ts)) = Ok (Pandas.concatenated_df g).
Proof.
  intros Hk. destruct (pandas_month_total data) as [r Hr]. exists r.
  pose proof (pandas_month_groups data k) as Hg.
  destruct (dict_get k (fold_left Pandas.group_month data [])) as [g |] eqn:E;
    [| rewrite Hk in Hg; discriminate].
  destruct Hg as [Hdfs _]. rewrite Hk in Hdfs.
  destruct (pandas_groups_get _ _ _ _ Hr E) as [c [Hc Hget]].
  eexists. split; [assumption |]. split; [exact Hget |]. cbn.
  now rewrite Hdfs in Hc.
Qed.

(** The monthly groups of the DuckDB pipeline: each holds the names of the
    tables of its key, in the order of the list. *)
Lemma duck_month_groups ts k :
  match dict_get k (fold_left Duck.group_month ts []) with
  | Some g =>
      Duck.tables g
      = map Duck.db_table_name
            (filter (fun t => String.eqb k (Duck.category_year_month t)) ts)
      /\ filter (fun t => String.eqb k (Duck.category_year_month t)) ts <> []
  | None =>
      filter (fun t => String.eqb k (Duck.category_year_month t)) ts = []
  end.
Proof.
  exact (gfold_payload Duck.category_year_month
           (fun t => Duck.mkgroup (Duck.dataframe_name t) (Duck.export_dir t) [])
           (fun t g => Duck.mkgroup (Duck.category g) (Duck.g_export_dir g)
                         (Duck.tables g ++ [Duck.db_table_name t]))
           Duck.tables Duck.db_table_name (fun _ => eq_refl)
           (fun _ _ => eq_refl) k ts).
Qed.

(** ** The monthly step of the DuckDB pipeline as a whole *)

Lemma sql_table_set_same k u (con : db) : sql_table k (dict_set k u con) = Ok u.
Proof. unfold sql_table. now rewrite dict_get_set_same. Qed.

Lemma sql_table_set_other n k u (con : db) :
  n <> k -> sql_table n (dict_set k u con) = sql_table n con.
Proof. intros H. unfold sql_table. now rewrite dict_get_set_other. Qed.

Lemma union_month_ok con k g t1 t2 rest a b u :
  Duck.tables g = t1 :: t2 :: rest ->
  sql_table t1 con = Ok a -> sql_table t2 con = Ok b -> union_all a b = Ok u ->
  Duck.union_month con (k, g) = Ok (dict_set k u con).
Proof.
  intros Ht Ha Hb Hu. unfold Duck.union_month. cbn [fst snd]. rewrite Ht.
  cbn [list_item nth_error bind]. rewrite Ha, Hb. cbn [bind].
  now rewrite Hu.
Qed.

(** The second loop of [concatenate_monthly_tables]: every group gets the
    union of its first two tables as they were before the loop, and no
    other table changes. *)
Lemma duck_month_loop (groups : dict Duck.group) : forall con,
  NoDup (dict_keys groups) ->
  (forall kg, In kg groups ->
     exists t1 t2 rest a b,
       Duck.tables (snd kg) = t1 :: t2 :: rest
       /\ ~ In t1 (dict_keys groups) /\ ~ In t2 (dict_keys groups)
       /\ sql_table t1 con = Ok a /\ sql_table t2 con = Ok b
       /\ ncols a = ncols b) ->
  exists con',
    foldM Duck.union_month groups con = Ok con'
    /\ (forall n, ~ In n (dict_keys groups) ->
                  sql_table n con' = sql_table n con)
    /\ (forall kg, In kg groups ->
          exists t1 t2 rest a b u,
            Duck.tables (snd kg) = t1 :: t2 :: rest
            /\ sql_table t1 con = Ok a /\ sql_table t2 con = Ok b
            /\ union_all a b = Ok u
            /\ sql_table (fst kg) con' = Ok u).
Proof.
  induction groups as [| [k g] groups IH]; intros con Hnd Hall.
  - exists con. cbn [foldM]. split; [reflexivity |].
    split; [reflexivity | intros kg []].
  - inversion Hnd as [| ? ? Hk Hnd']; subst.
    destruct (Hall (k, g) (or_introl eq_refl))
      as (t1 & t2 & rest & a & b & Ht & F1 & F2 & Ha & Hb & Hw).
    assert (Hu : exists u, union_all a b = Ok u).
    { unfold union_all. rewrite Hw, Nat.eqb_refl. now eexists. }
    destruct Hu as [u Hu].
    pose proof (union_month_ok con k g t1 t2 rest a b u Ht Ha Hb Hu) as Hstep.
    destruct (IH (dict_set k u con) Hnd') as (con' & Hfold & Hkeep & Hgroups).
    { intros kg Hin.
      destruct (Hall kg (or_intror Hin))
        as (s1 & s2 & rest' & a' & b' & Hs & G1 & G2 & Ha' & Hb' & Hw').
      exists s1, s2, rest', a', b'. split; [assumption |].
      cbn [dict_keys map fst] in G1, G2.
      split; [intros H; apply G1; now right |].
      split; [intros H; apply G2; now right |].
      rewrite !sql_table_set_other; [auto | |];
        intros ->; [apply G2 | apply G1]; now left. }
    exists con'. cbn [foldM]. rewrite Hstep. cbn [bind].
    split; [assumption |]. split.
    + intros n Hn. cbn [dict_keys map fst] in Hn.
      rewrite Hkeep by (intros H; apply Hn; now right).
      apply sql_table_set_other. intros ->. apply Hn. now left.
    + intros kg [<- | Hin].
      * exists t1, t2, rest, a, b, u. repeat (split; [assumption |]).
        cbn [fst]. rewrite Hkeep by assumption. apply sql_table_set_same.
      * destruct (Hgroups kg Hin)
          as (s1 & s2 & rest' & a' & b' & u' & Hs & Ha' & Hb' & Hu' & Hk').
        destruct (Hall kg (or_intror Hin))
          as (r1 & r2 & rest'' & _ & _ & Hr & G1 & G2 & _).
        rewrite Hs in Hr. injection Hr as <- <- <-.
        exists s1, s2, rest', a', b', u'. split; [assumption |].
        cbn [dict_keys map fst] in G1, G2.
        rewrite sql_table_set_other in Ha'
          by (intros ->; apply G1; now left).
        rewrite sql_table_set_other in Hb'
          by (intros ->; apply G2; now left).
        repeat split; assumption.
Qed.

Lemma dict_In_get {V} k (v : V) (d : dict V) :
  NoDup (dict_keys d) -> In (k, v) d -> dict_get k d = Some v.
Proof.
  induction d as [| [k' v'] d IH]; cbn; [contradiction |].
  intros Hnd [[= -> ->] | Hin]; [now rewrite String.eqb_refl |].
  inversion Hnd as [| ? ? Hk Hd]; subst.
  destruct (String.eqb_spec k k') as [-> | _]; [| now apply IH].
  exfalso. apply Hk. now apply (in_map fst) in Hin.
Qed.

Lemma dict_mem_key {V} k (d : dict V) :
  dict_mem k d = true <-> In k (dict_keys d).
Proof.
  unfold dict_mem. split.
  - destruct (dict_get k d) eqn:E; [intros _ | discriminate].
    now apply dict_get_key in E.
  - intros H. now destruct (dict_get_of_key k d H) as [v ->].
Qed.

Lemma dict_set_keys_new {V} k (v : V) (d : dict V) :
  ~ In k (dict_keys d) -> dict_keys (dict_set k v d) = dict_keys d ++ [k].
Proof.
  induction d as [| [k' v'] d IH]; cbn; [reflexivity |].
  intros H. destruct (String.eqb_spec k k') as [-> | _].
  - exfalso. apply H. now left.
  - cbn. f_equal. apply IH. intros Hin. apply H. now right.
Qed.

(** The keys of the groups are distinct, as those of a dict are. *)
Lemma gfold_NoDup {A G} (key : A -> string) (mk : A -> G) (add : A -> G -> G)
  l : forall acc,
  NoDup (dict_keys acc) ->
  NoDup (dict_keys (fold_left (gstep key mk add) l acc)).
Proof.
  induction l as [| x l IH]; intros acc Hnd; cbn; [assumption |].
  apply IH. unfold gstep.
  destruct (dict_mem (key x) acc) eqn:M.
  - apply dict_mem_key in M. destruct (dict_get_of_key _ _ M) as [g ->].
    now rewrite dict_set_keys.
  - assert (Hn : ~ In (key x) (dict_keys acc)).
    { intros H. apply dict_mem_key in H. congruence. }
    rewrite dict_get_set_same, dict_set_set, dict_set_keys_new by assumption.
    apply NoDup_app; [assumption | repeat constructor; intros [] |].
    intros y Hy [<- | []]. contradiction.
Qed.

Lemma duck_month_ready_parts ts con t :
  duck_month_ready ts con = true -> In t ts ->
  (forall t', In t' ts ->
              Duck.db_table_name t <> Duck.category_year_month t')
  /\ (2 <= List.length (filter (same_month t) ts))%nat
  /\ exists a,
       sql_table (Duck.db_table_name t) con = Ok a
       /\ forall t', In t' ts -> same_month t t' = true ->
            exists b, sql_table (Duck.db_table_name t') con = Ok b
                      /\ ncols a = ncols b.
Proof.
  unfold duck_month_ready. rewrite forallb_forall. intros H Hin.
  specialize (H t Hin). apply andb_prop in H as [H Hw].
  apply andb_prop in H as [Hnames Hlen]. split; [| split].
  - rewrite forallb_forall in Hnames. intros t' Ht' E.
    specialize (Hnames t' Ht'). rewrite E, String.eqb_refl in Hnames.
    discriminate.
  - now apply Nat.leb_le.
  - unfold width_in, sql_table in *.
    destruct (dict_get (Duck.db_table_name t) con) as [a |]; [| discriminate].
    exists a. split; [reflexivity |]. cbn in Hw.
    rewrite forallb_forall in Hw. intros t' Ht' Hs.
    specialize (Hw t' Ht'). rewrite Hs in Hw. cbn in Hw.
    destruct (dict_get (Duck.db_table_name t') con) as [b |]; [| discriminate].
    exists b. split; [reflexivity |]. now apply Nat.eqb_eq.
Qed.

(** [concatenate_monthly_tables] as a whole: it returns, and the table of
    every key is the union of the first two tables of the key. *)
Lemma duck_month_whole ts con :
  duck_month_ready ts con = true ->
  exists con',
    Duck.concatenate_monthly_tables ts con
    = Ok (fold_left Duck.group_month ts [], con')
    /\ forall k t1 t2 rest a b,
         filter (fun t => String.eqb k (Duck.category_year_month t)) ts
         = t1 :: t2 :: rest ->
         sql_table (Duck.db_table_name t1) con = Ok a ->
         sql_table (Duck.db_table_name t2) con = Ok b ->
         exists u, union_all a b = Ok u /\ sql_table k con' = Ok u.
Proof.
  intros Hready. set (groups := fold_left Duck.group_month ts []).
  assert (Hnd : NoDup (dict_keys groups)).
  { apply (gfold_NoDup Duck.category_year_month
             (fun t => Duck.mkgroup (Duck.dataframe_name t) (Duck.export_dir t) [])
             (fun t g => Duck.mkgroup (Duck.category g) (Duck.g_export_dir g)
                           (Duck.tables g ++ [Duck.db_table_name t]))).
    constructor. }
  assert (Hkey : forall k, In k (dict_keys groups) ->
                           exists t, In t ts /\ Duck.category_year_month t = k).
  { intros k Hk. destruct (dict_get_of_key k groups Hk) as [g Hg].
    pose proof (duck_month_groups ts k) as Hm. fold groups in Hm.
    rewrite Hg in Hm. destruct Hm as [_ Hne].
    destruct (filter _ ts) as [| t l] eqn:F; [contradiction |].
    assert (Hin : In t (filter (fun t => String.eqb k
                                  (Duck.category_year_month t)) ts))
      by (rewrite F; now left).
    apply filter_In in Hin as [Hin E]. apply String.eqb_eq in E.
    now exists t. }
  destruct (duck_month_loop groups con Hnd) as (con' & Hfold & _ & Hgroups).
  { intros [k g] Hin. cbn [snd].
    pose proof (dict_In_get k g groups Hnd Hin) as Hg.
    pose proof (duck_month_groups ts k) as Hm. fold groups in Hm.
    rewrite Hg in Hm. destruct Hm as [Ht Hne].
    destruct (filter _ ts) as [| t1 l] eqn:F; [contradiction |].
    assert (Hin1 : In t1 (filter (fun t => String.eqb k
                                   (Duck.category_year_month t)) ts))
      by (rewrite F; now left).
    apply filter_In in Hin1 as [Hin1 E1]. apply String.eqb_eq in E1.
    destruct (duck_month_ready_parts ts con t1 Hready Hin1)
      as (Hn1 & Hlen & a & Ha & Hsame).
    unfold same_month in Hlen. rewrite <- E1, F in Hlen.
    destruct l as [| t2 rest]; [cbn in Hlen; lia |].
    assert (Hin2 : In t2 (filter (fun t => String.eqb k
                                   (Duck.category_year_month t)) ts))
      by (rewrite F; right; now left).
    apply filter_In in Hin2 as [Hin2 E2].
    destruct (Hsame t2 Hin2) as (b & Hb & Hw);
      [unfold same_month; now rewrite <- E1 |].
    destruct (duck_month_ready_parts ts con t2 Hready Hin2) as (Hn2 & _).
    exists (Duck.db_table_name t1), (Duck.db_table_name t2),
      (map Duck.db_table_name rest), a, b.
    split; [exact Ht |].
    split; [intros H; destruct (Hkey _ H) as (t' & Ht' & E');
            now apply (Hn1 t' Ht') |].
    split; [intros H; destruct (Hkey _ H) as (t' & Ht' & E');
            now apply (Hn2 t' Ht') |].
    repeat split; assumption. }
  exists con'. unfold Duck.concatenate_monthly_tables. fold groups.
  rewrite Hfold. split; [reflexivity |].
  intros k t1 t2 rest a b F Ha Hb.
  pose proof (duck_month_groups ts k) as Hm. fold groups in Hm.
  destruct (dict_get k groups) as [g |] eqn:Hg;
    [| rewrite F in Hm; discriminate].
  destruct Hm as [Ht _]. rewrite F in Ht. cbn [map] in Ht.
  destruct (Hgroups (k, g) (dict_get_In _ _ _ Hg))
    as (s1 & s2 & rest' & a' & b' & u & Hs & Ha' & Hb' & Hu & Hk).
  cbn [fst snd] in *. rewrite Ht in Hs. injection Hs as <- <- _.
  rewrite Ha in Ha'. rewrite Hb in Hb'. injection Ha' as <-.
  injection Hb' as <-. now exists u.
Qed.

(** The category groups of the pandas pipeline: each holds the monthly
    frames of its kind, in the order of the monthly dict. *)
Lemma pandas_category_groups (data : dict Pandas.cgroup) c :
  match dict_get c (fold_left Pandas.group_category data []) with
  | Some g =>
      Pandas.dfs g
      = map (fun kg => Pandas.concatenated_df (snd kg))
            (filter (fun kg => String.eqb c (Pandas.cg_category (snd kg))) data)
      /\ filter (fun kg => String.eqb c (Pandas.cg_category (snd kg))) data
         <> []
  | None =>
      filter (fun kg => String.eqb c (Pandas.cg_category (snd kg))) data = []
  end.
Proof.
  exact (gfold_payload
           (fun kg : string * Pandas.cgroup => Pandas.cg_category (snd kg))
           (fun kg => Pandas.mkgroup (Pandas.cg_category (snd kg))
                        ["clean"; "concatenated_dataframes"] [])
           (fun kg g => Pandas.mkgroup (Pandas.category g) (Pandas.export_dir g)
                          (Pandas.dfs g ++ [Pandas.concatenated_df (snd kg)]))
           Pandas.dfs (fun kg => Pandas.concatenated_df (snd kg))
           (fun _ => eq_refl) (fun _ _ => eq_refl) c data).
Qed.

Lemma pandas_category_total (data : dict Pandas.cgroup) :
  exists r, Pandas.concatenate_category_dataframes data = Ok r.
Proof.
  apply pandas_groups_total.
  apply (fold_gstep_Forall
           (fun kg : string * Pandas.cgroup => Pandas.cg_category (snd kg))
           (fun kg => Pandas.mkgroup (Pandas.cg_category (snd kg))
                        ["clean"; "concatenated_dataframes"] [])
           (fun kg g => Pandas.mkgroup (Pandas.category g) (Pandas.export_dir g)
                          (Pandas.dfs g ++ [Pandas.concatenated_df (snd kg)]))
           (fun kg => Pandas.dfs (snd kg) <> [])).
  - constructor.
  - intros x k g. cbn. now destruct (Pandas.dfs g).
Qed.

(** The category groups of the DuckDB pipeline: each holds the names of the
    monthly tables of its kind, in the order of the monthly dict. *)
Lemma duck_category_groups cat_dir (monthly_data : dict Duck.group) c :
  match dict_get c (fold_left (Duck.group_category cat_dir) monthly_data [])
  with
  | Some g =>
      Duck.tables g
      = map fst (filter (fun kg => String.eqb c (Duck.category (snd kg)))
                        monthly_data)
      /\ filter (fun kg => String.eqb c (Duck.category (snd kg))) monthly_data
         <> []
  | None =>
      filter (fun kg => String.eqb c (Duck.category (snd kg))) monthly_data
      = []
  end.
Proof.
  exact (gfold_payload
           (fun kg : string * Duck.group => Duck.category (snd kg))
           (fun kg => Duck.mkgroup (Duck.category (snd kg))
                        (cat_dir (Duck.g_export_dir (snd kg))) [])
           (fun kg g => Duck.mkgroup (Duck.category g) (Duck.g_export_dir g)
                          (Duck.tables g ++ [fst kg]))
           Duck.tables fst (fun _ => eq_refl) (fun _ _ => eq_refl)
           c monthly_data).
Qed.

(** A chain of UNION ALL over tables of one width holds their rows in the
    order of the chain. *)
Lemma union_all_from_rows con names : forall acc frames,
  Forall2 (fun n f => sql_table n con = Ok f) names frames ->
  rectangular acc = true ->
  Forall (fun f => ncols f = ncols acc /\ rectangular f = true) frames ->
  exists u, Duck.union_all_from con acc names = Ok u
            /\ frame_rows u = frame_rows acc ++ flat_map frame_rows frames
            /\ nrows u = (nrows acc + list_sum (map nrows frames))%nat.
Proof.
  induction names as [| n names IH]; intros acc frames H2 Racc Hall.
  - inversion H2; subst. exists acc. cbn. now rewrite app_nil_r, Nat.add_0_r.
  - inversion H2 as [| ? f ? frames' Hn H2']; subst.
    inversion Hall as [| ? ? [Hw Rf] Hall']; subst.
    destruct (union_all_rows acc f (eq_sym Hw) Racc Rf)
      as (u & Hu & Hrows & Hnr & Hc & Ru).
    assert (Hwu : ncols u = ncols acc).
    { unfold ncols. unfold columns, dict_keys in Hc.
      now rewrite <- (length_map fst u), Hc, length_map. }
    destruct (IH u frames' H2' Ru) as (v & Hv & Hvrows & Hvn).
    { eapply Forall_impl; [| exact Hall']. intros g [Hg Rg].
      split; [now rewrite Hwu | assumption]. }
    exists v. cbn [Duck.union_all_from]. rewrite Hn. cbn [bind].
    rewrite Hu. cbn [bind]. split; [assumption |].
    cbn [flat_map map]. change (list_sum (nrows f :: map nrows frames'))
      with (nrows f + list_sum (map nrows frames'))%nat.
    rewrite Hvrows, Hvn, Hrows, Hnr. split; [now rewrite app_assoc | lia].
Qed.

(** C7, as the code has it. Category aggregation concatenates the rows of the
    monthly tables of a kind in the order in which the monthly tables were
    formed, that is the order in which their keys first appear in the
    discovery listing (no step sorts by year and month); the row count is the
    sum of the monthly row counts. In the pandas pipeline this is the frame of
    the category group, in the DuckDB pipeline the table the chain of UNION
    ALL creates under the kind's name. *)
Theorem category_aggregation_listing_order :
  (forall (data : dict Pandas.cgroup) c m ms cs,
      filter (fun kg => String.eqb c (Pandas.cg_category (snd kg))) data
      = m :: ms ->
      NoDup cs ->
      Forall (fun kg => columns (Pandas.concatenated_df (snd kg)) = cs
                        /\ rectangular (Pandas.concatenated_df (snd kg)) = true)
             (m :: ms) ->
      exists r g,
        Pandas.concatenate_category_dataframes data = Ok r
        /\ dict_get c r = Some g
        /\ frame_rows (Pandas.concatenated_df g)
           = flat_map (fun kg => frame_rows (Pandas.concatenated_df (snd kg)))
                      (m :: ms)
        /\ nrows (Pandas.concatenated_df g)
           = list_sum (map (fun kg => nrows (Pandas.concatenated_df (snd kg)))
                           (m :: ms)))
  /\ (forall cat_dir (monthly_data : dict Duck.group) con c m ms f fs,
         filter (fun kg => String.eqb c (Duck.category (snd kg))) monthly_data
         = m :: ms ->
         Forall2 (fun kg fr => sql_table (fst kg) con = Ok fr)
                 (m :: ms) (f :: fs) ->
         Forall (fun g => ncols g = ncols f /\ rectangular g = true)
                (f :: fs) ->
         exists g u,
           dict_get c (fold_left (Duck.group_category cat_dir) monthly_data [])
           = Some g
           /\ Duck.union_category con (c, g) = Ok (dict_set c u con)
           /\ frame_rows u = flat_map frame_rows (f :: fs)
           /\ nrows u = list_sum (map nrows (f :: fs))).
Proof.
  split.
  - intros data c m ms cs Hk Hnd Hall.
    destruct (pandas_category_total data) as [r Hr]. exists r.
    pose proof (pandas_category_groups data c) as Hg.
    destruct (dict_get c (fold_left Pandas.group_category data []))
      as [g |] eqn:E; [| rewrite Hk in Hg; discriminate].
    destruct Hg as [Hdfs _]. rewrite Hk in Hdfs.
    destruct (pandas_groups_get _ _ _ _ Hr E) as [F [HF Hget]].
    eexists. split; [assumption |]. split; [exact Hget |]. cbn.
    rewrite Hdfs in HF.
    destruct (pd_concat_rows cs
                (map (fun kg => Pandas.concatenated_df (snd kg)) (m :: ms)) Hnd)
      as (F' & HF' & Hrows & Hn & _); [discriminate | |].
    + rewrite Forall_map. exact Hall.
    + rewrite HF' in HF. injection HF as <-.
      rewrite flat_map_concat_map, map_map, <- flat_map_concat_map in Hrows.
      rewrite map_map in Hn. split; assumption.
  - intros cat_dir monthly_data con c m ms f fs Hk H2 Hall.
    pose proof (duck_category_groups cat_dir monthly_data c) as Hg.
    destruct (dict_get c (fold_left (Duck.group_category cat_dir)
                                    monthly_data []))
      as [g |]; [| rewrite Hk in Hg; discriminate].
    destruct Hg as [Ht _]. rewrite Hk in Ht. cbn [map] in Ht.
    inversion H2 as [| ? ? ? ? Hm H2']; subst.
    inversion Hall as [| ? ? [_ Rf] Hall']; subst.
    destruct (union_all_from_rows con (map fst ms) f fs)
      as (u & Hu & Hrows & Hn); [| assumption | assumption |].
    + clear - H2'. induction H2'; constructor; auto.
    + exists g, u. split; [reflexivity |].
      unfold Duck.union_category. cbn [fst snd]. rewrite Ht, Hm. cbn [bind].
      rewrite Hu. cbn [bind]. repeat split; assumption.
Qed.

(** The theorem on the monthly tables of February and January, listed in
    that order. *)
Lemma category_aggregation_witness :
  (exists r g,
      Pandas.concatenate_category_dataframes two_months_monthly = Ok r
      /\ dict_get "followers_location" r = Some g
      /\ frame_rows (Pandas.concatenated_df g)
         = (frame_rows feb_first_half ++ frame_rows feb_second_half)
           ++ (frame_rows jan_first_half ++ frame_rows jan_second_half)
      /\ nrows (Pandas.concatenated_df g) = (5 + 12)%nat)
  /\ (exists g u,
         dict_get "followers_location"
           (fold_left (Duck.group_category (fun d => d))
                      (fst two_months_monthly_duck) []) = Some g
         /\ Duck.union_category (snd two_months_monthly_duck)
                                ("followers_location", g)
            = Ok (dict_set "followers_location" u
                           (snd two_months_monthly_duck))
         /\ frame_rows u
            = (frame_rows feb_first_half ++ frame_rows feb_second_half)
              ++ (frame_rows jan_first_half ++ frame_rows jan_second_half)
         /\ nrows u = (5 + 12)%nat).
Proof.
  pose proof category_aggregation_listing_order as [HP HD]. split.
  - let l := eval vm_compute in
        (filter (fun kg => String.eqb "followers_location"
                             (Pandas.cg_category (snd kg)))
                two_months_monthly) in
    match l with
    | ?m :: ?ms =>
        destruct (HP two_months_monthly "followers_location" m ms
                     location_columns) as (r & g & Hr & Hg & Hrows & Hn)
    end.
    + vm_compute. reflexivity.
    + apply nodupb_NoDup. reflexivity.
    + repeat constructor.
    + exists r, g. split; [assumption |]. split; [assumption |].
      split; [rewrite Hrows | rewrite Hn]; vm_compute; reflexivity.
  - let l := eval vm_compute in
        (filter (fun kg => String.eqb "followers_location"
                             (Duck.category (snd kg)))
                (fst two_months_monthly_duck)) in
    let fs := eval vm_compute in
        (mapM (fun kg => sql_table (fst kg) (snd two_months_monthly_duck)) l) in
    match constr:((l, fs)) with
    | (?m :: ?ms, Ok (?f :: ?fs')) =>
        destruct (HD (fun d : string => d) (fst two_months_monthly_duck)
                     (snd two_months_monthly_duck) "followers_location" m ms
                     f fs')
          as (g & u & Hg & Hu & Hrows & Hn)
    end.
    + vm_compute. reflexivity.
    + constructor; [vm_compute; reflexivity |].
      constructor; [vm_compute; reflexivity | constructor].
    + repeat constructor.
    + exists g, u. split; [assumption |]. split; [assumption |].
      split; [rewrite Hrows | rewrite Hn]; vm_compute; reflexivity.
Defined.

(** C7 as stated fails. With the month directories listed February first (as
    an alphabetical listing does), both pipelines put the rows of February
    before those of January: the category table is not in (year, month)
    order and its Extraction Range goes back in time. *)
Lemma category_aggregation_not_chronological :
  (exists r g,
      pandas_aggregate two_months_data = Ok r
      /\ dict_get "followers_location" r = Some g
      /\ frame_rows (Pandas.concatenated_df g)
         = (frame_rows feb_first_half ++ frame_rows feb_second_half)
           ++ (frame_rows jan_first_half ++ frame_rows jan_second_half)
      /\ frame_rows (Pandas.concatenated_df g)
         <> (frame_rows jan_first_half ++ frame_rows jan_second_half)
            ++ (frame_rows feb_first_half ++ frame_rows feb_second_half)
      /\ chronological (column_or_nulls "Extraction Range"
                                        (Pandas.concatenated_df g)) = false)
  /\ (exists md con u,
         duck_aggregate two_months_tables two_months_con = Ok (md, con)
         /\ sql_table "followers_location" con = Ok u
         /\ frame_rows u
            = (frame_rows feb_first_half ++ frame_rows feb_second_half)
              ++ (frame_rows jan_first_half ++ frame_rows jan_second_half)
         /\ frame_rows u
            <> (frame_rows jan_first_half ++ frame_rows jan_second_half)
               ++ (frame_rows feb_first_half ++ frame_rows feb_second_half)
         /\ chronological (column_or_nulls "Extraction Range" u) = false).
Proof.
  split.
  - eexists. eexists. split; [vm_compute; reflexivity |].
    split; [vm_compute; reflexivity |].
    split; [vm_compute; reflexivity |].
    split; [| vm_compute; reflexivity].
    intros H. vm_compute in H. discriminate H.
  - eexists. eexists. eexists. split; [vm_compute; reflexivity |].
    split; [vm_compute; reflexivity |].
    split; [vm_compute; reflexivity |].
    split; [| vm_compute; reflexivity].
    intros H. vm_compute in H. discriminate H.
Qed.

(** ** Unions over different schemas, and incomplete months *)

Lemma foldM_raise {A S} (f : S -> A -> result S) x l :
  In x l -> (forall s, exists e, f s x = Raise e) ->
  forall s, exists e, foldM f l s = Raise e.
Proof.
  intros Hin Hx. induction l as [| y l IH]; [contradiction |].
  intros s. cbn. destruct Hin as [-> | Hin].
  - destruct (Hx s) as [e ->]. now exists e.
  - destruct (f s y) as [s' | e]; cbn; [now apply IH | now exists e].
Qed.

Lemma In_dedup_from c seen l :
  In c (dedup_from seen l) <-> In c l /\ ~ In c seen.
Proof.
  revert seen. induction l as [| x l IH]; intros seen; cbn; [tauto |].
  destruct (existsb (String.eqb x) seen) eqn:E.
  - apply existsb_eqb_In in E. rewrite IH. split.
    + intros [H Hn]. split; [now right | assumption].
    + intros [[<- | H] Hn]; [contradiction | now split].
  - assert (Hx : ~ In x seen).
    { intros H. apply existsb_eqb_In in H. now rewrite H in E. }
    cbn. rewrite IH. cbn. split.
    + intros [<- | [H Hn]]; [split; [now left | assumption] |].
      split; [now right | tauto].
    + intros [[<- | H] Hn]; [now left |].
      destruct (string_dec x c) as [-> | Hne]; [now left |].
      right. split; [assumption |]. intros [-> | Hs]; contradiction.
Qed.

Lemma dict_get_map_key {V} (h : string -> V) c l :
  In c l -> dict_get c (map (fun c => (c, h c)) l) = Some (h c).
Proof.
  induction l as [| x l IH]; [contradiction |]. cbn.
  destruct (String.eqb_spec c x) as [-> | Hne]; [reflexivity |].
  intros [-> | H]; [contradiction | now apply IH].
Qed.

(** C8, as the code has it. A union over two tables with different column
    counts fails in the DuckDB pipeline, in the monthly statement and in the
    category chain (a binder error). The pandas pipeline has no such check:
    its concatenation never fails on frames, monthly and category aggregation
    always return, and the result holds every column of either frame, with
    nulls for the rows of a frame that lacks the column. *)
Theorem union_schema_mismatch :
  (forall a b, ncols a <> ncols b -> union_all a b = Raise BinderException)
  /\ (forall con k g t1 t2 rest a b,
         Duck.tables g = t1 :: t2 :: rest ->
         sql_table t1 con = Ok a -> sql_table t2 con = Ok b ->
         ncols a <> ncols b ->
         Duck.union_month con (k, g) = Raise BinderException
         /\ Duck.union_category con (k, g) = Raise BinderException)
  /\ (forall a b c,
         In c (columns a) \/ In c (columns b) ->
         exists F, pd_concat [a; b] = Ok F
                   /\ dict_get c F
                      = Some (column_or_nulls c a ++ column_or_nulls c b)
                   /\ (~ In c (columns b) ->
                       column_or_nulls c b = repeat VNull (nrows b))
                   /\ (~ In c (columns a) ->
                       column_or_nulls c a = repeat VNull (nrows a)))
  /\ (forall data, exists r, Pandas.concatenate_monthly_dataframes data = Ok r)
  /\ (forall data, exists r, Pandas.concatenate_category_dataframes data = Ok r).
Proof.
  assert (Hu : forall a b, ncols a <> ncols b ->
                           union_all a b = Raise BinderException).
  { intros a b H. unfold union_all.
    now destruct (Nat.eqb_spec (ncols a) (ncols b)). }
  split; [exact Hu |]. split; [| split; [| split]].
  - intros con k g t1 t2 rest a b Ht Ha Hb Hn. split.
    + unfold Duck.union_month. cbn [fst snd]. rewrite Ht.
      cbn [list_item nth_error bind]. rewrite Ha, Hb. cbn [bind].
      now rewrite (Hu a b Hn).
    + unfold Duck.union_category. cbn [fst snd]. rewrite Ht, Ha. cbn [bind].
      cbn [Duck.union_all_from]. rewrite Hb. cbn [bind].
      now rewrite (Hu a b Hn).
  - intros a b c Hc. eexists. split; [reflexivity |]. split; [| split].
    + rewrite dict_get_map_key.
      * cbn [flat_map]. now rewrite app_nil_r.
      * apply In_dedup_from. split; [| intros []].
        cbn [flat_map]. rewrite app_nil_r. apply in_or_app. exact Hc.
    + intros Hn. unfold column_or_nulls.
      now rewrite (dict_get_not_key c b Hn).
    + intros Hn. unfold column_or_nulls.
      now rewrite (dict_get_not_key c a Hn).
  - exact pandas_month_total.
  - exact pandas_category_total.
Qed.

(** The theorem on a 3-column first half and a 2-column second half. *)
Lemma union_schema_mismatch_witness :
  union_all jan_first_half jan_second_half_narrow = Raise BinderException
  /\ Duck.union_month mismatched_con
       ("followers_location_2024_Jan",
        Duck.mkgroup "followers_location" "data/linkedin/clean/followers/2024/Jan"
          ["followers_location_2024_Jan_1"; "followers_location_2024_Jan_2"])
     = Raise BinderException
  /\ exists F, pd_concat [jan_first_half; jan_second_half_narrow] = Ok F
               /\ dict_get "Total Followers" F
                  = Some (ints [120; 64; 30; 12; 7]%Z ++ [VNull; VNull]).
Proof.
  pose proof union_schema_mismatch as (Hu & Hm & Hp & _). split; [| split].
  - apply Hu. vm_compute. discriminate.
  - eapply (Hm mismatched_con _ _ "followers_location_2024_Jan_1"
               "followers_location_2024_Jan_2" [] jan_first_half
               jan_second_half_narrow); try reflexivity.
    vm_compute. discriminate.
  - destruct (Hp jan_first_half jan_second_half_narrow "Total Followers")
      as (F & HF & Hc & _); [left; cbn; tauto |].
    exists F. split; [assumption |]. rewrite Hc. reflexivity.
Defined.

(** C8 as stated fails: the pandas pipeline unites the 3-column and the
    2-column table of one month without an error, and pads the missing
    column with nulls. *)
Lemma pandas_union_pads_missing_columns :
  ncols jan_first_half = 3%nat /\ ncols jan_second_half_narrow = 2%nat
  /\ exists r g,
       Pandas.concatenate_monthly_dataframes mismatched_data = Ok r
       /\ dict_get "2024_Jan_followers_location" r = Some g
       /\ Pandas.concatenated_df g
          = [ ("Location",
               texts ["Recife"; "Natal"; "Olinda"; "Caruaru"; "Manaus";
                      "Recife"; "Natal"]);
              ("Total Followers",
               ints [120; 64; 30; 12; 7]%Z ++ [VNull; VNull]);
              ("Extraction Range",
               repeat (VDate (mkdate 2024 1 15)) 5
               ++ repeat (VDate (mkdate 2024 1 31)) 2) ].
Proof.
  split; [reflexivity |]. split; [reflexivity |].
  eexists. eexists. split; [vm_compute; reflexivity |].
  split; vm_compute; reflexivity.
Qed.

(** C9, as the code has it. A monthly key with a single per-extraction table
    makes the DuckDB pipeline's monthly aggregation fail: the statement of the
    group raises [IndexError] at its second table, and with it the whole
    step. The pandas pipeline does not reject the group: its monthly frame
    holds the rows of the single table. *)
Theorem incomplete_month_group :
  (forall con k g t, Duck.tables g = [t] ->
                     Duck.union_month con (k, g) = Raise IndexError)
  /\ (forall ts con k t,
         filter (fun t => String.eqb k (Duck.category_year_month t)) ts = [t] ->
         exists e, Duck.concatenate_monthly_tables ts con = Raise e)
  /\ (forall data k t,
         filter (fun t => String.eqb k (Pandas.tag_month t)) data = [t] ->
         NoDup (columns (Pandas.df t)) -> rectangular (Pandas.df t) = true ->
         exists r g,
           Pandas.concatenate_monthly_dataframes data = Ok r
           /\ dict_get k r = Some g
           /\ frame_rows (Pandas.concatenated_df g) = frame_rows (Pandas.df t)
           /\ columns (Pandas.concatenated_df g) = columns (Pandas.df t)).
Proof.
  assert (H1 : forall con k g t, Duck.tables g = [t] ->
                                 Duck.union_month con (k, g) = Raise IndexError).
  { intros con k g t Ht. unfold Duck.union_month. cbn [fst snd].
    now rewrite Ht. }
  split; [exact H1 |]. split.
  - intros ts con k t Hk. unfold Duck.concatenate_monthly_tables.
    pose proof (duck_month_groups ts k) as Hg.
    destruct (dict_get k (fold_left Duck.group_month ts [])) as [g |] eqn:E;
      [| rewrite Hk in Hg; discriminate].
    destruct Hg as [Ht _]. rewrite Hk in Ht. cbn [map] in Ht.
    destruct (foldM_raise Duck.union_month (k, g)
                (fold_left Duck.group_month ts [])) with (s := con)
      as [e He].
    + now apply dict_get_In.
    + intros s. exists IndexError. now apply (H1 s k g (Duck.db_table_name t)).
    + exists e. now rewrite He.
  - intros data k t Hk Hnd Hr.
    destruct (pandas_month_table data k t [] Hk) as (r & g & Hres & Hg & Hc).
    exists r, g. split; [assumption |]. split; [assumption |].
    destruct (pd_concat_rows (columns (Pandas.df t)) [Pandas.df t] Hnd)
      as (F & HF & Hrows & _ & Hcols & _); [discriminate | |].
    + repeat constructor; auto.
    + cbn [map] in Hc. rewrite HF in Hc. injection Hc as <-.
      cbn in Hrows. rewrite app_nil_r in Hrows. now split.
Qed.

(** The theorem on a January with its first extraction only. *)
Lemma incomplete_month_group_witness :
  (exists e, Duck.concatenate_monthly_tables single_tables january_con
             = Raise e)
  /\ exists r g,
       Pandas.concatenate_monthly_dataframes single_data = Ok r
       /\ dict_get "2024_Jan_followers_location" r = Some g
       /\ frame_rows (Pandas.concatenated_df g) = frame_rows jan_first_half
       /\ columns (Pandas.concatenated_df g) = columns jan_first_half.
Proof.
  pose proof incomplete_month_group as (_ & HD & HP). split.
  - apply (HD single_tables january_con "followers_location_2024_Jan"
              (duck_table "Jan" "1")). reflexivity.
  - apply (HP single_data "2024_Jan_followers_location"
              (pandas_table "Jan" "1" jan_first_half)); try reflexivity.
    apply nodupb_NoDup. reflexivity.
Defined.

(** C9 as stated fails: the pandas pipeline aggregates a month that has only
    its first extraction, and returns that table as the monthly table. *)
Lemma pandas_accepts_incomplete_month :
  exists r g,
    Pandas.concatenate_monthly_dataframes single_data = Ok r
    /\ dict_get "2024_Jan_followers_location" r = Some g
    /\ Pandas.cg_dfs g = [jan_first_half]
    /\ Pandas.concatenated_df g = jan_first_half.
Proof.
  eexists. eexists. split; [vm_compute; reflexivity |].
  repeat split; vm_compute; reflexivity.
Qed.

(** ** The imputation of the pandas pipeline *)

Lemma mapM_ok {A B} (f : A -> result B) (g : A -> B) l :
  (forall x, In x l -> f x = Ok (g x)) -> mapM f l = Ok (map g l).
Proof.
  induction l as [| x l IH]; intros H; cbn; [reflexivity |].
  rewrite (H x) by now left. cbn. rewrite IH; [reflexivity |].
  intros y Hy. apply H. now right.
Qed.

Lemma mapM_map {A B C} (f : B -> result C) (g : A -> B) l :
  mapM f (map g l) = mapM (fun x => f (g x)) l.
Proof.
  induction l as [| x l IH]; cbn; [reflexivity |]. now rewrite IH.
Qed.

Lemma mapM_raise {A B} (f : A -> result B) e l :
  (forall x, In x l -> is_ok (f x) = true \/ f x = Raise e) ->
  (exists x, In x l /\ f x = Raise e) ->
  mapM f l = Raise e.
Proof.
  induction l as [| x l IH]; intros Hall [y [Hy Hr]]; [contradiction |].
  cbn. destruct (Hall x (or_introl eq_refl)) as [Hok | Hx].
  - destruct (f x) as [b |] eqn:E; [| discriminate]. cbn.
    rewrite IH; [reflexivity | |].
    + intros z Hz. apply Hall. now right.
    + destruct Hy as [<- | Hy]; [congruence | now exists y].
  - now rewrite Hx.
Qed.

Lemma numeric_nth s i : forallb numeric s = true -> numeric (nth i s VNull) = true.
Proof.
  intros H. destruct (Nat.lt_ge_cases i (List.length s)) as [Hlt | Hge].
  - rewrite forallb_forall in H. apply H. now apply nth_In.
  - now rewrite nth_overflow.
Qed.

Lemma where_ge0_numeric s :
  forallb numeric s = true -> Pandas.where_ge0 s = Ok (map nonneg_or_null s).
Proof.
  intros H. apply mapM_ok. intros c Hc. rewrite forallb_forall in H.
  specialize (H c Hc). destruct c as [| q | |]; try discriminate; cbn;
    [reflexivity |]. now destruct (Qle_bool 0 q).
Qed.

Lemma py_lt0_numeric c : numeric c = true -> Pandas.py_lt0 c = Ok (is_neg c).
Proof. destruct c; try discriminate; reflexivity. Qed.

Lemma py_add_numeric a b :
  numeric a = true -> numeric b = true ->
  Pandas.py_add a b = Ok (num_add a b) /\ numeric (num_add a b) = true.
Proof. destruct a, b; try discriminate; now split. Qed.

Lemma py_truediv_numeric a b :
  numeric a = true -> numeric b = true ->
  Pandas.py_truediv a b
  = if is_zero b then Raise ZeroDivisionError else Ok (num_div a b).
Proof.
  destruct a, b; try discriminate; intros _ _; cbn; try reflexivity;
    now destruct (Qeq_bool _ 0).
Qed.

Lemma mean_cells_numeric w win : numeric (mean_cells w win) = true.
Proof. unfold mean_cells. now destruct (_ || _). Qed.

Lemma repaired_numeric s n :
  forallb numeric s = true -> forallb numeric (repaired_series s n) = true.
Proof.
  intros H. apply forallb_forall. intros c Hc.
  apply in_map_iff in Hc as [i [<- _]].
  destruct (is_neg (nth i s VNull)); [| now apply numeric_nth].
  unfold moving_average_series, Pandas.rolling_mean.
  destruct (Nat.lt_ge_cases i (List.length (positive_series s))) as [Hlt | Hge].
  - rewrite nth_indep with (d' := mean_cells Pandas.window
                                     (Pandas.window_at Pandas.window
                                        (positive_series s) 0))
      by now rewrite length_map, length_seq.
    rewrite (map_nth (fun i => mean_cells Pandas.window
                                 (Pandas.window_at Pandas.window
                                    (positive_series s) i))).
    apply mean_cells_numeric.
  - rewrite nth_overflow; [reflexivity |]. now rewrite length_map, length_seq.
Qed.

Lemma select_kept f dt imp clk rea com sha er xr :
  dict_get "Date" f = Some dt ->
  dict_get "Impressions (total)" f = Some imp ->
  dict_get "Clicks (total)" f = Some clk ->
  dict_get "Reactions (total)" f = Some rea ->
  dict_get "Comments (total)" f = Some com ->
  dict_get "Shares (total)" f = Some sha ->
  dict_get "Engagement rate (total)" f = Some er ->
  dict_get "Extraction Range" f = Some xr ->
  Pandas.select Pandas.kept_columns f
  = Ok [ ("Date", dt); ("Impressions (total)", imp); ("Clicks (total)", clk);
         ("Reactions (total)", rea); ("Comments (total)", com);
         ("Shares (total)", sha); ("Engagement rate (total)", er);
         ("Extraction Range", xr) ].
Proof.
  intros H1 H2 H3 H4 H5 H6 H7 H8.
  unfold Pandas.select, Pandas.kept_columns, dict_item. cbn [mapM].
  rewrite H1, H2, H3, H4, H5, H6, H7, H8. reflexivity.
Qed.

Lemma frame_row_get k f i :
  dict_get k (frame_row f i)
  = option_map (fun s => nth i s VNull) (dict_get k f).
Proof.
  induction f as [| [c s] f IH]; cbn; [reflexivity |].
  destruct (String.eqb k c); [reflexivity | exact IH].
Qed.

Lemma frame_row_item k f i s :
  dict_get k f = Some s -> dict_item k (frame_row f i) = Ok (nth i s VNull).
Proof. intros H. unfold dict_item. now rewrite frame_row_get, H. Qed.

Lemma apply_rows_ok fn f h :
  (forall i, In i (seq 0 (nrows f)) -> fn (frame_row f i) = Ok (h i)) ->
  Pandas.apply_rows fn f = Ok (map h (seq 0 (nrows f))).
Proof.
  intros H. unfold Pandas.apply_rows, iterrows. rewrite mapM_map.
  now apply mapM_ok.
Qed.

(** The row function of a family computes the repaired column. *)
Lemma apply_repair_row fam f s ma :
  dict_get (fam ++ " (total)") f = Some s ->
  dict_get (fam ++ " (moving average)") f = Some ma ->
  forallb numeric s = true ->
  Pandas.apply_rows (Pandas.repair_row fam) f = Ok (repair_with s ma (nrows f)).
Proof.
  intros Hs Hma Hn. apply apply_rows_ok. intros i _.
  unfold Pandas.repair_row. rewrite (frame_row_item _ _ _ _ Hs). cbn [bind].
  rewrite py_lt0_numeric by now apply numeric_nth. cbn [bind].
  destruct (is_neg (nth i s VNull)); [| reflexivity].
  apply (frame_row_item _ _ _ _ Hma).
Qed.

Lemma engagement_row_value f r c k s imp i :
  dict_get "Reactions (total)" f = Some r ->
  dict_get "Comments (total)" f = Some c ->
  dict_get "Clicks (total)" f = Some k ->
  dict_get "Shares (total)" f = Some s ->
  dict_get "Impressions (total)" f = Some imp ->
  forallb numeric r = true -> forallb numeric c = true ->
  forallb numeric k = true -> forallb numeric s = true ->
  forallb numeric imp = true ->
  Pandas.engagement_row (frame_row f i)
  = if is_zero (nth i imp VNull) then Raise ZeroDivisionError
    else Ok (rate_cell (nth i r VNull) (nth i c VNull) (nth i k VNull)
                       (nth i s VNull) (nth i imp VNull)).
Proof.
  intros Hr Hc Hk Hs Hi Nr Nc Nk Ns Ni. unfold Pandas.engagement_row.
  rewrite (frame_row_item _ _ _ _ Hr), (frame_row_item _ _ _ _ Hc),
    (frame_row_item _ _ _ _ Hk), (frame_row_item _ _ _ _ Hs),
    (frame_row_item _ _ _ _ Hi). cbn [bind].
  pose proof (numeric_nth r i Nr) as Ar. pose proof (numeric_nth c i Nc) as Ac.
  pose proof (numeric_nth k i Nk) as Ak. pose proof (numeric_nth s i Ns) as As.
  pose proof (numeric_nth imp i Ni) as Ai.
  destruct (py_add_numeric _ _ Ar Ac) as [-> A1]. cbn [bind].
  destruct (py_add_numeric _ _ A1 Ak) as [-> A2]. cbn [bind].
  destruct (py_add_numeric _ _ A2 As) as [-> A3]. cbn [bind].
  now rewrite py_truediv_numeric.
Qed.

(** The row function of the rate computes the rate column when no row has
    zero impressions, and raises on a table that has such a row. *)
Lemma apply_engagement_row f r c k s imp :
  dict_get "Reactions (total)" f = Some r ->
  dict_get "Comments (total)" f = Some c ->
  dict_get "Clicks (total)" f = Some k ->
  dict_get "Shares (total)" f = Some s ->
  dict_get "Impressions (total)" f = Some imp ->
  forallb numeric r = true -> forallb numeric c = true ->
  forallb numeric k = true -> forallb numeric s = true ->
  forallb numeric imp = true ->
  Pandas.apply_rows Pandas.engagement_row f
  = if existsb (fun i => is_zero (nth i imp VNull)) (seq 0 (nrows f))
    then Raise ZeroDivisionError
    else Ok (rate_series r c k s imp (nrows f)).
Proof.
  intros Hr Hc Hk Hs Hi Nr Nc Nk Ns Ni.
  pose proof (fun i => engagement_row_value f r c k s imp i
                         Hr Hc Hk Hs Hi Nr Nc Nk Ns Ni) as Hrow.
  destruct (existsb _ _) eqn:E.
  - apply existsb_exists in E as [i [Hin Hz]].
    unfold Pandas.apply_rows, iterrows. rewrite mapM_map.
    apply mapM_raise.
    + intros j _. rewrite Hrow.
      destruct (is_zero (nth j imp VNull)); [now right | now left].
    + exists i. split; [assumption |]. now rewrite Hrow, Hz.
  - apply apply_rows_ok. intros i Hin. rewrite Hrow.
    assert (Hz : is_zero (nth i imp VNull) = false).
    { destruct (is_zero (nth i imp VNull)) eqn:Z; [| reflexivity].
      assert (existsb (fun i => is_zero (nth i imp VNull)) (seq 0 (nrows f))
              = true) by (apply existsb_exists; now exists i).
      congruence. }
    now rewrite Hz.
Qed.

(** [clean_content_metrics_data] on a typed table, column by column. *)
Lemma clean_frame_typed f dt imp clk rea com sha er xr :
  dict_get "Date" f = Some dt ->
  dict_get "Impressions (total)" f = Some imp ->
  dict_get "Clicks (total)" f = Some clk ->
  dict_get "Reactions (total)" f = Some rea ->
  dict_get "Comments (total)" f = Some com ->
  dict_get "Shares (total)" f = Some sha ->
  dict_get "Engagement rate (total)" f = Some er ->
  dict_get "Extraction Range" f = Some xr ->
  forallb numeric imp = true -> forallb numeric clk = true ->
  forallb numeric rea = true -> forallb numeric com = true ->
  forallb numeric sha = true ->
  let n := List.length dt in
  Pandas.clean_frame f
  = if existsb (fun i => is_zero (nth i imp VNull)) (seq 0 n)
    then Raise ZeroDivisionError
    else Ok [ ("Date", dt);
              ("Impressions (total)", imp);
              ("Clicks (total)", repaired_series clk n);
              ("Reactions (total)", repaired_series rea n);
              ("Comments (total)", repaired_series com n);
              ("Shares (total)", repaired_series sha n);
              ("Engagement Rate (total)",
               rate_series (repaired_series rea n) (repaired_series com n)
                           (repaired_series clk n) (repaired_series sha n)
                           imp n);
              ("Extraction Range", xr) ].
Proof.
  intros H1 H2 H3 H4 H5 H6 H7 H8 Nimp Nclk Nrea Ncom Nsha n.
  unfold Pandas.clean_frame.
  rewrite (select_kept _ dt imp clk rea com sha er xr) by assumption.
  unfold Pandas.families.
  cbn [foldM bind Pandas.derive dict_item dict_get dict_set String.eqb
       Ascii.eqb Bool.eqb append].
  repeat (rewrite where_ge0_numeric by assumption;
          cbn [foldM bind Pandas.derive dict_item dict_get dict_set String.eqb
               Ascii.eqb Bool.eqb append]).
  rewrite (apply_repair_row "Reactions" _ rea (moving_average_series rea))
    by (reflexivity || assumption).
  cbn [bind dict_set String.eqb Ascii.eqb Bool.eqb nrows].
  rewrite (apply_repair_row "Comments" _ com (moving_average_series com))
    by (reflexivity || assumption).
  cbn [bind dict_set String.eqb Ascii.eqb Bool.eqb nrows].
  rewrite (apply_repair_row "Shares" _ sha (moving_average_series sha))
    by (reflexivity || assumption).
  cbn [bind dict_set String.eqb Ascii.eqb Bool.eqb nrows].
  rewrite (apply_repair_row "Clicks" _ clk (moving_average_series clk))
    by (reflexivity || assumption).
  cbn [bind dict_set String.eqb Ascii.eqb Bool.eqb nrows].
  fold n. fold (repaired_series rea n) (repaired_series com n)
    (repaired_series sha n) (repaired_series clk n).
  rewrite (apply_engagement_row _ (repaired_series rea n)
             (repaired_series com n) (repaired_series clk n)
             (repaired_series sha n) imp);
    try reflexivity; try assumption; try (now apply repaired_numeric).
  cbn [nrows]. fold n.
  destruct (existsb _ _); [reflexivity |].
  cbn [bind dict_set String.eqb Ascii.eqb Bool.eqb].
  reflexivity.
Qed.

(** ** The imputation of the DuckDB pipeline *)

Lemma dict_set_rectangular k v (f : frame) :
  In k (columns f) -> rectangular f = true -> List.length v = nrows f ->
  rectangular (dict_set k v f) = true /\ nrows (dict_set k v f) = nrows f.
Proof.
  intros Hin Hr Hv.
  assert (Hn : nrows (dict_set k v f) = nrows f).
  { destruct f as [| [c s] f]; [contradiction |]. cbn.
    destruct (String.eqb k c); [exact Hv | reflexivity]. }
  split; [| assumption].
  apply lengths_rectangular with (n := nrows f).
  apply rectangular_lengths in Hr. clear Hn Hin.
  induction f as [| [c s] f IH]; cbn.
  - constructor; [assumption | constructor].
  - inversion Hr as [| ? ? Hs Hf]; subst. cbn in *.
    destruct (String.eqb k c); cbn; constructor; try assumption.
    clear IH Hs. induction f as [| [c' s'] f IH]; cbn.
    + constructor; [assumption | constructor].
    + inversion Hf; subst. destruct (String.eqb k c'); cbn; constructor;
        auto.
Qed.

Lemma write_back_length cast choose dates totals finals :
  List.length (Duck.write_back cast choose dates totals finals)
  = List.length dates.
Proof. unfold Duck.write_back. now rewrite length_map, length_seq. Qed.

Lemma dict_mem_get {V} k (d : dict V) :
  dict_mem k d = true -> exists v, dict_get k d = Some v.
Proof. unfold dict_mem. destruct (dict_get k d) as [v |]; [now exists v | discriminate]. Qed.

Lemma dict_get_length k (f : frame) s :
  rectangular f = true -> dict_get k f = Some s -> List.length s = nrows f.
Proof.
  intros Hr Hs. apply rectangular_lengths in Hr. rewrite Forall_forall in Hr.
  apply Hr. apply dict_get_In in Hs. now apply (in_map snd) in Hs.
Qed.

(** [process_content_metrics] stores four columns and touches nothing else. *)
Lemma process_frame_frame cast choose f :
  has_columns ("Date" :: total_columns) f = true ->
  exists f',
    Duck.process_frame cast choose f = Ok f'
    /\ columns f' = columns f
    /\ (forall c, ~ In c total_columns -> dict_get c f' = dict_get c f)
    /\ (forall c, In c total_columns ->
                  exists s, dict_get c f' = Some s
                            /\ List.length s
                               = List.length (column_or_nulls "Date" f))
    /\ (rectangular f = true -> rectangular f' = true /\ nrows f' = nrows f).
Proof.
  unfold has_columns, total_columns. cbn [forallb]. intros H.
  repeat (apply andb_prop in H as [?H H]).
  destruct (dict_mem_get _ _ H0) as [dates Hd].
  destruct (dict_mem_get _ _ H1) as [rea Hrea].
  destruct (dict_mem_get _ _ H2) as [com Hcom].
  destruct (dict_mem_get _ _ H3) as [sha Hsha].
  destruct (dict_mem_get _ _ H4) as [clk Hclk].
  unfold Duck.process_frame, Duck.sql_column. rewrite Hd. cbn [bind].
  unfold Duck.families, Duck.repaired, Duck.sql_column.
  cbn [mapM bind append]. rewrite Hrea, Hcom, Hsha, Hclk.
  cbn [bind fold_left fst snd].
  eexists. split; [reflexivity |].
  assert (K1 : In "Reactions (total)" (dict_keys f)) by (eapply dict_get_key; eassumption).
  assert (K2 : In "Comments (total)" (dict_keys f)) by (eapply dict_get_key; eassumption).
  assert (K3 : In "Shares (total)" (dict_keys f)) by (eapply dict_get_key; eassumption).
  assert (K4 : In "Clicks (total)" (dict_keys f)) by (eapply dict_get_key; eassumption).
  unfold columns. split; [| split; [| split]].
  - repeat (apply dict_set_keys_eq; [| assumption]). reflexivity.
  - intros c Hc. cbn in Hc.
    rewrite !dict_get_set_other; [reflexivity | | | |];
      intros ->; apply Hc; tauto.
  - intros c Hc. unfold column_or_nulls. rewrite Hd. cbn in Hc.
    destruct Hc as [<- | [<- | [<- | [<- | []]]]].
    + rewrite !dict_get_set_other by discriminate.
      rewrite dict_get_set_same. eexists. split; [reflexivity |].
      apply write_back_length.
    + rewrite !dict_get_set_other by discriminate.
      rewrite dict_get_set_same. eexists. split; [reflexivity |].
      apply write_back_length.
    + rewrite !dict_get_set_other by discriminate.
      rewrite dict_get_set_same. eexists. split; [reflexivity |].
      apply write_back_length.
    + rewrite dict_get_set_same. eexists. split; [reflexivity |].
      apply write_back_length.
  - intros Hr. pose proof (dict_get_length _ _ _ Hr Hd) as Ld.
    destruct (dict_set_rectangular "Reactions (total)"
                (Duck.write_back cast choose dates rea
                   (map (fun tm => Duck.final_of (fst tm) (snd tm))
                      (combine rea
                         (Duck.moving_average choose dates
                            (map Duck.positive_of rea))))) f)
      as [R1 N1]; [assumption | assumption | now rewrite write_back_length |].
    match goal with
    | |- rectangular (dict_set _ _ (dict_set _ _ (dict_set _ ?v ?g))) = _ /\ _ =>
        destruct (dict_set_rectangular "Comments (total)" v g) as [R2 N2];
          [unfold columns;
           repeat (rewrite dict_set_keys_eq with (d := f));
           reflexivity || assumption
          | assumption | now rewrite write_back_length, N1 |]
    end.
    match goal with
    | |- rectangular (dict_set _ _ (dict_set _ ?v ?g)) = _ /\ _ =>
        destruct (dict_set_rectangular "Shares (total)" v g) as [R3 N3];
          [unfold columns;
           repeat (rewrite dict_set_keys_eq with (d := f));
           reflexivity || assumption
          | assumption | now rewrite write_back_length, N2, N1 |]
    end.
    match goal with
    | |- rectangular (dict_set _ ?v ?g) = _ /\ _ =>
        destruct (dict_set_rectangular "Clicks (total)" v g) as [R4 N4];
          [unfold columns;
           repeat (rewrite dict_set_keys_eq with (d := f));
           reflexivity || assumption
          | assumption | now rewrite write_back_length, N3, N2, N1 |]
    end.
    split; [assumption | now rewrite N4, N3, N2, N1].
Qed.

(** ** Typed content tables *)

Lemma existsb_by_index {X} (p : X -> bool) (l : list X) d :
  existsb (fun i => p (nth i l d)) (seq 0 (List.length l)) = existsb p l.
Proof.
  apply Bool.eq_iff_eq_true. rewrite !existsb_exists. split.
  - intros [i [Hi Hp]]. apply in_seq in Hi. exists (nth i l d).
    split; [apply nth_In; lia | assumption].
  - intros [x [Hx Hp]]. destruct (In_nth l x d Hx) as [i [Hi <-]].
    exists i. split; [apply in_seq; lia | assumption].
Qed.

Lemma typed_content_parts f :
  typed_content f = true ->
  exists dt imp clk rea com sha er xr,
    dict_get "Date" f = Some dt
    /\ dict_get "Impressions (total)" f = Some imp
    /\ dict_get "Clicks (total)" f = Some clk
    /\ dict_get "Reactions (total)" f = Some rea
    /\ dict_get "Comments (total)" f = Some com
    /\ dict_get "Shares (total)" f = Some sha
    /\ dict_get "Engagement rate (total)" f = Some er
    /\ dict_get "Extraction Range" f = Some xr
    /\ (forallb numeric imp = true /\ forallb numeric clk = true
        /\ forallb numeric rea = true /\ forallb numeric com = true
        /\ forallb numeric sha = true)
    /\ List.length dt = nrows f /\ List.length imp = nrows f
    /\ List.length xr = nrows f
    /\ ncols f = 21%nat.
Proof.
  unfold typed_content. intros H.
  apply andb_prop in H as [H Hnum]. apply andb_prop in H as [Hcols Hrect].
  destruct (list_eq_dec string_dec (columns f) typed_content_columns)
    as [E |]; [clear Hcols | discriminate].
  assert (Hk : forall c, In c typed_content_columns ->
                         exists s, dict_get c f = Some s).
  { intros c Hc. apply dict_get_of_key. unfold columns in E. now rewrite E. }
  destruct (Hk "Date") as [dt Hdt]; [vm_compute; tauto |].
  destruct (Hk "Impressions (total)") as [imp Himp]; [vm_compute; tauto |].
  destruct (Hk "Clicks (total)") as [clk Hclk]; [vm_compute; tauto |].
  destruct (Hk "Reactions (total)") as [rea Hrea]; [vm_compute; tauto |].
  destruct (Hk "Comments (total)") as [com Hcom]; [vm_compute; tauto |].
  destruct (Hk "Shares (total)") as [sha Hsha]; [vm_compute; tauto |].
  destruct (Hk "Engagement rate (total)") as [er Her]; [vm_compute; tauto |].
  destruct (Hk "Extraction Range") as [xr Hxr]; [vm_compute; tauto |].
  exists dt, imp, clk, rea, com, sha, er, xr.
  unfold numeric_columns, total_columns, column_or_nulls in Hnum.
  cbn [forallb] in Hnum. rewrite Himp, Hrea, Hcom, Hsha, Hclk in Hnum.
  repeat (apply andb_prop in Hnum as [? Hnum]).
  repeat (split; [assumption |]).
  repeat (split; [tauto |]).
  split; [now apply (dict_get_length "Date") |].
  split; [now apply (dict_get_length "Impressions (total)") |].
  split; [now apply (dict_get_length "Extraction Range") |].
  unfold ncols. unfold columns, dict_keys in E.
  now rewrite <- (length_map fst f), E.
Qed.

Lemma repair_with_length s ma n : List.length (repair_with s ma n) = n.
Proof. unfold repair_with. now rewrite length_map, length_seq. Qed.

Lemma rate_series_nth r c k s imp n i :
  (i < n)%nat ->
  nth i (rate_series r c k s imp n) VNull
  = rate_cell (nth i r VNull) (nth i c VNull) (nth i k VNull)
              (nth i s VNull) (nth i imp VNull).
Proof.
  intros Hi. unfold rate_series.
  rewrite nth_indep with (d' := (fun i => rate_cell (nth i r VNull)
                                   (nth i c VNull) (nth i k VNull)
                                   (nth i s VNull) (nth i imp VNull)) 0%nat)
    by now rewrite length_map, length_seq.
  rewrite (map_nth (fun i => rate_cell (nth i r VNull) (nth i c VNull)
                               (nth i k VNull) (nth i s VNull)
                               (nth i imp VNull))).
  now rewrite seq_nth.
Qed.

(** The typed table through [clean_content_metrics_data]. *)
Lemma clean_frame_of_typed f :
  typed_content f = true -> no_zero_impressions f = true ->
  let n := nrows f in
  let col c := column_or_nulls c f in
  Pandas.clean_frame f
  = Ok [ ("Date", col "Date");
         ("Impressions (total)", col "Impressions (total)");
         ("Clicks (total)", repaired_series (col "Clicks (total)") n);
         ("Reactions (total)", repaired_series (col "Reactions (total)") n);
         ("Comments (total)", repaired_series (col "Comments (total)") n);
         ("Shares (total)", repaired_series (col "Shares (total)") n);
         ("Engagement Rate (total)",
          rate_series (repaired_series (col "Reactions (total)") n)
                      (repaired_series (col "Comments (total)") n)
                      (repaired_series (col "Clicks (total)") n)
                      (repaired_series (col "Shares (total)") n)
                      (col "Impressions (total)") n);
         ("Extraction Range", col "Extraction Range") ].
Proof.
  intros Ht Hz n col.
  destruct (typed_content_parts f Ht)
    as (dt & imp & clk & rea & com & sha & er & xr & H1 & H2 & H3 & H4 & H5
        & H6 & H7 & H8 & (N1 & N2 & N3 & N4 & N5) & Ldt & Limp & _).
  rewrite (clean_frame_typed f dt imp clk rea com sha er xr) by assumption.
  cbv zeta. rewrite Ldt, <- Limp, existsb_by_index, Limp.
  unfold no_zero_impressions, column_or_nulls in Hz. rewrite H2 in Hz.
  apply negb_true_iff in Hz. rewrite Hz.
  unfold col, column_or_nulls. now rewrite H1, H2, H3, H4, H5, H6, H8.
Qed.

Lemma rate_cell_numbers a b k s m :
  rate_cell (VNum a) (VNum b) (VNum k) (VNum s) (VNum m)
  = VNum (Qred ((a + b + k + s) / m)).
Proof.
  unfold rate_cell, num_add, num_div. f_equal. apply Qred_complete.
  now rewrite !Qred_correct.
Qed.

(** C10, as the code has it. The imputation keeps the row count of the typed
    table in both pipelines. The DuckDB pipeline keeps every column and
    changes only the four family totals. The pandas pipeline returns 8 of the
    21 columns: Date, Impressions (total) and Extraction Range unchanged, the
    four repaired totals and the recomputed Engagement Rate (total). *)
Theorem imputation_frame :
  (forall f,
      typed_content f = true -> no_zero_impressions f = true ->
      exists out,
        Pandas.clean_frame f = Ok out
        /\ nrows out = nrows f
        /\ ncols f = 21%nat
        /\ columns out = Pandas.final_columns
        /\ ncols out = 8%nat
        /\ dict_get "Date" out = dict_get "Date" f
        /\ dict_get "Impressions (total)" out
           = dict_get "Impressions (total)" f
        /\ dict_get "Extraction Range" out = dict_get "Extraction Range" f)
  /\ (forall cast choose f,
         has_columns ("Date" :: total_columns) f = true ->
         rectangular f = true ->
         exists out,
           Duck.process_frame cast choose f = Ok out
           /\ nrows out = nrows f
           /\ columns out = columns f
           /\ forall c, ~ In c total_columns ->
                        dict_get c out = dict_get c f).
Proof.
  split.
  - intros f Ht Hz. rewrite (clean_frame_of_typed f Ht Hz).
    destruct (typed_content_parts f Ht)
      as (dt & imp & clk & rea & com & sha & er & xr & H1 & H2 & H3 & H4 & H5
          & H6 & H7 & H8 & _ & Ldt & _ & _ & Hw).
    eexists. split; [reflexivity |]. unfold column_or_nulls.
    rewrite H1, H2, H8. cbn [nrows]. repeat split; assumption.
  - intros cast choose f Hc Hr.
    destruct (process_frame_frame cast choose f Hc)
      as (out & Ho & Hcols & Hsame & _ & Hrect).
    exists out. destruct (Hrect Hr) as [_ Hn]. repeat split; assumption.
Qed.

(** The theorem on the example table of the specification. *)
Lemma imputation_frame_witness :
  (exists out,
      Pandas.clean_frame spec_example = Ok out
      /\ nrows out = nrows spec_example
      /\ ncols spec_example = 21%nat
      /\ columns out = Pandas.final_columns
      /\ ncols out = 8%nat
      /\ dict_get "Date" out = dict_get "Date" spec_example
      /\ dict_get "Impressions (total)" out
         = dict_get "Impressions (total)" spec_example
      /\ dict_get "Extraction Range" out
         = dict_get "Extraction Range" spec_example)
  /\ (exists out,
         Duck.process_frame round_half_up own_row spec_example = Ok out
         /\ nrows out = nrows spec_example
         /\ columns out = columns spec_example
         /\ forall c, ~ In c total_columns ->
                      dict_get c out = dict_get c spec_example).
Proof.
  pose proof imputation_frame as [HP HD]. split.
  - apply (HP spec_example); vm_compute; reflexivity.
  - apply (HD round_half_up own_row spec_example); vm_compute; reflexivity.
Defined.

(** C10 as stated fails in the pandas pipeline: the typed table has 21
    columns and its imputed table 8, the seven sponsored and organic
    columns of the families among those dropped. *)
Lemma pandas_imputation_drops_columns :
  typed_content spec_example = true
  /\ ncols spec_example = 21%nat
  /\ exists out,
       Pandas.clean_frame spec_example = Ok out
       /\ ncols out = 8%nat
       /\ ncols out <> ncols spec_example
       /\ dict_mem "Reactions (organic)" spec_example = true
       /\ dict_mem "Reactions (organic)" out = false.
Proof.
  split; [vm_compute; reflexivity |]. split; [reflexivity |].
  eexists. split; [vm_compute; reflexivity |].
  repeat split; try (vm_compute; reflexivity). vm_compute. discriminate.
Qed.

(** C2, as the code has it. On a typed table with no row of zero
    impressions the pandas pipeline recomputes the rate of every row as
    (reactions + comments + clicks + shares) / impressions from the repaired
    totals of its output; the rate is a number where all five are and
    undefined where the impressions are. The DuckDB pipeline repairs the
    totals and keeps the engagement rate it loaded. *)
Theorem engagement_rate_recomputed :
  (forall f,
      typed_content f = true -> no_zero_impressions f = true ->
      exists out r c k s imp rate,
        Pandas.clean_frame f = Ok out
        /\ dict_get "Reactions (total)" out = Some r
        /\ dict_get "Comments (total)" out = Some c
        /\ dict_get "Clicks (total)" out = Some k
        /\ dict_get "Shares (total)" out = Some s
        /\ dict_get "Impressions (total)" out = Some imp
        /\ dict_get "Engagement Rate (total)" out = Some rate
        /\ r = repaired_series (column_or_nulls "Reactions (total)" f) (nrows f)
        /\ c = repaired_series (column_or_nulls "Comments (total)" f) (nrows f)
        /\ k = repaired_series (column_or_nulls "Clicks (total)" f) (nrows f)
        /\ s = repaired_series (column_or_nulls "Shares (total)" f) (nrows f)
        /\ List.length rate = nrows f
        /\ forall i, (i < nrows f)%nat ->
             nth i rate VNull
             = rate_cell (nth i r VNull) (nth i c VNull) (nth i k VNull)
                         (nth i s VNull) (nth i imp VNull))
  /\ (forall a b k s m,
         rate_cell (VNum a) (VNum b) (VNum k) (VNum s) (VNum m)
         = VNum (Qred ((a + b + k + s) / m)))
  /\ (forall r c k s, rate_cell r c k s VNull = VNull)
  /\ (forall cast choose f,
         has_columns ("Date" :: total_columns) f = true ->
         exists out,
           Duck.process_frame cast choose f = Ok out
           /\ dict_get "Engagement rate (total)" out
              = dict_get "Engagement rate (total)" f).
Proof.
  split; [| split; [| split]].
  - intros f Ht Hz. rewrite (clean_frame_of_typed f Ht Hz).
    do 7 eexists. split; [reflexivity |].
    cbn [dict_get String.eqb Ascii.eqb Bool.eqb].
    repeat (split; [reflexivity |]). split.
    + unfold rate_series. now rewrite length_map, length_seq.
    + intros i Hi. now apply rate_series_nth.
  - exact rate_cell_numbers.
  - intros r c k s. unfold rate_cell, num_div.
    now destruct (num_add (num_add (num_add r c) k) s).
  - intros cast choose f Hc.
    destruct (process_frame_frame cast choose f Hc) as (out & Ho & _ & Hs & _).
    exists out. split; [assumption |]. apply Hs. cbn.
    intros [H | [H | [H | [H | []]]]]; discriminate.
Qed.

(** The theorem on the example table of the specification. *)
Lemma engagement_rate_witness :
  exists out r c k s imp rate,
    Pandas.clean_frame spec_example = Ok out
    /\ dict_get "Reactions (total)" out = Some r
    /\ dict_get "Comments (total)" out = Some c
    /\ dict_get "Clicks (total)" out = Some k
    /\ dict_get "Shares (total)" out = Some s
    /\ dict_get "Impressions (total)" out = Some imp
    /\ dict_get "Engagement Rate (total)" out = Some rate
    /\ r = repaired_series (column_or_nulls "Reactions (total)" spec_example)
                           (nrows spec_example)
    /\ c = repaired_series (column_or_nulls "Comments (total)" spec_example)
                           (nrows spec_example)
    /\ k = repaired_series (column_or_nulls "Clicks (total)" spec_example)
                           (nrows spec_example)
    /\ s = repaired_series (column_or_nulls "Shares (total)" spec_example)
                           (nrows spec_example)
    /\ List.length rate = nrows spec_example
    /\ forall i, (i < nrows spec_example)%nat ->
         nth i rate VNull
         = rate_cell (nth i r VNull) (nth i c VNull) (nth i k VNull)
                     (nth i s VNull) (nth i imp VNull).
Proof.
  pose proof engagement_rate_recomputed as [H _].
  apply (H spec_example); vm_compute; reflexivity.
Defined.

(** C2 as stated fails. In the pandas pipeline a row with zero impressions
    does not get an undefined rate: the division raises and the table is
    lost. In the DuckDB pipeline the rate is not recomputed: the example keeps
    the loaded rate 1/2 on every row, where the repaired totals of its first
    row give 15/100. *)
Lemma zero_impressions_raise :
  typed_content zero_impressions_example = true
  /\ nth 2 (column_or_nulls "Impressions (total)" zero_impressions_example)
         VNull = VNum 0
  /\ Pandas.clean_frame zero_impressions_example = Raise ZeroDivisionError
  /\ exists out,
       Duck.process_frame round_half_up own_row spec_example = Ok out
       /\ dict_get "Engagement rate (total)" out = Some (repeat (VNum (1 # 2)) 5)
       /\ rate_cell (nth 0 (column_or_nulls "Reactions (total)" out) VNull)
                    (nth 0 (column_or_nulls "Comments (total)" out) VNull)
                    (nth 0 (column_or_nulls "Clicks (total)" out) VNull)
                    (nth 0 (column_or_nulls "Shares (total)" out) VNull)
                    (nth 0 (column_or_nulls "Impressions (total)" out) VNull)
          = VNum (3 # 20).
Proof.
  split; [vm_compute; reflexivity |]. split; [reflexivity |].
  split; [vm_compute; reflexivity |].
  eexists. split; [vm_compute; reflexivity |].
  split; vm_compute; reflexivity.
Qed.

(** ** The moving average of the pandas pipeline *)

Lemma positive_series_numbers s : forallb is_number (positive_series s) = true.
Proof.
  unfold positive_series, Pandas.fillna. rewrite map_map.
  apply forallb_forall. intros c Hc. apply in_map_iff in Hc as [x [<- _]].
  destruct x as [| q | |]; cbn; try reflexivity. now destruct (Qle_bool 0 q).
Qed.

Lemma positive_series_length s :
  List.length (positive_series s) = List.length s.
Proof. unfold positive_series, Pandas.fillna. now rewrite !length_map. Qed.

Lemma observations_of_numbers l :
  forallb is_number l = true -> List.length (observations l) = List.length l.
Proof.
  induction l as [| c l IH]; cbn; [reflexivity |].
  intros H. apply andb_prop in H as [Hc Hl].
  destruct c; try discriminate. cbn. f_equal. exact (IH Hl).
Qed.

Lemma forallb_sublist {X} (p : X -> bool) l a b :
  forallb p l = true -> forallb p (skipn a (firstn b l)) = true.
Proof.
  rewrite !forallb_forall. intros H x Hx. apply H.
  rewrite <- (firstn_skipn b l). apply in_or_app. left.
  rewrite <- (firstn_skipn a (firstn b l)). apply in_or_app. now right.
Qed.

Lemma window_at_length w s i :
  (i < List.length s)%nat ->
  List.length (Pandas.window_at w s i) = Nat.min w (S i).
Proof.
  intros Hi. unfold Pandas.window_at. rewrite length_skipn, length_firstn. lia.
Qed.

Lemma rolling_mean_nth w s i :
  (i < List.length s)%nat ->
  nth i (Pandas.rolling_mean w s) VNull
  = mean_cells w (Pandas.window_at w s i).
Proof.
  intros Hi. unfold Pandas.rolling_mean.
  rewrite nth_indep with (d' := (fun i => mean_cells w (Pandas.window_at w s i))
                                  0%nat)
    by now rewrite length_map, length_seq.
  rewrite (map_nth (fun i => mean_cells w (Pandas.window_at w s i))).
  now rewrite seq_nth.
Qed.

Lemma repaired_series_nth s n i :
  (i < n)%nat ->
  nth i (repaired_series s n) VNull
  = if is_neg (nth i s VNull) then nth i (moving_average_series s) VNull
    else nth i s VNull.
Proof.
  intros Hi. unfold repaired_series, repair_with.
  rewrite nth_indep
    with (d' := (fun i => if is_neg (nth i s VNull)
                          then nth i (moving_average_series s) VNull
                          else nth i s VNull) 0%nat)
    by now rewrite length_map, length_seq.
  rewrite (map_nth (fun i => if is_neg (nth i s VNull)
                             then nth i (moving_average_series s) VNull
                             else nth i s VNull)).
  now rewrite seq_nth.
Qed.

(** From the third row on, the pandas pipeline repairs a total as the
    specification says: the mean of the three most recent rows, negatives
    as 0. *)
Lemma pandas_repair_from_third_row s n i :
  (2 <= i)%nat -> (i < List.length s)%nat -> (i < n)%nat ->
  nth i (repaired_series s n) VNull = spec_repaired s i.
Proof.
  intros H2 Hs Hn. rewrite repaired_series_nth by assumption.
  unfold spec_repaired. destruct (is_neg (nth i s VNull)); [| reflexivity].
  unfold moving_average_series.
  rewrite rolling_mean_nth by now rewrite positive_series_length.
  unfold mean_cells, Pandas.window.
  rewrite observations_of_numbers
    by (apply forallb_sublist, positive_series_numbers).
  rewrite window_at_length by now rewrite positive_series_length.
  replace (Nat.min 3 (S i)) with 3%nat by lia. reflexivity.
Qed.

(** On the first two rows it does not: a negative total becomes null, where
    the specification averages over the rows that exist. *)
Lemma pandas_repair_first_rows s n i :
  (i < 2)%nat -> (i < List.length s)%nat -> (i < n)%nat ->
  is_neg (nth i s VNull) = true ->
  nth i (repaired_series s n) VNull = VNull
  /\ is_number (spec_repaired s i) = true.
Proof.
  intros H2 Hs Hn Hneg. rewrite repaired_series_nth by assumption.
  unfold spec_repaired. rewrite Hneg. unfold moving_average_series.
  rewrite rolling_mean_nth by now rewrite positive_series_length.
  unfold mean_cells, Pandas.window.
  rewrite observations_of_numbers
    by (apply forallb_sublist, positive_series_numbers).
  rewrite window_at_length by now rewrite positive_series_length.
  destruct i as [| [| i]]; [| | lia]; split; reflexivity.
Qed.

(** C1 at the example of the specification, reactions 10, -5, 8, -3, 12.
    The pandas pipeline repairs row 3 to 8/3, the mean of 0, 8 and 0, and
    turns row 1 into a null: its rolling window needs three rows. The claim
    asks for 5 there, the mean of 10 and 0, which is what the AVG of the
    DuckDB pipeline gives when each row is joined with its own window
    (and stores 3 for 8/3, the column being INT). Joined with the first row
    instead, as the update without a join condition allows, every repaired
    row takes the mean of the first row's window, 10. *)
Theorem pandas_first_rows_not_averaged :
  (exists out,
      Pandas.clean_frame spec_example = Ok out
      /\ dict_get "Reactions (total)" out
         = Some [VNum 10; VNull; VNum 8; VNum (8 # 3); VNum 12])
  /\ map (spec_repaired (ints [10; -5; 8; -3; 12]%Z)) (seq 0 5)
     = [VNum 10; VNum 5; VNum 8; VNum (8 # 3); VNum 12]
  /\ (exists out,
         Duck.process_frame round_half_up own_row spec_example = Ok out
         /\ dict_get "Reactions (total)" out
            = Some [VNum 10; VNum 5; VNum 8; VNum 3; VNum 12])
  /\ (exists out,
         Duck.process_frame round_half_up first_row spec_example = Ok out
         /\ dict_get "Reactions (total)" out
            = Some [VNum 10; VNum 10; VNum 8; VNum 10; VNum 12]).
Proof.
  split; [| split; [| split]].
  - eexists. split; vm_compute; reflexivity.
  - vm_compute. reflexivity.
  - eexists. split; vm_compute; reflexivity.
  - eexists. split; vm_compute; reflexivity.
Qed.

(** ** The two pipelines side by side *)

Lemma column_or_nulls_tail c c' s (f : frame) :
  c <> c' -> In c (columns f) ->
  column_or_nulls c ((c', s) :: f) = column_or_nulls c f.
Proof.
  intros Hne Hin. unfold column_or_nulls. cbn [dict_get].
  destruct (String.eqb_spec c c') as [-> | _]; [contradiction |].
  destruct (dict_get_of_key c f Hin) as [t ->]. reflexivity.
Qed.

(** On two frames with the same columns, [pd.concat] and UNION ALL build
    the same frame. *)
Lemma pd_concat_pair_is_union a : forall b,
  columns a = columns b -> NoDup (columns a) ->
  map (fun c => (c, flat_map (column_or_nulls c) [a; b])) (columns a)
  = map (fun p => (fst (fst p), snd (fst p) ++ snd (snd p))) (combine a b).
Proof.
  induction a as [| [c s] a IH]; intros [| [c' t] b] E Hnd;
    try discriminate; [reflexivity |].
  cbn [columns dict_keys map fst snd] in E. injection E as <- E.
  inversion Hnd as [| ? ? Hc Ha]; subst.
  cbn [columns dict_keys map combine fst snd flat_map]. f_equal.
  - unfold column_or_nulls. cbn [dict_get]. rewrite String.eqb_refl.
    now rewrite app_nil_r.
  - rewrite <- (IH b E Ha). apply map_ext_in. intros x Hx.
    assert (x <> c) by (intros ->; contradiction).
    assert (Hxb : In x (columns b))
      by (unfold columns, dict_keys in *; now rewrite <- E).
    cbn [flat_map]. now rewrite !column_or_nulls_tail.
Qed.

Lemma same_columns_same_width (a b : frame) :
  columns a = columns b -> ncols a = ncols b.
Proof.
  intros E. unfold ncols. unfold columns, dict_keys in E.
  now rewrite <- (length_map fst a), E, length_map.
Qed.

(** ** Further properties of the imputation *)

(** The third-row lemma on row 3 of the example: 8/3 either way. *)
Lemma pandas_repair_from_third_row_witness :
  nth 3 (repaired_series (ints [10; -5; 8; -3; 12]%Z) 5) VNull
  = spec_repaired (ints [10; -5; 8; -3; 12]%Z) 3.
Proof.
  apply (pandas_repair_from_third_row (ints [10; -5; 8; -3; 12]%Z) 5 3);
    cbn; lia.
Defined.

(** The first-rows lemma on row 1 of the example: null, where the
    specification's mean is a number. *)
Lemma pandas_repair_first_rows_witness :
  nth 1 (repaired_series (ints [10; -5; 8; -3; 12]%Z) 5) VNull = VNull
  /\ is_number (spec_repaired (ints [10; -5; 8; -3; 12]%Z) 1) = true.
Proof.
  apply (pandas_repair_first_rows (ints [10; -5; 8; -3; 12]%Z) 5 1);
    first [reflexivity | cbn; lia].
Defined.

(** A typed table with a row of zero impressions never comes out of
    [clean_content_metrics_data]: the rate of that row raises. *)
Lemma pandas_zero_impressions_always_raise f :
  typed_content f = true -> no_zero_impressions f = false ->
  Pandas.clean_frame f = Raise ZeroDivisionError.
Proof.
  intros Ht Hz.
  destruct (typed_content_parts f Ht)
    as (dt & imp & clk & rea & com & sha & er & xr & H1 & H2 & H3 & H4 & H5
        & H6 & H7 & H8 & (N1 & N2 & N3 & N4 & N5) & Ldt & Limp & _).
  rewrite (clean_frame_typed f dt imp clk rea com sha er xr) by assumption.
  cbv zeta. rewrite Ldt, <- Limp, existsb_by_index.
  unfold no_zero_impressions, column_or_nulls in Hz. rewrite H2 in Hz.
  apply negb_false_iff in Hz. now rewrite Hz.
Qed.

Lemma pandas_zero_impressions_witness :
  Pandas.clean_frame zero_impressions_example = Raise ZeroDivisionError.
Proof.
  apply pandas_zero_impressions_always_raise; vm_compute; reflexivity.
Defined.

(* ================================================================== *)
(** * Part III. The rest of the pipelines                             *)
(* ================================================================== *)

(** ** Discovery and extraction *)

Lemma prefix_app (a s : string) :
  String.prefix a s = true <-> exists b : string, s = (a ++ b)%string.
Proof.
  revert s. induction a as [| c a IH]; intros s; cbn.
  - destruct s; (split; [intros _; eexists; reflexivity | reflexivity]).
  - destruct s as [| d s]; cbn.
    + split; [discriminate | intros [b H]; discriminate].
    + destruct (ascii_dec c d) as [<- | N].
      * rewrite IH. split; intros [b H]; exists b; [now rewrite H | now injection H].
      * split; [discriminate | intros [b H]; congruence].
Qed.

Lemma contains_substring (sub s : string) :
  contains sub s = true <-> substring_of sub s.
Proof.
  unfold substring_of. induction s as [| c s IH]; cbn [contains].
  - rewrite orb_false_r, prefix_app. split.
    + intros [b H]. exists EmptyString, b. exact H.
    + intros [a [b H]]. destruct a; [now exists b | discriminate].
  - rewrite orb_true_iff, prefix_app, IH. split.
    + intros [[b H] | [a [b H]]].
      * exists EmptyString, b. exact H.
      * exists (String c a), b. cbn. now rewrite H.
    + intros [a [b H]]. destruct a as [| d a]; [left; now exists b |].
      right. exists a, b. now injection H.
Qed.

(** [detect_file_category] returns the first of the four words that occurs
    in the file name, and nothing exactly when none occurs. A detected
    category always has its sheets in [category_keys]. *)
Theorem detect_file_category_first_word (file : string) :
  (detect_file_category file = None
   <-> forall w, In w category_words -> ~ substring_of w file)
  /\ (forall c, detect_file_category file = Some c ->
        exists before after,
          category_words = before ++ c :: after
          /\ substring_of c file
          /\ (forall w, In w before -> ~ substring_of w file)
          /\ dict_mem c Pandas.category_keys = true
          /\ dict_mem c Duck.category_keys = true).
Proof.
  unfold detect_file_category, category_words.
  pose proof (contains_substring "competitor" file) as H1.
  pose proof (contains_substring "content" file) as H2.
  pose proof (contains_substring "followers" file) as H3.
  pose proof (contains_substring "visitors" file) as H4.
  destruct (contains "competitor" file) eqn:E1;
    [| destruct (contains "content" file) eqn:E2;
       [| destruct (contains "followers" file) eqn:E3;
          [| destruct (contains "visitors" file) eqn:E4]]].
  - split.
    + split; [discriminate |]. intros H. exfalso.
      apply (H "competitor"); [now left | now apply H1].
    + intros c [= <-]. exists [], ["content"; "followers"; "visitors"].
      repeat split; [now apply H1 | intros w [] ].
  - split.
    + split; [discriminate |]. intros H. exfalso.
      apply (H "content"); [right; now left | now apply H2].
    + intros c [= <-]. exists ["competitor"], ["followers"; "visitors"].
      repeat split; [now apply H2 |].
      intros w [<- | []] H. apply H1 in H. discriminate.
  - split.
    + split; [discriminate |]. intros H. exfalso.
      apply (H "followers"); [right; right; now left | now apply H3].
    + intros c [= <-]. exists ["competitor"; "content"], ["visitors"].
      repeat split; [now apply H3 |].
      intros w [<- | [<- | []]] H; [apply H1 in H | apply H2 in H];
        discriminate.
  - split.
    + split; [discriminate |]. intros H. exfalso.
      apply (H "visitors"); [right; right; right; now left | now apply H4].
    + intros c [= <-]. exists ["competitor"; "content"; "followers"], [].
      repeat split; [now apply H4 |].
      intros w [<- | [<- | [<- | []]]] H;
        [apply H1 in H | apply H2 in H | apply H3 in H]; discriminate.
  - split.
    + split; [| reflexivity]. intros _ w [<- | [<- | [<- | [<- | []]]]] H;
        [apply H1 in H | apply H2 in H | apply H3 in H | apply H4 in H];
        discriminate.
    + intros c H. discriminate.
Qed.

Lemma read_excel_file_cases (file : raw_file) :
  Pandas.read_excel_file file
  = match file_sheets file with
    | None => Raise KeyError
    | Some sheets =>
        if (List.length sheets <=? List.length (rf_book file))%nat
        then Ok (tables_of file)
        else Raise ValueError
    end.
Proof.
  unfold Pandas.read_excel_file, tables_of, file_sheets.
  destruct file as [[c |] book d p]; cbn [rf_category rf_book rf_dir rf_period];
    [| reflexivity].
  unfold dict_item. cbn [dict_get Pandas.category_keys].
  repeat match goal with
         | |- context [String.eqb c ?k] => destruct (String.eqb c k)
         end;
    try reflexivity;
    destruct book as [| f0 [| f1 [| f2 [| f3 [| f4 [| f5 rest]]]]]];
    reflexivity.
Qed.

Lemma combine_firstn_right {X Y} (xs : list X) (ys : list Y) :
  combine xs ys = combine xs (firstn (List.length xs) ys).
Proof.
  revert ys. induction xs as [| x xs IH]; intros [| y ys]; cbn;
    [reflexivity | reflexivity | reflexivity | now rewrite <- IH].
Qed.

(** [read_excel_file]: a [KeyError] for a file without a category (the
    lookup [category_keys[0]]), a [ValueError] for a workbook with fewer
    sheets than the category reads, and otherwise one table per sheet of the
    category: the sheet names in order over the first sheets of the workbook
    in order, each with the file's directory and period. *)
Theorem read_excel_file_result (file : raw_file) :
  (rf_category file = None -> Pandas.read_excel_file file = Raise KeyError)
  /\ (forall sheets,
        file_sheets file = Some sheets ->
        (List.length (rf_book file) < List.length sheets)%nat ->
        Pandas.read_excel_file file = Raise ValueError)
  /\ (forall sheets,
        file_sheets file = Some sheets ->
        (List.length sheets <= List.length (rf_book file))%nat ->
        exists tables,
          Pandas.read_excel_file file = Ok tables
          /\ map Pandas.dataframe_name tables = map sheet_name sheets
          /\ map Pandas.df tables = firstn (List.length sheets) (rf_book file)
          /\ Forall (fun t => Pandas.dir t = rf_dir file
                              /\ Pandas.extraction_period t = rf_period file)
                    tables).
Proof.
  rewrite read_excel_file_cases. unfold tables_of. split; [| split].
  - unfold file_sheets. now intros ->.
  - intros sheets -> H. apply Nat.leb_gt in H. now rewrite H.
  - intros sheets -> H. pose proof H as Hb. apply Nat.leb_le in Hb.
    rewrite Hb. eexists. split; [reflexivity |]. rewrite !map_map.
    cbn [Pandas.dataframe_name Pandas.df Pandas.dir Pandas.extraction_period].
    rewrite combine_firstn_right.
    assert (L : List.length sheets
                = List.length (firstn (List.length sheets) (rf_book file)))
      by (rewrite length_firstn; lia).
    split; [| split].
    + now apply (map_combine_left _ sheet_name).
    + rewrite (map_combine_right _ (fun f => f));
        [apply map_id | exact L | reflexivity].
    + rewrite Forall_map. apply Forall_forall. intros x _. now split.
Qed.

Lemma mapM_read_excel_file files :
  if forallb readable files
  then mapM Pandas.read_excel_file files = Ok (map tables_of files)
  else mapM Pandas.read_excel_file files = Raise KeyError
       \/ mapM Pandas.read_excel_file files = Raise ValueError.
Proof.
  induction files as [| file files IH]; [reflexivity |].
  cbn [forallb mapM map]. rewrite read_excel_file_cases. unfold readable at 1.
  destruct (file_sheets file) as [sheets |]; cbn [andb bind]; [| now left].
  destruct (List.length sheets <=? List.length (rf_book file))%nat;
    cbn [andb bind]; [| now right].
  destruct (forallb readable files).
  - now rewrite IH.
  - destruct IH as [-> | ->]; [now left | now right].
Qed.

(** [extract_data] returns the tables of all files in listing order, one
    per sheet of each file's category, or fails as a whole: a single file
    whose name holds none of the four words, or whose workbook is short of
    sheets, leaves no table of any file. *)
Theorem extract_data_all_or_nothing (raw : raw_tree) :
  if forallb readable (get_raw_files raw)
  then Pandas.extract_data raw = Ok (flat_map tables_of (get_raw_files raw))
       /\ forall data, Pandas.extract_data raw = Ok data ->
            List.length data
            = list_sum (map (fun file =>
                               match file_sheets file with
                               | Some sheets => List.length sheets
                               | None => 0%nat
                               end)
                            (get_raw_files raw))
  else Pandas.extract_data raw = Raise KeyError
       \/ Pandas.extract_data raw = Raise ValueError.
Proof.
  unfold Pandas.extract_data.
  pose proof (mapM_read_excel_file (get_raw_files raw)) as H.
  destruct (forallb readable (get_raw_files raw)) eqn:R.
  - rewrite H. cbn [bind]. rewrite <- flat_map_concat_map.
    split; [reflexivity |]. intros data [= <-].
    rewrite forallb_forall in R. clear H.
    induction (get_raw_files raw) as [| file files IH]; [reflexivity |].
    cbn [flat_map map list_sum fold_right]. rewrite length_app.
    rewrite IH by (intros x Hx; apply R; now right). f_equal.
    specialize (R file (or_introl eq_refl)). unfold readable, tables_of in *.
    destruct (file_sheets file) as [sheets |]; [| discriminate].
    apply Nat.leb_le in R. rewrite length_map, length_combine. lia.
  - destruct H as [-> | ->]; [now left | now right].
Qed.

(** ** The period as text *)

Lemma str_split_without sep s :
  contains (String sep EmptyString) s = false -> str_split sep s = [s].
Proof.
  induction s as [| c s IH]; cbn [contains str_split]; [reflexivity |].
  intros H. apply orb_false_elim in H as [Hp Hc]. cbn in Hp.
  destruct (ascii_dec sep c) as [-> | N].
  - destruct s; discriminate.
  - destruct (Ascii.eqb_spec c sep) as [-> | _]; [contradiction |].
    now rewrite (IH Hc).
Qed.

Lemma str_split_with sep s :
  contains (String sep EmptyString) s = true ->
  (2 <= List.length (str_split sep s))%nat.
Proof.
  induction s as [| c s IH]; cbn [contains str_split]; [discriminate |].
  intros H. destruct (Ascii.eqb_spec c sep) as [-> | N].
  - pose proof (str_split_nonempty sep s).
    destruct (str_split sep s); [contradiction | cbn; lia].
  - apply orb_true_iff in H as [Hp | Hc].
    + cbn in Hp. destruct (ascii_dec sep c) as [-> | _];
        [contradiction | discriminate].
    + specialize (IH Hc). destruct (str_split sep s); cbn in *; lia.
Qed.

Lemma str_split_length sep s : (1 <= List.length (str_split sep s))%nat.
Proof.
  pose proof (str_split_nonempty sep s).
  destruct (str_split sep s); [contradiction | cbn; lia].
Qed.

Lemma digits_no_dash d : contains "-" (NilEmpty.string_of_uint d) = false.
Proof. induction d; cbn; try reflexivity; exact IHd. Qed.

Lemma str_nat_no_dash n : contains "-" (str_nat n) = false.
Proof.
  unfold str_nat, NilZero.string_of_uint.
  destruct (Nat.to_uint n); try reflexivity; apply digits_no_dash.
Qed.

Lemma period_text_parts p :
  str_split "-" (Pandas.period_text p)
  = str_split "-" (ep_year p) ++ str_split "-" (ep_month p)
    ++ str_split "-" (ep_seq p).
Proof.
  unfold Pandas.period_text. cbn [append]. now rewrite !str_split_app.
Qed.

(** The period [get_raw_files] writes as text is read back by the split of
    [add_final_date] exactly when neither the year nor the month directory
    has a hyphen in its name; with one, the unpacking into three names
    raises [ValueError]. *)
Theorem period_text_splits_back (yr mo : string) (i : nat) :
  Pandas.unpack_period (Pandas.period_text (mkperiod yr mo (str_nat (i + 1))))
  = if contains "-" yr || contains "-" mo
    then Raise ValueError
    else Ok (mkperiod yr mo (str_nat (i + 1))).
Proof.
  unfold Pandas.unpack_period. rewrite period_text_parts.
  cbn [ep_year ep_month ep_seq].
  rewrite (str_split_without _ _ (str_nat_no_dash (i + 1))).
  destruct (contains "-" yr) eqn:Ey; cbn [orb].
  - pose proof (str_split_with _ _ Ey) as Hy.
    pose proof (str_split_length "-" mo) as Hm.
    destruct (str_split "-" yr) as [| a [| b l]]; cbn in Hy; try lia.
    destruct (str_split "-" mo) as [| c l']; cbn in Hm; try lia.
    destruct l as [| x [| x' l]]; [destruct l' | |]; reflexivity.
  - rewrite (str_split_without _ _ Ey).
    destruct (contains "-" mo) eqn:Em.
    + pose proof (str_split_with _ _ Em) as Hm.
      destruct (str_split "-" mo) as [| a [| b l]]; cbn in Hm; try lia.
      destruct l; reflexivity.
    + now rewrite (str_split_without _ _ Em).
Qed.

(** With no hyphen in the year and month directory names, the key of the
    monthly groups and the name of the exported file that the code cuts
    out of the period's text are those of the period's parts: the key is
    year, month and table name joined by underscores, the file is the table
    name and the sequence number. *)
Theorem period_text_keys (t : Pandas.table) (i : nat) :
  contains "-" (ep_year (Pandas.extraction_period t)) = false ->
  contains "-" (ep_month (Pandas.extraction_period t)) = false ->
  ep_seq (Pandas.extraction_period t) = str_nat (i + 1) ->
  Pandas.tag_month_text (Pandas.period_text (Pandas.extraction_period t))
                        (Pandas.dataframe_name t)
  = Pandas.tag_month t
  /\ Pandas.export_filename (Pandas.dataframe_name t)
                            (Pandas.period_text (Pandas.extraction_period t))
     = (Pandas.dataframe_name t ++ "_" ++ str_nat (i + 1) ++ ".csv")%string.
Proof.
  intros Hy Hm Hs.
  unfold Pandas.tag_month_text, Pandas.export_filename, Pandas.tag_month.
  rewrite period_text_parts, (str_split_without _ _ Hy),
    (str_split_without _ _ Hm), Hs,
    (str_split_without _ _ (str_nat_no_dash (i + 1))).
  split; reflexivity.
Qed.

(** The second extraction of a January. *)
Lemma period_text_keys_witness :
  Pandas.tag_month_text "2024-Jan-2" "followers_location"
  = "2024_Jan_followers_location"
  /\ Pandas.export_filename "followers_location" "2024-Jan-2"
     = "followers_location_2.csv".
Proof.
  exact (period_text_keys (pandas_table "Jan" "2" jan_second_half) 1
           eq_refl eq_refl eq_refl).
Defined.

(** ** The transformation of the pandas pipeline *)

Lemma bind_ok {A B} (r : result A) (k : A -> result B) b :
  bind r k = Ok b -> exists a, r = Ok a /\ k a = Ok b.
Proof. destruct r as [a | e]; cbn; [now exists a | discriminate]. Qed.

Lemma columns_combine (names : list string) (ss : list series) :
  List.length names = List.length ss ->
  columns (combine names ss) = names /\ map snd (combine names ss) = ss.
Proof.
  intros L. unfold columns, dict_keys. split.
  - rewrite (map_combine_left fst (fun n => n)); [apply map_id | exact L | reflexivity].
  - rewrite (map_combine_right snd (fun s => s)); [apply map_id | exact L | reflexivity].
Qed.

Lemma nrows_combine (names : list string) (f : frame) :
  List.length names = ncols f -> nrows (combine names (map snd f)) = nrows f.
Proof.
  destruct names as [| n names], f as [| [c s] f]; cbn; try discriminate;
    reflexivity.
Qed.

(** [translate_cols] renames by position: with as many columns as the
    catalog entry has names, the frame keeps its cells and its rows and
    takes the names of the entry in order; with any other number of columns
    the assignment raises [ValueError]. *)
Theorem translate_cols_positional (t : Pandas.table) (names : list string) :
  dict_get (Pandas.dataframe_name t) Pandas.translated_columns = Some names ->
  if Nat.eqb (List.length names) (ncols (Pandas.df t))
  then exists t',
         Pandas.translate_cols t = Ok t'
         /\ columns (Pandas.df t') = names
         /\ map snd (Pandas.df t') = map snd (Pandas.df t)
         /\ frame_rows (Pandas.df t') = frame_rows (Pandas.df t)
         /\ Pandas.dataframe_name t' = Pandas.dataframe_name t
         /\ Pandas.extraction_period t' = Pandas.extraction_period t
  else Pandas.translate_cols t = Raise ValueError.
Proof.
  intros H. unfold Pandas.translate_cols, Pandas.set_columns. rewrite H.
  destruct (Nat.eqb_spec (List.length names) (ncols (Pandas.df t))) as [L | _];
    [| reflexivity].
  cbn [bind]. eexists. split; [reflexivity |]. cbn [Pandas.set_df Pandas.df
    Pandas.dataframe_name Pandas.extraction_period].
  assert (L' : List.length names = List.length (map snd (Pandas.df t)))
    by (now rewrite length_map).
  destruct (columns_combine names (map snd (Pandas.df t)) L') as [Hc Hs].
  repeat split; try assumption.
  now rewrite !frame_rows_series, Hs, nrows_combine.
Qed.

(** A sheet of two columns under the names of the spreadsheet. *)
Lemma translate_cols_positional_witness :
  exists t',
    Pandas.translate_cols
      (raw_pandas_table "Jan" "1" january_raw_first) = Ok t'
    /\ Pandas.df t' = [ ("Location", texts ["Recife"; "Natal"]);
                        ("Total Followers", ints [120; 64]%Z) ].
Proof.
  destruct (translate_cols_positional
              (raw_pandas_table "Jan" "1" january_raw_first)
              ["Location"; "Total Followers"] eq_refl)
    as (t' & Ht & _).
  exists t'. split; [exact Ht |]. vm_compute in Ht. now injection Ht as <-.
Defined.

Lemma nrows_set_repeat k (v : cell) (f : frame) :
  nrows (dict_set k (repeat v (nrows f)) f) = nrows f.
Proof.
  destruct f as [| [c s] f]; cbn; [reflexivity |].
  destruct (String.eqb k c); cbn; [apply repeat_length | reflexivity].
Qed.

Lemma dict_set_columns {V} k (v : V) (d : dict V) :
  dict_keys (dict_set k v d)
  = if dict_mem k d then dict_keys d else dict_keys d ++ [k].
Proof.
  destruct (dict_mem k d) eqn:M.
  - apply dict_set_keys. now apply dict_mem_key.
  - apply dict_set_keys_new. intros H. apply dict_mem_key in H. congruence.
Qed.

Lemma add_final_date_parts (t t' : Pandas.table) :
  Pandas.add_final_date t = Ok t' ->
  columns (Pandas.df t')
  = (if dict_mem "Extraction Range" (Pandas.df t)
     then columns (Pandas.df t)
     else columns (Pandas.df t) ++ ["Extraction Range"])
  /\ nrows (Pandas.df t') = nrows (Pandas.df t)
  /\ Pandas.dataframe_name t' = Pandas.dataframe_name t
  /\ Pandas.extraction_period t' = Pandas.extraction_period t.
Proof.
  unfold Pandas.add_final_date. intros H.
  apply bind_ok in H as (d & Hd & H). injection H as <-.
  cbn [Pandas.set_df Pandas.df Pandas.extraction_period Pandas.dataframe_name].
  split; [apply dict_set_columns |]. split; [apply nrows_set_repeat |].
  split; reflexivity.
Qed.

(** For a month of its table and a year that is a numeral,
    [add_final_date] returns: the date of the period, day 15 or the last
    day of the month for the sequence "2", is in every row of the
    "Extraction Range" column (the source writes it as the text
    [year-month-day]), a new last column unless the frame had one; no other
    column and no row count changes, and a second run changes nothing. *)
Theorem add_final_date_column (t : Pandas.table) (m y : Z) :
  dict_get (ep_month (Pandas.extraction_period t)) Pandas.month_order_pt
  = Some m ->
  py_int (ep_year (Pandas.extraction_period t)) = Ok y ->
  exists t',
    Pandas.add_final_date t = Ok t'
    /\ dict_get "Extraction Range" (Pandas.df t')
       = Some (repeat
                 (VDate (mkdate y m
                           (if String.eqb
                                 (ep_seq (Pandas.extraction_period t)) "2"
                            then monthrange_ndays y m else 15%Z)))
                 (nrows (Pandas.df t)))
    /\ (forall c, c <> "Extraction Range" ->
                  dict_get c (Pandas.df t') = dict_get c (Pandas.df t))
    /\ nrows (Pandas.df t') = nrows (Pandas.df t)
    /\ columns (Pandas.df t')
       = (if dict_mem "Extraction Range" (Pandas.df t)
          then columns (Pandas.df t)
          else columns (Pandas.df t) ++ ["Extraction Range"])
    /\ Pandas.add_final_date t' = Ok t'.
Proof.
  intros Hm Hy.
  assert (Hd : Pandas.final_date (Pandas.extraction_period t)
               = Ok (mkdate y m
                       (if String.eqb (ep_seq (Pandas.extraction_period t)) "2"
                        then monthrange_ndays y m else 15%Z)))
    by (unfold Pandas.final_date, dict_item; now rewrite Hm, Hy).
  unfold Pandas.add_final_date. rewrite Hd. cbn [bind]. eexists.
  split; [reflexivity |].
  cbn [Pandas.set_df Pandas.df Pandas.extraction_period Pandas.dataframe_name
       Pandas.dir].
  split; [apply dict_get_set_same |].
  split; [intros c Hc; now apply dict_get_set_other |].
  split; [apply nrows_set_repeat |]. split; [apply dict_set_columns |].
  rewrite Hd. cbn [bind]. unfold Pandas.set_df.
  cbn [Pandas.df Pandas.extraction_period Pandas.dataframe_name Pandas.dir].
  now rewrite nrows_set_repeat, dict_set_set.
Qed.

(** The second extraction of February 2024, a leap year. *)
Lemma add_final_date_column_witness :
  exists t',
    Pandas.add_final_date
      (Pandas.mktable "followers_location" ["followers"; "2024"; "Fev"]
         (mkperiod "2024" "Fev" "2")
         [ ("Location", texts ["Recife"; "Natal"]);
           ("Total Followers", ints [140; 71]%Z) ]) = Ok t'
    /\ dict_get "Extraction Range" (Pandas.df t')
       = Some (repeat (VDate (mkdate 2024 2 29)) 2)
    /\ Pandas.add_final_date t' = Ok t'.
Proof.
  destruct (add_final_date_column
              (Pandas.mktable "followers_location" ["followers"; "2024"; "Fev"]
                 (mkperiod "2024" "Fev" "2")
                 [ ("Location", texts ["Recife"; "Natal"]);
                   ("Total Followers", ints [140; 71]%Z) ])
              2 2024 eq_refl eq_refl)
    as (t' & Ht & Hcol & _ & _ & _ & Hagain).
  exists t'. split; [exact Ht |]. split; [exact Hcol | exact Hagain].
Defined.

Lemma derive_ok fn src dst (f f' : frame) :
  Pandas.derive fn src dst f = Ok f' ->
  exists s s', dict_get src f = Some s /\ fn s = Ok s'
               /\ f' = dict_set dst s' f.
Proof.
  unfold Pandas.derive, dict_item. intros H.
  destruct (dict_get src f) as [s |]; [| discriminate]. cbn [bind] in H.
  apply bind_ok in H as (s' & Hs' & H). injection H as <-. now exists s, s'.
Qed.

(** Columns rewritten in place, one after the other. *)
Lemma foldM_derive_in_place fn cs : forall (f f' : frame),
  foldM (fun f c => Pandas.derive fn c c f) cs f = Ok f' ->
  columns f' = columns f
  /\ Forall (fun c => dict_mem c f = true) cs
  /\ (forall c, ~ In c cs -> dict_get c f' = dict_get c f).
Proof.
  induction cs as [| c cs IH]; intros f f' H; cbn in H.
  - injection H as <-. repeat split. constructor.
  - apply bind_ok in H as (f1 & H1 & H).
    apply derive_ok in H1 as (s & s' & Hs & _ & ->).
    destruct (IH _ _ H) as (Hc & Hall & Hrest).
    assert (Hin : In c (columns f)) by now apply dict_get_key in Hs.
    unfold columns in *. rewrite dict_set_keys in Hc by assumption.
    split; [assumption |]. split.
    + constructor; [now apply dict_mem_key |].
      eapply Forall_impl; [| exact Hall]. cbn. intros c' Hc'.
      apply dict_mem_key. apply dict_mem_key in Hc'.
      now rewrite dict_set_keys in Hc'.
    + intros c' Hc'. rewrite Hrest by (intros X; apply Hc'; now right).
      apply dict_get_set_other. intros ->. apply Hc'. now left.
Qed.

(** [convert_column_types] needs the "Extraction Range" column and every
    date column of the kind ([KeyError] without one, as when it runs before
    [add_final_date] on a kind without date columns); when it returns, the
    frame has the same columns in the same order and every column that is
    not converted holds what it held. *)
Theorem convert_column_types_frame (to_datetime : series -> result series)
  (t : Pandas.table) :
  (forall t',
      Pandas.convert_column_types to_datetime t = Ok t' ->
      columns (Pandas.df t') = columns (Pandas.df t)
      /\ Forall (fun c => dict_mem c (Pandas.df t) = true)
                (Pandas.columns_to_convert (Pandas.dataframe_name t))
      /\ (forall c,
            ~ In c (Pandas.columns_to_convert (Pandas.dataframe_name t)) ->
            dict_get c (Pandas.df t') = dict_get c (Pandas.df t))
      /\ Pandas.dataframe_name t' = Pandas.dataframe_name t
      /\ Pandas.extraction_period t' = Pandas.extraction_period t)
  /\ (dict_get (Pandas.dataframe_name t) Pandas.date_columns = None ->
      dict_mem "Extraction Range" (Pandas.df t) = false ->
      Pandas.convert_column_types to_datetime t = Raise KeyError).
Proof.
  unfold Pandas.convert_column_types. split.
  - intros t' H. apply bind_ok in H as (f & Hf & H). injection H as <-.
    destruct (foldM_derive_in_place _ _ _ _ Hf) as (Hc & Hall & Hrest).
    repeat split; assumption.
  - intros Hk Hm. unfold Pandas.columns_to_convert. rewrite Hk.
    cbn [app foldM]. unfold Pandas.derive, dict_item.
    unfold dict_mem in Hm.
    destruct (dict_get "Extraction Range" (Pandas.df t)); [discriminate |].
    reflexivity.
Qed.

Lemma mapM_ok_fst {A V} (f : A -> result (string * V)) (key : A -> string)
  l r :
  (forall x y, f x = Ok y -> fst y = key x) ->
  mapM f l = Ok r -> map fst r = map key l.
Proof.
  intros Hk. revert r. induction l as [| x l IH]; intros r H; cbn in H.
  - now injection H as <-.
  - destruct (f x) as [y |] eqn:Hy; [| discriminate]. cbn [bind] in H.
    destruct (mapM f l) as [ys |]; [| discriminate]. cbn [bind] in H.
    injection H as <-. cbn. now rewrite (Hk _ _ Hy), (IH _ eq_refl).
Qed.

Lemma select_columns names (f f' : frame) :
  Pandas.select names f = Ok f' -> columns f' = names.
Proof.
  intros H. unfold Pandas.select in H.
  apply (mapM_ok_fst _ (fun n : string => n)) in H.
  - unfold columns, dict_keys. rewrite H. apply map_id.
  - intros x y Hy. apply bind_ok in Hy as (s & _ & Hy). now injection Hy as <-.
Qed.

Lemma select_get names (f f' : frame) c :
  Pandas.select names f = Ok f' -> In c names ->
  dict_get c f' = dict_get c f.
Proof.
  unfold Pandas.select. revert f'.
  induction names as [| n names IH]; intros f' H Hin; [contradiction |].
  cbn in H. apply bind_ok in H as (y & Hy & H).
  apply bind_ok in H as (ys & Hys & H). injection H as <-.
  apply bind_ok in Hy as (s & Hs & Hy). injection Hy as <-.
  unfold dict_item in Hs. destruct (dict_get n f) as [s0 |] eqn:E;
    [| discriminate]. injection Hs as ->.
  cbn [dict_get]. destruct (String.eqb_spec c n) as [-> | Hne];
    [now rewrite E |].
  destruct Hin as [-> | Hin]; [contradiction |]. now apply IH.
Qed.

(** A loop of column assignments leaves the other columns alone. *)
Lemma foldM_set_other {A} (step : frame -> A
                                  -> result (frame))
  (dst : A -> string) c l :
  (forall f x f', step f x = Ok f' -> exists s, f' = dict_set (dst x) s f) ->
  (forall x, In x l -> dst x <> c) ->
  forall f f', foldM step l f = Ok f' -> dict_get c f' = dict_get c f.
Proof.
  intros Hstep. induction l as [| x l IH]; intros Hd f f' H; cbn in H.
  - now injection H as <-.
  - apply bind_ok in H as (f1 & H1 & H).
    rewrite (IH (fun y Hy => Hd y (or_intror Hy)) _ _ H).
    destruct (Hstep _ _ _ H1) as (s & ->).
    apply dict_get_set_other. intros E. now apply (Hd x (or_introl eq_refl)).
Qed.

Lemma family_column_other suffix c :
  forallb (fun fam => negb (String.eqb (fam ++ suffix) c)) Pandas.families
  = true ->
  forall fam, In fam Pandas.families -> (fam ++ suffix)%string <> c.
Proof.
  intros H fam Hin E. rewrite forallb_forall in H. specialize (H fam Hin).
  rewrite E, String.eqb_refl in H. discriminate.
Qed.

Lemma derive_sets fn src dst (f f' : frame) :
  Pandas.derive fn src dst f = Ok f' -> exists s, f' = dict_set dst s f.
Proof. intros H. apply derive_ok in H as (s & s' & _ & _ & ->). now exists s'. Qed.

(** [clean_content_metrics_data] passes a column it keeps but does not
    compute through to its result. *)
Lemma clean_frame_passes c (f out : frame) :
  In c ["Date"; "Impressions (total)"; "Extraction Range"] ->
  Pandas.clean_frame f = Ok out -> dict_get c out = dict_get c f.
Proof.
  intros Hin H. unfold Pandas.clean_frame in H.
  apply bind_ok in H as (f1 & H1 & H). apply bind_ok in H as (f2 & H2 & H).
  apply bind_ok in H as (f3 & H3 & H). apply bind_ok in H as (f4 & H4 & H).
  apply bind_ok in H as (f5 & H5 & H). apply bind_ok in H as (rate & _ & H).
  assert (Hc : forall suffix, In suffix [" (total)"; " (positive)";
                                         " (moving average)"] ->
               forall fam, In fam Pandas.families -> (fam ++ suffix)%string <> c).
  { intros suffix Hs. apply family_column_other.
    destruct Hin as [<- | [<- | [<- | []]]];
      destruct Hs as [<- | [<- | [<- | []]]]; reflexivity. }
  assert (Hkept : In c Pandas.kept_columns /\ In c Pandas.final_columns
                  /\ "Engagement Rate (total)" <> c).
  { destruct Hin as [<- | [<- | [<- | []]]]; cbn;
      (split; [tauto | split; [tauto | discriminate]]). }
  destruct Hkept as (Hk & Hf & Hr).
  rewrite (select_get _ _ _ c H Hf), dict_get_set_other by congruence.
  assert (Hrep : forall (g : frame) (x : string) g',
             (s <- Pandas.apply_rows (Pandas.repair_row x) g ;;
              Ok (dict_set (x ++ " (total)") s g)) = Ok g' ->
             exists s, g' = dict_set (x ++ " (total)") s g).
  { intros g x g' E. apply bind_ok in E as (s & _ & E). injection E as <-.
    now exists s. }
  rewrite (foldM_set_other _ (fun fam => fam ++ " (total)")%string c _ Hrep
             (Hc " (total)" ltac:(cbn; tauto)) _ _ H5).
  rewrite (foldM_set_other _ (fun fam => fam ++ " (moving average)")%string c _
             (fun f x f' => derive_sets _ _ _ f f')
             (Hc " (moving average)" ltac:(cbn; tauto)) _ _ H4).
  rewrite (foldM_set_other _ (fun fam => fam ++ " (positive)")%string c _
             (fun f x f' => derive_sets _ _ _ f f')
             (Hc " (positive)" ltac:(cbn; tauto)) _ _ H3).
  rewrite (foldM_set_other _ (fun fam => fam ++ " (positive)")%string c _
             (fun f x f' => derive_sets _ _ _ f f')
             (Hc " (positive)" ltac:(cbn; tauto)) _ _ H2).
  exact (select_get _ _ _ c H1 Hk).
Qed.

Lemma clean_frame_columns (f out : frame) :
  Pandas.clean_frame f = Ok out -> columns out = Pandas.final_columns.
Proof.
  intros H. unfold Pandas.clean_frame in H.
  do 6 (apply bind_ok in H as (? & _ & H)). now apply select_columns in H.
Qed.

Lemma select_missing names (f : frame) :
  has_columns names f = false -> Pandas.select names f = Raise KeyError.
Proof.
  unfold has_columns, Pandas.select.
  induction names as [| n names IH]; cbn; [discriminate |].
  unfold dict_mem, dict_item at 1. destruct (dict_get n f) as [s |];
    cbn; [| reflexivity].
  intros H. now rewrite (IH H).
Qed.

(** [clean_content_metrics_data] on any frame: without one of the eight
    columns it selects it raises [KeyError]; whenever it returns, the
    result has the eight final columns in order, and Date, Impressions
    (total) and Extraction Range are what they were. *)
Theorem clean_content_metrics_any_frame (f : frame) :
  (has_columns Pandas.kept_columns f = false ->
   Pandas.clean_frame f = Raise KeyError)
  /\ (forall out,
        Pandas.clean_frame f = Ok out ->
        columns out = Pandas.final_columns
        /\ has_columns Pandas.kept_columns f = true
        /\ dict_get "Date" out = dict_get "Date" f
        /\ dict_get "Impressions (total)" out
           = dict_get "Impressions (total)" f
        /\ dict_get "Extraction Range" out = dict_get "Extraction Range" f).
Proof.
  split.
  - intros H. unfold Pandas.clean_frame. now rewrite (select_missing _ _ H).
  - intros out H. split; [now apply clean_frame_columns in H |]. split.
    + destruct (has_columns Pandas.kept_columns f) eqn:E; [reflexivity |].
      unfold Pandas.clean_frame in H. rewrite (select_missing _ _ E) in H.
      discriminate.
    + repeat split; apply clean_frame_passes; (assumption || (cbn; tauto)).
Qed.

(** The names of the catalog do not hold the Extraction Range. *)
Lemma range_not_in_catalog name names :
  dict_get name Pandas.translated_columns = Some names ->
  ~ In "Extraction Range" names.
Proof.
  intros H Hin. apply dict_get_In in H.
  assert (Hall : forallb (fun kc => negb (existsb (String.eqb "Extraction Range")
                                                 (snd kc)))
                         Pandas.translated_columns = true) by reflexivity.
  rewrite forallb_forall in Hall. specialize (Hall _ H). cbn [snd] in Hall.
  apply negb_true_iff in Hall.
  assert (existsb (String.eqb "Extraction Range") names = true)
    by (apply existsb_exists; exists "Extraction Range"; split;
        [assumption | apply String.eqb_refl]).
  congruence.
Qed.

Lemma derive_in_place_nrows fn c (f f' : frame) :
  (forall s s', fn s = Ok s' -> List.length s' = List.length s) ->
  Pandas.derive fn c c f = Ok f' -> nrows f' = nrows f.
Proof.
  intros Hlen H. apply derive_ok in H as (s & s' & Hs & Hfn & ->).
  apply Hlen in Hfn. destruct f as [| [c0 s0] f]; [discriminate |].
  cbn in *. destruct (String.eqb c c0); cbn; [| reflexivity].
  injection Hs as <-. exact Hfn.
Qed.

Lemma foldM_derive_nrows fn cs :
  (forall s s', fn s = Ok s' -> List.length s' = List.length s) ->
  forall (f f' : frame),
    foldM (fun f c => Pandas.derive fn c c f) cs f = Ok f' ->
    nrows f' = nrows f.
Proof.
  intros Hlen. induction cs as [| c cs IH]; intros f f' H; cbn in H.
  - now injection H as <-.
  - apply bind_ok in H as (f1 & H1 & H). rewrite (IH _ _ H).
    now apply (derive_in_place_nrows fn c).
Qed.

Lemma content_names_start names :
  dict_get "content_metrics" Pandas.translated_columns = Some names ->
  exists rest, names = "Date" :: rest /\ List.length names = 20%nat.
Proof. intros [= <-]. eexists. split; reflexivity. Qed.

(** The loop body of [transform_data], when it returns. *)
Lemma transform_table_parts
  (to_datetime : series -> result series) (t t' : Pandas.table) :
  Pandas.transform_table to_datetime t = Ok t' ->
  exists names,
    dict_get (Pandas.dataframe_name t) Pandas.translated_columns = Some names
    /\ ncols (Pandas.df t) = List.length names
    /\ columns (Pandas.df t')
       = (if String.eqb (Pandas.dataframe_name t) "content_metrics"
          then Pandas.final_columns
          else names ++ ["Extraction Range"])
    /\ Pandas.dataframe_name t' = Pandas.dataframe_name t
    /\ Pandas.extraction_period t' = Pandas.extraction_period t
    /\ ((forall s s', to_datetime s = Ok s' ->
                      List.length s' = List.length s) ->
        nrows (Pandas.df t') = nrows (Pandas.df t)).
Proof.
  unfold Pandas.transform_table. intros H.
  apply bind_ok in H as (t1 & H1 & H). apply bind_ok in H as (t2 & H2 & H).
  apply bind_ok in H as (t3 & H3 & H).
  (* translate_cols *)
  unfold Pandas.translate_cols, Pandas.set_columns in H1.
  destruct (dict_get (Pandas.dataframe_name t) Pandas.translated_columns)
    as [names |] eqn:Hnames; [| discriminate].
  destruct (Nat.eqb_spec (List.length names) (ncols (Pandas.df t)))
    as [L | _]; [| discriminate].
  cbn [bind] in H1. injection H1 as <-.
  assert (L' : List.length names = List.length (map snd (Pandas.df t)))
    by (now rewrite length_map).
  destruct (columns_combine names (map snd (Pandas.df t)) L') as [Hc1 _].
  pose proof (nrows_combine names (Pandas.df t) L) as Hn1.
  (* add_final_date *)
  destruct (add_final_date_parts _ _ H2) as (Hc2 & Hn2 & Hname2 & Hper2).
  cbn [Pandas.set_df Pandas.df Pandas.dataframe_name Pandas.extraction_period]
    in Hc2, Hn2, Hname2, Hper2.
  rewrite Hc1 in Hc2.
  assert (Hm : dict_mem "Extraction Range" (combine names (map snd (Pandas.df t)))
               = false).
  { destruct (dict_mem _ _) eqn:M; [| reflexivity].
    apply dict_mem_key in M. fold (columns (combine names (map snd (Pandas.df t)))) in M.
    rewrite Hc1 in M. now apply range_not_in_catalog in Hnames. }
  rewrite Hm in Hc2.
  (* convert_column_types *)
  unfold Pandas.convert_column_types in H3.
  apply bind_ok in H3 as (f3 & Hf3 & H3). injection H3 as <-.
  destruct (foldM_derive_in_place _ _ _ _ Hf3) as (Hc3 & _ & _).
  cbn [Pandas.set_df Pandas.df Pandas.dataframe_name Pandas.extraction_period]
    in H.
  rewrite Hname2 in H. exists names.
  split; [reflexivity |]. split; [now symmetry |].
  destruct (String.eqb_spec (Pandas.dataframe_name t) "content_metrics")
    as [Ename | _].
  - unfold Pandas.clean_content_metrics_data in H.
    apply bind_ok in H as (out & Hout & H). injection H as <-.
    cbn [Pandas.set_df Pandas.df Pandas.dataframe_name
         Pandas.extraction_period] in *.
    split; [now apply clean_frame_columns in Hout |].
    split; [assumption |]. split; [assumption |].
    intros Hlen. pose proof (foldM_derive_nrows _ _ Hlen _ _ Hf3) as Hn3.
    rewrite Ename in Hnames.
    destruct (content_names_start _ Hnames) as (rest & -> & _).
    rewrite Hc2 in Hc3.
    pose proof (clean_frame_columns _ _ Hout) as Hco.
    pose proof (clean_frame_passes "Date" _ _ ltac:(cbn; tauto) Hout) as Hd.
    rewrite <- Hn1, <- Hn2, <- Hn3.
    destruct out as [| [c0 s0] out]; [discriminate |].
    destruct f3 as [| [c3 s3] f3]; [discriminate |].
    injection Hco as -> _. injection Hc3 as -> _.
    cbn in Hd. injection Hd as ->. reflexivity.
  - injection H as <-.
    cbn [Pandas.set_df Pandas.df Pandas.dataframe_name
         Pandas.extraction_period].
    split; [now rewrite Hc3 |]. split; [assumption |]. split; [assumption |].
    intros Hlen. rewrite (foldM_derive_nrows _ _ Hlen _ _ Hf3). congruence.
Qed.

Lemma mapM_Forall2 {A B} (f : A -> result B) l r :
  mapM f l = Ok r -> Forall2 (fun x y => f x = Ok y) l r.
Proof.
  revert r. induction l as [| x l IH]; intros r H; cbn in H.
  - injection H as <-. constructor.
  - apply bind_ok in H as (y & Hy & H). apply bind_ok in H as (ys & Hys & H).
    injection H as <-. constructor; [assumption | now apply IH].
Qed.

(** [transform_data], when it returns, returns the tables in the order it
    was given them, each with its name and period, with the names of its
    catalog entry followed by "Extraction Range" (the eight final columns
    for [content_metrics]), and with as many rows as before if the date
    parser returns as many cells as it is given. *)
Theorem transform_data_result
  (to_datetime : series -> result series)
  (data data' : list Pandas.table) :
  Pandas.transform_data to_datetime data = Ok data' ->
  Forall2 (fun t t' =>
             Pandas.dataframe_name t' = Pandas.dataframe_name t
             /\ Pandas.extraction_period t' = Pandas.extraction_period t
             /\ (exists names,
                   dict_get (Pandas.dataframe_name t) Pandas.translated_columns
                   = Some names
                   /\ ncols (Pandas.df t) = List.length names
                   /\ columns (Pandas.df t')
                      = (if String.eqb (Pandas.dataframe_name t)
                                       "content_metrics"
                         then Pandas.final_columns
                         else names ++ ["Extraction Range"]))
             /\ ((forall s s', to_datetime s = Ok s' ->
                               List.length s' = List.length s) ->
                 nrows (Pandas.df t') = nrows (Pandas.df t)))
          data data'.
Proof.
  intros H. apply mapM_Forall2 in H.
  induction H as [| t t' data data' Ht _ IH]; constructor; [| exact IH].
  destruct (transform_table_parts _ _ _ Ht)
    as (names & Hn & Hw & Hc & Hname & Hper & Hrows).
  split; [assumption |]. split; [assumption |].
  split; [now exists names | assumption].
Qed.

Lemma keep_dates_length s s' :
  keep_dates s = Ok s' -> List.length s' = List.length s.
Proof.
  unfold keep_dates. destruct (forallb is_date_or_null s); [| discriminate].
  now intros [= <-].
Qed.

(** A [followers_location] sheet through the whole transformation. *)
Lemma transform_data_result_witness :
  exists t',
    Pandas.transform_data keep_dates
      [ raw_pandas_table "Jan" "1" january_raw_first ] = Ok [t']
    /\ columns (Pandas.df t')
       = ["Location"; "Total Followers"; "Extraction Range"]
    /\ nrows (Pandas.df t') = 2%nat.
Proof.
  eexists. split; [vm_compute; reflexivity |].
  pose proof (transform_data_result keep_dates
                [ raw_pandas_table "Jan" "1" january_raw_first ]
                _ eq_refl) as H.
  inversion H as [| ? ? ? ? (_ & _ & (names & Hn & _ & Hc) & Hrows) _]; subst.
  cbn in Hn. injection Hn as <-. split; [exact Hc |].
  exact (Hrows keep_dates_length).
Defined.

(** [transform_data] cannot run twice: on the tables it returned, the
    renaming of the first table finds one column too many (or eight instead
    of twenty for [content_metrics]) and raises [ValueError]. *)
Theorem transform_data_not_rerunnable
  (to_datetime to_datetime' : series -> result series)
  (data data' : list Pandas.table) :
  data <> [] ->
  Pandas.transform_data to_datetime data = Ok data' ->
  Pandas.transform_data to_datetime' data' = Raise ValueError.
Proof.
  intros Hne H. apply mapM_Forall2 in H.
  destruct H as [| t t' data data' Ht _]; [contradiction |].
  destruct (transform_table_parts _ _ _ Ht)
    as (names & Hn & Hw & Hc & Hname & _ & _).
  unfold Pandas.transform_data. cbn [mapM].
  unfold Pandas.transform_table at 1, Pandas.translate_cols,
    Pandas.set_columns. rewrite Hname, Hn.
  assert (Hcount : Nat.eqb (List.length names) (ncols (Pandas.df t')) = false).
  { apply Nat.eqb_neq. unfold ncols. rewrite <- (length_map fst (Pandas.df t')).
    fold (dict_keys (Pandas.df t')). fold (columns (Pandas.df t')). rewrite Hc.
    destruct (String.eqb_spec (Pandas.dataframe_name t) "content_metrics")
      as [E | _].
    - rewrite E in Hn. destruct (content_names_start _ Hn) as (_ & _ & ->).
      discriminate.
    - rewrite length_app. cbn. lia. }
  now rewrite Hcount.
Qed.

(** The same sheet transformed, and transformed again. *)
Lemma transform_data_not_rerunnable_witness :
  exists data',
    Pandas.transform_data keep_dates
      [ raw_pandas_table "Jan" "1" january_raw_first ] = Ok data'
    /\ Pandas.transform_data keep_dates data' = Raise ValueError.
Proof.
  eexists. split; [vm_compute; reflexivity |].
  apply (transform_data_not_rerunnable keep_dates keep_dates
           [ raw_pandas_table "Jan" "1" january_raw_first ]);
    [discriminate | reflexivity].
Defined.

(** ** Loading the frames into the connection *)

Lemma mapM_length {A B} (f : A -> result B) l r :
  mapM f l = Ok r -> List.length r = List.length l.
Proof.
  intros H. apply mapM_Forall2 in H.
  induction H; cbn; [reflexivity | now f_equal].
Qed.

Lemma load_data_ok strptime cast_to (d : Duck.dataframe) (con : db) t con' :
  Duck.load_data_from_pandas strptime cast_to d con = Ok (t, con') ->
  let name := (Duck.pd_name d ++ "_" ++ Duck.period_key (Duck.pd_period d))%string in
  exists entry rows,
    dict_get (Duck.pd_name d) Duck.table_attributes = Some entry
    /\ List.length entry = ncols (Duck.pd_df d)
    /\ dict_mem name con = false
    /\ t = Duck.mktable (Duck.pd_name d) (Duck.pd_period d) name
                        (Duck.str_replace "raw" "clean" (Duck.pd_dir d))
    /\ con' = dict_set name rows con
    /\ columns rows = dict_keys entry
    /\ nrows rows = nrows (Duck.pd_df d).
Proof.
  intros H name. unfold Duck.load_data_from_pandas, Duck.schema_entry in H.
  fold name in H.
  destruct (dict_get (Duck.pd_name d) Duck.table_attributes) as [entry |] eqn:He;
    [| discriminate].
  cbn [bind] in H. unfold Pandas.set_columns in H.
  assert (Lk : List.length (dict_keys entry) = List.length entry)
    by (unfold dict_keys; apply length_map).
  rewrite Lk in H.
  destruct (Nat.eqb_spec (List.length entry) (ncols (Duck.pd_df d)))
    as [L | _]; cbn [bind] in H; [| discriminate].
  destruct (dict_mem name con) eqn:M; [discriminate |].
  apply bind_ok in H as (rows & Hrows & H). injection H as <- <-.
  exists entry, rows. repeat split; try assumption; try reflexivity.
  - unfold columns, dict_keys.
    apply (mapM_ok_fst _ fst) in Hrows; [exact Hrows |].
    intros x y Hy. apply bind_ok in Hy as (s & _ & Hy).
    apply bind_ok in Hy as (s' & _ & Hy). now injection Hy as <-.
  - destruct entry as [| [k0 ty0] entry], (Duck.pd_df d) as [| [c0 s0] f0];
      try discriminate.
    + cbn in Hrows. now injection Hrows as <-.
    + cbn [dict_keys map fst snd combine mapM] in Hrows.
      apply bind_ok in Hrows as (y & Hy & Hrows).
      apply bind_ok in Hrows as (ys & _ & Hrows). injection Hrows as <-.
      unfold Duck.sql_column in Hy. cbn [dict_get fst snd] in Hy.
      rewrite String.eqb_refl in Hy. cbn [bind] in Hy.
      apply bind_ok in Hy as (s' & Hs' & Hy). injection Hy as <-.
      cbn [nrows]. now apply mapM_length in Hs'.
Qed.

(** [load_data_from_pandas], case by case: an unknown kind raises
    [AttributeError]; a frame with another number of columns than the
    catalog entry raises [ValueError] before any table is created; a table
    of the same kind and period already in the connection raises
    [CatalogException]; and when the load returns, the new table is named
    [<kind>_<period>], has the column names of the entry in order and the
    row count of the frame, and no other table has changed. *)
Theorem load_data_from_pandas_result
  (strptime : cell -> result cell)
  (cast_to : Duck.sqltype -> cell -> result cell)
  (d : Duck.dataframe) (con : db) :
  let name := (Duck.pd_name d ++ "_" ++ Duck.period_key (Duck.pd_period d))%string in
  let load := Duck.load_data_from_pandas strptime cast_to d con in
  match dict_get (Duck.pd_name d) Duck.table_attributes with
  | None => load = Raise AttributeError
  | Some entry =>
      if negb (Nat.eqb (List.length entry) (ncols (Duck.pd_df d)))
      then load = Raise ValueError
      else if dict_mem name con
      then load = Raise CatalogException
      else forall t con',
          load = Ok (t, con') ->
          Duck.db_table_name t = name
          /\ Duck.dataframe_name t = Duck.pd_name d
          /\ Duck.extraction_period t = Duck.pd_period d
          /\ (forall n, n <> name -> sql_table n con' = sql_table n con)
          /\ dict_keys con' = dict_keys con ++ [name]
          /\ exists f,
               sql_table name con' = Ok f
               /\ columns f = dict_keys entry
               /\ nrows f = nrows (Duck.pd_df d)
  end.
Proof.
  intros name load.
  destruct (dict_get (Duck.pd_name d) Duck.table_attributes) as [entry |] eqn:He.
  2:{ unfold load, Duck.load_data_from_pandas, Duck.schema_entry.
      now rewrite He. }
  destruct (Nat.eqb_spec (List.length entry) (ncols (Duck.pd_df d)))
    as [L | N]; cbn [negb].
  2:{ unfold load, Duck.load_data_from_pandas, Duck.schema_entry,
        Pandas.set_columns. rewrite He. cbn [bind].
      unfold dict_keys. rewrite length_map.
      apply Nat.eqb_neq in N. now rewrite N. }
  destruct (dict_mem name con) eqn:M.
  { unfold load, Duck.load_data_from_pandas, Duck.schema_entry,
      Pandas.set_columns. rewrite He. cbn [bind].
    unfold dict_keys. rewrite length_map.
    apply Nat.eqb_eq in L. rewrite L. cbn [bind]. fold name. now rewrite M. }
  intros t con' H.
  destruct (load_data_ok _ _ _ _ _ _ H)
    as (entry' & rows & He' & _ & _ & -> & -> & Hc & Hn).
  fold name. rewrite He in He'. injection He' as <-.
  cbn [Duck.db_table_name Duck.dataframe_name Duck.extraction_period].
  split; [reflexivity |]. split; [reflexivity |]. split; [reflexivity |].
  split; [intros n Hn'; now apply sql_table_set_other |].
  split.
  { apply dict_set_keys_new. intros Hin. apply dict_mem_key in Hin. congruence. }
  exists rows. split; [apply sql_table_set_same |]. now split.
Qed.

Lemma convert_loop strptime cast_to data : forall acc (con : db) tables con',
  foldM (fun acc d =>
           r <- Duck.load_data_from_pandas strptime cast_to d (snd acc) ;;
           Ok (fst acc ++ [fst r], snd r))
        data (acc, con) = Ok (tables, con') ->
  exists loaded,
    tables = acc ++ loaded
    /\ Forall2 (fun d t =>
                  t = Duck.mktable (Duck.pd_name d) (Duck.pd_period d)
                        (Duck.pd_name d ++ "_"
                         ++ Duck.period_key (Duck.pd_period d))
                        (Duck.str_replace "raw" "clean" (Duck.pd_dir d))
                  /\ exists entry f,
                       dict_get (Duck.pd_name d) Duck.table_attributes
                       = Some entry
                       /\ sql_table (Duck.db_table_name t) con' = Ok f
                       /\ columns f = dict_keys entry
                       /\ nrows f = nrows (Duck.pd_df d))
               data loaded
    /\ dict_keys con' = dict_keys con ++ map Duck.db_table_name loaded
    /\ NoDup (map Duck.db_table_name loaded)
    /\ (forall n, In n (map Duck.db_table_name loaded) ->
                  ~ In n (dict_keys con))
    /\ (forall n, In n (dict_keys con) -> sql_table n con' = sql_table n con).
Proof.
  induction data as [| d data IH]; intros acc con tables con' H; cbn in H.
  - injection H as <- <-. exists []. rewrite !app_nil_r.
    repeat split; auto; constructor.
  - apply bind_ok in H as ([acc1 con1] & H1 & H).
    apply bind_ok in H1 as ([t c1] & Hl & H1). cbn [fst snd] in *.
    injection H1 as <- <-.
    destruct (load_data_ok _ _ _ _ _ _ Hl)
      as (entry & rows & He & _ & M & Ht & Hc1 & Hcols & Hn).
    cbn zeta in *.
    set (name := (Duck.pd_name d ++ "_" ++ Duck.period_key (Duck.pd_period d))%string) in *.
    assert (Hfresh : ~ In name (dict_keys con)).
    { intros Hin. apply dict_mem_key in Hin. congruence. }
    assert (Hk1 : dict_keys c1 = dict_keys con ++ [name]).
    { rewrite Hc1. now apply dict_set_keys_new. }
    destruct (IH _ _ _ _ H)
      as (loaded & -> & Hall & Hkeys & Hnd & Hnew & Hkeep).
    exists (t :: loaded). split; [now rewrite <- app_assoc |].
    assert (Hname : Duck.db_table_name t = name) by now rewrite Ht.
    split; [| split; [| split; [| split]]].
    + constructor; [| exact Hall]. split; [exact Ht |].
      exists entry, rows. split; [exact He |]. split; [| now split].
      rewrite Hname, Hkeep by (rewrite Hk1; apply in_or_app; right; now left).
      rewrite Hc1. apply sql_table_set_same.
    + rewrite Hkeys, Hk1, <- app_assoc. cbn. now rewrite Hname.
    + cbn [map]. constructor; [| exact Hnd]. rewrite Hname. intros Hin.
      apply (Hnew _ Hin). rewrite Hk1. apply in_or_app. right. now left.
    + cbn [map]. intros n [<- | Hin]; [now rewrite Hname |].
      intros Hc. apply (Hnew _ Hin). rewrite Hk1. apply in_or_app. now left.
    + intros n Hin. rewrite Hkeep by (rewrite Hk1; apply in_or_app; now left).
      rewrite Hc1. apply sql_table_set_other. intros ->. contradiction.
Qed.

(** [convert_pandas_to_duck], when it returns: one table dict per frame, in
    order, named [<kind>_<period>]; every such table is in the connection
    with the column names of its catalog entry and the row count of its
    frame; the names are new and pairwise distinct (a second frame of the
    same kind and period would have raised), and the tables that were in
    the connection are as they were. *)
Theorem convert_pandas_to_duck_result
  (strptime : cell -> result cell)
  (cast_to : Duck.sqltype -> cell -> result cell)
  (data : list Duck.dataframe)
  (con con' : db)
  (tables : list Duck.table) :
  Duck.convert_pandas_to_duck strptime cast_to data con = Ok (tables, con') ->
  Forall2 (fun d t =>
             Duck.dataframe_name t = Duck.pd_name d
             /\ Duck.extraction_period t = Duck.pd_period d
             /\ Duck.db_table_name t
                = (Duck.pd_name d ++ "_"
                   ++ Duck.period_key (Duck.pd_period d))%string
             /\ exists entry f,
                  dict_get (Duck.pd_name d) Duck.table_attributes = Some entry
                  /\ sql_table (Duck.db_table_name t) con' = Ok f
                  /\ columns f = dict_keys entry
                  /\ nrows f = nrows (Duck.pd_df d))
          data tables
  /\ dict_keys con' = dict_keys con ++ map Duck.db_table_name tables
  /\ NoDup (map Duck.db_table_name tables)
  /\ (forall t, In t tables -> ~ In (Duck.db_table_name t) (dict_keys con))
  /\ (forall n, In n (dict_keys con) -> sql_table n con' = sql_table n con).
Proof.
  intros H. unfold Duck.convert_pandas_to_duck in H.
  destruct (convert_loop _ _ _ _ _ _ _ H)
    as (loaded & -> & Hall & Hkeys & Hnd & Hnew & Hkeep).
  cbn [app]. split; [| split; [assumption | split; [assumption | split]]].
  - eapply Forall2_impl; [| exact Hall]. cbn. intros d t [-> Hex].
    cbn [Duck.dataframe_name Duck.extraction_period Duck.db_table_name] in *.
    repeat split. exact Hex.
  - intros t Ht. apply Hnew. now apply in_map.
  - assumption.
Qed.

(** The two extractions of a January, loaded one after the other. *)
Lemma convert_pandas_to_duck_result_witness :
  exists tables con',
    Duck.convert_pandas_to_duck strptime_as_given cast_as_given
      [ raw_duck_frame "Jan" "1" january_raw_first;
        raw_duck_frame "Jan" "2" january_raw_second ] []
    = Ok (tables, con')
    /\ map Duck.db_table_name tables
       = ["followers_location_2024_Jan_1"; "followers_location_2024_Jan_2"]
    /\ map Duck.export_dir tables
       = ["data/linkedin/clean/followers/2024/Jan";
          "data/linkedin/clean/followers/2024/Jan"]
    /\ dict_keys con' = map Duck.db_table_name tables
    /\ NoDup (map Duck.db_table_name tables).
Proof.
  eexists. eexists. split; [vm_compute; reflexivity |].
  split; [reflexivity |]. split; [reflexivity |].
  match goal with
  | |- dict_keys ?c = map _ ?ts /\ _ =>
      destruct (convert_pandas_to_duck_result strptime_as_given cast_as_given
                  [ raw_duck_frame "Jan" "1" january_raw_first;
                    raw_duck_frame "Jan" "2" january_raw_second ]
                  [] c ts eq_refl) as (_ & Hk & Hnd & _)
  end.
  split; [exact Hk | exact Hnd].
Defined.

(** A frame loaded twice: the second load finds the table of the first. *)
Theorem load_data_from_pandas_once
  (strptime : cell -> result cell)
  (cast_to : Duck.sqltype -> cell -> result cell)
  (d : Duck.dataframe) (con con' : db)
  (t : Duck.table) :
  Duck.load_data_from_pandas strptime cast_to d con = Ok (t, con') ->
  Duck.load_data_from_pandas strptime cast_to d con' = Raise CatalogException
  /\ Duck.convert_pandas_to_duck strptime cast_to [d; d] con
     = Raise CatalogException.
Proof.
  intros H.
  destruct (load_data_ok _ _ _ _ _ _ H)
    as (entry & rows & He & L & M & Ht & Hc & _ & _). cbn zeta in *.
  assert (H2 : Duck.load_data_from_pandas strptime cast_to d con'
               = Raise CatalogException).
  { unfold Duck.load_data_from_pandas, Duck.schema_entry, Pandas.set_columns.
    rewrite He. cbn [bind]. unfold dict_keys. rewrite length_map.
    apply Nat.eqb_eq in L. rewrite L. cbn [bind].
    rewrite Hc. unfold dict_mem. now rewrite dict_get_set_same. }
  split; [exact H2 |].
  unfold Duck.convert_pandas_to_duck. cbn [foldM fst snd].
  rewrite H. cbn [bind fst snd]. now rewrite H2.
Qed.

(** The first extraction of a January, listed twice. *)
Lemma load_data_from_pandas_once_witness :
  Duck.convert_pandas_to_duck strptime_as_given cast_as_given
    [ raw_duck_frame "Jan" "1" january_raw_first;
      raw_duck_frame "Jan" "1" january_raw_first ] []
  = Raise CatalogException.
Proof.
  exact (proj2 (load_data_from_pandas_once strptime_as_given cast_as_given
                  (raw_duck_frame "Jan" "1" january_raw_first)
                  [] _ _ eq_refl)).
Defined.

(** ** The transformation of the DuckDB pipeline *)

Lemma sql_table_get n (con : db) f :
  sql_table n con = Ok f <-> dict_get n con = Some f.
Proof.
  unfold sql_table. destruct (dict_get n con); split; intros H;
    try discriminate; now injection H as ->.
Qed.

Lemma dict_set_same_keys {V} k (v v0 : V) (d : dict V) :
  dict_get k d = Some v0 -> dict_keys (dict_set k v d) = dict_keys d.
Proof. intros H. apply dict_set_keys. now apply dict_get_key in H. Qed.

(** [add_final_date] of the DuckDB pipeline: the period is looked up before
    the table is touched, so an unknown period raises [KeyError] whatever
    the connection holds, and a missing table raises [CatalogException];
    when it returns, the table has the date of the period in every row of
    its "Extraction Range" column, every other column and every other table
    are as they were, and a second run changes nothing. *)
Theorem duck_add_final_date_column (t : Duck.table)
  (con : db) :
  match Duck.final_date (Duck.extraction_period t),
        dict_get (Duck.db_table_name t) con with
  | Raise e, _ => Duck.add_final_date t con = Raise e /\ e = KeyError
  | Ok _, None => Duck.add_final_date t con = Raise CatalogException
  | Ok d, Some f =>
      exists con' f',
        Duck.add_final_date t con = Ok con'
        /\ sql_table (Duck.db_table_name t) con' = Ok f'
        /\ dict_get "Extraction Range" f' = Some (repeat (VDate d) (nrows f))
        /\ (forall c, c <> "Extraction Range" -> dict_get c f' = dict_get c f)
        /\ nrows f' = nrows f
        /\ (forall n, n <> Duck.db_table_name t ->
                      sql_table n con' = sql_table n con)
        /\ dict_keys con' = dict_keys con
        /\ Duck.add_final_date t con' = Ok con'
  end.
Proof.
  unfold Duck.add_final_date.
  destruct (Duck.final_date (Duck.extraction_period t)) as [d | e] eqn:Hd.
  - cbn [bind].
    destruct (dict_get (Duck.db_table_name t) con) as [f |] eqn:Hf;
      unfold sql_table at 1; rewrite Hf; [| reflexivity].
    cbn [bind]. eexists. eexists. split; [reflexivity |].
    split; [apply sql_table_set_same |].
    split; [apply dict_get_set_same |].
    split; [intros c Hc; now apply dict_get_set_other |].
    split; [apply nrows_set_repeat |].
    split; [intros n Hn; now apply sql_table_set_other |].
    split; [now apply (dict_set_same_keys _ _ f) |].
    rewrite sql_table_set_same. cbn [bind].
    now rewrite nrows_set_repeat, !dict_set_set.
  - split; [reflexivity |]. unfold Duck.final_date, dict_item in Hd.
    destruct (dict_get _ Duck.map_months_period); [discriminate |].
    now injection Hd as <-.
Qed.

Lemma duck_transform_table_ready cast choose (t : Duck.table) (con : db) :
  duck_transform_ready [t] con = true ->
  exists d f f',
    Duck.final_date (Duck.extraction_period t) = Ok d
    /\ dict_get (Duck.db_table_name t) con = Some f
    /\ duck_transformed cast choose t d f f'
    /\ Duck.transform_table cast choose con t
       = Ok (dict_set (Duck.db_table_name t) f' con).
Proof.
  unfold duck_transform_ready. cbn [forallb]. rewrite andb_true_r.
  intros H. apply andb_prop in H as [Hd H].
  destruct (Duck.final_date (Duck.extraction_period t)) as [d |] eqn:Ed;
    [| discriminate].
  destruct (dict_get (Duck.db_table_name t) con) as [f |] eqn:Ef;
    [| discriminate].
  unfold Duck.transform_table, duck_transformed.
  destruct (String.eqb (Duck.dataframe_name t) "content_metrics") eqn:Ek;
    cbn [negb orb] in H.
  - apply andb_prop in H as [Hc Ht]. apply negb_true_iff in Ht.
    destruct (process_frame_frame cast choose f Hc) as (g & Hg & _).
    exists d, f, (dict_set "Extraction Range" (repeat (VDate d) (nrows g)) g).
    split; [reflexivity |]. split; [reflexivity |].
    split; [now exists g |].
    unfold Duck.process_content_metrics, sql_table. rewrite Ef. cbn [bind].
    rewrite Ht, Hg. cbn [bind]. unfold Duck.add_final_date. rewrite Ed.
    cbn [bind]. rewrite sql_table_set_same. cbn [bind].
    now rewrite dict_set_set.
  - exists d, f, (dict_set "Extraction Range" (repeat (VDate d) (nrows f)) f).
    split; [reflexivity |]. split; [reflexivity |].
    split; [now exists f |].
    cbn [bind]. unfold Duck.add_final_date. rewrite Ed. cbn [bind].
    unfold sql_table. now rewrite Ef.
Qed.

Lemma duck_transform_ready_other ts (con : db) k (v : frame) :
  ~ In k (map Duck.db_table_name ts) ->
  In k (dict_keys con) ->
  duck_transform_ready ts con = true ->
  duck_transform_ready ts (dict_set k v con) = true.
Proof.
  unfold duck_transform_ready. rewrite !forallb_forall.
  intros Hk Hin H t Ht. specialize (H t Ht).
  assert (Hne : Duck.db_table_name t <> k).
  { intros E. apply Hk. rewrite <- E. now apply in_map. }
  rewrite dict_get_set_other by assumption.
  apply andb_prop in H as [Hd H]. rewrite Hd. cbn [andb].
  destruct (dict_get (Duck.db_table_name t) con) as [f |]; [| discriminate].
  destruct (negb (String.eqb (Duck.dataframe_name t) "content_metrics"));
    [reflexivity |].
  cbn [orb] in *. apply andb_prop in H as [Hc Hm]. rewrite Hc. cbn [andb].
  apply negb_true_iff in Hm. apply negb_true_iff.
  destruct (dict_mem (Duck.db_table_name t ++ "_temp") (dict_set k v con))
    eqn:M; [| reflexivity].
  apply dict_mem_key in M. rewrite dict_set_keys in M by assumption.
  apply dict_mem_key in M. congruence.
Qed.

(** [transform_data] of the DuckDB pipeline as a whole: over tables with
    distinct names that are ready, it returns; every table listed holds the
    imputed frame ([content_metrics]) or the frame as it was (other kinds)
    with the date of its period in every row of the Extraction Range; no
    table is added or removed and the tables not listed are untouched. *)
Theorem duck_transform_data_whole (cast_int : Q -> Z)
  (choose : nat -> list nat -> nat) (ts : list Duck.table) :
  forall con : db,
  NoDup (map Duck.db_table_name ts) ->
  duck_transform_ready ts con = true ->
  exists con',
    Duck.transform_data cast_int choose ts con = Ok con'
    /\ dict_keys con' = dict_keys con
    /\ (forall n, ~ In n (map Duck.db_table_name ts) ->
                  sql_table n con' = sql_table n con)
    /\ Forall (fun t =>
                 exists d f f',
                   Duck.final_date (Duck.extraction_period t) = Ok d
                   /\ sql_table (Duck.db_table_name t) con = Ok f
                   /\ sql_table (Duck.db_table_name t) con' = Ok f'
                   /\ duck_transformed cast_int choose t d f f')
              ts.
Proof.
  induction ts as [| t ts IH]; intros con Hnd Hready.
  - exists con. cbn. repeat split. constructor.
  - inversion Hnd as [| ? ? Hnot Hnd']; subst.
    assert (Ht : duck_transform_ready [t] con = true).
    { unfold duck_transform_ready in *. cbn [forallb] in *.
      apply andb_prop in Hready as [H _]. now rewrite H. }
    assert (Hts : duck_transform_ready ts con = true).
    { unfold duck_transform_ready in *. cbn [forallb] in *.
      now apply andb_prop in Hready as [_ H]. }
    destruct (duck_transform_table_ready cast_int choose t con Ht)
      as (d & f & f' & Hd & Hf & Htr & Hstep).
    assert (Hin : In (Duck.db_table_name t) (dict_keys con))
      by now apply dict_get_key in Hf.
    destruct (IH (dict_set (Duck.db_table_name t) f' con) Hnd')
      as (con' & Hrun & Hkeys & Hother & Hall).
    { now apply duck_transform_ready_other. }
    exists con'. unfold Duck.transform_data in *. cbn [foldM].
    rewrite Hstep. cbn [bind]. split; [exact Hrun |].
    split; [rewrite Hkeys; now apply dict_set_keys |].
    split.
    + intros n Hn. rewrite Hother by (intros X; apply Hn; now right).
      apply sql_table_set_other. intros ->. apply Hn. now left.
    + constructor.
      * exists d, f, f'. split; [exact Hd |].
        split; [now apply sql_table_get |].
        split; [| exact Htr]. rewrite (Hother _ Hnot).
        apply sql_table_set_same.
      * rewrite Forall_forall in Hall. apply Forall_forall. intros t' Ht'.
        destruct (Hall t' Ht') as (d' & g & g' & Hd' & Hg & Hg' & Htr').
        exists d', g, g'. split; [exact Hd' |]. split; [| now split].
        rewrite sql_table_set_other in Hg; [exact Hg |].
        intros E. apply Hnot. rewrite <- E. now apply in_map.
Qed.

(** The theorem on the example table of the specification and a table of
    another kind, with the engine that joins every row to itself. *)
Lemma duck_transform_data_whole_witness :
  exists con' content followers,
    Duck.transform_data round_half_up own_row loaded_tables loaded_con = Ok con'
    /\ sql_table "content_metrics_2024_Mar_1" con' = Ok content
    /\ dict_get "Reactions (total)" content = Some (ints [10; 5; 8; 3; 12]%Z)
    /\ dict_get "Extraction Range" content
       = Some (repeat (VDate (mkdate 2024 3 15)) 5)
    /\ sql_table "followers_location_2024_Jan_1" con' = Ok followers
    /\ followers = jan_first_half.
Proof.
  destruct (duck_transform_data_whole round_half_up own_row loaded_tables
              loaded_con)
    as (con' & Hrun & _).
  - apply nodupb_NoDup. reflexivity.
  - reflexivity.
  - exists con'. vm_compute in Hrun. injection Hrun as <-.
    eexists. eexists. split; [vm_compute; reflexivity |].
    split; [vm_compute; reflexivity |]. split; [vm_compute; reflexivity |].
    split; [vm_compute; reflexivity |]. split; [vm_compute; reflexivity |].
    vm_compute. reflexivity.
Defined.

(** ** The imputation of the DuckDB pipeline, row by row *)

Lemma filter_none {X} (p : X -> bool) l :
  (forall x, In x l -> p x = false) -> filter p l = [].
Proof.
  induction l as [| x l IH]; intros H; cbn; [reflexivity |].
  rewrite (H x) by now left. apply IH. intros y Hy. apply H. now right.
Qed.

Lemma filter_all {X} (p : X -> bool) l :
  (forall x, In x l -> p x = true) -> filter p l = l.
Proof.
  induction l as [| x l IH]; intros H; cbn; [reflexivity |].
  rewrite (H x) by now left. f_equal. apply IH. intros y Hy. apply H. now right.
Qed.

(** The indices of [0 .. n) that [p] holds of, when they are those from [a]
    to [b]. *)
Lemma filter_seq_range (p : nat -> bool) a b n :
  (a <= b)%nat -> (b < n)%nat ->
  (forall k, (k < n)%nat -> p k = ((a <=? k) && (k <=? b))%nat) ->
  filter p (seq 0 n) = seq a (S b - a).
Proof.
  intros Hab Hbn Hp.
  replace n with (a + ((S b - a) + (n - S b)))%nat by lia.
  rewrite !seq_app, !filter_app. cbn [plus].
  rewrite (filter_none p (seq 0 a)), (filter_all p (seq a (S b - a))),
    (filter_none p (seq (a + (S b - a)) (n - S b))).
  - now rewrite app_nil_r.
  - intros k Hk. apply in_seq in Hk. rewrite Hp by lia.
    apply andb_false_iff. right. apply Nat.leb_gt. lia.
  - intros k Hk. apply in_seq in Hk. rewrite Hp by lia.
    apply andb_true_iff. split; apply Nat.leb_le; lia.
  - intros k Hk. apply in_seq in Hk. rewrite Hp by lia.
    apply andb_false_iff. left. apply Nat.leb_gt. lia.
Qed.

Lemma filter_map_swap {X Y} (p : Y -> bool) (g : X -> Y) l :
  filter p (map g l) = map g (filter (fun x => p (g x)) l).
Proof.
  induction l as [| x l IH]; cbn; [reflexivity |].
  destruct (p (g x)); cbn; now rewrite IH.
Qed.

Lemma combine_by_index {X Y} (xs : list X) (ys : list Y) dx dy :
  List.length xs = List.length ys ->
  combine xs ys
  = map (fun k => (nth k xs dx, nth k ys dy)) (seq 0 (List.length xs)).
Proof.
  revert ys. induction xs as [| x xs IH]; intros [| y ys] L; cbn in *;
    try discriminate; [reflexivity |].
  f_equal. rewrite <- seq_shift, map_map. apply IH. lia.
Qed.

Lemma firstn_by_index {X} (l : list X) d b :
  (b <= List.length l)%nat -> firstn b l = map (fun k => nth k l d) (seq 0 b).
Proof.
  revert b. induction l as [| x l IH]; intros [| b] H; cbn in *;
    try reflexivity; try lia.
  f_equal. rewrite <- seq_shift, map_map. apply IH. lia.
Qed.

Lemma skipn_map_seq {X} (g : nat -> X) a b :
  skipn a (map g (seq 0 b)) = map g (seq a (b - a)).
Proof.
  destruct (Nat.le_gt_cases a b) as [H | H].
  - replace b with (a + (b - a))%nat at 1 by lia.
    rewrite seq_app, map_app. cbn [plus].
    rewrite skipn_app, skipn_all2 by (rewrite length_map, length_seq; lia).
    rewrite length_map, length_seq, Nat.sub_diag. reflexivity.
  - rewrite skipn_all2 by (rewrite length_map, length_seq; lia).
    replace (b - a)%nat with 0%nat by lia. reflexivity.
Qed.

Lemma window_by_index w (s : series) i :
  (i < List.length s)%nat ->
  Pandas.window_at w s i
  = map (fun k => nth k s VNull) (seq (S i - w) (S i - (S i - w))).
Proof.
  intros H. unfold Pandas.window_at.
  rewrite (firstn_by_index s VNull (S i)) by lia. apply skipn_map_seq.
Qed.

Lemma date_eqb_eq a b : date_eqb a b = true -> a = b.
Proof.
  unfold date_eqb. destruct a, b. cbn. intros H.
  apply andb_prop in H as [H H3]. apply andb_prop in H as [H1 H2].
  apply Z.eqb_eq in H1, H2, H3. now subst.
Qed.

Lemma date_eqb_refl a : date_eqb a a = true.
Proof. unfold date_eqb. now rewrite !Z.eqb_refl. Qed.

Lemma daily_own_date base dates i :
  daily_from base dates -> (i < List.length dates)%nat -> own_date dates i.
Proof.
  intros Hd Hi. destruct (Hd i Hi) as (d & Ed & Hday). split.
  - rewrite Ed. cbn. apply date_eqb_refl.
  - intros j Hj. destruct (Hd j Hj) as (d' & Ed' & Hday'). rewrite Ed, Ed'.
    cbn. intros E. apply date_eqb_eq in E. subst d'. lia.
Qed.

(** The window of dates of a row, in a table with one row a day: the row
    and the two before it, as far as they exist. *)
Lemma daily_window base dates positive i :
  daily_from base dates -> List.length positive = List.length dates ->
  (i < List.length dates)%nat ->
  Duck.window_avg dates positive i
  = mean_cells 1 (Pandas.window_at 3 positive i).
Proof.
  intros Hd L Hi. unfold Duck.window_avg. f_equal.
  rewrite (combine_by_index dates positive VNull VNull) by (now symmetry).
  rewrite filter_map_swap, map_map. cbn [fst snd].
  rewrite (filter_seq_range _ (S i - 3) i (List.length dates)); try lia.
  - now rewrite window_by_index by lia.
  - intros k Hk. destruct (Hd i Hi) as (d & -> & Hday).
    destruct (Hd k Hk) as (d' & -> & Hday'). cbn [Duck.in_window].
    rewrite Hday, Hday'.
    destruct (Nat.leb_spec (S i - 3) k), (Nat.leb_spec k i);
      destruct (Z.leb_spec (base + Z.of_nat i - 2) (base + Z.of_nat k));
      destruct (Z.leb_spec (base + Z.of_nat k) (base + Z.of_nat i));
      cbn; try reflexivity; lia.
Qed.

Lemma write_back_nth cast choose dates totals finals i :
  (i < List.length dates)%nat ->
  nth i (Duck.write_back cast choose dates totals finals) VNull
  = match Duck.pick choose i
            (filter (fun j => Duck.sql_date_eq (nth i dates VNull)
                                               (nth j dates VNull))
                    (seq 0 (List.length dates))) with
    | Some j => Duck.store_int cast (nth j finals VNull)
    | None => nth i totals VNull
    end.
Proof.
  intros Hi. unfold Duck.write_back.
  rewrite (nth_indep _ VNull
             (match Duck.pick choose 0 (filter (fun j => Duck.sql_date_eq (nth 0 dates VNull)
                                               (nth j dates VNull))
                    (seq 0 (List.length dates))) with
    | Some j => Duck.store_int cast (nth j finals VNull)
    | None => nth 0 totals VNull
    end)) by (now rewrite length_map, length_seq).
  rewrite (map_nth (fun i => match Duck.pick choose i
            (filter (fun j => Duck.sql_date_eq (nth i dates VNull)
                                               (nth j dates VNull))
                    (seq 0 (List.length dates))) with
    | Some j => Duck.store_int cast (nth j finals VNull)
    | None => nth i totals VNull
    end)).
  now rewrite seq_nth.
Qed.

Lemma own_date_candidates dates i :
  (i < List.length dates)%nat -> own_date dates i ->
  filter (fun j => Duck.sql_date_eq (nth i dates VNull) (nth j dates VNull))
         (seq 0 (List.length dates)) = [i].
Proof.
  intros Hi [Hrefl Huniq].
  rewrite (filter_seq_range _ i i (List.length dates)); try lia.
  - now rewrite Nat.sub_succ_l, Nat.sub_diag.
  - intros k Hk.
    destruct (Duck.sql_date_eq (nth i dates VNull) (nth k dates VNull)) eqn:E.
    + apply (Huniq k Hk) in E. subst k. now rewrite Nat.leb_refl.
    + symmetry. apply andb_false_iff.
      destruct (Nat.eq_dec k i) as [-> | N]; [congruence |].
      destruct (Nat.leb_spec i k); [right; apply Nat.leb_gt; lia | now left].
Qed.

(** [process_content_metrics] stores, for every family, the column that
    [repaired] computes from the table as it was. *)
Lemma process_frame_columns cast choose (f out : frame) :
  Duck.process_frame cast choose f = Ok out ->
  exists dates,
    dict_get "Date" f = Some dates
    /\ forall fam, In fam Duck.families ->
         exists totals,
           dict_get (fam ++ " (total)") f = Some totals
           /\ dict_get (fam ++ " (total)") out
              = Some (Duck.write_back cast choose dates totals
                        (map (fun tm => Duck.final_of (fst tm) (snd tm))
                             (combine totals
                                (Duck.moving_average choose dates
                                   (map Duck.positive_of totals))))).
Proof.
  unfold Duck.process_frame. intros H.
  apply bind_ok in H as (dates & Hd & H). exists dates.
  unfold Duck.sql_column in Hd.
  destruct (dict_get "Date" f) as [dates' |]; [| discriminate].
  injection Hd as ->. split; [reflexivity |].
  apply bind_ok in H as (news & Hnews & H). injection H as <-.
  assert (Hrep : forall fam y,
             (s <- Duck.repaired cast choose dates fam f ;;
              Ok ((fam ++ " (total)")%string, s)) = Ok y ->
             exists totals,
               dict_get (fam ++ " (total)") f = Some totals
               /\ y = ((fam ++ " (total)")%string,
                       Duck.write_back cast choose dates totals
                         (map (fun tm => Duck.final_of (fst tm) (snd tm))
                              (combine totals
                                 (Duck.moving_average choose dates
                                    (map Duck.positive_of totals)))))).
  { intros fam y Hy. apply bind_ok in Hy as (s & Hs & Hy). injection Hy as <-.
    unfold Duck.repaired, Duck.sql_column in Hs.
    destruct (dict_get (fam ++ " (total)") f) as [totals |]; [| discriminate].
    cbn [bind] in Hs. injection Hs as <-. now exists totals. }
  apply mapM_Forall2 in Hnews. unfold Duck.families in Hnews.
  inversion Hnews as [| ? y1 ? ? H1 Hn1]; subst; clear Hnews.
  inversion Hn1 as [| ? y2 ? ? H2 Hn2]; subst; clear Hn1.
  inversion Hn2 as [| ? y3 ? ? H3 Hn3]; subst; clear Hn2.
  inversion Hn3 as [| ? y4 ? ? H4 Hn4]; subst; clear Hn3.
  inversion Hn4; subst; clear Hn4.
  apply Hrep in H1 as (t1 & E1 & ->). apply Hrep in H2 as (t2 & E2 & ->).
  apply Hrep in H3 as (t3 & E3 & ->). apply Hrep in H4 as (t4 & E4 & ->).
  cbn [fold_left fst snd].
  intros fam [<- | [<- | [<- | [<- | []]]]]; eexists;
    (split; [eassumption |]);
    repeat first [ apply dict_get_set_same
                 | rewrite dict_get_set_other by discriminate ].
Qed.

Lemma nth_map_combine {X Y W} (g : X * Y -> W) xs ys i dx dy dw :
  List.length xs = List.length ys -> (i < List.length xs)%nat ->
  nth i (map g (combine xs ys)) dw = g (nth i xs dx, nth i ys dy).
Proof.
  intros L Hi. rewrite (combine_by_index xs ys dx dy L), map_map.
  rewrite (nth_indep _ dw (g (nth 0 xs dx, nth 0 ys dy)))
    by (now rewrite length_map, length_seq).
  rewrite (map_nth (fun k => g (nth k xs dx, nth k ys dy))).
  now rewrite seq_nth.
Qed.

Lemma moving_average_length choose dates positive :
  List.length (Duck.moving_average choose dates positive) = List.length dates.
Proof. unfold Duck.moving_average. now rewrite length_map, length_seq. Qed.

Lemma moving_average_nth choose dates positive i :
  (i < List.length dates)%nat ->
  nth i (Duck.moving_average choose dates positive) VNull
  = match Duck.pick choose i (seq 0 (List.length dates)) with
    | Some j => Duck.window_avg dates positive j
    | None => VNull
    end.
Proof.
  intros Hi. unfold Duck.moving_average.
  rewrite (nth_indep _ VNull
             (match Duck.pick choose 0 (seq 0 (List.length dates)) with
              | Some j => Duck.window_avg dates positive j
              | None => VNull
              end)) by (now rewrite length_map, length_seq).
  rewrite (map_nth (fun i => match Duck.pick choose i
                                     (seq 0 (List.length dates)) with
                             | Some j => Duck.window_avg dates positive j
                             | None => VNull
                             end)).
  now rewrite seq_nth.
Qed.

Lemma Qle_bool_inject z : Qle_bool 0 (inject_Z z) = true <-> (0 <= z)%Z.
Proof.
  rewrite Qle_bool_iff. unfold Qle, inject_Z. cbn. lia.
Qed.

(** Rows the imputation of the DuckDB pipeline leaves alone, whatever the
    engine: a row without a date (no row of the auxiliary table joins it),
    and a row with a date of its own whose total is a non-negative integer
    that the cast to INT gives back. *)
Theorem duck_imputation_keeps (cast_int : Q -> Z)
  (choose : nat -> list nat -> nat)
  (f out : frame) (fam : string)
  (dates totals : series) (i : nat) :
  Duck.process_frame cast_int choose f = Ok out ->
  In fam Duck.families ->
  dict_get "Date" f = Some dates ->
  dict_get (fam ++ " (total)") f = Some totals ->
  List.length totals = List.length dates ->
  (i < List.length dates)%nat ->
  nth i dates VNull = VNull
  \/ (own_date dates i
      /\ exists z, nth i totals VNull = VNum (inject_Z z)
                   /\ (0 <= z)%Z /\ cast_int (inject_Z z) = z) ->
  exists s,
    dict_get (fam ++ " (total)") out = Some s
    /\ nth i s VNull = nth i totals VNull.
Proof.
  intros Hout Hfam Hd Ht L Hi Hrow.
  destruct (process_frame_columns _ _ _ _ Hout) as (dates' & Hd' & Hcols).
  rewrite Hd in Hd'. injection Hd' as <-.
  destruct (Hcols fam Hfam) as (totals' & Ht' & Hs).
  rewrite Ht in Ht'. injection Ht' as <-.
  eexists. split; [exact Hs |]. rewrite write_back_nth by assumption.
  destruct Hrow as [Hnull | (Hown & z & Hz & Hpos & Hcast)].
  - rewrite filter_none; [reflexivity |]. intros j _. now rewrite Hnull.
  - rewrite (own_date_candidates dates i Hi Hown). cbn [Duck.pick].
    rewrite (nth_map_combine _ totals _ i VNull VNull)
      by (rewrite ?moving_average_length; lia).
    cbn [fst snd]. rewrite Hz. cbn [Duck.final_of].
    apply Qle_bool_inject in Hpos. rewrite Hpos. cbn [Duck.store_int].
    now rewrite Hcast.
Qed.

Lemma pick_candidate choose i l :
  (forall k c, c <> [] -> In (choose k c) c) -> l <> [] ->
  exists j, Duck.pick choose i l = Some j /\ In j l.
Proof.
  intros Hc Hl. destruct l as [| a [| b l]]; [contradiction | |];
    cbn [Duck.pick].
  - exists a. split; [reflexivity | now left].
  - eexists. split; [reflexivity |]. apply Hc. discriminate.
Qed.

(** With one row a day, the DuckDB pipeline stores for a total that is not
    a non-negative number the mean, cast to INT, of a three-day window of
    totals, negatives counted as 0: the window that ends at the row the
    engine joins the target row to in the first update, which gives no
    join condition, so at a row of the engine's choice and not at the
    target row itself. The window holds three rows, or the one or two there
    are at the start of the table. *)
Theorem duck_imputation_daily (cast_int : Q -> Z)
  (choose : nat -> list nat -> nat)
  (f out : frame) (fam : string) (base : Z)
  (dates totals : series) (i : nat) :
  (forall k c, c <> [] -> In (choose k c) c) ->
  Duck.process_frame cast_int choose f = Ok out ->
  In fam Duck.families ->
  dict_get "Date" f = Some dates ->
  dict_get (fam ++ " (total)") f = Some totals ->
  List.length totals = List.length dates ->
  daily_from base dates ->
  (i < List.length dates)%nat ->
  exists s j,
    dict_get (fam ++ " (total)") out = Some s
    /\ Duck.pick choose i (seq 0 (List.length dates)) = Some j
    /\ (j < List.length dates)%nat
    /\ nth i s VNull
       = Duck.store_int cast_int
           (Duck.final_of (nth i totals VNull)
              (mean_cells 1
                 (Pandas.window_at 3 (map Duck.positive_of totals) j))).
Proof.
  intros Hchoose Hout Hfam Hd Ht L Hdaily Hi.
  destruct (process_frame_columns _ _ _ _ Hout) as (dates' & Hd' & Hcols).
  rewrite Hd in Hd'. injection Hd' as <-.
  destruct (Hcols fam Hfam) as (totals' & Ht' & Hs).
  rewrite Ht in Ht'. injection Ht' as <-.
  destruct (pick_candidate choose i (seq 0 (List.length dates)) Hchoose)
    as (j & Hj & Hin).
  { destruct (List.length dates); [lia | discriminate]. }
  apply in_seq in Hin.
  eexists. exists j. split; [exact Hs |]. split; [exact Hj |].
  split; [lia |]. rewrite write_back_nth by assumption.
  rewrite (own_date_candidates dates i Hi (daily_own_date _ _ _ Hdaily Hi)).
  cbn [Duck.pick].
  rewrite (nth_map_combine _ totals _ i VNull VNull)
    by (rewrite ?moving_average_length; lia).
  cbn [fst snd]. rewrite moving_average_nth, Hj by assumption.
  rewrite (daily_window base) by (rewrite ?length_map; lia || assumption).
  reflexivity.
Qed.

Lemma march_daily :
  daily_from (days_from_civil (mkdate 2024 3 1))
             (march_days [1; 2; 3; 4; 5]%Z).
Proof.
  intros k Hk. cbn in Hk.
  do 5 (destruct k as [| k]; [eexists; split; reflexivity |]). lia.
Qed.

Lemma first_row_candidate k c : c <> [] -> In (first_row k c) c.
Proof. destruct c; [contradiction | now left]. Qed.

(** On the example of the specification, every row joined to the first
    row of the table: the second row, -5 reactions after 10, gets 10, the
    mean of the window of the first row, and not 5, the mean of 10 and 0. *)
Lemma duck_imputation_daily_witness :
  exists out s,
    Duck.process_frame round_half_up first_row spec_example = Ok out
    /\ dict_get "Reactions (total)" out = Some s
    /\ Duck.pick first_row 1 (seq 0 5) = Some 0%nat
    /\ nth 1 s VNull = VNum 10.
Proof.
  eexists.
  destruct (duck_imputation_daily round_half_up first_row spec_example _
              "Reactions" (days_from_civil (mkdate 2024 3 1))
              (march_days [1; 2; 3; 4; 5]%Z) (ints [10; -5; 8; -3; 12]%Z) 1
              first_row_candidate eq_refl (or_introl eq_refl) eq_refl eq_refl
              eq_refl march_daily)
    as (s & j & Hs & Hj & _ & Hn).
  - cbn. lia.
  - exists s. split; [reflexivity |]. split; [exact Hs |].
    split; [reflexivity |]. rewrite Hn.
    cbn in Hj. injection Hj as <-. vm_compute. reflexivity.
Defined.

(** The third row of the example, 8 reactions, with the engine that joins
    every row to the first. *)
Lemma duck_imputation_keeps_witness :
  exists out s,
    Duck.process_frame round_half_up first_row spec_example = Ok out
    /\ dict_get "Reactions (total)" out = Some s
    /\ nth 2 s VNull = VNum 8.
Proof.
  eexists.
  destruct (duck_imputation_keeps round_half_up first_row spec_example _
              "Reactions" (march_days [1; 2; 3; 4; 5]%Z)
              (ints [10; -5; 8; -3; 12]%Z) 2
              eq_refl (or_introl eq_refl) eq_refl eq_refl eq_refl)
    as (s & Hs & Hn).
  - cbn. lia.
  - right. split.
    + apply (daily_own_date (days_from_civil (mkdate 2024 3 1)));
        [exact march_daily | cbn; lia].
    + exists 8%Z. split; [reflexivity |]. split; [lia | reflexivity].
  - exists s. split; [reflexivity |]. split; [exact Hs |]. exact Hn.
Defined.

(** ** Months with more than two extractions *)

(** The monthly frame of the pandas pipeline holds the rows of every table
    of the key, however many there are, in the order of the listing. *)
Theorem pandas_monthly_all_extractions (data : list Pandas.table)
  (k : string) (t : Pandas.table) (ts : list Pandas.table)
  (cs : list string) :
  filter (fun t => String.eqb k (Pandas.tag_month t)) data = t :: ts ->
  NoDup cs ->
  Forall (fun t => columns (Pandas.df t) = cs
                   /\ rectangular (Pandas.df t) = true) (t :: ts) ->
  exists r g,
    Pandas.concatenate_monthly_dataframes data = Ok r
    /\ dict_get k r = Some g
    /\ columns (Pandas.concatenated_df g) = cs
    /\ frame_rows (Pandas.concatenated_df g)
       = flat_map (fun t => frame_rows (Pandas.df t)) (t :: ts)
    /\ nrows (Pandas.concatenated_df g)
       = list_sum (map (fun t => nrows (Pandas.df t)) (t :: ts)).
Proof.
  intros Hk Hnd Hall.
  destruct (pandas_month_table data k t ts Hk) as (r & g & Hr & Hg & Hc).
  exists r, g. split; [assumption |]. split; [assumption |].
  destruct (pd_concat_rows cs (map Pandas.df (t :: ts)) Hnd)
    as (F & HF & Hrows & Hn & Hcols & _); [discriminate | |].
  - rewrite Forall_map. exact Hall.
  - rewrite HF in Hc. injection Hc as <-.
    rewrite flat_map_concat_map, map_map, <- flat_map_concat_map in Hrows.
    rewrite map_map in Hn. repeat split; assumption.
Qed.

(** A January of three extractions, of 5, 7 and 2 rows. *)
Lemma pandas_monthly_all_extractions_witness :
  exists r g,
    Pandas.concatenate_monthly_dataframes three_extractions_data = Ok r
    /\ dict_get "2024_Jan_followers_location" r = Some g
    /\ frame_rows (Pandas.concatenated_df g)
       = frame_rows jan_first_half ++ frame_rows jan_second_half
         ++ frame_rows jan_third
    /\ nrows (Pandas.concatenated_df g) = 14%nat.
Proof.
  destruct (pandas_monthly_all_extractions three_extractions_data
              "2024_Jan_followers_location"
              (pandas_table "Jan" "1" jan_first_half)
              [ pandas_table "Jan" "2" jan_second_half;
                pandas_table "Jan" "3" jan_third ]
              location_columns)
    as (r & g & Hr & Hg & _ & Hrows & Hn).
  - reflexivity.
  - apply nodupb_NoDup. reflexivity.
  - repeat constructor.
  - exists r, g. split; [assumption |]. split; [assumption |].
    split; [rewrite Hrows | rewrite Hn]; vm_compute; reflexivity.
Defined.

(** The monthly table of the DuckDB pipeline is the union of the first two
    tables of the key: the rows of a third or later table of the month are
    in no monthly table. *)
Theorem duck_monthly_first_two (ts : list Duck.table)
  (con : db) (k : string)
  (t1 t2 : Duck.table) (rest : list Duck.table)
  (a b : frame) :
  duck_month_ready ts con = true ->
  filter (fun t => String.eqb k (Duck.category_year_month t)) ts
  = t1 :: t2 :: rest ->
  sql_table (Duck.db_table_name t1) con = Ok a ->
  sql_table (Duck.db_table_name t2) con = Ok b ->
  rectangular a = true -> rectangular b = true ->
  exists md con' u,
    Duck.concatenate_monthly_tables ts con = Ok (md, con')
    /\ sql_table k con' = Ok u
    /\ frame_rows u = frame_rows a ++ frame_rows b
    /\ nrows u = (nrows a + nrows b)%nat.
Proof.
  intros Hready Hk Ha Hb R1 R2.
  destruct (duck_month_whole ts con Hready) as (con' & Hres & Hkeys).
  destruct (Hkeys k t1 t2 rest a b Hk Ha Hb) as (u & Hu & Hku).
  pose proof (union_all_series a b u Hu) as (Hw & _).
  destruct (union_all_rows a b Hw R1 R2) as (u' & Hu' & Hrows & Hn & _).
  rewrite Hu in Hu'. injection Hu' as <-.
  exists (fold_left Duck.group_month ts []), con', u. repeat split; assumption.
Qed.

(** The same January: 12 rows, the 2 rows of the third extraction left
    out. *)
Lemma duck_monthly_first_two_witness :
  exists md con' u,
    Duck.concatenate_monthly_tables three_extractions_tables
                                    three_extractions_con = Ok (md, con')
    /\ sql_table "followers_location_2024_Jan" con' = Ok u
    /\ frame_rows u = frame_rows jan_first_half ++ frame_rows jan_second_half
    /\ nrows u = 12%nat
    /\ nrows jan_third = 2%nat.
Proof.
  destruct (duck_monthly_first_two three_extractions_tables
              three_extractions_con "followers_location_2024_Jan"
              (duck_table "Jan" "1") (duck_table "Jan" "2")
              [duck_table "Jan" "3"] jan_first_half jan_second_half)
    as (md & con' & u & Hr & Hu & Hrows & Hn); try reflexivity.
  exists md, con', u. repeat split; assumption.
Defined.

(** ** Groups: one per key, in order of first appearance *)

Lemma dedup_from_same seen seen' l :
  (forall x, In x seen <-> In x seen') ->
  dedup_from seen l = dedup_from seen' l.
Proof.
  revert seen seen'. induction l as [| x l IH]; intros seen seen' H; cbn;
    [reflexivity |].
  assert (E : existsb (String.eqb x) seen = existsb (String.eqb x) seen').
  { destruct (existsb (String.eqb x) seen) eqn:E1,
             (existsb (String.eqb x) seen') eqn:E2; try reflexivity.
    - apply existsb_eqb_In, H, existsb_eqb_In in E1. congruence.
    - apply existsb_eqb_In, H, existsb_eqb_In in E2. congruence. }
  rewrite E. destruct (existsb (String.eqb x) seen').
  - now apply IH.
  - f_equal. apply IH. intros y. cbn. now rewrite H.
Qed.

Lemma gstep_keys {A G} (key : A -> string) (mk : A -> G) (add : A -> G -> G)
  acc x :
  dict_keys (gstep key mk add acc x)
  = if dict_mem (key x) acc then dict_keys acc else dict_keys acc ++ [key x].
Proof.
  unfold gstep. destruct (dict_mem (key x) acc) eqn:M.
  - apply dict_mem_get in M as [g Hg]. rewrite Hg.
    apply dict_set_keys. now apply dict_get_key in Hg.
  - rewrite dict_get_set_same, dict_set_set. apply dict_set_keys_new.
    intros H. apply dict_mem_key in H. congruence.
Qed.

Lemma gfold_keys {A G} (key : A -> string) (mk : A -> G) (add : A -> G -> G)
  l : forall acc,
  dict_keys (fold_left (gstep key mk add) l acc)
  = dict_keys acc ++ dedup_from (dict_keys acc) (map key l).
Proof.
  induction l as [| x l IH]; intros acc; cbn [fold_left map dedup_from].
  - now rewrite app_nil_r.
  - rewrite IH, gstep_keys.
    destruct (dict_mem (key x) acc) eqn:M.
    + assert (E : existsb (String.eqb (key x)) (dict_keys acc) = true)
        by (apply existsb_eqb_In; now apply dict_mem_key).
      now rewrite E.
    + assert (E : existsb (String.eqb (key x)) (dict_keys acc) = false).
      { destruct (existsb _ _) eqn:E; [| reflexivity].
        apply existsb_eqb_In, dict_mem_key in E. congruence. }
      rewrite E, <- app_assoc. cbn [app]. do 2 f_equal.
      apply dedup_from_same. intros y. rewrite in_app_iff. cbn. tauto.
Qed.

Lemma concat_group_keys (d : dict Pandas.group) r :
  mapM Pandas.concat_group d = Ok r -> dict_keys r = dict_keys d.
Proof.
  intros H. unfold dict_keys.
  apply (mapM_ok_fst _ fst) in H; [exact H |].
  intros x y Hy. unfold Pandas.concat_group in Hy.
  apply bind_ok in Hy as (c & _ & Hy). now injection Hy as <-.
Qed.

(** The four aggregation dicts have one entry for each key, in the order
    in which the keys first appear: the monthly dict of the pandas pipeline
    by [<year>_<month>_<kind>] and that of the DuckDB pipeline by
    [<kind>_<year>_<month>] over the tables, the category dicts by kind
    over the monthly dict. *)
Theorem groups_first_appearance :
  (forall data r,
      Pandas.concatenate_monthly_dataframes data = Ok r ->
      dict_keys r = dedup_from [] (map Pandas.tag_month data)
      /\ NoDup (dict_keys r))
  /\ (forall (data : list (string * Pandas.cgroup)) r,
         Pandas.concatenate_category_dataframes data = Ok r ->
         dict_keys r
         = dedup_from [] (map (fun kg => Pandas.cg_category (snd kg)) data)
         /\ NoDup (dict_keys r))
  /\ (forall ts con md con',
         Duck.concatenate_monthly_tables ts con = Ok (md, con') ->
         dict_keys md = dedup_from [] (map Duck.category_year_month ts)
         /\ NoDup (dict_keys md))
  /\ (forall cat_dir (monthly_data : list (string * Duck.group)) con
             grouped con',
         Duck.concatenate_category_tables cat_dir monthly_data con
         = Ok (grouped, con') ->
         dict_keys grouped
         = dedup_from [] (map (fun kg => Duck.category (snd kg)) monthly_data)
         /\ NoDup (dict_keys grouped)).
Proof.
  split; [| split; [| split]].
  - intros data r H. unfold Pandas.concatenate_monthly_dataframes in H.
    apply concat_group_keys in H. rewrite H. split.
    + exact (gfold_keys Pandas.tag_month _ _ data []).
    + apply (gfold_NoDup Pandas.tag_month). constructor.
  - intros data r H. unfold Pandas.concatenate_category_dataframes in H.
    apply concat_group_keys in H. rewrite H. split.
    + exact (gfold_keys (fun kg : string * Pandas.cgroup =>
                           Pandas.cg_category (snd kg)) _ _ data []).
    + apply (gfold_NoDup (fun kg : string * Pandas.cgroup =>
                            Pandas.cg_category (snd kg))). constructor.
  - intros ts con md con' H. unfold Duck.concatenate_monthly_tables in H.
    apply bind_ok in H as (c & _ & H). injection H as <- _. split.
    + exact (gfold_keys Duck.category_year_month _ _ ts []).
    + apply (gfold_NoDup Duck.category_year_month). constructor.
  - intros cat_dir monthly_data con grouped con' H.
    unfold Duck.concatenate_category_tables in H.
    apply bind_ok in H as (c & _ & H). injection H as <- _. split.
    + exact (gfold_keys (fun kg : string * Duck.group =>
                           Duck.category (snd kg)) _ _ monthly_data []).
    + apply (gfold_NoDup (fun kg : string * Duck.group =>
                            Duck.category (snd kg))). constructor.
Qed.

(** ** The rows of the pandas aggregation add up *)

Lemma list_sum_cons a l : list_sum (a :: l) = (a + list_sum l)%nat.
Proof. reflexivity. Qed.

Section Totals.

Context {A G : Type} (key : A -> string) (mk : A -> G) (add : A -> G -> G).
Context (weight : A -> nat) (size : G -> nat).
Hypothesis size_mk : forall x, size (mk x) = 0%nat.
Hypothesis size_add : forall x g, size (add x g) = (size g + weight x)%nat.

Lemma total_set_new k g (d : list (string * G)) :
  dict_get k d = None ->
  list_sum (map (fun kg => size (snd kg)) (dict_set k g d))
  = (list_sum (map (fun kg => size (snd kg)) d) + size g)%nat.
Proof.
  induction d as [| [k' g'] d IH]; cbn [dict_get dict_set map].
  - intros _. rewrite list_sum_cons. cbn. lia.
  - destruct (String.eqb k k'); [discriminate |]. intros H.
    cbn [map snd]. rewrite !list_sum_cons, (IH H). lia.
Qed.

Lemma total_set_old k g g0 (d : list (string * G)) :
  dict_get k d = Some g0 ->
  (list_sum (map (fun kg => size (snd kg)) (dict_set k g d)) + size g0
   = list_sum (map (fun kg => size (snd kg)) d) + size g)%nat.
Proof.
  induction d as [| [k' g'] d IH]; cbn [dict_get dict_set map];
    [discriminate |].
  destruct (String.eqb k k').
  - intros [= ->]. cbn [map snd]. rewrite !list_sum_cons. lia.
  - intros H. cbn [map snd]. rewrite !list_sum_cons. specialize (IH H). lia.
Qed.

Lemma gstep_total acc x :
  list_sum (map (fun kg => size (snd kg)) (gstep key mk add acc x))
  = (list_sum (map (fun kg => size (snd kg)) acc) + weight x)%nat.
Proof.
  unfold gstep, dict_mem. destruct (dict_get (key x) acc) as [g |] eqn:E.
  - rewrite E. pose proof (total_set_old (key x) (add x g) g acc E) as H.
    rewrite size_add in H. lia.
  - rewrite dict_get_set_same, dict_set_set.
    rewrite (total_set_new _ _ _ E), size_add, size_mk. lia.
Qed.

(** The sizes of the groups of the loop add up to the weights of the
    items. *)
Lemma gfold_total l : forall acc,
  list_sum (map (fun kg => size (snd kg))
                (fold_left (gstep key mk add) l acc))
  = (list_sum (map (fun kg => size (snd kg)) acc)
     + list_sum (map weight l))%nat.
Proof.
  induction l as [| x l IH]; intros acc; cbn [fold_left map].
  - cbn. lia.
  - rewrite IH, gstep_total, list_sum_cons. lia.
Qed.

End Totals.

(** A property of the groups that every item keeps. *)
Lemma gfold_invariant {A G} (key : A -> string) (mk : A -> G)
  (add : A -> G -> G) (R : A -> Prop) (Q : G -> Prop) l :
  (forall x, Q (mk x)) -> (forall x g, R x -> Q g -> Q (add x g)) ->
  Forall R l ->
  forall acc, Forall (fun kg => Q (snd kg)) acc ->
              Forall (fun kg => Q (snd kg)) (fold_left (gstep key mk add) l acc).
Proof.
  intros Hmk Hadd HR. induction HR as [| x l Hx _ IH]; intros acc Hacc;
    cbn [fold_left]; [assumption |].
  apply IH. unfold gstep, dict_mem.
  destruct (dict_get (key x) acc) as [g |] eqn:E.
  - rewrite E. apply dict_set_Forall; [assumption |]. intros k'. cbn.
    apply Hadd; [assumption |]. apply dict_get_In in E.
    rewrite Forall_forall in Hacc. exact (Hacc _ E).
  - rewrite dict_get_set_same, dict_set_set.
    apply dict_set_Forall; [assumption |]. intros k'. cbn. now apply Hadd.
Qed.

Lemma column_or_nulls_length c (f : frame) :
  rectangular f = true -> List.length (column_or_nulls c f) = nrows f.
Proof.
  intros R. unfold column_or_nulls. destruct (dict_get c f) as [s |] eqn:E.
  - now apply (dict_get_length c f).
  - apply repeat_length.
Qed.

Lemma stack_length c (fs : list frame) :
  Forall (fun f => rectangular f = true) fs ->
  List.length (flat_map (column_or_nulls c) fs) = list_sum (map nrows fs).
Proof.
  induction 1 as [| f fs Hf _ IH]; [reflexivity |].
  cbn [flat_map map]. rewrite length_app, list_sum_cons, IH.
  now rewrite column_or_nulls_length.
Qed.

Lemma dedup_from_nil l : dedup_from [] l = [] -> l = [].
Proof. destruct l; [reflexivity | discriminate]. Qed.

Lemma no_columns_no_rows (fs : list frame) :
  flat_map columns fs = [] -> list_sum (map nrows fs) = 0%nat.
Proof.
  induction fs as [| f fs IH]; [reflexivity |]. cbn [flat_map map].
  intros H. apply app_eq_nil in H as [Hf Hfs]. rewrite list_sum_cons, (IH Hfs).
  destruct f; [reflexivity | discriminate].
Qed.

(** [pd.concat] of frames of any shapes has as many rows as the frames
    together. *)
Lemma pd_concat_nrows (fs : list frame) F :
  Forall (fun f => rectangular f = true) fs ->
  pd_concat fs = Ok F ->
  nrows F = list_sum (map nrows fs) /\ rectangular F = true.
Proof.
  intros Hall H. destruct fs as [| f fs]; [discriminate |].
  assert (E : F = map (fun c => (c, flat_map (column_or_nulls c) (f :: fs)))
                      (dedup_from [] (flat_map columns (f :: fs))))
    by (unfold pd_concat in H; now injection H as <-).
  clear H. subst F.
  remember (dedup_from [] (flat_map columns (f :: fs))) as cs eqn:Ecs.
  assert (Hlen : Forall (fun s => List.length s = list_sum (map nrows (f :: fs)))
                        (map snd (map (fun c => (c, flat_map (column_or_nulls c)
                                                       (f :: fs))) cs))).
  { rewrite map_map. cbn [snd]. apply Forall_forall. intros s Hs.
    apply in_map_iff in Hs as (c & <- & _). now apply stack_length. }
  split; [| exact (lengths_rectangular _ _ Hlen)].
  destruct cs as [| c cs'].
  - cbn [map nrows]. symmetry.
    apply (no_columns_no_rows (f :: fs)), dedup_from_nil. now symmetry.
  - apply nrows_of_lengths; [discriminate | exact Hlen].
Qed.

Lemma concat_groups_total (groups : list (string * Pandas.group)) r :
  Forall (fun kg => Forall (fun f => rectangular f = true)
                           (Pandas.dfs (snd kg))) groups ->
  mapM Pandas.concat_group groups = Ok r ->
  list_sum (map (fun kc => nrows (Pandas.concatenated_df (snd kc))) r)
  = list_sum (map (fun kg => list_sum (map nrows (Pandas.dfs (snd kg)))) groups)
  /\ Forall (fun kc => rectangular (Pandas.concatenated_df (snd kc)) = true) r.
Proof.
  intros Hall. revert r. induction Hall as [| [k g] groups Hg _ IH];
    intros r H; cbn in H.
  - injection H as <-. split; [reflexivity | constructor].
  - apply bind_ok in H as (y & Hy & H). apply bind_ok in H as (ys & Hys & H).
    injection H as <-. unfold Pandas.concat_group in Hy.
    apply bind_ok in Hy as (c & Hc & Hy). injection Hy as <-.
    cbn [fst snd] in *. destruct (pd_concat_nrows _ _ Hg Hc) as [Hn Hr].
    destruct (IH _ Hys) as [Hsum Hrect].
    cbn [map snd Pandas.concatenated_df]. rewrite !list_sum_cons, Hsum, Hn.
    split; [reflexivity | now constructor].
Qed.

(** The aggregation of the pandas pipeline always returns, and it neither
    loses nor adds a row: the monthly frames together, and the category
    frames together, have as many rows as the tables together. *)
Theorem pandas_aggregation_conserves_rows (data : list Pandas.table) :
  Forall (fun t => rectangular (Pandas.df t) = true) data ->
  exists monthly category,
    Pandas.concatenate_monthly_dataframes data = Ok monthly
    /\ Pandas.concatenate_category_dataframes monthly = Ok category
    /\ list_sum (map (fun kg => nrows (Pandas.concatenated_df (snd kg)))
                     monthly)
       = list_sum (map (fun t => nrows (Pandas.df t)) data)
    /\ list_sum (map (fun kg => nrows (Pandas.concatenated_df (snd kg)))
                     category)
       = list_sum (map (fun t => nrows (Pandas.df t)) data).
Proof.
  intros Hdata.
  destruct (pandas_month_total data) as [monthly Hm].
  destruct (pandas_category_total monthly) as [category Hc].
  exists monthly, category. split; [assumption |]. split; [assumption |].
  unfold Pandas.concatenate_monthly_dataframes in Hm.
  unfold Pandas.concatenate_category_dataframes in Hc.
  assert (Hgm : Forall (fun kg => Forall (fun f => rectangular f = true)
                                         (Pandas.dfs (snd kg)))
                       (fold_left Pandas.group_month data [])).
  { apply (gfold_invariant Pandas.tag_month
             (fun t => Pandas.mkgroup (Pandas.dataframe_name t)
                                      ("clean" :: Pandas.dir t) [])
             (fun t g => Pandas.mkgroup (Pandas.category g)
                           (Pandas.export_dir g)
                           (Pandas.dfs g ++ [Pandas.df t]))
             (fun t => rectangular (Pandas.df t) = true)
             (fun g => Forall (fun f => rectangular f = true) (Pandas.dfs g)));
      [constructor | | assumption | constructor].
    intros x g Hx Hg. cbn. apply Forall_app. split; [assumption |].
    now constructor. }
  destruct (concat_groups_total _ _ Hgm Hm) as [Hsum_m Hrect_m].
  assert (Em : list_sum (map (fun kg => nrows (Pandas.concatenated_df (snd kg)))
                             monthly)
               = list_sum (map (fun t => nrows (Pandas.df t)) data)).
  { rewrite Hsum_m.
    apply (gfold_total Pandas.tag_month
             (fun t => Pandas.mkgroup (Pandas.dataframe_name t)
                                      ("clean" :: Pandas.dir t) [])
             (fun t g => Pandas.mkgroup (Pandas.category g)
                           (Pandas.export_dir g)
                           (Pandas.dfs g ++ [Pandas.df t]))
             (fun t => nrows (Pandas.df t))
             (fun g => list_sum (map nrows (Pandas.dfs g))));
      [reflexivity |].
    intros x g. cbn. rewrite map_app, list_sum_app. cbn. lia. }
  split; [exact Em |]. rewrite <- Em.
  assert (Hgc : Forall (fun kg => Forall (fun f => rectangular f = true)
                                         (Pandas.dfs (snd kg)))
                       (fold_left Pandas.group_category monthly [])).
  { apply (gfold_invariant
             (fun kg : string * Pandas.cgroup => Pandas.cg_category (snd kg))
             (fun kg => Pandas.mkgroup (Pandas.cg_category (snd kg))
                          ["clean"; "concatenated_dataframes"] [])
             (fun kg g => Pandas.mkgroup (Pandas.category g)
                            (Pandas.export_dir g)
                            (Pandas.dfs g ++ [Pandas.concatenated_df (snd kg)]))
             (fun kg => rectangular (Pandas.concatenated_df (snd kg)) = true)
             (fun g => Forall (fun f => rectangular f = true) (Pandas.dfs g)));
      [constructor | | assumption | constructor].
    intros x g Hx Hg. cbn. apply Forall_app. split; [assumption |].
    now constructor. }
  destruct (concat_groups_total _ _ Hgc Hc) as [Hsum_c _].
  rewrite Hsum_c.
  apply (gfold_total
           (fun kg : string * Pandas.cgroup => Pandas.cg_category (snd kg))
           (fun kg => Pandas.mkgroup (Pandas.cg_category (snd kg))
                        ["clean"; "concatenated_dataframes"] [])
           (fun kg g => Pandas.mkgroup (Pandas.category g)
                          (Pandas.export_dir g)
                          (Pandas.dfs g ++ [Pandas.concatenated_df (snd kg)]))
           (fun kg => nrows (Pandas.concatenated_df (snd kg)))
           (fun g => list_sum (map nrows (Pandas.dfs g))));
    [reflexivity |].
  intros x g. cbn. rewrite map_app, list_sum_app. cbn. lia.
Qed.

(** Two months of two extractions each, 17 rows in all. *)
Lemma pandas_aggregation_conserves_rows_witness :
  exists monthly category,
    Pandas.concatenate_monthly_dataframes two_months_data = Ok monthly
    /\ Pandas.concatenate_category_dataframes monthly = Ok category
    /\ list_sum (map (fun kg => nrows (Pandas.concatenated_df (snd kg)))
                     monthly) = 17%nat
    /\ list_sum (map (fun kg => nrows (Pandas.concatenated_df (snd kg)))
                     category) = 17%nat.
Proof.
  destruct (pandas_aggregation_conserves_rows two_months_data)
    as (monthly & category & Hm & Hc & Em & Ec).
  - repeat constructor.
  - exists monthly, category. repeat split; assumption.
Defined.

(** ** The category step of the DuckDB pipeline as a whole *)

Lemma union_all_from_agree (con1 con : db) names : forall acc,
  (forall x, In x names -> sql_table x con1 = sql_table x con) ->
  Duck.union_all_from con1 acc names = Duck.union_all_from con acc names.
Proof.
  induction names as [| n names IH]; intros acc H; cbn; [reflexivity |].
  rewrite (H n) by now left. destruct (sql_table n con) as [b |]; cbn;
    [| reflexivity].
  destruct (union_all acc b) as [u |]; cbn; [| reflexivity].
  apply IH. intros x Hx. apply H. now right.
Qed.

Lemma union_all_width a b u : union_all a b = Ok u -> ncols u = ncols a.
Proof.
  intros H. apply union_all_series in H as (_ & _ & Hc).
  unfold ncols, columns, dict_keys in *.
  now rewrite <- (length_map fst u), Hc, length_map.
Qed.

Lemma union_all_from_total (con : db) names : forall acc,
  Forall (fun n => exists f, sql_table n con = Ok f /\ ncols f = ncols acc)
         names ->
  exists u, Duck.union_all_from con acc names = Ok u.
Proof.
  induction names as [| n names IH]; intros acc H; cbn; [now exists acc |].
  inversion H as [| ? ? (f & Hf & Hw) H']; subst. rewrite Hf. cbn [bind].
  destruct (union_all acc f) as [u |] eqn:U.
  2:{ unfold union_all in U. rewrite Hw, Nat.eqb_refl in U. discriminate. }
  cbn [bind]. apply IH. eapply Forall_impl; [| exact H'].
  intros x (g & Hg & Hgw). exists g. split; [assumption |].
  rewrite Hgw. symmetry. now apply union_all_width in U.
Qed.

(** The second loop of [concatenate_category_tables]: every group gets the
    chain of unions over its tables as they were before the loop, and no
    other table changes. *)
Lemma duck_category_loop (groups : dict Duck.group) : forall con,
  NoDup (dict_keys groups) ->
  (forall kg, In kg groups ->
     exists n names a u,
       Duck.tables (snd kg) = n :: names
       /\ (forall x, In x (n :: names) -> ~ In x (dict_keys groups))
       /\ sql_table n con = Ok a
       /\ Duck.union_all_from con a names = Ok u) ->
  exists con',
    foldM Duck.union_category groups con = Ok con'
    /\ (forall x, ~ In x (dict_keys groups) ->
                  sql_table x con' = sql_table x con)
    /\ (forall kg, In kg groups ->
          exists n names a u,
            Duck.tables (snd kg) = n :: names
            /\ sql_table n con = Ok a
            /\ Duck.union_all_from con a names = Ok u
            /\ sql_table (fst kg) con' = Ok u).
Proof.
  induction groups as [| [k g] groups IH]; intros con Hnd Hall.
  - exists con. cbn [foldM]. split; [reflexivity |].
    split; [reflexivity | intros kg []].
  - inversion Hnd as [| ? ? Hk Hnd']; subst.
    destruct (Hall (k, g) (or_introl eq_refl))
      as (n & names & a & u & Ht & Hfresh & Ha & Hu).
    cbn [fst snd] in Ht.
    assert (Hstep : Duck.union_category con (k, g) = Ok (dict_set k u con)).
    { unfold Duck.union_category. cbn [fst snd]. rewrite Ht, Ha. cbn [bind].
      now rewrite Hu. }
    destruct (IH (dict_set k u con) Hnd') as (con' & Hfold & Hkeep & Hgroups).
    { intros kg Hin.
      destruct (Hall kg (or_intror Hin))
        as (n' & names' & a' & u' & Ht' & Hfresh' & Ha' & Hu').
      exists n', names', a', u'. split; [assumption |].
      cbn [dict_keys map fst] in Hfresh'.
      split; [intros x Hx Hc; apply (Hfresh' x Hx); now right |].
      assert (Hother : forall x, In x (n' :: names') ->
                sql_table x (dict_set k u con) = sql_table x con).
      { intros x Hx. apply sql_table_set_other. intros ->.
        apply (Hfresh' k Hx). now left. }
      split; [rewrite Hother; [assumption | now left] |].
      rewrite (union_all_from_agree (dict_set k u con) con); [assumption |].
      intros x Hx. apply Hother. now right. }
    exists con'. cbn [foldM]. rewrite Hstep. cbn [bind].
    split; [assumption |]. split.
    + intros x Hx. cbn [dict_keys map fst] in Hx.
      rewrite Hkeep by (intros H; apply Hx; now right).
      apply sql_table_set_other. intros ->. apply Hx. now left.
    + intros kg [<- | Hin].
      * exists n, names, a, u. repeat (split; [assumption |]).
        cbn [fst]. rewrite Hkeep by assumption. apply sql_table_set_same.
      * destruct (Hgroups kg Hin)
          as (n' & names' & a' & u' & Ht' & Ha' & Hu' & Hk').
        destruct (Hall kg (or_intror Hin))
          as (n2 & names2 & _ & _ & Ht2 & Hfresh2 & _).
        rewrite Ht' in Ht2. injection Ht2 as <- <-.
        cbn [dict_keys map fst] in Hfresh2.
        assert (Hother : forall x, In x (n' :: names') ->
                  sql_table x (dict_set k u con) = sql_table x con).
        { intros x Hx. apply sql_table_set_other. intros ->.
          apply (Hfresh2 k Hx). now left. }
        exists n', names', a', u'. split; [assumption |].
        rewrite Hother in Ha' by now left. split; [assumption |].
        rewrite (union_all_from_agree (dict_set k u con) con) in Hu'
          by (intros x Hx; apply Hother; now right).
        split; assumption.
Qed.

Lemma duck_category_ready_parts monthly_data (con : db) kg :
  duck_category_ready monthly_data con = true -> In kg monthly_data ->
  (forall kg', In kg' monthly_data -> Duck.category (snd kg) <> fst kg')
  /\ exists f,
       sql_table (fst kg) con = Ok f
       /\ forall kg', In kg' monthly_data -> same_kind kg kg' = true ->
            exists f', sql_table (fst kg') con = Ok f' /\ ncols f' = ncols f.
Proof.
  unfold duck_category_ready. rewrite forallb_forall. intros H Hin.
  specialize (H kg Hin). apply andb_prop in H as [Hnames Hw]. split.
  - rewrite forallb_forall in Hnames. intros kg' Hkg' E.
    specialize (Hnames kg' Hkg'). rewrite E, String.eqb_refl in Hnames.
    discriminate.
  - unfold sql_table. destruct (dict_get (fst kg) con) as [f |];
      [| discriminate].
    exists f. split; [reflexivity |]. rewrite forallb_forall in Hw.
    intros kg' Hkg' Hs. specialize (Hw kg' Hkg'). rewrite Hs in Hw. cbn in Hw.
    destruct (dict_get (fst kg') con) as [f' |]; [| discriminate].
    exists f'. split; [reflexivity |]. symmetry. now apply Nat.eqb_eq.
Qed.

(** [concatenate_category_tables] as a whole: over monthly tables that are
    ready it returns, the table of every kind holds the rows of the monthly
    tables of the kind in the order of the monthly dict, as many as they
    have together, and every other table is as it was. *)
Theorem duck_category_whole (cat_dir : string -> string)
  (monthly_data : list (string * Duck.group))
  (con : db) :
  duck_category_ready monthly_data con = true ->
  exists grouped con',
    Duck.concatenate_category_tables cat_dir monthly_data con
    = Ok (grouped, con')
    /\ (forall x, (forall kg, In kg monthly_data ->
                              x <> Duck.category (snd kg)) ->
                  sql_table x con' = sql_table x con)
    /\ forall c m ms frames,
         filter (fun kg => String.eqb c (Duck.category (snd kg))) monthly_data
         = m :: ms ->
         Forall2 (fun kg f => sql_table (fst kg) con = Ok f) (m :: ms) frames ->
         Forall (fun f => rectangular f = true) frames ->
         exists u,
           sql_table c con' = Ok u
           /\ frame_rows u = flat_map frame_rows frames
           /\ nrows u = list_sum (map nrows frames).
Proof.
  intros Hready.
  set (groups := fold_left (Duck.group_category cat_dir) monthly_data []).
  assert (Hnd : NoDup (dict_keys groups)).
  { apply (gfold_NoDup
             (fun kg : string * Duck.group => Duck.category (snd kg))
             (fun kg => Duck.mkgroup (Duck.category (snd kg))
                          (cat_dir (Duck.g_export_dir (snd kg))) [])
             (fun kg g => Duck.mkgroup (Duck.category g) (Duck.g_export_dir g)
                            (Duck.tables g ++ [fst kg]))).
    constructor. }
  assert (Hgroup : forall c g, dict_get c groups = Some g ->
            exists m ms,
              filter (fun kg => String.eqb c (Duck.category (snd kg)))
                     monthly_data = m :: ms
              /\ Duck.tables g = fst m :: map fst ms
              /\ In m monthly_data /\ Duck.category (snd m) = c
              /\ forall kg, In kg ms ->
                   In kg monthly_data /\ Duck.category (snd kg) = c).
  { intros c g Hg.
    pose proof (duck_category_groups cat_dir monthly_data c) as Hm.
    fold groups in Hm. rewrite Hg in Hm. destruct Hm as [Ht Hne].
    destruct (filter _ monthly_data) as [| m ms] eqn:F; [contradiction |].
    exists m, ms. split; [reflexivity |]. split; [exact Ht |].
    assert (Hin : forall kg, In kg (m :: ms) ->
              In kg monthly_data /\ Duck.category (snd kg) = c).
    { intros kg Hkg. rewrite <- F in Hkg. apply filter_In in Hkg as [H1 H2].
      apply String.eqb_eq in H2. now split. }
    destruct (Hin m (or_introl eq_refl)) as [H1 H2].
    repeat split; try assumption; apply Hin; now right. }
  assert (Hkey : forall c, In c (dict_keys groups) ->
                   exists kg, In kg monthly_data /\ Duck.category (snd kg) = c).
  { intros c Hc. destruct (dict_get_of_key c groups Hc) as [g Hg].
    destruct (Hgroup c g Hg) as (m & ms & _ & _ & Hin & Hcat & _).
    now exists m. }
  assert (Hread : forall kg, In kg monthly_data ->
                    ~ In (fst kg) (dict_keys groups)).
  { intros kg Hkg Hin. destruct (Hkey _ Hin) as (kg' & Hkg' & E).
    destruct (duck_category_ready_parts _ _ kg' Hready Hkg') as [Hn _].
    now apply (Hn kg Hkg). }
  destruct (duck_category_loop groups con Hnd) as (con' & Hfold & Hkeep & Hgroups).
  { intros [c g] Hin. cbn [fst snd].
    pose proof (dict_In_get c g groups Hnd Hin) as Hg.
    destruct (Hgroup c g Hg) as (m & ms & F & Ht & Hm & Hcat & Hms).
    destruct (duck_category_ready_parts _ _ m Hready Hm) as (_ & a & Ha & Hsame).
    destruct (union_all_from_total con (map fst ms) a) as [u Hu].
    { rewrite Forall_map. apply Forall_forall. intros kg Hkg.
      destruct (Hms kg Hkg) as [Hin' Hcat'].
      apply Hsame; [assumption |]. unfold same_kind.
      rewrite Hcat, Hcat'. apply String.eqb_refl. }
    exists (fst m), (map fst ms), a, u. split; [exact Ht |].
    split; [| now split].
    intros x [<- | Hx]; [now apply Hread |].
    apply in_map_iff in Hx as (kg & <- & Hkg). apply Hread.
    now apply Hms. }
  exists groups, con'. unfold Duck.concatenate_category_tables. fold groups.
  rewrite Hfold. cbn [bind]. split; [reflexivity |]. split.
  - intros x Hx. apply Hkeep. intros Hin.
    destruct (Hkey _ Hin) as (kg & Hkg & E). now apply (Hx kg Hkg).
  - intros c m ms frames F H2 Hrect.
    pose proof (duck_category_groups cat_dir monthly_data c) as Hm.
    fold groups in Hm.
    destruct (dict_get c groups) as [g |] eqn:Hg;
      [| rewrite F in Hm; discriminate].
    destruct (Hgroup c g Hg) as (m' & ms' & F' & Ht & Hin & Hcat & Hms).
    rewrite F in F'. injection F' as <- <-.
    assert (Hsk : forall kg, In kg ms ->
              In kg monthly_data /\ same_kind m kg = true).
    { intros kg Hkg. destruct (Hms kg Hkg) as [Hk1 Hk2].
      split; [assumption |].
      unfold same_kind. rewrite Hcat, Hk2. apply String.eqb_refl. }
    clear Hms Hcat.
    destruct (Hgroups (c, g) (dict_get_In _ _ _ Hg))
      as (n & names & a & u & Ht' & Ha & Hu & Hc).
    cbn [fst snd] in *. rewrite Ht in Ht'. injection Ht' as <- <-.
    inversion H2 as [| ? f ? fs Hf H2']; subst.
    rewrite Ha in Hf. injection Hf as <-.
    inversion Hrect as [| ? ? Ra Hrect']; subst.
    destruct (duck_category_ready_parts _ _ m Hready Hin)
      as (_ & a' & Ha' & Hsame).
    rewrite Ha in Ha'. injection Ha' as <-.
    destruct (union_all_from_rows con (map fst ms) a fs)
      as (u' & Hu' & Hrows & Hn); [| assumption | |].
    + clear - H2'. induction H2'; constructor; auto.
    + clear - H2' Hrect' Hsame Hsk.
      induction H2' as [| kg f ms fs Hf _ IH]; [constructor |].
      inversion Hrect' as [| ? ? Rf Hr]; subst. constructor.
      * destruct (Hsk kg (or_introl eq_refl)) as [Hin Hc].
        destruct (Hsame kg Hin Hc) as (f' & Hf' & Hw).
        rewrite Hf in Hf'. injection Hf' as <-. now split.
      * apply IH; [| assumption]. intros kg' Hkg'. apply Hsk. now right.
    + rewrite Hu in Hu'. injection Hu' as <-. exists u.
      split; [assumption |]. split; [exact Hrows |].
      cbn [map]. rewrite list_sum_cons. exact Hn.
Qed.

(** The theorem on the monthly tables of February and January. *)
Lemma duck_category_whole_witness :
  exists grouped con' u,
    Duck.concatenate_category_tables (fun d => d)
      (fst two_months_monthly_duck) (snd two_months_monthly_duck)
    = Ok (grouped, con')
    /\ sql_table "followers_location" con' = Ok u
    /\ frame_rows u
       = (frame_rows feb_first_half ++ frame_rows feb_second_half)
         ++ (frame_rows jan_first_half ++ frame_rows jan_second_half)
    /\ nrows u = 17%nat.
Proof.
  destruct (duck_category_whole (fun d => d) (fst two_months_monthly_duck)
              (snd two_months_monthly_duck))
    as (grouped & con' & Hr & _ & Hrows); [vm_compute; reflexivity |].
  let l := eval vm_compute in
      (filter (fun kg => String.eqb "followers_location"
                           (Duck.category (snd kg)))
              (fst two_months_monthly_duck)) in
  let fs := eval vm_compute in
      (mapM (fun kg => sql_table (fst kg) (snd two_months_monthly_duck)) l) in
  match constr:((l, fs)) with
  | (?m :: ?ms, Ok ?frames) =>
      destruct (Hrows "followers_location" m ms frames)
        as (u & Hu & Hur & Hun)
  end.
  - vm_compute. reflexivity.
  - repeat (constructor; [vm_compute; reflexivity |]). constructor.
  - repeat constructor.
  - exists grouped, con', u. split; [assumption |]. split; [assumption |].
    split; [rewrite Hur | rewrite Hun]; vm_compute; reflexivity.
Defined.

(** ** The statements as text *)

Lemma string_app_assoc (a b c : string) :
  ((a ++ b) ++ c = a ++ b ++ c)%string.
Proof. induction a as [| x a IH]; cbn; [reflexivity | now rewrite IH]. Qed.

(** A character that is not stripped stops [rstrip]. *)
Lemma rstrip_stops chars body c tail :
  existsb (Ascii.eqb c) (list_ascii_of_string chars) = false ->
  Duck.rstrip chars tail = EmptyString ->
  Duck.rstrip chars (body ++ String c tail)
  = (body ++ String c EmptyString)%string.
Proof.
  intros Hc Ht. induction body as [| x body IH]; cbn [append Duck.rstrip].
  - now rewrite Ht, Hc.
  - rewrite IH. destruct body; reflexivity.
Qed.

Lemma query_loop names : forall acc,
  names <> [] ->
  fold_left (fun q t => (q ++ "SELECT * FROM " ++ Duck.dquote ++ t
                           ++ Duck.dquote ++ " UNION ALL ")%string)
            names acc
  = (acc ++ String.concat " UNION ALL "
              (map (fun t => "SELECT * FROM " ++ Duck.dquote ++ t
                               ++ Duck.dquote) names)
         ++ " UNION ALL ")%string.
Proof.
  induction names as [| n names IH]; intros acc Hne; [contradiction |].
  cbn [fold_left]. destruct names as [| m names].
  - cbn [fold_left map String.concat]. f_equal.
    now rewrite !string_app_assoc.
  - rewrite IH by discriminate. cbn [map String.concat].
    rewrite !string_app_assoc. reflexivity.
Qed.

Lemma query_ends_quoted names :
  names <> [] ->
  exists body,
    String.concat " UNION ALL "
      (map (fun t => "SELECT * FROM " ++ Duck.dquote ++ t ++ Duck.dquote)%string
           names)
    = (body ++ Duck.dquote)%string.
Proof.
  induction names as [| n names IH]; intros Hne; [contradiction |].
  destruct names as [| m names].
  - exists ("SELECT * FROM " ++ Duck.dquote ++ n)%string.
    cbn [map String.concat]. now rewrite !string_app_assoc.
  - destruct (IH ltac:(discriminate)) as [body Hb].
    exists ("SELECT * FROM " ++ Duck.dquote ++ n ++ Duck.dquote
            ++ " UNION ALL " ++ body)%string.
    cbn [map String.concat] in *. rewrite Hb.
    now rewrite !string_app_assoc.
Qed.

(** The query of [concatenate_category_tables]: stripping the characters
    of " UNION ALL " from the end of the text removes the last separator
    and nothing of the last table name, which ends in a double quote. The
    text is the SELECT of every table, in order, joined by " UNION ALL "; it
    is empty for no table. *)
Theorem union_all_query_text (names : list string) :
  Duck.union_all_query names
  = String.concat " UNION ALL "
      (map (fun t => "SELECT * FROM " ++ Duck.dquote ++ t ++ Duck.dquote)%string
           names).
Proof.
  unfold Duck.union_all_query. destruct names as [| n names]; [reflexivity |].
  rewrite query_loop by discriminate.
  destruct (query_ends_quoted (n :: names)) as [body ->]; [discriminate |].
  change (EmptyString ++ (body ++ Duck.dquote) ++ " UNION ALL ")%string
    with ((body ++ Duck.dquote) ++ " UNION ALL ")%string.
  rewrite string_app_assoc. apply rstrip_stops; reflexivity.
Qed.

Lemma duck_period_parts p :
  str_split "_" (Duck.period_key p)
  = str_split "_" (ep_year p) ++ str_split "_" (ep_month p)
    ++ str_split "_" (ep_seq p).
Proof.
  unfold Duck.period_key. cbn [append]. now rewrite !str_split_app.
Qed.

(** With no underscore in the year and month directory names, the key of
    the monthly groups that [concatenate_monthly_tables] cuts out of the
    period's text is the table name, the year and the month joined by
    underscores. *)
Theorem duck_monthly_key_of_text (t : Duck.table) :
  contains "_" (ep_year (Duck.extraction_period t)) = false ->
  contains "_" (ep_month (Duck.extraction_period t)) = false ->
  (Duck.dataframe_name t ++ "_"
   ++ Duck.year_month_text (Duck.period_key (Duck.extraction_period t)))%string
  = Duck.category_year_month t.
Proof.
  intros Hy Hm. unfold Duck.year_month_text, Duck.category_year_month,
    Duck.year_month.
  rewrite duck_period_parts, (str_split_without _ _ Hy),
    (str_split_without _ _ Hm).
  reflexivity.
Qed.

(** The second extraction of a January. *)
Lemma duck_monthly_key_of_text_witness :
  ("followers_location" ++ "_" ++ Duck.year_month_text "2024_Jan_2")%string
  = "followers_location_2024_Jan".
Proof.
  exact (duck_monthly_key_of_text (duck_table "Jan" "2") eq_refl eq_refl).
Defined.

(** ** Sequence numbers beyond the second *)

Lemma last_of_three {X} (A B C : list X) x t z :
  A <> [] -> B <> [] -> C <> [] -> A ++ B ++ C = [x; t; z] -> C = [z].
Proof.
  intros HA HB HC E.
  destruct A as [| a A]; [contradiction |].
  destruct B as [| b B]; [contradiction |].
  destruct C as [| c C]; [contradiction |].
  pose proof (f_equal (@List.length X) E) as L.
  cbn in L. rewrite !length_app in L. cbn in L. rewrite length_app in L.
  cbn in L.
  destruct A; [| cbn in L; lia]. destruct B; [| cbn in L; lia].
  destruct C; [| cbn in L; lia].
  cbn in E. now injection E as _ _ ->.
Qed.

(** A third or later file of a month ([get_raw_files] does not stop at
    two): the DuckDB pipeline has no date for it and raises [KeyError]; the
    pandas pipeline gives it day 15 of its month, as it gives the first. *)
Theorem sequence_beyond_two (p : period) (m y : Z) :
  ep_seq p <> "1" -> ep_seq p <> "2" ->
  dict_get (ep_month p) Pandas.month_order_pt = Some m ->
  py_int (ep_year p) = Ok y ->
  Duck.final_date p = Raise KeyError
  /\ Pandas.final_date p = Ok (mkdate y m 15).
Proof.
  intros H1 H2 Hm Hy. split.
  - unfold Duck.final_date, dict_item.
    destruct (dict_get (Duck.period_key p) Duck.map_months_period) eqn:E;
      [| reflexivity].
    exfalso. apply dict_get_key in E.
    assert (Hall : forallb duck_key_seq_ok (dict_keys Duck.map_months_period)
                   = true) by (vm_compute; reflexivity).
    rewrite forallb_forall in Hall. specialize (Hall _ E).
    unfold duck_key_seq_ok, Duck.period_key in Hall. cbn [append] in Hall.
    rewrite !str_split_app in Hall.
    destruct (_ ++ _ ++ _) as [| x [| t [| z [| w l]]]] eqn:E3 in Hall;
      try discriminate.
    apply last_of_three in E3; try apply str_split_nonempty.
    apply str_split_singleton in E3. subst z.
    apply orb_prop in Hall as [Hq | Hq]; apply String.eqb_eq in Hq;
      contradiction.
  - unfold Pandas.final_date, dict_item. rewrite Hm, Hy. cbn [bind].
    destruct (String.eqb_spec (ep_seq p) "2") as [E | _]; [contradiction |].
    reflexivity.
Qed.

(** A third file in January 2024. *)
Lemma sequence_beyond_two_witness :
  Duck.final_date (mkperiod "2024" "Jan" "3") = Raise KeyError
  /\ Pandas.final_date (mkperiod "2024" "Jan" "3") = Ok (mkdate 2024 1 15).
Proof.
  exact (sequence_beyond_two (mkperiod "2024" "Jan" "3") 1 2024
           ltac:(discriminate) ltac:(discriminate) eq_refl eq_refl).
Defined.

(* ================================================================== *)
(** * Part IV. The pipelines from the discovery to the aggregation     *)
(* ================================================================== *)

(** ** The order of the discovery *)

Lemma precedes_app_inv {A} (a b : A) l l' :
  precedes a b (l ++ l') ->
  precedes a b l \/ (In a l /\ In b l') \/ precedes a b l'.
Proof.
  revert l'. induction l as [| x l IH]; intros l' (l1 & l2 & l3 & E).
  - right. right. now exists l1, l2, l3.
  - destruct l1 as [| y l1]; cbn in E; injection E as <- E.
    + assert (Hb : In b (l ++ l')) by (rewrite E; apply in_elt).
      apply in_app_or in Hb as [Hb | Hb].
      * left. apply in_split in Hb as (m1 & m2 & ->).
        now exists [], m1, m2.
      * right. left. split; [now left | assumption].
    + destruct (IH l') as [(m1 & m2 & m3 & ->) | [[Ha Hb] | H]].
      * now exists l1, l2, l3.
      * left. now exists (x :: m1), m2, m3.
      * right. left. split; [now right | assumption].
      * right. now right.
Qed.

Lemma precedes_In {A} (a b : A) l : precedes a b l -> In a l /\ In b l.
Proof.
  intros (l1 & l2 & l3 & ->). split.
  - apply in_elt.
  - apply in_or_app. right. right. apply in_elt.
Qed.

Lemma precedes_flat_map_inv {A B} (f : A -> list B) (a b : B) l :
  precedes a b (flat_map f l) ->
  (exists x, In x l /\ precedes a b (f x))
  \/ (exists x y, precedes x y l /\ In a (f x) /\ In b (f y)).
Proof.
  induction l as [| x l IH]; cbn [flat_map]; intros H.
  - destruct H as ([| ? ?] & ? & ? & ?); discriminate.
  - apply precedes_app_inv in H as [H | [[Ha Hb] | H]].
    + left. exists x. split; [now left | assumption].
    + right. apply in_flat_map in Hb as (y & Hy & Hb).
      apply in_split in Hy as (m1 & m2 & ->).
      exists x, y. split; [now exists [], m1, m2 | now split].
    + destruct (IH H) as [(y & Hy & Hp) | (y & z & (m1 & m2 & m3 & ->) & Ha & Hb)].
      * left. exists y. split; [now right | assumption].
      * right. exists y, z. split; [now exists (x :: m1), m2, m3 | now split].
Qed.

Lemma precedes_map_inv {A B} (f : A -> B) (a' b' : B) l :
  precedes a' b' (map f l) ->
  exists a b, precedes a b l /\ f a = a' /\ f b = b'.
Proof.
  intros (l1 & l2 & l3 & E).
  apply map_eq_app in E as (m1 & r & -> & <- & E).
  destruct r as [| a r]; [discriminate |]. cbn in E. injection E as <- E.
  apply map_eq_app in E as (m2 & r' & -> & <- & E).
  destruct r' as [| b r']; [discriminate |]. cbn in E. injection E as <- <-.
  exists a, b. split; [now exists m1, m2, r' | now split].
Qed.

Lemma precedes_filter {A} (p : A -> bool) (a b : A) l :
  precedes a b (filter p l) -> precedes a b l.
Proof.
  induction l as [| x l IH]; cbn [filter]; intros H.
  - destruct H as ([| ? ?] & ? & ? & ?); discriminate.
  - destruct (p x).
    + change (x :: filter p l) with ([x] ++ filter p l) in H.
      apply precedes_app_inv in H as [H | [[Ha Hb] | H]].
      * destruct H as ([| ? [| ? ?]] & ? & ? & E); cbn in E;
          try discriminate; injection E as _ E; destruct x0; discriminate.
      * destruct Ha as [<- | []]. apply filter_In in Hb as [Hb _].
        apply in_split in Hb as (m1 & m2 & ->). now exists [], m1, m2.
      * destruct (IH H) as (m1 & m2 & m3 & ->). now exists (x :: m1), m2, m3.
    + destruct (IH H) as (m1 & m2 & m3 & ->). now exists (x :: m1), m2, m3.
Qed.

Lemma precedes_Forall2_inv {A B} (R : A -> B -> Prop) l l' (a' b' : B) :
  Forall2 R l l' -> precedes a' b' l' ->
  exists a b, precedes a b l /\ R a a' /\ R b b'.
Proof.
  intros H (l1 & l2 & l3 & ->).
  apply Forall2_app_inv_r in H as (m1 & r & _ & H & ->).
  inversion H as [| a ? r' ? Ha H']; subst.
  apply Forall2_app_inv_r in H' as (m2 & r'' & _ & H' & ->).
  inversion H' as [| b ? m3 ? Hb _]; subst.
  exists a, b. split; [now exists m1, m2, m3 | now split].
Qed.

Lemma precedes_NoDup {A B} (g : A -> B) (x y : A) l :
  NoDup (map g l) -> precedes x y l -> g x <> g y.
Proof.
  intros Hnd (l1 & l2 & l3 & ->) E.
  rewrite map_app in Hnd. apply NoDup_app_remove_l in Hnd.
  cbn [map] in Hnd. inversion Hnd as [| ? ? Hx _]; subst.
  apply Hx. rewrite E. apply in_map. apply in_elt.
Qed.

Lemma precedes_seq i j n : forall s, precedes i j (seq s n) -> (i < j)%nat.
Proof.
  induction n as [| n IH]; intros s (l1 & l2 & l3 & E); cbn [seq] in E.
  - destruct l1; discriminate.
  - destruct l1 as [| x l1]; cbn in E; injection E as <- E.
    + assert (Hj : In j (seq (S s) n)) by (rewrite E; apply in_elt).
      apply in_seq in Hj. lia.
    + apply (IH (S s)). now exists l1, l2, l3.
Qed.

Lemma flat_map_map {A B C} (f : B -> list C) (g : A -> B) l :
  flat_map f (map g l) = flat_map (fun x => f (g x)) l.
Proof. induction l as [| x l IH]; cbn; [reflexivity | now rewrite IH]. Qed.

(** [get_raw_files] lists the month directories one after the other, each
    with its files in listing order. *)
Lemma get_raw_files_by_month raw :
  get_raw_files raw = flat_map files_of (month_dirs raw).
Proof.
  unfold get_raw_files, month_dirs.
  induction raw as [| cat raw IH]; cbn [flat_map]; [reflexivity |].
  rewrite flat_map_app, <- IH. f_equal. clear IH.
  induction (snd cat) as [| yr yrs IH]; cbn [flat_map]; [reflexivity |].
  rewrite flat_map_app, <- IH. f_equal. clear IH.
  now rewrite flat_map_map.
Qed.

(** [get_raw_files] numbers the files of every month directory of the tree
    from 1 again, in the order of the directory's listing: the entries are
    those of the month directories one after the other, and the file at
    place [i] of its directory carries the three names on the directory's
    path and the period of its year, its month and [i + 1]. *)
Theorem discovery_numbers_in_listing_order (raw : raw_tree) :
  map (fun f => (rf_dir f, rf_period f)) (get_raw_files raw)
  = flat_map (fun d =>
                map (fun i => (ml_dir d,
                               mkperiod (ml_year d) (ml_month d)
                                        (str_nat (i + 1))))
                    (seq 0 (List.length (ml_files d))))
             (month_dirs raw).
Proof.
  rewrite get_raw_files_by_month.
  induction (month_dirs raw) as [| d ds IH]; cbn [flat_map]; [reflexivity |].
  rewrite map_app, IH. f_equal. unfold files_of, enumerate.
  rewrite map_map. cbn [rf_dir rf_period].
  apply (map_combine_left
           (fun e : nat * (string * workbook) =>
              (ml_dir d, mkperiod (ml_year d) (ml_month d)
                                  (str_nat (fst e + 1))))
           (fun i => (ml_dir d, mkperiod (ml_year d) (ml_month d)
                                         (str_nat (i + 1)))));
    [apply length_seq | reflexivity].
Qed.

Lemma to_uint_not_nil n : Nat.to_uint n <> Decimal.Nil.
Proof.
  intros E. pose proof (Unsigned.of_to n) as H. rewrite E in H. cbn in H.
  subst n. discriminate.
Qed.

Lemma str_nat_inj a b : str_nat a = str_nat b -> a = b.
Proof.
  unfold str_nat. intros E.
  apply (f_equal NilZero.uint_of_string) in E.
  rewrite !NilZero.usu in E by apply to_uint_not_nil.
  injection E as E. now apply Unsigned.to_uint_inj.
Qed.

Lemma In_files_of f d :
  In f (files_of d) ->
  rf_dir f = ml_dir d
  /\ exists i, (i < List.length (ml_files d))%nat
               /\ rf_period f
                  = mkperiod (ml_year d) (ml_month d) (str_nat (i + 1)).
Proof.
  unfold files_of, enumerate. intros H.
  apply in_map_iff in H as ([i e] & <- & H). cbn [rf_dir rf_period fst snd].
  split; [reflexivity |]. exists i. split; [| reflexivity].
  apply in_combine_l in H. apply in_seq in H. lia.
Qed.

Lemma precedes_files_of a b d :
  precedes a b (files_of d) ->
  exists i j, (i < j)%nat
              /\ ep_seq (rf_period a) = str_nat (i + 1)
              /\ ep_seq (rf_period b) = str_nat (j + 1).
Proof.
  unfold files_of. intros H.
  apply precedes_map_inv in H as ([i x] & [j y] & H & <- & <-).
  cbn [rf_period ep_seq fst snd]. exists i, j.
  split; [| now split].
  apply (precedes_seq i j (List.length (ml_files d)) 0).
  unfold enumerate in H. destruct H as (l1 & l2 & l3 & E).
  apply (f_equal (map fst)) in E.
  rewrite (map_combine_left fst (fun k => k)) in E;
    [| apply length_seq | reflexivity].
  rewrite map_id, map_app in E. cbn [map fst] in E. rewrite map_app in E.
  cbn [map fst] in E. now exists (map fst l1), (map fst l2), (map fst l3).
Qed.

(** The order of the discovery: of two files of one month directory, the
    one listed first has the smaller sequence number. [tag] is what tells
    the month directories apart: their path, or a text made of it. *)
Lemma discovery_order {T} (tag : list string -> T) raw a b :
  NoDup (map (fun d => tag (ml_dir d)) (month_dirs raw)) ->
  precedes a b (get_raw_files raw) ->
  tag (rf_dir a) = tag (rf_dir b) ->
  exists i j, (i < j)%nat
              /\ ep_seq (rf_period a) = str_nat (i + 1)
              /\ ep_seq (rf_period b) = str_nat (j + 1).
Proof.
  rewrite get_raw_files_by_month. intros Hnd H E.
  apply precedes_flat_map_inv in H as [(d & _ & H) | (d & d' & H & Ha & Hb)].
  - now apply (precedes_files_of a b d).
  - exfalso.
    apply (precedes_NoDup (fun d => tag (ml_dir d)) d d' _ Hnd H).
    apply In_files_of in Ha as [<- _]. apply In_files_of in Hb as [<- _].
    exact E.
Qed.

(** ** The order of the tables in a run of the pipelines *)

Lemma Forall2_In_r {A B} (R : A -> B -> Prop) l l' y :
  Forall2 R l l' -> In y l' -> exists x, In x l /\ R x y.
Proof.
  induction 1 as [| x y' l l' Hxy _ IH]; intros Hin; [contradiction |].
  destruct Hin as [<- | Hin].
  - exists x. split; [now left | assumption].
  - destruct (IH Hin) as (x' & Hx' & HR). exists x'. split; [now right | assumption].
Qed.

(** Two tables of an extraction, the first before the second: they are of
    one file, or of two files in that order. *)
Lemma concat_order {F T} (read : F -> result (list T)) files tss (a b : T) :
  mapM read files = Ok tss -> precedes a b (List.concat tss) ->
  (exists f ts, In f files /\ read f = Ok ts /\ In a ts /\ In b ts)
  \/ (exists f g ts us,
        precedes f g files /\ read f = Ok ts /\ read g = Ok us
        /\ In a ts /\ In b us).
Proof.
  intros Hm H. apply mapM_Forall2 in Hm.
  rewrite <- (map_id tss), <- flat_map_concat_map in H.
  apply precedes_flat_map_inv in H as [(ts & Hts & H) | (ts & us & H & Ha & Hb)].
  - left. destruct (Forall2_In_r _ _ _ _ Hm Hts) as (f & Hf & Hr).
    apply precedes_In in H as [Ha Hb]. now exists f, ts.
  - right.
    destruct (precedes_Forall2_inv _ _ _ _ _ Hm H) as (f & g & Hp & Hf & Hg).
    now exists f, g, ts, us.
Qed.

Lemma In_get_raw_files f raw :
  In f (get_raw_files raw) ->
  exists i, ep_seq (rf_period f) = str_nat (i + 1).
Proof.
  rewrite get_raw_files_by_month. intros H.
  apply in_flat_map in H as (d & _ & H).
  apply In_files_of in H as (_ & i & _ & ->). now exists i.
Qed.

Lemma pandas_read_excel_file_tables file ts t :
  Pandas.read_excel_file file = Ok ts -> In t ts ->
  Pandas.dir t = rf_dir file /\ Pandas.extraction_period t = rf_period file.
Proof.
  unfold Pandas.read_excel_file. intros H Hin.
  apply bind_ok in H as (sheets & _ & H). apply mapM_Forall2 in H.
  destruct (Forall2_In_r _ _ _ _ H Hin) as (sh & _ & Hsh).
  apply bind_ok in Hsh as (f & _ & Hsh). injection Hsh as <-. now split.
Qed.

(** In the list [extract_data] returns, of two tables of one month
    directory the one with the smaller sequence number comes first. *)
Lemma pandas_extraction_order raw data a b :
  NoDup (map ml_dir (month_dirs raw)) ->
  Pandas.extract_data raw = Ok data ->
  precedes a b data -> Pandas.dir a = Pandas.dir b ->
  exists i j, (i <= j)%nat
              /\ ep_seq (Pandas.extraction_period a) = str_nat (i + 1)
              /\ ep_seq (Pandas.extraction_period b) = str_nat (j + 1).
Proof.
  unfold Pandas.extract_data. intros Hnd H Hp Hdir.
  apply bind_ok in H as (tss & Hm & H). injection H as <-.
  destruct (concat_order _ _ _ _ _ Hm Hp)
    as [(f & ts & Hf & Hr & Ha & Hb) | (f & g & ts & us & Hfg & Hf & Hg & Ha & Hb)].
  - destruct (pandas_read_excel_file_tables _ _ _ Hr Ha) as [_ ->].
    destruct (pandas_read_excel_file_tables _ _ _ Hr Hb) as [_ ->].
    destruct (In_get_raw_files _ _ Hf) as [i Hi]. exists i, i.
    split; [lia | now split].
  - destruct (pandas_read_excel_file_tables _ _ _ Hf Ha) as [Da ->].
    destruct (pandas_read_excel_file_tables _ _ _ Hg Hb) as [Db ->].
    destruct (discovery_order (fun p => p) raw f g Hnd Hfg) as (i & j & Hij & Hi & Hj);
      [congruence |].
    exists i, j. split; [lia | now split].
Qed.

Lemma transform_table_keeps to_datetime (t t' : Pandas.table) :
  Pandas.transform_table to_datetime t = Ok t' ->
  Pandas.dataframe_name t' = Pandas.dataframe_name t
  /\ Pandas.dir t' = Pandas.dir t
  /\ Pandas.extraction_period t' = Pandas.extraction_period t.
Proof.
  unfold Pandas.transform_table. intros H.
  apply bind_ok in H as (t1 & H1 & H). apply bind_ok in H as (t2 & H2 & H).
  apply bind_ok in H as (t3 & H3 & H).
  unfold Pandas.translate_cols in H1. apply bind_ok in H1 as (f1 & _ & H1).
  injection H1 as <-.
  unfold Pandas.add_final_date in H2. apply bind_ok in H2 as (d & _ & H2).
  injection H2 as <-.
  unfold Pandas.convert_column_types in H3.
  apply bind_ok in H3 as (f3 & _ & H3). injection H3 as <-.
  cbn [Pandas.set_df Pandas.dataframe_name Pandas.dir Pandas.extraction_period
       Pandas.df] in H.
  destruct (String.eqb (Pandas.dataframe_name t) "content_metrics").
  - unfold Pandas.clean_content_metrics_data in H.
    apply bind_ok in H as (f4 & _ & H). injection H as <-. now repeat split.
  - injection H as <-. now repeat split.
Qed.

(** The same holds after the transformation, which keeps the list. *)
Lemma pandas_pipeline_order to_datetime raw data0 data a b :
  NoDup (map ml_dir (month_dirs raw)) ->
  Pandas.extract_data raw = Ok data0 ->
  Pandas.transform_data to_datetime data0 = Ok data ->
  precedes a b data -> Pandas.dir a = Pandas.dir b ->
  exists i j, (i <= j)%nat
              /\ ep_seq (Pandas.extraction_period a) = str_nat (i + 1)
              /\ ep_seq (Pandas.extraction_period b) = str_nat (j + 1).
Proof.
  intros Hnd He Ht Hp Hdir. unfold Pandas.transform_data in Ht.
  apply mapM_Forall2 in Ht.
  destruct (precedes_Forall2_inv _ _ _ _ _ Ht Hp) as (a0 & b0 & Hp0 & Ha & Hb).
  apply transform_table_keeps in Ha as (_ & Da & ->).
  apply transform_table_keeps in Hb as (_ & Db & ->).
  apply (pandas_extraction_order raw data0); try assumption. congruence.
Qed.

(** A list of two tables numbered 1 and 2 that holds them in an order the
    discovery allows holds the first first. *)
Lemma first_then_second {T} (seq_of : T -> string) (t1 t2 : T) l :
  Permutation [t1; t2] l ->
  seq_of t1 = "1" -> seq_of t2 = "2" ->
  (forall a b, precedes a b l ->
     exists i j, (i <= j)%nat /\ seq_of a = str_nat (i + 1)
                 /\ seq_of b = str_nat (j + 1)) ->
  l = [t1; t2].
Proof.
  intros Hperm H1 H2 Hord.
  pose proof (Permutation_length Hperm) as L.
  destruct l as [| x [| y [| z l]]]; try discriminate.
  apply Permutation_length_2 in Hperm as [[<- <-] | [<- <-]]; [reflexivity |].
  exfalso.
  destruct (Hord t2 t1) as (i & j & Hij & Hi & Hj); [now exists [], [], [] |].
  rewrite H2 in Hi. rewrite H1 in Hj.
  change "2" with (str_nat 2) in Hi. change "1" with (str_nat 1) in Hj.
  apply str_nat_inj in Hi. apply str_nat_inj in Hj. lia.
Qed.

(** ** The aggregation keys *)

Lemma str_split_inj sep a : forall b,
  str_split sep a = str_split sep b -> a = b.
Proof.
  induction a as [| c a IH]; intros [| c' b]; cbn [str_split]; intros H.
  - reflexivity.
  - destruct (Ascii.eqb c' sep).
    + injection H as H. symmetry in H. now apply str_split_nonempty in H.
    + destruct (str_split sep b); discriminate.
  - destruct (Ascii.eqb c sep).
    + injection H as H. now apply str_split_nonempty in H.
    + destruct (str_split sep a); discriminate.
  - pose proof (str_split_nonempty sep a) as Na.
    pose proof (str_split_nonempty sep b) as Nb.
    destruct (Ascii.eqb_spec c sep) as [-> | Nc],
             (Ascii.eqb_spec c' sep) as [-> | Nc'].
    + injection H as H. f_equal. now apply IH.
    + destruct (str_split sep b); [contradiction | discriminate].
    + destruct (str_split sep a); [contradiction | discriminate].
    + destruct (str_split sep a) as [| f fs] eqn:Ea; [contradiction |].
      destruct (str_split sep b) as [| g gs] eqn:Eb; [contradiction |].
      injection H as -> -> ->. f_equal. apply IH. now rewrite Eb.
Qed.

Lemma plain_period_parts p :
  plain_period p = true ->
  str_split "_" (ep_year p) = [ep_year p]
  /\ str_split "_" (ep_month p) = [ep_month p].
Proof.
  unfold plain_period. intros H. apply andb_prop in H as [Hy Hm].
  apply negb_true_iff in Hy, Hm.
  split; now apply str_split_without.
Qed.

(** The pandas key [year_month_kind] names the kind, the year and the
    month: with no underscore in the year and the month, a table is of the
    key exactly when the three agree. *)
Lemma tag_month_fields n y m (t : Pandas.table) :
  contains "_" y = false -> contains "_" m = false ->
  plain_period (Pandas.extraction_period t) = true ->
  String.eqb (y ++ "_" ++ m ++ "_" ++ n) (Pandas.tag_month t)
  = pandas_in_month n y m t.
Proof.
  intros Hy Hm Hp.
  assert (Hkey : Pandas.tag_month t
                 = (ep_year (Pandas.extraction_period t) ++ "_"
                    ++ ep_month (Pandas.extraction_period t) ++ "_"
                    ++ Pandas.dataframe_name t)%string)
    by (unfold Pandas.tag_month; now rewrite !string_app_assoc).
  rewrite Hkey. unfold pandas_in_month.
  destruct (plain_period_parts _ Hp) as [Ey Em].
  destruct (String.eqb_spec (y ++ "_" ++ m ++ "_" ++ n)
              (ep_year (Pandas.extraction_period t) ++ "_"
               ++ ep_month (Pandas.extraction_period t) ++ "_"
               ++ Pandas.dataframe_name t)) as [E | N].
  - apply (f_equal (str_split "_")) in E. cbn [append] in E.
    rewrite !str_split_app, Ey, Em, !(str_split_without _ _ Hy),
      !(str_split_without _ _ Hm) in E.
    cbn [app] in E. injection E as <- <- E. apply str_split_inj in E.
    subst n. now rewrite !String.eqb_refl.
  - destruct (String.eqb_spec n (Pandas.dataframe_name t)) as [En |];
      [| reflexivity].
    destruct (String.eqb_spec y (ep_year (Pandas.extraction_period t)))
      as [Ey' |]; [| reflexivity].
    destruct (String.eqb_spec m (ep_month (Pandas.extraction_period t)))
      as [Em' |]; [| reflexivity].
    subst n y m. now contradiction N.
Qed.

(** The same for the DuckDB key [kind_year_month]. *)
Lemma category_year_month_fields n y m (t : Duck.table) :
  contains "_" y = false -> contains "_" m = false ->
  plain_period (Duck.extraction_period t) = true ->
  String.eqb (n ++ "_" ++ y ++ "_" ++ m) (Duck.category_year_month t)
  = duck_in_month n y m t.
Proof.
  intros Hy Hm Hp. unfold duck_in_month, Duck.category_year_month,
    Duck.year_month.
  destruct (plain_period_parts _ Hp) as [Ey Em].
  destruct (String.eqb_spec (n ++ "_" ++ y ++ "_" ++ m)
              (Duck.dataframe_name t ++ "_"
               ++ ep_year (Duck.extraction_period t) ++ "_"
               ++ ep_month (Duck.extraction_period t))) as [E | N].
  - apply (f_equal (str_split "_")) in E. cbn [append] in E.
    rewrite !str_split_app, Ey, Em, !(str_split_without _ _ Hy),
      !(str_split_without _ _ Hm) in E.
    change (?a ++ [?b] ++ [?c]) with (a ++ [b] ++ [c]) in E.
    rewrite !app_assoc in E.
    apply app_inj_tail in E as [E <-]. apply app_inj_tail in E as [E <-].
    apply str_split_inj in E. subst n. now rewrite !String.eqb_refl.
  - destruct (String.eqb_spec n (Duck.dataframe_name t)) as [En |];
      [| reflexivity].
    destruct (String.eqb_spec y (ep_year (Duck.extraction_period t)))
      as [Ey' |]; [| reflexivity].
    destruct (String.eqb_spec m (ep_month (Duck.extraction_period t)))
      as [Em' |]; [| reflexivity].
    subst n y m. now contradiction N.
Qed.

Lemma filter_ext_Forall {A} (p q : A -> bool) (P : A -> Prop) l :
  Forall P l -> (forall x, P x -> p x = q x) -> filter p l = filter q l.
Proof.
  intros Hall H. apply filter_ext_in. intros x Hx.
  rewrite Forall_forall in Hall. auto.
Qed.

Lemma duck_read_excel_file_tables month_path file ds d :
  Duck.read_excel_file month_path file = Ok ds -> In d ds ->
  Duck.pd_dir d = month_path (rf_dir file) /\ Duck.pd_period d = rf_period file.
Proof.
  unfold Duck.read_excel_file. intros H Hin.
  apply bind_ok in H as (sheets & _ & H). apply mapM_Forall2 in H.
  destruct (Forall2_In_r _ _ _ _ H Hin) as (sh & _ & Hsh).
  apply bind_ok in Hsh as (f & _ & Hsh). injection Hsh as <-. now split.
Qed.

Lemma duck_extraction_order {T} (tag : string -> T) month_path raw frames a b :
  NoDup (map (fun d => tag (month_path (ml_dir d))) (month_dirs raw)) ->
  Duck.extract_data month_path raw = Ok frames ->
  precedes a b frames -> tag (Duck.pd_dir a) = tag (Duck.pd_dir b) ->
  exists i j, (i <= j)%nat
              /\ ep_seq (Duck.pd_period a) = str_nat (i + 1)
              /\ ep_seq (Duck.pd_period b) = str_nat (j + 1).
Proof.
  unfold Duck.extract_data. intros Hnd H Hp Hdir.
  apply bind_ok in H as (tss & Hm & H). injection H as <-.
  destruct (concat_order _ _ _ _ _ Hm Hp)
    as [(f & ts & Hf & Hr & Ha & Hb) | (f & g & ts & us & Hfg & Hf & Hg & Ha & Hb)].
  - destruct (duck_read_excel_file_tables _ _ _ _ Hr Ha) as [_ ->].
    destruct (duck_read_excel_file_tables _ _ _ _ Hr Hb) as [_ ->].
    destruct (In_get_raw_files _ _ Hf) as [i Hi]. exists i, i.
    split; [lia | now split].
  - destruct (duck_read_excel_file_tables _ _ _ _ Hf Ha) as [Da ->].
    destruct (duck_read_excel_file_tables _ _ _ _ Hg Hb) as [Db ->].
    destruct (discovery_order (fun p => tag (month_path p)) raw f g Hnd Hfg)
      as (i & j & Hij & Hi & Hj); [congruence |].
    exists i, j. split; [lia | now split].
Qed.

(** The tables [convert_pandas_to_duck] returns are in the order of the
    extraction; the transformation works on the connection and leaves the
    list as it is. *)
Lemma duck_pipeline_order month_path strptime cast_to raw frames
  (con con1 : db) tables a b :
  NoDup (map (fun d => Duck.str_replace "raw" "clean" (month_path (ml_dir d)))
             (month_dirs raw)) ->
  Duck.extract_data month_path raw = Ok frames ->
  Duck.convert_pandas_to_duck strptime cast_to frames con = Ok (tables, con1) ->
  precedes a b tables -> Duck.export_dir a = Duck.export_dir b ->
  exists i j, (i <= j)%nat
              /\ ep_seq (Duck.extraction_period a) = str_nat (i + 1)
              /\ ep_seq (Duck.extraction_period b) = str_nat (j + 1).
Proof.
  intros Hnd He Hc Hp Hdir. unfold Duck.convert_pandas_to_duck in Hc.
  apply convert_loop in Hc as (loaded & -> & H2 & _). cbn [app] in Hp.
  destruct (precedes_Forall2_inv _ _ _ _ _ H2 Hp)
    as (da & db' & Hp0 & [-> _] & [-> _]).
  cbn [Duck.export_dir Duck.extraction_period] in *.
  now apply (duck_extraction_order (Duck.str_replace "raw" "clean")
               month_path raw frames).
Qed.

(** ** The monthly tables of a kind, a year and a month *)

Lemma pandas_in_month_fields n y m (t : Pandas.table) :
  pandas_in_month n y m t = true ->
  n = Pandas.dataframe_name t
  /\ y = ep_year (Pandas.extraction_period t)
  /\ m = ep_month (Pandas.extraction_period t).
Proof.
  unfold pandas_in_month. intros H.
  apply andb_prop in H as [H Hm]. apply andb_prop in H as [Hn Hy].
  now rewrite !String.eqb_eq in *.
Qed.

Lemma duck_in_month_fields n y m (t : Duck.table) :
  duck_in_month n y m t = true ->
  n = Duck.dataframe_name t
  /\ y = ep_year (Duck.extraction_period t)
  /\ m = ep_month (Duck.extraction_period t).
Proof.
  unfold duck_in_month. intros H.
  apply andb_prop in H as [H Hm]. apply andb_prop in H as [Hn Hy].
  now rewrite !String.eqb_eq in *.
Qed.

Lemma plain_period_names p :
  plain_period p = true ->
  contains "_" (ep_year p) = false /\ contains "_" (ep_month p) = false.
Proof.
  unfold plain_period. intros H. apply andb_prop in H as [Hy Hm].
  now apply negb_true_iff in Hy, Hm.
Qed.

(** With plain year and month names, the tables of a pandas key are the
    tables of its kind, year and month. *)
Lemma pandas_key_filter data n y m t :
  Forall (fun t => plain_period (Pandas.extraction_period t) = true) data ->
  In t data -> pandas_in_month n y m t = true ->
  filter (fun t => String.eqb (y ++ "_" ++ m ++ "_" ++ n) (Pandas.tag_month t))
         data
  = filter (pandas_in_month n y m) data.
Proof.
  intros Hall Hin Ht.
  assert (Hp : plain_period (Pandas.extraction_period t) = true)
    by (rewrite Forall_forall in Hall; auto).
  apply pandas_in_month_fields in Ht as (_ & -> & ->).
  apply plain_period_names in Hp as [Hy Hm].
  apply (filter_ext_Forall _ _ _ _ Hall). intros x Hx.
  now apply tag_month_fields.
Qed.

Lemma duck_key_filter ts n y m t :
  Forall (fun t => plain_period (Duck.extraction_period t) = true) ts ->
  In t ts -> duck_in_month n y m t = true ->
  filter (fun t => String.eqb (n ++ "_" ++ y ++ "_" ++ m)
                              (Duck.category_year_month t)) ts
  = filter (duck_in_month n y m) ts.
Proof.
  intros Hall Hin Ht.
  assert (Hp : plain_period (Duck.extraction_period t) = true)
    by (rewrite Forall_forall in Hall; auto).
  apply duck_in_month_fields in Ht as (_ & -> & ->).
  apply plain_period_names in Hp as [Hy Hm].
  apply (filter_ext_Forall _ _ _ _ Hall). intros x Hx.
  now apply category_year_month_fields.
Qed.

Lemma filter_head_In {A} (p : A -> bool) l x xs :
  filter p l = x :: xs -> In x l /\ p x = true.
Proof.
  intros E. apply filter_In. rewrite E. now left.
Qed.

(** The monthly frame of a kind, a year and a month in the pandas
    pipeline: the rows of every table of the three, in the order of the
    list. *)
Lemma pandas_month_rows data n y m t ts cs :
  Forall (fun t => plain_period (Pandas.extraction_period t) = true) data ->
  filter (pandas_in_month n y m) data = t :: ts ->
  NoDup cs ->
  Forall (fun t => columns (Pandas.df t) = cs
                   /\ rectangular (Pandas.df t) = true) (t :: ts) ->
  exists r g,
    Pandas.concatenate_monthly_dataframes data = Ok r
    /\ dict_get (y ++ "_" ++ m ++ "_" ++ n) r = Some g
    /\ columns (Pandas.concatenated_df g) = cs
    /\ rectangular (Pandas.concatenated_df g) = true
    /\ frame_rows (Pandas.concatenated_df g)
       = flat_map (fun t => frame_rows (Pandas.df t)) (t :: ts)
    /\ nrows (Pandas.concatenated_df g)
       = list_sum (map (fun t => nrows (Pandas.df t)) (t :: ts)).
Proof.
  intros Hplain Hk Hnd Hall.
  destruct (filter_head_In _ _ _ _ Hk) as [Hin Ht].
  rewrite <- (pandas_key_filter data n y m t Hplain Hin Ht) in Hk.
  destruct (pandas_month_total data) as [r Hr]. exists r.
  pose proof (pandas_month_groups data (y ++ "_" ++ m ++ "_" ++ n)) as Hg.
  destruct (dict_get (y ++ "_" ++ m ++ "_" ++ n)
              (fold_left Pandas.group_month data [])) as [g0 |] eqn:E;
    [| rewrite Hk in Hg; discriminate].
  destruct Hg as [Hdfs _]. rewrite Hk in Hdfs.
  destruct (pandas_groups_get _ _ _ _ Hr E) as [c [Hc Hget]].
  eexists. split; [assumption |]. split; [exact Hget |].
  cbn [Pandas.concatenated_df].
  destruct (pd_concat_rows cs (map Pandas.df (t :: ts)) Hnd)
    as (F & HF & Hrows & Hn & Hcols & Hrect); [discriminate | |].
  - rewrite Forall_map. exact Hall.
  - rewrite Hdfs, HF in Hc. injection Hc as <-.
    rewrite flat_map_concat_map, map_map, <- flat_map_concat_map in Hrows.
    rewrite map_map in Hn. repeat split; assumption.
Qed.

(** The monthly table of a kind, a year and a month in the DuckDB
    pipeline: the rows of the first two tables of the three, in the order of
    the list. *)
Lemma duck_month_rows ts (con : db) n y m t1 t2 rest a b :
  Forall (fun t => plain_period (Duck.extraction_period t) = true) ts ->
  duck_month_ready ts con = true ->
  filter (duck_in_month n y m) ts = t1 :: t2 :: rest ->
  sql_table (Duck.db_table_name t1) con = Ok a ->
  sql_table (Duck.db_table_name t2) con = Ok b ->
  rectangular a = true -> rectangular b = true ->
  exists md con' u,
    Duck.concatenate_monthly_tables ts con = Ok (md, con')
    /\ sql_table (n ++ "_" ++ y ++ "_" ++ m) con' = Ok u
    /\ union_all a b = Ok u
    /\ frame_rows u = frame_rows a ++ frame_rows b
    /\ nrows u = (nrows a + nrows b)%nat.
Proof.
  intros Hplain Hready Hk Ha Hb R1 R2.
  destruct (filter_head_In _ _ _ _ Hk) as [Hin Ht].
  rewrite <- (duck_key_filter ts n y m t1 Hplain Hin Ht) in Hk.
  destruct (duck_month_whole ts con Hready) as (con' & Hres & Hkeys).
  destruct (Hkeys _ t1 t2 rest a b Hk Ha Hb) as (u & Hu & Hku).
  pose proof (union_all_series a b u Hu) as (Hw & _).
  destruct (union_all_rows a b Hw R1 R2) as (u' & Hu' & Hrows & Hn & _).
  rewrite Hu in Hu'. injection Hu' as <-.
  exists (fold_left Duck.group_month ts []), con', u. repeat split; assumption.
Qed.

(** C6, as the code has it. Monthly aggregation never reads the sequence
    number: it groups the tables by kind, year and month (the names of the
    year and month directories holding no underscore) and puts the rows of
    a group's tables one table after the other in the order of its input
    list, each table's rows in their own order; the DuckDB pipeline takes
    the first two tables of a group. In a run of either pipeline the list
    is in discovery order, so of the two tables of a month directory the one
    numbered 1 comes first: the monthly table holds its rows, then the rows
    of the table numbered 2, and as many rows as both together, 12 for 5 and
    7. *)
Theorem monthly_aggregation_sequence_order :
  (forall data n y m t ts cs,
      Forall (fun t => plain_period (Pandas.extraction_period t) = true) data ->
      filter (pandas_in_month n y m) data = t :: ts ->
      NoDup cs ->
      Forall (fun t => columns (Pandas.df t) = cs
                       /\ rectangular (Pandas.df t) = true) (t :: ts) ->
      exists r g,
        Pandas.concatenate_monthly_dataframes data = Ok r
        /\ dict_get (y ++ "_" ++ m ++ "_" ++ n) r = Some g
        /\ frame_rows (Pandas.concatenated_df g)
           = flat_map (fun t => frame_rows (Pandas.df t)) (t :: ts)
        /\ nrows (Pandas.concatenated_df g)
           = list_sum (map (fun t => nrows (Pandas.df t)) (t :: ts)))
  /\ (forall ts (con : db) n y m t1 t2 rest a b,
         Forall (fun t => plain_period (Duck.extraction_period t) = true) ts ->
         duck_month_ready ts con = true ->
         filter (duck_in_month n y m) ts = t1 :: t2 :: rest ->
         sql_table (Duck.db_table_name t1) con = Ok a ->
         sql_table (Duck.db_table_name t2) con = Ok b ->
         rectangular a = true -> rectangular b = true ->
         exists md con' u,
           Duck.concatenate_monthly_tables ts con = Ok (md, con')
           /\ sql_table (n ++ "_" ++ y ++ "_" ++ m) con' = Ok u
           /\ frame_rows u = frame_rows a ++ frame_rows b
           /\ nrows u = (nrows a + nrows b)%nat)
  /\ (forall to_datetime raw data0 data n y m t1 t2 cs,
         NoDup (map ml_dir (month_dirs raw)) ->
         Pandas.extract_data raw = Ok data0 ->
         Pandas.transform_data to_datetime data0 = Ok data ->
         Forall (fun t => plain_period (Pandas.extraction_period t) = true)
                data ->
         Permutation [t1; t2] (filter (pandas_in_month n y m) data) ->
         Pandas.dir t1 = Pandas.dir t2 ->
         ep_seq (Pandas.extraction_period t1) = "1" ->
         ep_seq (Pandas.extraction_period t2) = "2" ->
         NoDup cs ->
         columns (Pandas.df t1) = cs -> columns (Pandas.df t2) = cs ->
         rectangular (Pandas.df t1) = true ->
         rectangular (Pandas.df t2) = true ->
         exists r g,
           Pandas.concatenate_monthly_dataframes data = Ok r
           /\ dict_get (y ++ "_" ++ m ++ "_" ++ n) r = Some g
           /\ frame_rows (Pandas.concatenated_df g)
              = frame_rows (Pandas.df t1) ++ frame_rows (Pandas.df t2)
           /\ nrows (Pandas.concatenated_df g)
              = (nrows (Pandas.df t1) + nrows (Pandas.df t2))%nat)
  /\ (forall month_path strptime cast_to raw frames (con0 con1 con : db)
             tables n y m t1 t2 a b,
         NoDup (map (fun d => Duck.str_replace "raw" "clean"
                                (month_path (ml_dir d)))
                    (month_dirs raw)) ->
         Duck.extract_data month_path raw = Ok frames ->
         Duck.convert_pandas_to_duck strptime cast_to frames con0
         = Ok (tables, con1) ->
         Forall (fun t => plain_period (Duck.extraction_period t) = true)
                tables ->
         duck_month_ready tables con = true ->
         Permutation [t1; t2] (filter (duck_in_month n y m) tables) ->
         Duck.export_dir t1 = Duck.export_dir t2 ->
         ep_seq (Duck.extraction_period t1) = "1" ->
         ep_seq (Duck.extraction_period t2) = "2" ->
         sql_table (Duck.db_table_name t1) con = Ok a ->
         sql_table (Duck.db_table_name t2) con = Ok b ->
         rectangular a = true -> rectangular b = true ->
         exists md con' u,
           Duck.concatenate_monthly_tables tables con = Ok (md, con')
           /\ sql_table (n ++ "_" ++ y ++ "_" ++ m) con' = Ok u
           /\ frame_rows u = frame_rows a ++ frame_rows b
           /\ nrows u = (nrows a + nrows b)%nat).
Proof.
  split; [| split; [| split]].
  - intros data n y m t ts cs Hplain Hk Hnd Hall.
    destruct (pandas_month_rows data n y m t ts cs Hplain Hk Hnd Hall)
      as (r & g & Hr & Hg & _ & _ & Hrows & Hn).
    now exists r, g.
  - intros ts con n y m t1 t2 rest a b Hplain Hready Hk Ha Hb R1 R2.
    destruct (duck_month_rows ts con n y m t1 t2 rest a b Hplain Hready Hk
                Ha Hb R1 R2) as (md & con' & u & Hres & Hu & _ & Hrows & Hn).
    now exists md, con', u.
  - intros to_datetime raw data0 data n y m t1 t2 cs Hnd He Ht Hplain Hperm
      Hdir S1 S2 Hcs C1 C2 R1 R2.
    assert (Hk : filter (pandas_in_month n y m) data = [t1; t2]).
    { apply (first_then_second
               (fun t => ep_seq (Pandas.extraction_period t)) t1 t2);
        try assumption.
      intros a b Hp.
      assert (Hab : (a = t1 \/ a = t2) /\ (b = t1 \/ b = t2)).
      { apply precedes_In in Hp as [Ha Hb]. symmetry in Hperm.
        apply (Permutation_in _ Hperm) in Ha, Hb. cbn in Ha, Hb.
        intuition congruence. }
      apply precedes_filter in Hp.
      apply (pandas_pipeline_order to_datetime raw data0 data); try assumption.
      destruct Hab as [[-> | ->] [-> | ->]]; congruence. }
    destruct (pandas_month_rows data n y m t1 [t2] cs Hplain Hk Hcs)
      as (r & g & Hr & Hg & _ & _ & Hrows & Hn).
    { repeat constructor; assumption. }
    exists r, g. cbn in Hrows, Hn. rewrite app_nil_r in Hrows.
    rewrite Nat.add_0_r in Hn. now repeat split.
  - intros month_path strptime cast_to raw frames con0 con1 con tables n y m
      t1 t2 a b Hnd He Hc Hplain Hready Hperm Hdir S1 S2 Ha Hb R1 R2.
    assert (Hk : filter (duck_in_month n y m) tables = [t1; t2]).
    { apply (first_then_second
               (fun t => ep_seq (Duck.extraction_period t)) t1 t2);
        try assumption.
      intros x z Hp.
      assert (Hab : (x = t1 \/ x = t2) /\ (z = t1 \/ z = t2)).
      { apply precedes_In in Hp as [Hx Hz]. symmetry in Hperm.
        apply (Permutation_in _ Hperm) in Hx, Hz. cbn in Hx, Hz.
        intuition congruence. }
      apply precedes_filter in Hp.
      apply (duck_pipeline_order month_path strptime cast_to raw frames
               con0 con1 tables); try assumption.
      destruct Hab as [[-> | ->] [-> | ->]]; congruence. }
    destruct (duck_month_rows tables con n y m t1 t2 [] a b Hplain Hready Hk
                Ha Hb R1 R2) as (md & con' & u & Hres & Hu & _ & Hrows & Hn).
    now exists md, con', u.
Qed.

(** ** The two pipelines on the same tables *)

(** What a group keeps from the item that created it. *)
Lemma kfold_header {A G X} (key : A -> string) (mk : A -> G)
  (add : A -> G -> G) (h : G -> X) (hx : A -> X) k :
  (forall x, h (mk x) = hx x) -> (forall x g, h (add x g) = h g) ->
  forall l og g,
    fold_left (kstep key mk add k) l og = Some g ->
    match og with
    | Some g0 => h g = h g0
    | None => exists x xs,
                filter (fun x => String.eqb k (key x)) l = x :: xs
                /\ h g = hx x
    end.
Proof.
  intros Hmk Hadd. induction l as [| x l IH]; intros og g H; cbn in H.
  - subst og. reflexivity.
  - unfold kstep at 2 in H. cbn [filter].
    destruct (String.eqb k (key x)) eqn:E.
    + apply IH in H. rewrite Hadd in H. destruct og as [g0 |]; [assumption |].
      exists x, (filter (fun x => String.eqb k (key x)) l).
      split; [reflexivity |]. now rewrite H.
    + apply IH in H. exact H.
Qed.

Lemma gfold_header {A G X} (key : A -> string) (mk : A -> G)
  (add : A -> G -> G) (h : G -> X) (hx : A -> X) k l g :
  (forall x, h (mk x) = hx x) -> (forall x g, h (add x g) = h g) ->
  dict_get k (fold_left (gstep key mk add) l []) = Some g ->
  exists x xs,
    filter (fun x => String.eqb k (key x)) l = x :: xs /\ h g = hx x.
Proof.
  intros Hmk Hadd H. rewrite gfold_get in H.
  exact (kfold_header key mk add h hx k Hmk Hadd l None g H).
Qed.

Lemma pandas_month_category data k g :
  dict_get k (fold_left Pandas.group_month data []) = Some g ->
  exists t ts,
    filter (fun t => String.eqb k (Pandas.tag_month t)) data = t :: ts
    /\ Pandas.category g = Pandas.dataframe_name t.
Proof.
  exact (gfold_header Pandas.tag_month
           (fun t => Pandas.mkgroup (Pandas.dataframe_name t)
                                    ("clean" :: Pandas.dir t) [])
           (fun t g => Pandas.mkgroup (Pandas.category g) (Pandas.export_dir g)
                                      (Pandas.dfs g ++ [Pandas.df t]))
           Pandas.category Pandas.dataframe_name k data g
           (fun _ => eq_refl) (fun _ _ => eq_refl)).
Qed.

Lemma duck_month_category ts k g :
  dict_get k (fold_left Duck.group_month ts []) = Some g ->
  exists t ts',
    filter (fun t => String.eqb k (Duck.category_year_month t)) ts = t :: ts'
    /\ Duck.category g = Duck.dataframe_name t.
Proof.
  exact (gfold_header Duck.category_year_month
           (fun t => Duck.mkgroup (Duck.dataframe_name t) (Duck.export_dir t) [])
           (fun t g => Duck.mkgroup (Duck.category g) (Duck.g_export_dir g)
                         (Duck.tables g ++ [Duck.db_table_name t]))
           Duck.category Duck.dataframe_name k ts g
           (fun _ => eq_refl) (fun _ _ => eq_refl)).
Qed.

Lemma filter_Forall2 {A B} (R : A -> B -> Prop) (p : A -> bool)
  (q : B -> bool) l l' :
  Forall2 R l l' -> (forall x y, R x y -> p x = q y) ->
  Forall2 R (filter p l) (filter q l').
Proof.
  intros H Hpq. induction H as [| x y l l' Hxy _ IH]; cbn; [constructor |].
  rewrite (Hpq x y Hxy). destruct (q y); [now constructor | assumption].
Qed.

(** Two lists of keys that agree place by place on when two keys are the
    same have their first appearances at the same places. *)
Lemma dedup_Forall2 (R : string -> string -> Prop) :
  (forall x y x' y', R x y -> R x' y' -> (x = x' <-> y = y')) ->
  forall l l', Forall2 R l l' ->
  forall seen seen', Forall2 R seen seen' ->
    Forall2 R (dedup_from seen l) (dedup_from seen' l').
Proof.
  intros Hinj l l' H. induction H as [| x y l l' Hxy _ IH];
    intros seen seen' Hs; cbn [dedup_from]; [constructor |].
  assert (E : existsb (String.eqb x) seen = existsb (String.eqb y) seen').
  { clear IH. induction Hs as [| a b seen seen' Hab _ IHs]; [reflexivity |].
    cbn [existsb]. rewrite IHs. f_equal.
    destruct (String.eqb_spec x a) as [Exa | Nxa],
             (String.eqb_spec y b) as [Eyb | Nyb]; try reflexivity.
    - exfalso. apply Nyb. now apply (Hinj x y a b Hxy Hab).
    - exfalso. apply Nxa. now apply (Hinj x y a b Hxy Hab). }
  rewrite E. destruct (existsb (String.eqb y) seen').
  - now apply IH.
  - constructor; [assumption |]. apply IH. now constructor.
Qed.

Lemma Forall2_by_keys {V W} (R : string -> string -> Prop)
  (S : string * V -> string * W -> Prop) (d : dict V) (e : dict W) :
  Forall2 R (dict_keys d) (dict_keys e) ->
  (forall kv kw, In kv d -> In kw e -> R (fst kv) (fst kw) -> S kv kw) ->
  Forall2 S d e.
Proof.
  revert e. induction d as [| kv d IH]; intros [| kw e] H HS;
    cbn in H; inversion H; subst; constructor.
  - apply HS; [now left | now left | assumption].
  - apply IH; [assumption |]. intros a b Ha Hb. apply HS; now right.
Qed.

(** On two frames with the same columns the pandas concatenation and the
    DuckDB union are the same frame. *)
Lemma pd_concat_union a b :
  columns a = columns b -> NoDup (columns a) ->
  exists F, pd_concat [a; b] = Ok F /\ union_all a b = Ok F.
Proof.
  intros E Hnd. unfold pd_concat, union_all.
  rewrite (same_columns_same_width a b E), Nat.eqb_refl.
  eexists. split; [reflexivity |]. f_equal.
  rewrite <- pd_concat_pair_is_union by assumption.
  f_equal. symmetry. apply columns_of_stack; [assumption |].
  repeat constructor. now symmetry.
Qed.

Lemma tag_month_unfold (t : Pandas.table) :
  Pandas.tag_month t
  = (ep_year (Pandas.extraction_period t) ++ "_"
     ++ ep_month (Pandas.extraction_period t) ++ "_"
     ++ Pandas.dataframe_name t)%string.
Proof. unfold Pandas.tag_month. now rewrite !string_app_assoc. Qed.

(** The keys of one group in the two pipelines. *)
Lemma month_keys_agree y m n y' m' n' :
  contains "_" y = false -> contains "_" m = false ->
  contains "_" y' = false -> contains "_" m' = false ->
  ((y ++ "_" ++ m ++ "_" ++ n)%string = (y' ++ "_" ++ m' ++ "_" ++ n')%string
   -> y = y' /\ m = m' /\ n = n')
  /\ ((n ++ "_" ++ y ++ "_" ++ m)%string = (n' ++ "_" ++ y' ++ "_" ++ m')%string
      -> y = y' /\ m = m' /\ n = n').
Proof.
  intros Hy Hm Hy' Hm'.
  assert (Hp : plain_period (mkperiod y' m' EmptyString) = true)
    by (unfold plain_period; cbn [ep_year ep_month]; now rewrite Hy', Hm').
  split; intros E.
  - pose proof (tag_month_fields n y m
                  (Pandas.mktable n' [] (mkperiod y' m' EmptyString) [])
                  Hy Hm Hp) as H.
    rewrite tag_month_unfold in H.
    cbn [Pandas.extraction_period Pandas.dataframe_name ep_year ep_month] in H.
    rewrite <- E, String.eqb_refl in H. symmetry in H.
    apply pandas_in_month_fields in H. cbn in H. tauto.
  - pose proof (category_year_month_fields n y m
                  (Duck.mktable n' (mkperiod y' m' EmptyString)
                                EmptyString EmptyString)
                  Hy Hm Hp) as H.
    unfold Duck.category_year_month, Duck.year_month in H.
    cbn [Duck.extraction_period Duck.dataframe_name ep_year ep_month] in H.
    rewrite <- E, String.eqb_refl in H. symmetry in H.
    apply duck_in_month_fields in H. cbn in H. tauto.
Qed.

Lemma same_table_plain (con : db) data ts :
  Forall2 (same_table con) data ts ->
  Forall (fun t => plain_period (Pandas.extraction_period t) = true) data ->
  Forall (fun t => plain_period (Duck.extraction_period t) = true) ts.
Proof.
  induction 1 as [| t d l l' (_ & E & _) _ IH]; intros Hp; [constructor |].
  inversion Hp; subst. constructor; [congruence | now apply IH].
Qed.

Lemma same_table_keys (con : db) data ts :
  Forall2 (same_table con) data ts ->
  Forall (fun t => plain_period (Pandas.extraction_period t) = true) data ->
  Forall2 (fun kp kd : string =>
             exists n y m,
               contains "_" y = false /\ contains "_" m = false
               /\ kp = (y ++ "_" ++ m ++ "_" ++ n)%string
               /\ kd = (n ++ "_" ++ y ++ "_" ++ m)%string)
          (map Pandas.tag_month data) (map Duck.category_year_month ts).
Proof.
  induction 1 as [| t d l l' (En & Ep & _) _ IH]; intros Hpl; [constructor |].
  inversion Hpl as [| ? ? Hp Hl]; subst. cbn [map].
  constructor; [| now apply IH].
  apply plain_period_names in Hp as [Hy Hm].
  exists (Pandas.dataframe_name t), (ep_year (Pandas.extraction_period t)),
    (ep_month (Pandas.extraction_period t)).
  split; [assumption |]. split; [assumption |].
  split; [apply tag_month_unfold |].
  unfold Duck.category_year_month, Duck.year_month. now rewrite En, Ep.
Qed.

Section Monthly_agreement.

Variables (data : list Pandas.table) (ts : list Duck.table) (con : db).

Hypothesis Hsame : Forall2 (same_table con) data ts.
Hypothesis Hplain :
  Forall (fun t => plain_period (Pandas.extraction_period t) = true) data.
Hypothesis Hready : duck_month_ready ts con = true.
Hypothesis Hpairs :
  forall t, In t data ->
    exists t1 t2,
      filter (pandas_in_month (Pandas.dataframe_name t)
                (ep_year (Pandas.extraction_period t))
                (ep_month (Pandas.extraction_period t))) data
      = [t1; t2]
      /\ columns (Pandas.df t1) = columns (Pandas.df t2)
      /\ NoDup (columns (Pandas.df t1)).

Lemma agreement_plain_duck :
  Forall (fun t => plain_period (Duck.extraction_period t) = true) ts.
Proof. exact (same_table_plain con data ts Hsame Hplain). Qed.

Lemma agreement_filter n y m :
  Forall2 (same_table con) (filter (pandas_in_month n y m) data)
          (filter (duck_in_month n y m) ts).
Proof.
  apply filter_Forall2; [exact Hsame |].
  intros t d (En & Ep & _). unfold pandas_in_month, duck_in_month.
  now rewrite En, Ep.
Qed.

(** The two tables of a kind, a year and a month, in both pipelines. *)
Lemma agreement_group n y m t :
  In t data -> pandas_in_month n y m t = true ->
  exists t1 t2 d1 d2 F,
    filter (fun t => String.eqb (y ++ "_" ++ m ++ "_" ++ n)
                                (Pandas.tag_month t)) data = [t1; t2]
    /\ filter (fun t => String.eqb (n ++ "_" ++ y ++ "_" ++ m)
                                   (Duck.category_year_month t)) ts = [d1; d2]
    /\ sql_table (Duck.db_table_name d1) con = Ok (Pandas.df t1)
    /\ sql_table (Duck.db_table_name d2) con = Ok (Pandas.df t2)
    /\ pd_concat [Pandas.df t1; Pandas.df t2] = Ok F
    /\ union_all (Pandas.df t1) (Pandas.df t2) = Ok F
    /\ Pandas.dataframe_name t1 = n /\ Duck.dataframe_name d1 = n.
Proof.
  intros Hin Ht.
  destruct (Hpairs t Hin) as (t1 & t2 & Hf & Hcols & Hnd).
  pose proof (pandas_in_month_fields _ _ _ _ Ht) as (-> & -> & ->).
  pose proof (agreement_filter (Pandas.dataframe_name t)
                (ep_year (Pandas.extraction_period t))
                (ep_month (Pandas.extraction_period t))) as H2.
  rewrite Hf in H2.
  inversion H2 as [| ? d1 ? l1 S1 H2' E1 E2]; subst.
  inversion H2' as [| ? d2 ? l2 S2 H2'' E3 E4]; subst.
  inversion H2''; subst.
  destruct (pd_concat_union _ _ Hcols Hnd) as (F & HF & HU).
  assert (Hd1 : In d1 ts
                /\ duck_in_month (Pandas.dataframe_name t)
                     (ep_year (Pandas.extraction_period t))
                     (ep_month (Pandas.extraction_period t)) d1 = true).
  { apply filter_In. rewrite <- E2. now left. }
  assert (Ht1 : In t1 data
                /\ pandas_in_month (Pandas.dataframe_name t)
                     (ep_year (Pandas.extraction_period t))
                     (ep_month (Pandas.extraction_period t)) t1 = true).
  { apply filter_In. rewrite Hf. now left. }
  exists t1, t2, d1, d2, F.
  rewrite (pandas_key_filter data _ _ _ t Hplain Hin Ht).
  rewrite (duck_key_filter ts _ _ _ d1 agreement_plain_duck (proj1 Hd1)
             (proj2 Hd1)).
  destruct S1 as (_ & _ & Q1). destruct S2 as (_ & _ & Q2).
  split; [exact Hf |]. split; [now symmetry |].
  split; [exact Q1 |]. split; [exact Q2 |]. split; [exact HF |].
  split; [exact HU |].
  destruct Ht1 as [_ Ht1]. apply pandas_in_month_fields in Ht1 as (E & _).
  destruct Hd1 as [_ Hd1]. apply duck_in_month_fields in Hd1 as (E' & _).
  now split.
Qed.

Lemma monthly_tables_agree :
  exists r md con',
    Pandas.concatenate_monthly_dataframes data = Ok r
    /\ Duck.concatenate_monthly_tables ts con = Ok (md, con')
    /\ (forall n y m g,
          contains "_" y = false -> contains "_" m = false ->
          dict_get (y ++ "_" ++ m ++ "_" ++ n) r = Some g ->
          Pandas.cg_category g = n
          /\ sql_table (n ++ "_" ++ y ++ "_" ++ m) con'
             = Ok (Pandas.concatenated_df g))
    /\ Forall2 (same_monthly con') r md.
Proof.
  destruct (pandas_month_total data) as [r Hr].
  destruct (duck_month_whole ts con Hready) as (con' & Hres & Hkeys).
  exists r, (fold_left Duck.group_month ts []), con'.
  split; [exact Hr |]. split; [exact Hres |].
  unfold Pandas.concatenate_monthly_dataframes in Hr.
  assert (K1 : forall n y m g,
             contains "_" y = false -> contains "_" m = false ->
             dict_get (y ++ "_" ++ m ++ "_" ++ n) r = Some g ->
             Pandas.cg_category g = n
             /\ sql_table (n ++ "_" ++ y ++ "_" ++ m) con'
                = Ok (Pandas.concatenated_df g)).
  { intros n y m g Hy Hm Hg.
    pose proof (dict_get_key _ _ _ Hg) as Hk.
    rewrite (concat_group_keys _ _ Hr) in Hk.
    destruct (dict_get_of_key _ _ Hk) as [g0 Hg0].
    destruct (pandas_groups_get _ _ _ _ Hr Hg0) as (c & Hc & Hget).
    rewrite Hg in Hget. injection Hget as ->.
    cbn [Pandas.cg_category Pandas.concatenated_df].
    destruct (pandas_month_category data _ g0 Hg0) as (t & ts' & Hf & Hcat).
    destruct (filter_head_In _ _ _ _ Hf) as [Hin Ht].
    assert (Hp : plain_period (Pandas.extraction_period t) = true)
      by (rewrite Forall_forall in Hplain; auto).
    rewrite (tag_month_fields n y m t Hy Hm Hp) in Ht.
    destruct (agreement_group n y m t Hin Ht)
      as (t1 & t2 & d1 & d2 & F & Hf' & Hfd & Q1 & Q2 & HF & HU & N1 & _).
    rewrite Hf in Hf'. injection Hf' as -> ->.
    pose proof (pandas_month_groups data (y ++ "_" ++ m ++ "_" ++ n)) as Hgr.
    rewrite Hg0, Hf in Hgr. destruct Hgr as [Hdfs _]. cbn [map] in Hdfs.
    rewrite Hdfs, HF in Hc. injection Hc as <-.
    destruct (Hkeys _ d1 d2 [] _ _ Hfd Q1 Q2) as (u & Hu & Hku).
    rewrite HU in Hu. injection Hu as <-.
    split; [congruence | exact Hku]. }
  split; [exact K1 |].
  set (R := fun kp kd : string =>
              exists n y m, contains "_" y = false /\ contains "_" m = false
                            /\ kp = (y ++ "_" ++ m ++ "_" ++ n)%string
                            /\ kd = (n ++ "_" ++ y ++ "_" ++ m)%string).
  assert (Hnd_r : NoDup (dict_keys r)).
  { rewrite (concat_group_keys _ _ Hr).
    apply (gfold_NoDup Pandas.tag_month). constructor. }
  assert (Hnd_d : NoDup (dict_keys (fold_left Duck.group_month ts []))).
  { apply (gfold_NoDup Duck.category_year_month). constructor. }
  apply (Forall2_by_keys R).
  - rewrite (concat_group_keys _ _ Hr).
    rewrite (gfold_keys Pandas.tag_month _ _ data []
             : dict_keys (fold_left Pandas.group_month data []) = _).
    rewrite (gfold_keys Duck.category_year_month _ _ ts []
             : dict_keys (fold_left Duck.group_month ts []) = _).
    cbn [dict_keys map app]. apply dedup_Forall2; [| | constructor].
    + intros x z x' z' (n & y & m & Hy & Hm & -> & ->)
        (n' & y' & m' & Hy' & Hm' & -> & ->).
      destruct (month_keys_agree y m n y' m' n' Hy Hm Hy' Hm') as [K K'].
      split; intros E; [apply K in E | apply K' in E];
        destruct E as (-> & -> & ->); reflexivity.
    + exact (same_table_keys con data ts Hsame Hplain).
  - intros [kp g] [kd gd] Hin Hind (n & y & m & Hy & Hm & Ekp & Ekd).
    cbn [fst snd] in *. subst kp kd.
    pose proof (dict_In_get _ _ _ Hnd_r Hin) as Hg.
    pose proof (dict_In_get _ _ _ Hnd_d Hind) as Hgd.
    destruct (K1 n y m g Hy Hm Hg) as [Hcat Hsql].
    split; [| exact Hsql]. cbn [fst snd]. rewrite Hcat.
    destruct (duck_month_category ts _ gd Hgd) as (d & ds & Hf & Hc).
    destruct (filter_head_In _ _ _ _ Hf) as [Hd Hdk].
    assert (Hp : plain_period (Duck.extraction_period d) = true).
    { pose proof agreement_plain_duck as Hall.
      rewrite Forall_forall in Hall. auto. }
    rewrite (category_year_month_fields n y m d Hy Hm Hp) in Hdk.
    apply duck_in_month_fields in Hdk as (-> & _). now symmetry.
Qed.

End Monthly_agreement.

Lemma union_all_from_columns (con : db) names : forall acc u,
  Duck.union_all_from con acc names = Ok u -> columns u = columns acc.
Proof.
  induction names as [| n names IH]; intros acc u H; cbn in H.
  - now injection H as <-.
  - apply bind_ok in H as (b & _ & H). apply bind_ok in H as (v & Hv & H).
    apply IH in H. rewrite H. now apply union_all_series in Hv.
Qed.

(** The second loop of [concatenate_category_tables] over monthly tables
    that are ready: the table of every kind is the union of the monthly
    tables of the kind, as they were before the loop. *)
Lemma duck_category_tables cat_dir (monthly_data : dict Duck.group) (con : db) :
  duck_category_ready monthly_data con = true ->
  exists con',
    Duck.concatenate_category_tables cat_dir monthly_data con
    = Ok (fold_left (Duck.group_category cat_dir) monthly_data [], con')
    /\ forall c m ms,
         filter (fun kg => String.eqb c (Duck.category (snd kg))) monthly_data
         = m :: ms ->
         exists a u,
           sql_table (fst m) con = Ok a
           /\ Duck.union_all_from con a (map fst ms) = Ok u
           /\ sql_table c con' = Ok u.
Proof.
  intros Hready.
  set (groups := fold_left (Duck.group_category cat_dir) monthly_data []).
  assert (Hnd : NoDup (dict_keys groups)).
  { apply (gfold_NoDup
             (fun kg : string * Duck.group => Duck.category (snd kg))
             (fun kg => Duck.mkgroup (Duck.category (snd kg))
                          (cat_dir (Duck.g_export_dir (snd kg))) [])
             (fun kg g => Duck.mkgroup (Duck.category g) (Duck.g_export_dir g)
                            (Duck.tables g ++ [fst kg]))).
    constructor. }
  assert (Hgroup : forall c g, dict_get c groups = Some g ->
            exists m ms,
              filter (fun kg => String.eqb c (Duck.category (snd kg)))
                     monthly_data = m :: ms
              /\ Duck.tables g = fst m :: map fst ms
              /\ In m monthly_data /\ Duck.category (snd m) = c
              /\ forall kg, In kg ms ->
                   In kg monthly_data /\ Duck.category (snd kg) = c).
  { intros c g Hg.
    pose proof (duck_category_groups cat_dir monthly_data c) as Hm.
    fold groups in Hm. rewrite Hg in Hm. destruct Hm as [Ht Hne].
    destruct (filter _ monthly_data) as [| m ms] eqn:F; [contradiction |].
    exists m, ms. split; [reflexivity |]. split; [exact Ht |].
    assert (Hin : forall kg, In kg (m :: ms) ->
              In kg monthly_data /\ Duck.category (snd kg) = c).
    { intros kg Hkg. rewrite <- F in Hkg. apply filter_In in Hkg as [H1 H2].
      apply String.eqb_eq in H2. now split. }
    destruct (Hin m (or_introl eq_refl)) as [H1 H2].
    repeat split; try assumption; apply Hin; now right. }
  assert (Hkey : forall c, In c (dict_keys groups) ->
                   exists kg, In kg monthly_data /\ Duck.category (snd kg) = c).
  { intros c Hc. destruct (dict_get_of_key c groups Hc) as [g Hg].
    destruct (Hgroup c g Hg) as (m & ms & _ & _ & Hin & Hcat & _).
    now exists m. }
  assert (Hread : forall kg, In kg monthly_data ->
                    ~ In (fst kg) (dict_keys groups)).
  { intros kg Hkg Hin. destruct (Hkey _ Hin) as (kg' & Hkg' & E).
    destruct (duck_category_ready_parts _ _ kg' Hready Hkg') as [Hn _].
    now apply (Hn kg Hkg). }
  destruct (duck_category_loop groups con Hnd) as (con' & Hfold & _ & Hgroups).
  { intros [c g] Hin. cbn [fst snd].
    pose proof (dict_In_get c g groups Hnd Hin) as Hg.
    destruct (Hgroup c g Hg) as (m & ms & F & Ht & Hm & Hcat & Hms).
    destruct (duck_category_ready_parts _ _ m Hready Hm) as (_ & a & Ha & Hsame).
    destruct (union_all_from_total con (map fst ms) a) as [u Hu].
    { rewrite Forall_map. apply Forall_forall. intros kg Hkg.
      destruct (Hms kg Hkg) as [Hin' Hcat'].
      apply Hsame; [assumption |]. unfold same_kind.
      rewrite Hcat, Hcat'. apply String.eqb_refl. }
    exists (fst m), (map fst ms), a, u. split; [exact Ht |].
    split; [| now split].
    intros x [<- | Hx]; [now apply Hread |].
    apply in_map_iff in Hx as (kg & <- & Hkg). apply Hread.
    now apply Hms. }
  exists con'. unfold Duck.concatenate_category_tables. fold groups.
  rewrite Hfold. cbn [bind]. split; [reflexivity |].
  intros c m ms F.
  pose proof (duck_category_groups cat_dir monthly_data c) as Hm.
  fold groups in Hm.
  destruct (dict_get c groups) as [g |] eqn:Hg;
    [| rewrite F in Hm; discriminate].
  destruct Hm as [Ht _]. rewrite F in Ht. cbn [map] in Ht.
  destruct (Hgroups (c, g) (dict_get_In _ _ _ Hg))
    as (n & names & a & u & Ht' & Ha & Hu & Hc).
  cbn [fst snd] in *. rewrite Ht in Ht'. injection Ht' as <- <-.
  now exists a, u.
Qed.

Lemma same_monthly_categories (con : db) monthly md :
  Forall2 (same_monthly con) monthly md ->
  map (fun kg => Pandas.cg_category (snd kg)) monthly
  = map (fun kg => Duck.category (snd kg)) md.
Proof.
  induction 1 as [| kg kd l l' [E _] _ IH]; [reflexivity |].
  cbn [map]. now rewrite E, IH.
Qed.

(** The category step on the same monthly tables: the same kinds in the
    same order, and for every kind the same columns and the same rows. *)
Lemma category_tables_agree cat_dir (monthly : dict Pandas.cgroup)
  (md : dict Duck.group) (con : db) :
  Forall2 (same_monthly con) monthly md ->
  duck_category_ready md con = true ->
  (forall kg, In kg monthly ->
     rectangular (Pandas.concatenated_df (snd kg)) = true
     /\ NoDup (columns (Pandas.concatenated_df (snd kg)))) ->
  (forall kg kg', In kg monthly -> In kg' monthly ->
     Pandas.cg_category (snd kg) = Pandas.cg_category (snd kg') ->
     columns (Pandas.concatenated_df (snd kg))
     = columns (Pandas.concatenated_df (snd kg'))) ->
  exists R grouped con',
    Pandas.concatenate_category_dataframes monthly = Ok R
    /\ Duck.concatenate_category_tables cat_dir md con = Ok (grouped, con')
    /\ dict_keys R = dict_keys grouped
    /\ forall c G,
         dict_get c R = Some G ->
         exists U,
           sql_table c con' = Ok U
           /\ columns U = columns (Pandas.concatenated_df G)
           /\ frame_rows U = frame_rows (Pandas.concatenated_df G)
           /\ nrows U = nrows (Pandas.concatenated_df G).
Proof.
  intros Hsame Hready Hshape Hcols.
  destruct (pandas_category_total monthly) as [R HR].
  destruct (duck_category_tables cat_dir md con Hready) as (con' & Hres & Htabs).
  exists R, (fold_left (Duck.group_category cat_dir) md []), con'.
  split; [exact HR |]. split; [exact Hres |].
  unfold Pandas.concatenate_category_dataframes in HR. split.
  - rewrite (concat_group_keys _ _ HR).
    rewrite (gfold_keys (fun kg : string * Pandas.cgroup =>
                           Pandas.cg_category (snd kg)) _ _ monthly []
             : dict_keys (fold_left Pandas.group_category monthly []) = _).
    rewrite (gfold_keys (fun kg : string * Duck.group =>
                           Duck.category (snd kg)) _ _ md []
             : dict_keys (fold_left (Duck.group_category cat_dir) md []) = _).
    now rewrite (same_monthly_categories con monthly md Hsame).
  - intros c G HG.
    pose proof (dict_get_key _ _ _ HG) as Hk.
    rewrite (concat_group_keys _ _ HR) in Hk.
    destruct (dict_get_of_key _ _ Hk) as [g0 Hg0].
    destruct (pandas_groups_get _ _ _ _ HR Hg0) as (c0 & Hc0 & Hget).
    rewrite HG in Hget. injection Hget as ->.
    cbn [Pandas.concatenated_df].
    pose proof (pandas_category_groups monthly c) as Hgr. rewrite Hg0 in Hgr.
    destruct Hgr as [Hdfs Hne].
    destruct (filter (fun kg => String.eqb c (Pandas.cg_category (snd kg)))
                     monthly) as [| m ms] eqn:F; [contradiction |].
    assert (Hin : forall kg, In kg (m :: ms) ->
              In kg monthly /\ Pandas.cg_category (snd kg) = c).
    { intros kg Hkg. rewrite <- F in Hkg. apply filter_In in Hkg as [H1 H2].
      apply String.eqb_eq in H2. now split. }
    assert (Hall : Forall (fun kg =>
                     columns (Pandas.concatenated_df (snd kg))
                     = columns (Pandas.concatenated_df (snd m))
                     /\ rectangular (Pandas.concatenated_df (snd kg)) = true)
                          (m :: ms)).
    { apply Forall_forall. intros kg Hkg. destruct (Hin kg Hkg) as [H1 H2].
      destruct (Hin m (or_introl eq_refl)) as [H3 H4]. split.
      - apply Hcols; congruence.
      - now apply Hshape. }
    destruct (pd_concat_rows (columns (Pandas.concatenated_df (snd m)))
                (map (fun kg => Pandas.concatenated_df (snd kg)) (m :: ms)))
      as (F' & HF & Hrows & Hn & Hcs & _).
    { apply Hshape. now apply Hin; left. }
    { discriminate. }
    { rewrite Forall_map. exact Hall. }
    rewrite Hdfs, HF in Hc0. injection Hc0 as <-.
    pose proof (filter_Forall2 (same_monthly con)
                  (fun kg => String.eqb c (Pandas.cg_category (snd kg)))
                  (fun kg => String.eqb c (Duck.category (snd kg)))
                  monthly md Hsame) as H2.
    rewrite F in H2.
    assert (H2' : Forall2 (same_monthly con) (m :: ms)
                    (filter (fun kg => String.eqb c (Duck.category (snd kg)))
                            md)).
    { apply H2. intros kg kd [E _]. now rewrite E. }
    clear H2.
    inversion H2' as [| ? d ? ds [_ Sm] Hms E1 E2]; subst.
    symmetry in E2.
    destruct (Htabs c d ds E2) as (a & u & Ha & Hu & Hcu).
    rewrite Sm in Ha. injection Ha as <-.
    inversion Hall as [| ? ? [_ Rm] Hall']; subst.
    destruct (union_all_from_rows con (map fst ds)
                (Pandas.concatenated_df (snd m))
                (map (fun kg => Pandas.concatenated_df (snd kg)) ms))
      as (u' & Hu' & Hur & Hun); [| assumption | |].
    + clear - Hms. induction Hms as [| kg kd l l' [_ S] _ IH];
        cbn [map]; constructor; assumption.
    + rewrite Forall_map. eapply Forall_impl; [| exact Hall'].
      intros kg [Hc Hr]. split; [| assumption].
      apply same_columns_same_width. exact Hc.
    + rewrite Hu in Hu'. injection Hu' as <-. exists u.
      split; [exact Hcu |]. split.
      * rewrite (union_all_from_columns _ _ _ _ Hu). now symmetry.
      * cbn [map flat_map] in Hrows, Hn. rewrite list_sum_cons in Hn.
        split; congruence.
Qed.

(** C4, as the code has it. The two pipelines agree on the schema catalog
    (the same kinds, the same column names in the same order, the same sheets
    per category) and on the Extraction Range of every period of 2023 and
    2024 whose month token both recognize (all but May). On the same tables
    (the same kinds and periods, the connection holding the frames), with
    plain year and month names and every kind, year and month holding
    exactly two tables of the same columns, [concatenate_monthly_dataframes]
    and [concatenate_monthly_tables] both return, with the same groups in
    the same order and under the key of every group the same frame. On the
    same monthly tables, rectangular and with the same columns within a
    kind, [concatenate_category_dataframes] and [concatenate_category_tables]
    both return, with the same kinds in the same order and for every kind
    the same columns and the same rows in the same order. *)
Theorem pipelines_agree_in_part :
  map (fun e => (fst e, dict_keys (snd e))) Duck.table_attributes
  = Pandas.translated_columns
  /\ Pandas.category_keys = Duck.category_keys
  /\ (forall ys tok sq,
         In ys (map fst duck_supported_years) -> In tok common_month_tokens ->
         In sq ["1"; "2"] ->
         Pandas.final_date (mkperiod ys tok sq)
         = Duck.final_date (mkperiod ys tok sq)
         /\ is_ok (Duck.final_date (mkperiod ys tok sq)) = true)
  /\ (forall (data : list Pandas.table) (ts : list Duck.table) (con : db),
         Forall2 (same_table con) data ts ->
         Forall (fun t => plain_period (Pandas.extraction_period t) = true)
                data ->
         duck_month_ready ts con = true ->
         (forall t, In t data ->
            exists t1 t2,
              filter (pandas_in_month (Pandas.dataframe_name t)
                        (ep_year (Pandas.extraction_period t))
                        (ep_month (Pandas.extraction_period t))) data
              = [t1; t2]
              /\ columns (Pandas.df t1) = columns (Pandas.df t2)
              /\ NoDup (columns (Pandas.df t1))) ->
         exists r md con',
           Pandas.concatenate_monthly_dataframes data = Ok r
           /\ Duck.concatenate_monthly_tables ts con = Ok (md, con')
           /\ (forall n y m g,
                 contains "_" y = false -> contains "_" m = false ->
                 dict_get (y ++ "_" ++ m ++ "_" ++ n) r = Some g ->
                 Pandas.cg_category g = n
                 /\ sql_table (n ++ "_" ++ y ++ "_" ++ m) con'
                    = Ok (Pandas.concatenated_df g))
           /\ Forall2 (same_monthly con') r md)
  /\ (forall cat_dir (monthly : list (string * Pandas.cgroup))
             (md : list (string * Duck.group)) (con : db),
         Forall2 (same_monthly con) monthly md ->
         duck_category_ready md con = true ->
         (forall kg, In kg monthly ->
            rectangular (Pandas.concatenated_df (snd kg)) = true
            /\ NoDup (columns (Pandas.concatenated_df (snd kg)))) ->
         (forall kg kg', In kg monthly -> In kg' monthly ->
            Pandas.cg_category (snd kg) = Pandas.cg_category (snd kg') ->
            columns (Pandas.concatenated_df (snd kg))
            = columns (Pandas.concatenated_df (snd kg'))) ->
         exists R grouped con',
           Pandas.concatenate_category_dataframes monthly = Ok R
           /\ Duck.concatenate_category_tables cat_dir md con
              = Ok (grouped, con')
           /\ dict_keys R = dict_keys grouped
           /\ forall c G,
                dict_get c R = Some G ->
                exists U,
                  sql_table c con' = Ok U
                  /\ columns U = columns (Pandas.concatenated_df G)
                  /\ frame_rows U = frame_rows (Pandas.concatenated_df G)
                  /\ nrows U = nrows (Pandas.concatenated_df G)).
Proof.
  split; [reflexivity |]. split; [reflexivity |]. split; [| split].
  - intros ys tok sq Hy Ht Hs. cbn in Hy, Ht, Hs.
    repeat (destruct Hy as [<- | Hy]; [| try contradiction]);
      repeat (destruct Ht as [<- | Ht]; [| try contradiction]);
      repeat (destruct Hs as [<- | Hs]; [| try contradiction]);
      split; vm_compute; reflexivity.
  - intros data ts con Hsame Hplain Hready Hpairs.
    exact (monthly_tables_agree data ts con Hsame Hplain Hready Hpairs).
  - intros cat_dir monthly md con Hsame Hready Hshape Hcols.
    exact (category_tables_agree cat_dir monthly md con Hsame Hready Hshape
             Hcols).
Qed.

(** The theorem on February 2024 and on the four tables of February and
    January: the monthly tables of January are the same frame, and the
    category tables hold the same rows. *)
Lemma pipelines_agree_witness :
  (Pandas.final_date (mkperiod "2024" "Fev" "2")
   = Duck.final_date (mkperiod "2024" "Fev" "2")
   /\ is_ok (Duck.final_date (mkperiod "2024" "Fev" "2")) = true)
  /\ (exists r md con' g,
         Pandas.concatenate_monthly_dataframes two_months_data = Ok r
         /\ Duck.concatenate_monthly_tables two_months_tables two_months_con
            = Ok (md, con')
         /\ dict_get "2024_Jan_followers_location" r = Some g
         /\ sql_table "followers_location_2024_Jan" con'
            = Ok (Pandas.concatenated_df g)
         /\ nrows (Pandas.concatenated_df g) = 12%nat)
  /\ (exists R grouped con' G U,
         Pandas.concatenate_category_dataframes two_months_monthly = Ok R
         /\ Duck.concatenate_category_tables (fun d => d)
              (fst two_months_monthly_duck) (snd two_months_monthly_duck)
            = Ok (grouped, con')
         /\ dict_get "followers_location" R = Some G
         /\ sql_table "followers_location" con' = Ok U
         /\ frame_rows U = frame_rows (Pandas.concatenated_df G)
         /\ nrows U = 17%nat).
Proof.
  pose proof pipelines_agree_in_part as (_ & _ & Hd & Hm & Hc).
  split; [| split].
  - apply Hd; cbn; tauto.
  - destruct (Hm two_months_data two_months_tables two_months_con)
      as (r & md & con' & Hr & Hres & Hkeys & _).
    + repeat constructor.
    + repeat constructor.
    + reflexivity.
    + intros t [<- | [<- | [<- | [<- | []]]]]; do 2 eexists;
        (split; [reflexivity |]); (split; [reflexivity |]);
        apply nodupb_NoDup; reflexivity.
    + assert (Hg : exists g, dict_get "2024_Jan_followers_location" r = Some g
                             /\ nrows (Pandas.concatenated_df g) = 12%nat).
      { vm_compute in Hr. injection Hr as <-. eexists.
        split; vm_compute; reflexivity. }
      destruct Hg as (g & Hg & Hn).
      destruct (Hkeys "followers_location" "2024" "Jan" g eq_refl eq_refl Hg)
        as [_ Hsql].
      now exists r, md, con', g.
  - destruct (Hc (fun d => d) two_months_monthly (fst two_months_monthly_duck)
                (snd two_months_monthly_duck))
      as (R & grouped & con' & HR & Hres & _ & Hkinds).
    + repeat constructor.
    + reflexivity.
    + intros kg [<- | [<- | []]]; (split; [reflexivity |]);
        apply nodupb_NoDup; reflexivity.
    + intros kg kg' [<- | [<- | []]] [<- | [<- | []]] _; reflexivity.
    + assert (HG : exists G, dict_get "followers_location" R = Some G
                             /\ nrows (Pandas.concatenated_df G) = 17%nat).
      { vm_compute in HR. injection HR as <-. eexists.
        split; vm_compute; reflexivity. }
      destruct HG as (G & HG & Hn).
      destruct (Hkinds _ G HG) as (U & HU & _ & Hrows & HnU).
      exists R, grouped, con', G, U. repeat split; try assumption.
      congruence.
Defined.

(** C4 as stated fails: on the same input the pipelines produce different
    tables. They disagree on the month token of May and on the years they
    resolve; on the example table the pandas pipeline returns 8 columns with
    an undefined repaired total in row 1 and 8/3 in row 3, the DuckDB
    pipeline 21 columns (whatever the engine's choices) with, every row of
    the first update joined to the first row, 10 in both rows; of a month
    with three extractions the pandas pipeline keeps the 14 rows and the
    DuckDB pipeline the 12 rows of the first two; and a month with a single
    extraction is aggregated by one and rejected by the other. *)
Lemma pipelines_disagree :
  (Pandas.final_date (mkperiod "2023" "Mai" "1") = Raise KeyError
   /\ Duck.final_date (mkperiod "2023" "Mai" "1") = Ok (mkdate 2023 5 15))
  /\ (Pandas.final_date (mkperiod "2023" "Maio" "1") = Ok (mkdate 2023 5 15)
      /\ Duck.final_date (mkperiod "2023" "Maio" "1") = Raise KeyError)
  /\ (Pandas.final_date (mkperiod "2025" "Jan" "2") = Ok (mkdate 2025 1 31)
      /\ Duck.final_date (mkperiod "2025" "Jan" "2") = Raise KeyError)
  /\ (exists p,
         Pandas.clean_frame spec_example = Ok p
         /\ ncols p = 8%nat
         /\ dict_get "Reactions (total)" p
            = Some [VNum 10; VNull; VNum 8; VNum (8 # 3); VNum 12])
  /\ (forall cast choose,
         exists d, Duck.process_frame cast choose spec_example = Ok d
                   /\ ncols d = 21%nat)
  /\ (exists d,
         Duck.process_frame round_half_up first_row spec_example = Ok d
         /\ dict_get "Reactions (total)" d
            = Some [VNum 10; VNum 10; VNum 8; VNum 10; VNum 12])
  /\ (exists r g md con' u,
         Pandas.concatenate_monthly_dataframes three_extractions_data = Ok r
         /\ dict_get "2024_Jan_followers_location" r = Some g
         /\ nrows (Pandas.concatenated_df g) = 14%nat
         /\ Duck.concatenate_monthly_tables three_extractions_tables
              three_extractions_con = Ok (md, con')
         /\ sql_table "followers_location_2024_Jan" con' = Ok u
         /\ nrows u = 12%nat)
  /\ is_ok (Pandas.concatenate_monthly_dataframes single_data) = true
  /\ is_ok (Duck.concatenate_monthly_tables single_tables january_con) = false.
Proof.
  split; [split; vm_compute; reflexivity |].
  split; [split; vm_compute; reflexivity |].
  split; [split; vm_compute; reflexivity |].
  split; [| split; [| split; [| split; [| split]]]].
  - eexists. split; [vm_compute; reflexivity |].
    split; vm_compute; reflexivity.
  - intros cast choose.
    destruct (process_frame_frame cast choose spec_example)
      as (d & Hd & Hcols & _); [vm_compute; reflexivity |].
    exists d. split; [assumption |].
    now rewrite (same_columns_same_width d spec_example Hcols).
  - eexists. split; vm_compute; reflexivity.
  - do 5 eexists. split; [vm_compute; reflexivity |].
    split; [vm_compute; reflexivity |]. split; [vm_compute; reflexivity |].
    split; [vm_compute; reflexivity |]. split; vm_compute; reflexivity.
  - vm_compute. reflexivity.
  - vm_compute. reflexivity.
Qed.

(** The theorem at work. A January of three extractions goes into the
    monthly tables in list order, all 14 rows in the pandas pipeline and the
    12 rows of the first two tables in the DuckDB pipeline; and a run of
    each pipeline over the two competitor files of January 2024, of 5 and 7
    rows, gives 12 rows, the rows of the file numbered 1 first. *)
Lemma monthly_aggregation_witness :
  (exists r g,
      Pandas.concatenate_monthly_dataframes three_extractions_data = Ok r
      /\ dict_get "2024_Jan_followers_location" r = Some g
      /\ frame_rows (Pandas.concatenated_df g)
         = frame_rows jan_first_half ++ frame_rows jan_second_half
           ++ frame_rows jan_third
      /\ nrows (Pandas.concatenated_df g) = 14%nat)
  /\ (exists md con' u,
         Duck.concatenate_monthly_tables three_extractions_tables
           three_extractions_con = Ok (md, con')
         /\ sql_table "followers_location_2024_Jan" con' = Ok u
         /\ frame_rows u = frame_rows jan_first_half ++ frame_rows jan_second_half
         /\ nrows u = 12%nat)
  /\ (exists data0 r g,
         Pandas.extract_data january_tree = Ok data0
         /\ Pandas.transform_data keep_dates data0
            = Ok [competitor_first; competitor_second]
         /\ Pandas.concatenate_monthly_dataframes
              [competitor_first; competitor_second] = Ok r
         /\ dict_get "2024_Jan_competitor" r = Some g
         /\ frame_rows (Pandas.concatenated_df g)
            = frame_rows (Pandas.df competitor_first)
              ++ frame_rows (Pandas.df competitor_second)
         /\ nrows (Pandas.concatenated_df g) = 12%nat)
  /\ (exists frames con1 md con' u,
         Duck.extract_data raw_month_path january_tree = Ok frames
         /\ Duck.convert_pandas_to_duck strptime_as_given cast_as_given
              frames []
            = Ok ([competitor_table "1"; competitor_table "2"], con1)
         /\ Duck.transform_data round_half_up first_row
              [competitor_table "1"; competitor_table "2"] con1
            = Ok competitor_con
         /\ Duck.concatenate_monthly_tables
              [competitor_table "1"; competitor_table "2"] competitor_con
            = Ok (md, con')
         /\ sql_table "competitor_2024_Jan" con' = Ok u
         /\ frame_rows u
            = frame_rows (Pandas.df competitor_first)
              ++ frame_rows (Pandas.df competitor_second)
         /\ nrows u = 12%nat).
Proof.
  pose proof monthly_aggregation_sequence_order as (HL & HLd & HP & HD).
  split; [| split; [| split]].
  - destruct (HL three_extractions_data "followers_location" "2024" "Jan"
                (pandas_table "Jan" "1" jan_first_half)
                [ pandas_table "Jan" "2" jan_second_half;
                  pandas_table "Jan" "3" jan_third ] location_columns)
      as (r & g & Hr & Hg & Hrows & Hn).
    + repeat constructor.
    + reflexivity.
    + apply nodupb_NoDup. reflexivity.
    + repeat constructor.
    + exists r, g. cbn [flat_map] in Hrows. rewrite app_nil_r in Hrows.
      repeat split; assumption.
  - destruct (HLd three_extractions_tables three_extractions_con
                "followers_location" "2024" "Jan"
                (duck_table "Jan" "1") (duck_table "Jan" "2")
                [duck_table "Jan" "3"] jan_first_half jan_second_half)
      as (md & con' & u & Hres & Hu & Hrows & Hn); try reflexivity.
    + repeat constructor.
    + now exists md, con', u.
  - assert (He : exists data0,
               Pandas.extract_data january_tree = Ok data0
               /\ Pandas.transform_data keep_dates data0
                  = Ok [competitor_first; competitor_second])
      by (eexists; split; vm_compute; reflexivity).
    destruct He as (data0 & He & Ht).
    destruct (HP keep_dates january_tree data0
                [competitor_first; competitor_second]
                "competitor" "2024" "Jan" competitor_first competitor_second
                (columns (Pandas.df competitor_first)))
      as (r & g & Hr & Hg & Hrows & Hn);
      try reflexivity; try assumption.
    + repeat constructor. intros [].
    + repeat constructor.
    + apply nodupb_NoDup. reflexivity.
    + now exists data0, r, g.
  - assert (He : exists frames con1,
               Duck.extract_data raw_month_path january_tree = Ok frames
               /\ Duck.convert_pandas_to_duck strptime_as_given cast_as_given
                    frames []
                  = Ok ([competitor_table "1"; competitor_table "2"], con1)
               /\ Duck.transform_data round_half_up first_row
                    [competitor_table "1"; competitor_table "2"] con1
                  = Ok competitor_con)
      by (do 2 eexists; split; [| split]; vm_compute; reflexivity).
    destruct He as (frames & con1 & He & Hc & Ht).
    destruct (HD raw_month_path strptime_as_given cast_as_given january_tree
                frames [] con1 competitor_con
                [competitor_table "1"; competitor_table "2"]
                "competitor" "2024" "Jan"
                (competitor_table "1") (competitor_table "2")
                (Pandas.df competitor_first) (Pandas.df competitor_second))
      as (md & con' & u & Hres & Hu & Hrows & Hn);
      try reflexivity; try assumption.
    + repeat constructor. intros [].
    + repeat constructor.
    + now exists frames, con1, md, con', u.
Defined.

(** C6 as stated fails where the list does not hold the table numbered 1
    first: the aggregation never reads the number. Called on the January
    tables with the second extraction listed first, both pipelines put its
    rows first; and so does a run of each pipeline over a raw tree in which
    a month directory holds a file of another category before the file
    numbered 2, the file numbered 1 being in a directory listed later. *)
Lemma monthly_aggregation_ignores_sequence :
  (exists r g,
      Pandas.concatenate_monthly_dataframes january_data_reversed = Ok r
      /\ dict_get "2024_Jan_followers_location" r = Some g
      /\ frame_rows (Pandas.concatenated_df g)
         = frame_rows jan_second_half ++ frame_rows jan_first_half
      /\ frame_rows (Pandas.concatenated_df g)
         <> frame_rows jan_first_half ++ frame_rows jan_second_half)
  /\ (exists md con' u,
         Duck.concatenate_monthly_tables january_tables_reversed january_con
         = Ok (md, con')
         /\ sql_table "followers_location_2024_Jan" con' = Ok u
         /\ frame_rows u = frame_rows jan_second_half ++ frame_rows jan_first_half
         /\ frame_rows u
            <> frame_rows jan_first_half ++ frame_rows jan_second_half)
  /\ (exists data0 data r g,
         Pandas.extract_data mixed_tree = Ok data0
         /\ Pandas.transform_data keep_dates data0 = Ok data
         /\ map (fun t => ep_seq (Pandas.extraction_period t))
                (filter (pandas_in_month "competitor" "2024" "Jan") data)
            = ["2"; "1"]
         /\ Pandas.concatenate_monthly_dataframes data = Ok r
         /\ dict_get "2024_Jan_competitor" r = Some g
         /\ frame_rows (Pandas.concatenated_df g)
            = frame_rows (Pandas.df competitor_second)
              ++ frame_rows (Pandas.df competitor_first))
  /\ (exists frames tables con1 con md con' u,
         Duck.extract_data raw_month_path mixed_tree = Ok frames
         /\ Duck.convert_pandas_to_duck strptime_as_given cast_as_given
              frames [] = Ok (tables, con1)
         /\ Duck.transform_data round_half_up first_row tables con1 = Ok con
         /\ map (fun t => ep_seq (Duck.extraction_period t))
                (filter (duck_in_month "competitor" "2024" "Jan") tables)
            = ["2"; "1"]
         /\ Duck.concatenate_monthly_tables tables con = Ok (md, con')
         /\ sql_table "competitor_2024_Jan" con' = Ok u
         /\ frame_rows u
            = frame_rows (Pandas.df competitor_second)
              ++ frame_rows (Pandas.df competitor_first)).
Proof.
  split; [| split; [| split]].
  - do 2 eexists. split; [vm_compute; reflexivity |].
    split; [vm_compute; reflexivity |]. split; [vm_compute; reflexivity |].
    vm_compute. discriminate.
  - do 3 eexists. split; [vm_compute; reflexivity |].
    split; [vm_compute; reflexivity |]. split; [vm_compute; reflexivity |].
    vm_compute. discriminate.
  - do 4 eexists. split; [vm_compute; reflexivity |].
    split; [vm_compute; reflexivity |]. split; [vm_compute; reflexivity |].
    split; [vm_compute; reflexivity |]. split; vm_compute; reflexivity.
  - do 7 eexists. split; [vm_compute; reflexivity |].
    split; [vm_compute; reflexivity |]. split; [vm_compute; reflexivity |].
    split; [vm_compute; reflexivity |]. split; [vm_compute; reflexivity |].
    split; vm_compute; reflexivity.
Qed.
